(** * libside: callback dispatch, registry and state-dump core (src/side.c)

    A shallow embedding of [src/side.c] and of the declarations of
    [include/side/trace.h] it relies on.

    Conventions of the embedding:
    - integers and pointers are [Z]; a [uint32_t] wraps modulo [2^32], a
      [uint64_t] and a [uintptr_t] modulo [2^64] (SIDE_BITS_PER_LONG == 64);
      the NULL pointer is [0];
    - an array of [struct side_callback] is kept as the bytes it occupies
      (LP64, little-endian: 8 bytes for the function pointer, 8 for [priv],
      8 for [key]), because the code moves such arrays with [memcpy];
    - every function of the library runs in a monad that carries the calling
      thread, threads the library state, and may stop with [abort()], with an
      invalid memory access, or blocked on a mutex another thread holds;
    - callbacks handed to the library are opaque: an invocation is recorded,
      in order, in the [trace] of the state and does not re-enter the
      library. *)

From stdpp Require Import gmap list strings.

Local Open Scope Z_scope.

(** ** Constants of side.c and trace.h *)

Definition SIDE_EVENT_ENABLED_SHARED_MASK : Z := 0xFF00000000000000.
Definition SIDE_EVENT_ENABLED_SHARED_USER_EVENT_MASK : Z := 0x8000000000000000.
Definition SIDE_EVENT_ENABLED_SHARED_PTRACE_MASK : Z := 0x4000000000000000.
Definition SIDE_EVENT_ENABLED_PRIVATE_MASK : Z := 0x00FFFFFFFFFFFFFF.

Definition SIDE_KEY_RESERVED_RANGE_END : Z := 0x8.
Definition SIDE_KEY_MATCH_ALL : Z := 0x0.
Definition SIDE_KEY_USER_EVENT : Z := 0x1.
Definition SIDE_KEY_PTRACE : Z := 0x2.

Definition UINT32_MAX : Z := 2 ^ 32 - 1.
Definition NULL : Z := 0.

(** Modelled from the spec: side/abi/event-description.h is missing; an
    event description "carries flags with a VARIADIC bit".  Only its being a
    single bit of [desc->flags] matters. *)
Definition SIDE_EVENT_FLAG_VARIADIC : Z := 1.

(** enum side_error *)
Inductive side_error :=
| SIDE_ERROR_OK
| SIDE_ERROR_INVAL
| SIDE_ERROR_EXIST
| SIDE_ERROR_NOMEM
| SIDE_ERROR_NOENT
| SIDE_ERROR_EXITING.

Definition side_error_code (e : side_error) : Z :=
  match e with
  | SIDE_ERROR_OK => 0
  | SIDE_ERROR_INVAL => 1
  | SIDE_ERROR_EXIST => 2
  | SIDE_ERROR_NOMEM => 3
  | SIDE_ERROR_NOENT => 4
  | SIDE_ERROR_EXITING => 5
  end.

Inductive side_tracer_notification :=
| SIDE_TRACER_NOTIFICATION_INSERT_EVENTS
| SIDE_TRACER_NOTIFICATION_REMOVE_EVENTS.

Inductive side_statedump_mode :=
| SIDE_STATEDUMP_MODE_POLLING
| SIDE_STATEDUMP_MODE_AGENT_THREAD.

(** enum agent_thread_state (a bit set) *)
Definition AGENT_THREAD_STATE_BLOCKED : Z := 0.
Definition AGENT_THREAD_STATE_HANDLE_REQUEST : Z := 1.
Definition AGENT_THREAD_STATE_EXIT : Z := 2.
Definition AGENT_THREAD_STATE_PAUSE : Z := 4.
Definition AGENT_THREAD_STATE_PAUSE_ACK : Z := 8.

(** ** Machine integers *)

Definition u32 (x : Z) : Z := x mod 2 ^ 32.
Definition u64 (x : Z) : Z := x mod 2 ^ 64.

(** ** struct side_callback and its bytes *)

Record side_callback := mk_side_callback {
  cb_call : Z;      (* u.call / u.call_variadic *)
  cb_priv : Z;
  cb_key : Z
}.

(** sizeof(struct side_callback) *)
Definition SIZEOF_SIDE_CALLBACK : nat := 24.

Fixpoint le_encode (n : nat) (v : Z) : list Z :=
  match n with
  | O => []
  | S n' => v mod 256 :: le_encode n' (v / 256)
  end.

Fixpoint le_decode (bs : list Z) : Z :=
  match bs with
  | [] => 0
  | b :: bs' => b + 256 * le_decode bs'
  end.

Definition encode_callback (cb : side_callback) : list Z :=
  le_encode 8 (cb_call cb) ++ le_encode 8 (cb_priv cb) ++ le_encode 8 (cb_key cb).

Definition decode_callback (bs : list Z) : side_callback :=
  {| cb_call := le_decode (take 8 bs);
     cb_priv := le_decode (take 8 (drop 8 bs));
     cb_key := le_decode (take 8 (drop 16 bs)) |}.

(** The whole entries of a block of bytes, in address order. *)
Fixpoint block_chunks (n : nat) (bs : list Z) : list side_callback :=
  match n with
  | O => []
  | S n' => decode_callback (take SIZEOF_SIDE_CALLBACK bs)
            :: block_chunks n' (drop SIZEOF_SIDE_CALLBACK bs)
  end.

Definition block_entries (bs : list Z) : list side_callback :=
  block_chunks (length bs `div` SIZEOF_SIDE_CALLBACK)%nat bs.

(** calloc(n, sizeof(struct side_callback)) hands out zeroed bytes. *)
Definition zeroed (nbytes : nat) : list Z := replicate nbytes 0.

(** const char side_empty_callback[sizeof(struct side_callback)] *)
Definition side_empty_callback_bytes : list Z := zeroed SIZEOF_SIDE_CALLBACK.

(** memcpy(dst + doff, src + soff, n): [None] when a range leaves its block. *)
Definition memcpy (dst : list Z) (doff : nat) (src : list Z) (soff : nat) (n : nat)
  : option (list Z) :=
  if decide (doff + n ≤ length dst ∧ soff + n ≤ length src)%nat
  then Some (take doff dst ++ take n (drop soff src) ++ drop (doff + n) dst)
  else None.

(** Store of the three fields of [vec[idx]]. *)
Definition store_callback (vec : list Z) (idx : nat) (cb : side_callback)
  : option (list Z) :=
  memcpy vec (idx * SIZEOF_SIDE_CALLBACK) (encode_callback cb) 0 SIZEOF_SIDE_CALLBACK.

(** ** Library state *)

Definition thread := Z.

(** A pthread mutex: free, or held by [owner], re-acquired [nested] more
    times (a recursive mutex only). *)
Inductive mutex :=
| Unlocked
| Locked (owner : thread) (nested : nat).

Definition lock_depth (m : mutex) : nat :=
  match m with
  | Unlocked => 0
  | Locked _ n => S n
  end.

(** Where [es0->callbacks] points: at the static [side_empty_callback], or
    at a block obtained from [calloc]. *)
Inductive callbacks_ptr :=
| side_empty_callback
| heap_block (addr : Z).

(** An event: [struct side_event_description] (its [flags]) together with the
    [struct side_event_state_0] that [desc->state] points to.  Events are
    named by the address of their description. *)
Record side_event := mk_side_event {
  desc_flags : Z;
  version : Z;
  nr_callbacks : Z;
  enabled : Z;
  callbacks : callbacks_ptr
}.

Record side_events_register_handle := mk_events_handle {
  eh_events : list Z;       (* struct side_event_description **events *)
  eh_nr_events : Z
}.

Record side_tracer_handle := mk_tracer_handle {
  th_cb : Z;
  th_priv : Z
}.

Record side_statedump_request_handle := mk_statedump_handle {
  notification_queue : list Z;   (* keys of the queued notifications *)
  sd_cb : Z;
  sd_name : string;
  sd_mode : side_statedump_mode
}.

Record statedump_agent_thread_t := mk_agent {
  agent_ref : Z;
  agent_id : thread;
  agent_state : Z
}.

(** Argument payloads are opaque to the core. *)
Inductive side_arg_vec :=
| Arg_opaque (p : Z)
| Arg_strings (l : list string).

(** Calls out of the library, as made (the caller address is left out). *)
Inductive call_event :=
| Call_tracer (call desc : Z) (sav : side_arg_vec) (priv : Z)
| Call_tracer_variadic (call desc : Z) (sav : side_arg_vec) (var_struct priv : Z)
| Call_ptrace_hook (event_state : Z) (sav : side_arg_vec) (var_struct : Z)
| Call_notification (cb : Z) (notif : side_tracer_notification)
    (events : list Z) (nr_events priv : Z)
| Call_statedump (cb key : Z).

Record lib := mk_lib {
  initialized : bool;
  finalized : bool;
  event_rcu_gp : bool;
  statedump_rcu_gp : bool;
  side_event_lock : mutex;
  side_statedump_lock : mutex;
  side_key_lock : mutex;
  side_agent_thread_lock : mutex;
  side_key_next : Z;
  statedump_agent_thread : statedump_agent_thread_t;
  side_events_list : list (Z * side_events_register_handle);
  side_tracer_list : list (Z * side_tracer_handle);
  side_statedump_list : list (Z * side_statedump_request_handle);
  event_store : gmap Z side_event;
  heap : gmap Z (list Z);        (* callback vectors obtained from calloc *)
  brk : Z;                       (* next address calloc hands out *)
  oom_script : list bool;        (* next allocations: [true] fails; none left: succeeds *)
  trace : list call_event
}.

Definition set_initialized (v : bool) (s : lib) : lib :=
  mk_lib v (finalized s) (event_rcu_gp s) (statedump_rcu_gp s) (side_event_lock s)
    (side_statedump_lock s) (side_key_lock s) (side_agent_thread_lock s) (side_key_next s)
    (statedump_agent_thread s) (side_events_list s) (side_tracer_list s)
    (side_statedump_list s) (event_store s) (heap s) (brk s) (oom_script s) (trace s).

Definition set_finalized (v : bool) (s : lib) : lib :=
  mk_lib (initialized s) v (event_rcu_gp s) (statedump_rcu_gp s) (side_event_lock s)
    (side_statedump_lock s) (side_key_lock s) (side_agent_thread_lock s) (side_key_next s)
    (statedump_agent_thread s) (side_events_list s) (side_tracer_list s)
    (side_statedump_list s) (event_store s) (heap s) (brk s) (oom_script s) (trace s).

Definition set_event_rcu_gp (v : bool) (s : lib) : lib :=
  mk_lib (initialized s) (finalized s) v (statedump_rcu_gp s) (side_event_lock s)
    (side_statedump_lock s) (side_key_lock s) (side_agent_thread_lock s) (side_key_next s)
    (statedump_agent_thread s) (side_events_list s) (side_tracer_list s)
    (side_statedump_list s) (event_store s) (heap s) (brk s) (oom_script s) (trace s).

Definition set_statedump_rcu_gp (v : bool) (s : lib) : lib :=
  mk_lib (initialized s) (finalized s) (event_rcu_gp s) v (side_event_lock s)
    (side_statedump_lock s) (side_key_lock s) (side_agent_thread_lock s) (side_key_next s)
    (statedump_agent_thread s) (side_events_list s) (side_tracer_list s)
    (side_statedump_list s) (event_store s) (heap s) (brk s) (oom_script s) (trace s).

Definition set_side_event_lock (v : mutex) (s : lib) : lib :=
  mk_lib (initialized s) (finalized s) (event_rcu_gp s) (statedump_rcu_gp s) v
    (side_statedump_lock s) (side_key_lock s) (side_agent_thread_lock s) (side_key_next s)
    (statedump_agent_thread s) (side_events_list s) (side_tracer_list s)
    (side_statedump_list s) (event_store s) (heap s) (brk s) (oom_script s) (trace s).

Definition set_side_statedump_lock (v : mutex) (s : lib) : lib :=
  mk_lib (initialized s) (finalized s) (event_rcu_gp s) (statedump_rcu_gp s) (side_event_lock s)
    v (side_key_lock s) (side_agent_thread_lock s) (side_key_next s)
    (statedump_agent_thread s) (side_events_list s) (side_tracer_list s)
    (side_statedump_list s) (event_store s) (heap s) (brk s) (oom_script s) (trace s).

Definition set_side_key_lock (v : mutex) (s : lib) : lib :=
  mk_lib (initialized s) (finalized s) (event_rcu_gp s) (statedump_rcu_gp s) (side_event_lock s)
    (side_statedump_lock s) v (side_agent_thread_lock s) (side_key_next s)
    (statedump_agent_thread s) (side_events_list s) (side_tracer_list s)
    (side_statedump_list s) (event_store s) (heap s) (brk s) (oom_script s) (trace s).

Definition set_side_agent_thread_lock (v : mutex) (s : lib) : lib :=
  mk_lib (initialized s) (finalized s) (event_rcu_gp s) (statedump_rcu_gp s) (side_event_lock s)
    (side_statedump_lock s) (side_key_lock s) v (side_key_next s)
    (statedump_agent_thread s) (side_events_list s) (side_tracer_list s)
    (side_statedump_list s) (event_store s) (heap s) (brk s) (oom_script s) (trace s).

Definition set_side_key_next (v : Z) (s : lib) : lib :=
  mk_lib (initialized s) (finalized s) (event_rcu_gp s) (statedump_rcu_gp s) (side_event_lock s)
    (side_statedump_lock s) (side_key_lock s) (side_agent_thread_lock s) v
    (statedump_agent_thread s) (side_events_list s) (side_tracer_list s)
    (side_statedump_list s) (event_store s) (heap s) (brk s) (oom_script s) (trace s).

Definition set_statedump_agent_thread (v : statedump_agent_thread_t) (s : lib) : lib :=
  mk_lib (initialized s) (finalized s) (event_rcu_gp s) (statedump_rcu_gp s) (side_event_lock s)
    (side_statedump_lock s) (side_key_lock s) (side_agent_thread_lock s) (side_key_next s)
    v (side_events_list s) (side_tracer_list s)
    (side_statedump_list s) (event_store s) (heap s) (brk s) (oom_script s) (trace s).

Definition set_side_events_list (v : list (Z * side_events_register_handle)) (s : lib) : lib :=
  mk_lib (initialized s) (finalized s) (event_rcu_gp s) (statedump_rcu_gp s) (side_event_lock s)
    (side_statedump_lock s) (side_key_lock s) (side_agent_thread_lock s) (side_key_next s)
    (statedump_agent_thread s) v (side_tracer_list s)
    (side_statedump_list s) (event_store s) (heap s) (brk s) (oom_script s) (trace s).

Definition set_side_tracer_list (v : list (Z * side_tracer_handle)) (s : lib) : lib :=
  mk_lib (initialized s) (finalized s) (event_rcu_gp s) (statedump_rcu_gp s) (side_event_lock s)
    (side_statedump_lock s) (side_key_lock s) (side_agent_thread_lock s) (side_key_next s)
    (statedump_agent_thread s) (side_events_list s) v
    (side_statedump_list s) (event_store s) (heap s) (brk s) (oom_script s) (trace s).

Definition set_side_statedump_list (v : list (Z * side_statedump_request_handle)) (s : lib) : lib :=
  mk_lib (initialized s) (finalized s) (event_rcu_gp s) (statedump_rcu_gp s) (side_event_lock s)
    (side_statedump_lock s) (side_key_lock s) (side_agent_thread_lock s) (side_key_next s)
    (statedump_agent_thread s) (side_events_list s) (side_tracer_list s)
    v (event_store s) (heap s) (brk s) (oom_script s) (trace s).

Definition set_event_store (v : gmap Z side_event) (s : lib) : lib :=
  mk_lib (initialized s) (finalized s) (event_rcu_gp s) (statedump_rcu_gp s) (side_event_lock s)
    (side_statedump_lock s) (side_key_lock s) (side_agent_thread_lock s) (side_key_next s)
    (statedump_agent_thread s) (side_events_list s) (side_tracer_list s)
    (side_statedump_list s) v (heap s) (brk s) (oom_script s) (trace s).

Definition set_heap (v : gmap Z (list Z)) (s : lib) : lib :=
  mk_lib (initialized s) (finalized s) (event_rcu_gp s) (statedump_rcu_gp s) (side_event_lock s)
    (side_statedump_lock s) (side_key_lock s) (side_agent_thread_lock s) (side_key_next s)
    (statedump_agent_thread s) (side_events_list s) (side_tracer_list s)
    (side_statedump_list s) (event_store s) v (brk s) (oom_script s) (trace s).

Definition set_brk (v : Z) (s : lib) : lib :=
  mk_lib (initialized s) (finalized s) (event_rcu_gp s) (statedump_rcu_gp s) (side_event_lock s)
    (side_statedump_lock s) (side_key_lock s) (side_agent_thread_lock s) (side_key_next s)
    (statedump_agent_thread s) (side_events_list s) (side_tracer_list s)
    (side_statedump_list s) (event_store s) (heap s) v (oom_script s) (trace s).

Definition set_oom_script (v : list bool) (s : lib) : lib :=
  mk_lib (initialized s) (finalized s) (event_rcu_gp s) (statedump_rcu_gp s) (side_event_lock s)
    (side_statedump_lock s) (side_key_lock s) (side_agent_thread_lock s) (side_key_next s)
    (statedump_agent_thread s) (side_events_list s) (side_tracer_list s)
    (side_statedump_list s) (event_store s) (heap s) (brk s) v (trace s).

Definition set_trace (v : list call_event) (s : lib) : lib :=
  mk_lib (initialized s) (finalized s) (event_rcu_gp s) (statedump_rcu_gp s) (side_event_lock s)
    (side_statedump_lock s) (side_key_lock s) (side_agent_thread_lock s) (side_key_next s)
    (statedump_agent_thread s) (side_events_list s) (side_tracer_list s)
    (side_statedump_list s) (event_store s) (heap s) (brk s) (oom_script s) v.

(** ** The monad of library code *)

Inductive outcome (A : Type) :=
| Done (a : A) (s : lib)       (* returned [a] *)
| Abort                        (* abort() *)
| Fault                        (* undefined behaviour: invalid pointer, access out of a block *)
| Blocked (s : lib).           (* waits on a mutex another thread holds, in state [s] *)

Arguments Done {A} a s.
Arguments Abort {A}.
Arguments Fault {A}.
Arguments Blocked {A} s.

Definition M (A : Type) : Type := thread → lib → outcome A.

Definition ret {A} (a : A) : M A := λ _ s, Done a s.

Definition bind {A B} (m : M A) (f : A → M B) : M B :=
  λ t s,
    match m t s with
    | Done a s' => f a t s'
    | Abort => Abort
    | Fault => Fault
    | Blocked s' => Blocked s'
    end.

Declare Scope side_scope.
Delimit Scope side_scope with side.
Notation "x <- c ;; k" := (bind c (λ x, k))
  (at level 100, c at next level, right associativity) : side_scope.
Notation "c ;; k" := (bind c (λ _, k))
  (at level 100, right associativity) : side_scope.
Local Open Scope side_scope.

Definition gets {A} (f : lib → A) : M A := λ _ s, Done (f s) s.
Definition modify (f : lib → lib) : M unit := λ _ s, Done tt (f s).
Definition pthread_self : M thread := λ t s, Done t s.
Definition abort {A} : M A := λ _ _, Abort.
Definition fault {A} : M A := λ _ _, Fault.
Definition when (b : bool) (m : M unit) : M unit := if b then m else ret tt.

(** Record a call out of the library. *)
Definition invoke (c : call_event) : M unit :=
  modify (λ s, set_trace (trace s ++ [c]) s).

(** ** pthread mutexes *)

Inductive mutex_id :=
| Event_lock           (* side_event_lock, recursive *)
| Statedump_lock       (* side_statedump_lock, recursive *)
| Key_lock             (* side_key_lock *)
| Agent_thread_lock.   (* side_agent_thread_lock *)

Definition is_recursive (m : mutex_id) : bool :=
  match m with
  | Event_lock | Statedump_lock => true
  | Key_lock | Agent_thread_lock => false
  end.

Definition mutex_of (m : mutex_id) (s : lib) : mutex :=
  match m with
  | Event_lock => side_event_lock s
  | Statedump_lock => side_statedump_lock s
  | Key_lock => side_key_lock s
  | Agent_thread_lock => side_agent_thread_lock s
  end.

Definition set_mutex (m : mutex_id) (v : mutex) (s : lib) : lib :=
  match m with
  | Event_lock => set_side_event_lock v s
  | Statedump_lock => set_side_statedump_lock v s
  | Key_lock => set_side_key_lock v s
  | Agent_thread_lock => set_side_agent_thread_lock v s
  end.

(** The mutex after thread [t] acquires it; [None] when [t] has to wait
    (held by another thread, or by [t] itself when not recursive). *)
Definition acquire (recursive : bool) (t : thread) (m : mutex) : option mutex :=
  match m with
  | Unlocked => Some (Locked t 0)
  | Locked o n =>
      if recursive && bool_decide (o = t) then Some (Locked t (S n)) else None
  end.

(** The mutex after thread [t] releases it; [None] when [t] does not hold it. *)
Definition release (t : thread) (m : mutex) : option mutex :=
  match m with
  | Unlocked => None
  | Locked o n =>
      if bool_decide (o = t)
      then Some (match n with O => Unlocked | S n' => Locked t n' end)
      else None
  end.

Definition pthread_mutex_lock (m : mutex_id) : M unit :=
  λ t s,
    match acquire (is_recursive m) t (mutex_of m s) with
    | Some v => Done tt (set_mutex m v s)
    | None => Blocked s
    end.

Definition pthread_mutex_unlock (m : mutex_id) : M unit :=
  λ t s,
    match release t (mutex_of m s) with
    | Some v => Done tt (set_mutex m v s)
    | None => Fault
    end.

(** ** Allocation *)

(** One attempt at allocating: a fresh address, or [None] for a NULL result. *)
Definition alloc_attempt : M (option Z) :=
  λ _ s,
    match oom_script s with
    | true :: rest => Done None (set_oom_script rest s)
    | false :: rest => Done (Some (brk s)) (set_brk (brk s + 1) (set_oom_script rest s))
    | [] => Done (Some (brk s)) (set_brk (brk s + 1) s)
    end.

(** calloc(nmemb, sizeof(struct side_callback)) *)
Definition calloc_callbacks (nmemb : Z) : M (option Z) :=
  a <- alloc_attempt ;;
  match a with
  | None => ret None
  | Some p =>
      modify (λ s, set_heap
        (<[p := zeroed (Z.to_nat nmemb * SIZEOF_SIDE_CALLBACK)]> (heap s)) s) ;;
      ret (Some p)
  end.

(** free() of a callback array *)
Definition free_callbacks (p : callbacks_ptr) : M unit :=
  match p with
  | side_empty_callback => fault
  | heap_block a =>
      h <- gets heap ;;
      match h !! a with
      | None => fault
      | Some _ => modify (set_heap (delete a h))
      end
  end.

(** The bytes [p] points at. *)
Definition load_block (p : callbacks_ptr) : M (list Z) :=
  match p with
  | side_empty_callback => ret side_empty_callback_bytes
  | heap_block a =>
      h <- gets heap ;;
      match h !! a with
      | None => fault
      | Some bs => ret bs
      end
  end.

(** memcpy(&dst[didx] , &src[sidx], n) between callback arrays; the array
    indices count entries, [n] counts bytes. *)
Definition memcpy_callbacks (dst : Z) (didx : nat) (src : callbacks_ptr) (sidx : nat)
    (n : nat) : M unit :=
  d <- load_block (heap_block dst) ;;
  b <- load_block src ;;
  match memcpy d (didx * SIZEOF_SIDE_CALLBACK) b (sidx * SIZEOF_SIDE_CALLBACK) n with
  | None => fault
  | Some d' => modify (λ s, set_heap (<[dst := d']> (heap s)) s)
  end.

(** vec[idx].u.call = call; vec[idx].priv = priv; vec[idx].key = key *)
Definition write_callback (vec : Z) (idx : nat) (cb : side_callback) : M unit :=
  d <- load_block (heap_block vec) ;;
  match store_callback d idx cb with
  | None => fault
  | Some d' => modify (λ s, set_heap (<[vec := d']> (heap s)) s)
  end.

(** ** Events *)

Definition set_nr_callbacks (v : Z) (e : side_event) : side_event :=
  mk_side_event (desc_flags e) (version e) v (enabled e) (callbacks e).

Definition set_enabled (v : Z) (e : side_event) : side_event :=
  mk_side_event (desc_flags e) (version e) (nr_callbacks e) v (callbacks e).

Definition set_callbacks (v : callbacks_ptr) (e : side_event) : side_event :=
  mk_side_event (desc_flags e) (version e) (nr_callbacks e) (enabled e) v.

(** Dereference of a description pointer (and of its [state]). *)
Definition load_event (desc : Z) : M side_event :=
  m <- gets event_store ;;
  match m !! desc with
  | None => fault
  | Some e => ret e
  end.

Definition update_event (desc : Z) (f : side_event → side_event) : M unit :=
  e <- load_event desc ;;
  modify (λ s, set_event_store (<[desc := f e]> (event_store s)) s).

Definition is_variadic (e : side_event) : bool :=
  bool_decide (Z.land (desc_flags e) SIDE_EVENT_FLAG_VARIADIC ≠ 0).

(** ** RCU (rcu.h) *)

(** Modelled from the spec: side_rcu_gp_init and side_rcu_gp_exit of rcu.h
    are missing; "init initializes both RCU domains", exit "releases RCU
    domains".  A domain is kept as a flag telling whether it is set up. *)
Definition side_rcu_gp_init (set : bool → lib → lib) : M unit := modify (set true).

(** Modelled from the spec: side_rcu_gp_exit of rcu.h is missing; exit
    "releases RCU domains". *)
Definition side_rcu_gp_exit (set : bool → lib → lib) : M unit := modify (set false).

(** Modelled from the spec: side_rcu_read_begin of rcu.h is missing; it
    opens "a bounded read section that must not block". *)
Definition side_rcu_read_begin : M unit := ret tt.

(** Modelled from the spec: side_rcu_read_end of rcu.h is missing; it closes
    the read section. *)
Definition side_rcu_read_end : M unit := ret tt.

(** Modelled from the spec: side_rcu_wait_grace_period of rcu.h is missing;
    when it returns, "all read sections that began before the call have
    ended".  Operations do not interleave here, so no read section is open
    when a grace period is awaited. *)
Definition side_rcu_wait_grace_period : M unit := ret tt.

(** ** side_init *)

(** pthread_atfork installs the fork handlers side_before_fork,
    side_after_fork_parent and side_after_fork_child; that the C library
    runs them around fork is not modelled. *)
Definition side_init : M unit :=
  ini <- gets initialized ;;
  if ini then ret tt
  else
    side_rcu_gp_init set_event_rcu_gp ;;
    side_rcu_gp_init set_statedump_rcu_gp ;;
    modify (set_initialized true).

(** ** Dispatch: _side_call, _side_call_variadic *)

(** The filter of the dispatch loop: the entry is skipped when
    [key != SIDE_KEY_MATCH_ALL && side_cb->key != SIDE_KEY_MATCH_ALL &&
     side_cb->key != key]. *)
Definition key_skipped (key : Z) (side_cb : side_callback) : bool :=
  bool_decide (key ≠ SIDE_KEY_MATCH_ALL)
  && bool_decide (cb_key side_cb ≠ SIDE_KEY_MATCH_ALL)
  && bool_decide (cb_key side_cb ≠ key).

(** for (side_cb = callbacks; side_cb->u.call != NULL; side_cb++): [entries]
    are the entries from [side_cb] to the end of the block; running off the
    block is an invalid read. *)
Fixpoint side_call_loop (entries : list side_callback)
    (mk_call : side_callback → call_event) (key : Z) : M unit :=
  match entries with
  | [] => fault
  | side_cb :: rest =>
      if bool_decide (cb_call side_cb = NULL) then ret tt
      else if key_skipped key side_cb then side_call_loop rest mk_call key
      else invoke (mk_call side_cb) ;; side_call_loop rest mk_call key
  end.

(** The shared-tracer hooks: the user-event branch is empty in the source,
    the ptrace branch calls side_ptrace_hook. *)
Definition shared_hooks (event_state : Z) (sav : side_arg_vec) (var_struct : Z)
    (enabled_word key : Z) : M unit :=
  when (bool_decide (Z.land enabled_word SIDE_EVENT_ENABLED_SHARED_MASK ≠ 0))
    (when (bool_decide (Z.land enabled_word SIDE_EVENT_ENABLED_SHARED_PTRACE_MASK ≠ 0)
           && (bool_decide (key = SIDE_KEY_MATCH_ALL) || bool_decide (key = SIDE_KEY_PTRACE)))
       (invoke (Call_ptrace_hook event_state sav var_struct))).

Definition _side_call (event_state : Z) (sav : side_arg_vec) (key : Z) : M unit :=
  fin <- gets finalized ;;
  if fin then ret tt
  else
    ini <- gets initialized ;;
    when (negb ini) side_init ;;
    es0 <- load_event event_state ;;
    if bool_decide (version es0 ≠ 0) then abort
    else if is_variadic es0 then abort      (* assert(!(flags & VARIADIC)) *)
    else
      shared_hooks event_state sav NULL (enabled es0) key ;;
      side_rcu_read_begin ;;
      vec <- load_block (callbacks es0) ;;
      side_call_loop (block_entries vec)
        (λ side_cb, Call_tracer (cb_call side_cb) event_state sav (cb_priv side_cb)) key ;;
      side_rcu_read_end.

Definition side_call (event_state : Z) (sav : side_arg_vec) : M unit :=
  _side_call event_state sav SIDE_KEY_MATCH_ALL.

(** [statedump_request_key] is the key the pointer of the source points at. *)
Definition side_statedump_call (event_state : Z) (sav : side_arg_vec)
    (statedump_request_key : Z) : M unit :=
  _side_call event_state sav statedump_request_key.

Definition _side_call_variadic (event_state : Z) (sav : side_arg_vec) (var_struct : Z)
    (key : Z) : M unit :=
  fin <- gets finalized ;;
  if fin then ret tt
  else
    ini <- gets initialized ;;
    when (negb ini) side_init ;;
    es0 <- load_event event_state ;;
    if bool_decide (version es0 ≠ 0) then abort
    else if negb (is_variadic es0) then abort      (* assert(flags & VARIADIC) *)
    else
      shared_hooks event_state sav var_struct (enabled es0) key ;;
      side_rcu_read_begin ;;
      vec <- load_block (callbacks es0) ;;
      side_call_loop (block_entries vec)
        (λ side_cb, Call_tracer_variadic (cb_call side_cb) event_state sav var_struct
                      (cb_priv side_cb)) key ;;
      side_rcu_read_end.

Definition side_call_variadic (event_state : Z) (sav : side_arg_vec) (var_struct : Z)
  : M unit :=
  _side_call_variadic event_state sav var_struct SIDE_KEY_MATCH_ALL.

Definition side_statedump_call_variadic (event_state : Z) (sav : side_arg_vec)
    (var_struct statedump_request_key : Z) : M unit :=
  _side_call_variadic event_state sav var_struct statedump_request_key.

(** ** Callback lookup, registration, unregistration *)

(** The loop of side_tracer_callback_lookup; the result is the index of the
    entry found ([cb - es0->callbacks]), [Some None] for NULL, [None] when the
    loop runs off the block. *)
Fixpoint lookup_loop (entries : list side_callback) (idx : nat) (call priv key : Z)
  : option (option nat) :=
  match entries with
  | [] => None
  | cb :: rest =>
      if bool_decide (cb_call cb = NULL) then Some None
      else if bool_decide (cb_call cb = call) && bool_decide (cb_priv cb = priv)
              && bool_decide (cb_key cb = key)
      then Some (Some idx)
      else lookup_loop rest (S idx) call priv key
  end.

Definition side_tracer_callback_lookup (desc call priv key : Z) : M (option nat) :=
  es0 <- load_event desc ;;
  if bool_decide (version es0 ≠ 0) then abort
  else
    vec <- load_block (callbacks es0) ;;
    match lookup_loop (block_entries vec) 0 call priv key with
    | None => fault
    | Some r => ret r
    end.

(** The part of _side_tracer_callback_register run with side_event_lock held. *)
Definition register_locked (desc call priv key : Z) : M side_error :=
  es0 <- load_event desc ;;
  if bool_decide (version es0 ≠ 0) then abort
  else
    let old_nr_cb := nr_callbacks es0 in
    if bool_decide (old_nr_cb = UINT32_MAX) then ret SIDE_ERROR_INVAL
    else
      found <- side_tracer_callback_lookup desc call priv key ;;
      match found with
      | Some _ => ret SIDE_ERROR_EXIST
      | None =>
          let old_cb := callbacks es0 in
          (* old_nr_cb + 1 (new cb) + 1 (NULL) *)
          new_cb <- calloc_callbacks (u32 (old_nr_cb + 2)) ;;
          match new_cb with
          | None => ret SIDE_ERROR_NOMEM
          | Some new_cb =>
              (* memcpy(new_cb, old_cb, old_nr_cb); *)
              memcpy_callbacks new_cb 0 old_cb 0 (Z.to_nat old_nr_cb) ;;
              (* new_cb[old_nr_cb]: both arms of the union store [call] *)
              write_callback new_cb (Z.to_nat old_nr_cb) (mk_side_callback call priv key) ;;
              update_event desc (set_callbacks (heap_block new_cb)) ;;
              side_rcu_wait_grace_period ;;
              when (bool_decide (old_nr_cb ≠ 0)) (free_callbacks old_cb) ;;
              update_event desc (λ e, set_nr_callbacks (u32 (nr_callbacks e + 1)) e) ;;
              when (bool_decide (old_nr_cb = 0))
                (update_event desc (λ e, set_enabled (u64 (enabled e + 1)) e)) ;;
              ret SIDE_ERROR_OK
          end
      end.

Definition _side_tracer_callback_register (desc call priv key : Z) : M side_error :=
  if bool_decide (call = NULL) then ret SIDE_ERROR_INVAL
  else
    fin <- gets finalized ;;
    if fin then ret SIDE_ERROR_EXITING
    else
      ini <- gets initialized ;;
      when (negb ini) side_init ;;
      pthread_mutex_lock Event_lock ;;
      r <- register_locked desc call priv key ;;
      pthread_mutex_unlock Event_lock ;;
      ret r.

Definition side_tracer_callback_register (desc call priv key : Z) : M side_error :=
  e <- load_event desc ;;
  if is_variadic e then ret SIDE_ERROR_INVAL
  else _side_tracer_callback_register desc call priv key.

Definition side_tracer_callback_variadic_register (desc call_variadic priv key : Z)
  : M side_error :=
  e <- load_event desc ;;
  if negb (is_variadic e) then ret SIDE_ERROR_INVAL
  else _side_tracer_callback_register desc call_variadic priv key.

(** The part of _side_tracer_callback_unregister run with side_event_lock held. *)
Definition unregister_locked (desc call priv key : Z) : M side_error :=
  es0 <- load_event desc ;;
  if bool_decide (version es0 ≠ 0) then abort
  else
    cb_pos <- side_tracer_callback_lookup desc call priv key ;;
    match cb_pos with
    | None => ret SIDE_ERROR_NOENT
    | Some pos =>
        let old_nr_cb := nr_callbacks es0 in
        let old_cb := callbacks es0 in
        new_cb <-
          (if bool_decide (old_nr_cb = 1) then ret (Some side_empty_callback)
           else
             let pos_idx := u32 (Z.of_nat pos) in
             (* old_nr_cb - 1 (removed cb) + 1 (NULL) *)
             new_cb <- calloc_callbacks old_nr_cb ;;
             match new_cb with
             | None => ret None
             | Some new_cb =>
                 (* memcpy(new_cb, old_cb, pos_idx); *)
                 memcpy_callbacks new_cb 0 old_cb 0 (Z.to_nat pos_idx) ;;
                 (* memcpy(&new_cb[pos_idx], &old_cb[pos_idx + 1],
                           old_nr_cb - pos_idx - 1); *)
                 memcpy_callbacks new_cb (Z.to_nat pos_idx) old_cb
                   (Z.to_nat (u32 (pos_idx + 1)))
                   (Z.to_nat (u32 (old_nr_cb - pos_idx - 1))) ;;
                 ret (Some (heap_block new_cb))
             end) ;;
        match new_cb with
        | None => ret SIDE_ERROR_NOMEM
        | Some new_cb =>
            update_event desc (set_callbacks new_cb) ;;
            side_rcu_wait_grace_period ;;
            free_callbacks old_cb ;;
            update_event desc (λ e, set_nr_callbacks (u32 (nr_callbacks e - 1)) e) ;;
            when (bool_decide (old_nr_cb = 1))
              (update_event desc (λ e, set_enabled (u64 (enabled e - 1)) e)) ;;
            ret SIDE_ERROR_OK
        end
    end.

Definition _side_tracer_callback_unregister (desc call priv key : Z) : M side_error :=
  if bool_decide (call = NULL) then ret SIDE_ERROR_INVAL
  else
    fin <- gets finalized ;;
    if fin then ret SIDE_ERROR_EXITING
    else
      ini <- gets initialized ;;
      when (negb ini) side_init ;;
      pthread_mutex_lock Event_lock ;;
      r <- unregister_locked desc call priv key ;;
      pthread_mutex_unlock Event_lock ;;
      ret r.

Definition side_tracer_callback_unregister (desc call priv key : Z) : M side_error :=
  e <- load_event desc ;;
  if is_variadic e then ret SIDE_ERROR_INVAL
  else _side_tracer_callback_unregister desc call priv key.

Definition side_tracer_callback_variadic_unregister (desc call_variadic priv key : Z)
  : M side_error :=
  e <- load_event desc ;;
  if negb (is_variadic e) then ret SIDE_ERROR_INVAL
  else _side_tracer_callback_unregister desc call_variadic priv key.

(** ** Intrusive lists of handles (list.h, rculist.h)

    A list of handles is kept as the addresses of its nodes, in list order,
    each with the handle stored there. *)

(** Modelled from the spec: list.h is missing ("doubly-linked list with an
    RCU-safe variant").  The handle whose node is at address [p]. *)
Fixpoint node_find {A} (p : Z) (l : list (Z * A)) : option A :=
  match l with
  | [] => None
  | (q, a) :: rest => if bool_decide (q = p) then Some a else node_find p rest
  end.

(** Modelled from the spec: side_list_remove_node and
    side_list_remove_node_rcu of list.h and rculist.h are missing; the node at
    address [p] leaves the list. *)
Fixpoint node_remove {A} (p : Z) (l : list (Z * A)) : list (Z * A) :=
  match l with
  | [] => []
  | (q, a) :: rest => if bool_decide (q = p) then rest else (q, a) :: node_remove p rest
  end.

(** A store into the handle whose node is at address [p]. *)
Fixpoint node_update {A} (p : Z) (f : A → A) (l : list (Z * A)) : list (Z * A) :=
  match l with
  | [] => []
  | (q, a) :: rest =>
      if bool_decide (q = p) then (q, f a) :: rest else (q, a) :: node_update p f rest
  end.

(** Modelled from the spec: the macros side_list_for_each_entry,
    side_list_for_each_entry_safe and side_list_for_each_entry_rcu of list.h
    and rculist.h are missing; [body] runs on every entry, in list order. *)
Fixpoint for_each {A} (l : list A) (body : A → M unit) : M unit :=
  match l with
  | [] => ret tt
  | a :: rest => body a ;; for_each rest body
  end.

(** for (i = start; ...; i++) run [n] times *)
Fixpoint for_range (n : nat) (i : nat) (body : nat → M unit) : M unit :=
  match n with
  | O => ret tt
  | S n' => body i ;; for_range n' (S i) body
  end.

(** ** Registry of events and of tracer notification handles *)

Definition side_events_register (events : list Z) (nr_events : Z) : M (option Z) :=
  fin <- gets finalized ;;
  if fin then ret None
  else
    ini <- gets initialized ;;
    when (negb ini) side_init ;;
    events_handle <- alloc_attempt ;;
    match events_handle with
    | None => ret None
    | Some events_handle =>
        pthread_mutex_lock Event_lock ;;
        modify (λ s, set_side_events_list
          (side_events_list s ++ [(events_handle, mk_events_handle events nr_events)]) s) ;;
        tracers <- gets side_tracer_list ;;
        for_each tracers (λ tracer_handle,
          invoke (Call_notification (th_cb tracer_handle.2)
                    SIDE_TRACER_NOTIFICATION_INSERT_EVENTS events nr_events
                    (th_priv tracer_handle.2))) ;;
        pthread_mutex_unlock Event_lock ;;
        ret (Some events_handle)
    end.

Definition side_event_remove_callbacks (desc : Z) : M unit :=
  es0 <- load_event desc ;;
  if bool_decide (version es0 ≠ 0) then abort
  else
    let nr_cb := nr_callbacks es0 in
    if bool_decide (nr_cb = 0) then ret tt
    else
      let old_cb := callbacks es0 in
      update_event desc (λ e, set_enabled (u64 (enabled e - 1)) e) ;;
      update_event desc (set_nr_callbacks 0) ;;
      update_event desc (set_callbacks side_empty_callback) ;;
      free_callbacks old_cb.

Definition side_events_unregister (events_handle : Z) : M unit :=
  if bool_decide (events_handle = NULL) then ret tt
  else
    fin <- gets finalized ;;
    if fin then ret tt
    else
      ini <- gets initialized ;;
      when (negb ini) side_init ;;
      pthread_mutex_lock Event_lock ;;
      l <- gets side_events_list ;;
      match node_find events_handle l with
      | None => fault
      | Some h =>
          modify (set_side_events_list (node_remove events_handle l)) ;;
          tracers <- gets side_tracer_list ;;
          for_each tracers (λ tracer_handle,
            invoke (Call_notification (th_cb tracer_handle.2)
                      SIDE_TRACER_NOTIFICATION_REMOVE_EVENTS (eh_events h) (eh_nr_events h)
                      (th_priv tracer_handle.2))) ;;
          for_range (Z.to_nat (eh_nr_events h)) 0 (λ i,
            match eh_events h !! i with
            | None => fault
            | Some event =>
                (* Skip NULL pointers *)
                if bool_decide (event = NULL) then ret tt
                else side_event_remove_callbacks event
            end) ;;
          pthread_mutex_unlock Event_lock
          (* free(events_handle): the node is gone from the list *)
      end.

Definition side_tracer_event_notification_register (cb priv : Z) : M (option Z) :=
  fin <- gets finalized ;;
  if fin then ret None
  else
    ini <- gets initialized ;;
    when (negb ini) side_init ;;
    tracer_handle <- alloc_attempt ;;
    match tracer_handle with
    | None => ret None
    | Some tracer_handle =>
        pthread_mutex_lock Event_lock ;;
        modify (λ s, set_side_tracer_list
          (side_tracer_list s ++ [(tracer_handle, mk_tracer_handle cb priv)]) s) ;;
        handles <- gets side_events_list ;;
        for_each handles (λ events_handle,
          invoke (Call_notification cb SIDE_TRACER_NOTIFICATION_INSERT_EVENTS
                    (eh_events events_handle.2) (eh_nr_events events_handle.2) priv)) ;;
        pthread_mutex_unlock Event_lock ;;
        ret (Some tracer_handle)
    end.

Definition side_tracer_event_notification_unregister (tracer_handle : Z) : M unit :=
  fin <- gets finalized ;;
  if fin then ret tt
  else
    ini <- gets initialized ;;
    when (negb ini) side_init ;;
    pthread_mutex_lock Event_lock ;;
    tracers <- gets side_tracer_list ;;
    match node_find tracer_handle tracers with
    | None => fault
    | Some th =>
        handles <- gets side_events_list ;;
        for_each handles (λ events_handle,
          invoke (Call_notification (th_cb th) SIDE_TRACER_NOTIFICATION_REMOVE_EVENTS
                    (eh_events events_handle.2) (eh_nr_events events_handle.2)
                    (th_priv th))) ;;
        modify (set_side_tracer_list (node_remove tracer_handle tracers)) ;;
        pthread_mutex_unlock Event_lock
    end.

(** ** State-dump subsystem *)

(** Addresses of the two static events of side.c,
    side_static_event(side_statedump_begin, ...) and
    side_static_event(side_statedump_end, ...). *)
Definition side_statedump_begin : Z := 0x5D00.
Definition side_statedump_end : Z := 0x5D01.

Definition set_notification_queue (q : list Z) (h : side_statedump_request_handle)
  : side_statedump_request_handle :=
  mk_statedump_handle q (sd_cb h) (sd_name h) (sd_mode h).

Definition load_statedump_handle (handle : Z) : M side_statedump_request_handle :=
  l <- gets side_statedump_list ;;
  match node_find handle l with
  | None => fault
  | Some h => ret h
  end.

Definition update_statedump_handle (handle : Z)
    (f : side_statedump_request_handle → side_statedump_request_handle) : M unit :=
  load_statedump_handle handle ;;
  modify (λ s, set_side_statedump_list (node_update handle f (side_statedump_list s)) s).

Definition set_agent_state (v : Z) (a : statedump_agent_thread_t) : statedump_agent_thread_t :=
  mk_agent (agent_ref a) (agent_id a) v.

Definition set_agent_ref (v : Z) (a : statedump_agent_thread_t) : statedump_agent_thread_t :=
  mk_agent v (agent_id a) (agent_state a).

Definition set_agent_id (v : thread) (a : statedump_agent_thread_t) : statedump_agent_thread_t :=
  mk_agent (agent_ref a) v (agent_state a).

Definition update_agent (f : statedump_agent_thread_t → statedump_agent_thread_t) : M unit :=
  modify (λ s, set_statedump_agent_thread (f (statedump_agent_thread s)) s).

Definition is_agent_mode (mode : side_statedump_mode) : bool :=
  match mode with
  | SIDE_STATEDUMP_MODE_AGENT_THREAD => true
  | SIDE_STATEDUMP_MODE_POLLING => false
  end.

Definition is_polling_mode (mode : side_statedump_mode) : bool :=
  match mode with
  | SIDE_STATEDUMP_MODE_POLLING => true
  | SIDE_STATEDUMP_MODE_AGENT_THREAD => false
  end.

(** Called with side_statedump_lock held.  pthread_cond_broadcast changes
    nothing of the state kept here. *)
Definition queue_statedump_pending (handle key : Z) : M unit :=
  notif <- alloc_attempt ;;
  match notif with
  | None => abort
  | Some _ =>
      update_statedump_handle handle
        (λ h, set_notification_queue (notification_queue h ++ [key]) h) ;;
      h <- load_statedump_handle handle ;;
      when (is_agent_mode (sd_mode h))
        (update_agent (λ a, set_agent_state
           (Z.lor (agent_state a) AGENT_THREAD_STATE_HANDLE_REQUEST) a))
  end.

(** Called with side_statedump_lock held. *)
Definition unqueue_statedump_pending (handle key : Z) : M unit :=
  update_statedump_handle handle
    (λ h, set_notification_queue
       (filter (λ notif_key, ¬ (key = SIDE_KEY_MATCH_ALL ∨ key = notif_key))
          (notification_queue h)) h).

(** Modelled from the spec: the macro side_statedump_event_call of
    side/instrumentation-c-api.h is missing; run_pending is to "emit a
    statedump_begin(name) event with key=n.key", and state_dump_emit "is emit
    with key = *request_key_pointer". *)
Definition side_statedump_event_call (event : Z) (key : Z) (sav : side_arg_vec) : M unit :=
  side_statedump_call event sav key.

Definition side_statedump_run (handle : Z) (notif_key : Z) : M unit :=
  h <- load_statedump_handle handle ;;
  side_statedump_event_call side_statedump_begin notif_key (Arg_strings [sd_name h]) ;;
  (* Invoke the state dump callback specifically for the tracer key. *)
  invoke (Call_statedump (sd_cb h) notif_key) ;;
  side_statedump_event_call side_statedump_end notif_key (Arg_strings [sd_name h]).

Definition _side_statedump_run_pending_requests (handle : Z) : M unit :=
  pthread_mutex_lock Statedump_lock ;;
  h <- load_statedump_handle handle ;;
  let tmp_head := notification_queue h in
  update_statedump_handle handle (set_notification_queue []) ;;
  pthread_mutex_unlock Statedump_lock ;;
  (* We are now sole owner of the tmp_head list. *)
  for_each tmp_head (λ notif_key, side_statedump_run handle notif_key) ;;
  when (is_agent_mode (sd_mode h))
    (pthread_mutex_lock Statedump_lock ;;
     (* pthread_cond_broadcast(&statedump_agent_thread.waiter_cond) *)
     pthread_mutex_unlock Statedump_lock).

(** How one pass of the outer loop of statedump_agent_func ends. *)
Inductive agent_pass :=
| Agent_waiting      (* in pthread_cond_wait on worker_cond *)
| Agent_exited       (* left the loop: the thread returns *)
| Agent_paused       (* acknowledged a pause (fork handlers) *)
| Agent_served.      (* ran the pending requests of every handle *)

(** One pass of the outer [for (;;)] of statedump_agent_func, run by the
    agent thread.  A pass that finds the state BLOCKED ends in
    pthread_cond_wait, which releases the mutex; the next pass starts by
    taking it again. *)
Definition statedump_agent_func : M agent_pass :=
  pthread_mutex_lock Statedump_lock ;;
  state <- gets (λ s, agent_state (statedump_agent_thread s)) ;;
  pthread_mutex_unlock Statedump_lock ;;
  if bool_decide (state = AGENT_THREAD_STATE_BLOCKED) then ret Agent_waiting
  else if bool_decide (Z.land state AGENT_THREAD_STATE_EXIT ≠ 0) then ret Agent_exited
  else if bool_decide (Z.land state AGENT_THREAD_STATE_PAUSE ≠ 0) then
    update_agent (λ a, set_agent_state
      (Z.lor (agent_state a) AGENT_THREAD_STATE_PAUSE_ACK) a) ;;
    ret Agent_paused
  else
    update_agent (λ a, set_agent_state
      (Z.land (agent_state a) (Z.lnot AGENT_THREAD_STATE_HANDLE_REQUEST)) a) ;;
    side_rcu_read_begin ;;
    handles <- gets side_statedump_list ;;
    for_each handles (λ handle, _side_statedump_run_pending_requests handle.1) ;;
    side_rcu_read_end ;;
    ret Agent_served.

(** Run [m] as thread [t]. *)
Definition as_thread {A} (t : thread) (m : M A) : M A := λ _ s, m t s.

Definition statedump_agent_thread_init : M unit :=
  update_agent (set_agent_state AGENT_THREAD_STATE_BLOCKED).

(** Called with side_agent_thread_lock and side_statedump_lock held.
    pthread_create is taken to succeed; the new thread is named by a fresh
    number. *)
Definition statedump_agent_thread_get : M unit :=
  ref <- gets (λ s, agent_ref (statedump_agent_thread s)) ;;
  update_agent (set_agent_ref (ref + 1)) ;;
  if bool_decide (ref ≠ 0) then ret tt
  else
    statedump_agent_thread_init ;;
    id <- gets brk ;;
    modify (set_brk (id + 1)) ;;
    update_agent (set_agent_id id).

(** Returns true if join for agent thread is needed. *)
Definition statedump_agent_thread_put : M bool :=
  ref <- gets (λ s, agent_ref (statedump_agent_thread s)) ;;
  update_agent (set_agent_ref (ref - 1)) ;;
  if bool_decide (ref - 1 ≠ 0) then ret false
  else
    update_agent (λ a, set_agent_state (Z.lor (agent_state a) AGENT_THREAD_STATE_EXIT) a) ;;
    ret true.

Definition statedump_agent_thread_fini : M unit :=
  update_agent (set_agent_state AGENT_THREAD_STATE_BLOCKED).

(** Called with side_agent_thread_lock held.  pthread_join returns once the
    agent thread has left its loop. *)
Definition statedump_agent_thread_join : M unit :=
  id <- gets (λ s, agent_id (statedump_agent_thread s)) ;;
  pass <- as_thread id statedump_agent_func ;;
  match pass with
  | Agent_exited => statedump_agent_thread_fini
  | _ => λ _ s, Blocked s
  end.

(** The wait of side_statedump_request_notification_register on
    waiter_cond: pthread_cond_wait releases the mutex and the agent thread
    makes one pass; a queue still not empty after it is waited on forever. *)
Definition wait_initial_statedump (handle : Z) : M unit :=
  pthread_mutex_lock Statedump_lock ;;
  h <- load_statedump_handle handle ;;
  match notification_queue h with
  | [] => pthread_mutex_unlock Statedump_lock
  | _ :: _ =>
      pthread_mutex_unlock Statedump_lock ;;
      id <- gets (λ s, agent_id (statedump_agent_thread s)) ;;
      as_thread id statedump_agent_func ;;
      pthread_mutex_lock Statedump_lock ;;
      h' <- load_statedump_handle handle ;;
      match notification_queue h' with
      | [] => pthread_mutex_unlock Statedump_lock
      | _ :: _ => λ _ s, Blocked s
      end
  end.

Definition side_statedump_request_notification_register (state_name : string)
    (statedump_cb : Z) (mode : side_statedump_mode) : M (option Z) :=
  fin <- gets finalized ;;
  if fin then ret None
  else
    ini <- gets initialized ;;
    when (negb ini) side_init ;;
    handle <- alloc_attempt ;;
    match handle with
    | None => ret None
    | Some handle =>
        name <- alloc_attempt ;;      (* strdup(state_name) *)
        match name with
        | None => ret None
        | Some _ =>
            when (is_agent_mode mode) (pthread_mutex_lock Agent_thread_lock) ;;
            pthread_mutex_lock Statedump_lock ;;
            when (is_agent_mode mode) statedump_agent_thread_get ;;
            modify (λ s, set_side_statedump_list
              (side_statedump_list s
               ++ [(handle, mk_statedump_handle [] statedump_cb state_name mode)]) s) ;;
            (* Queue statedump pending for all tracers. *)
            queue_statedump_pending handle SIDE_KEY_MATCH_ALL ;;
            pthread_mutex_unlock Statedump_lock ;;
            when (is_agent_mode mode)
              (pthread_mutex_unlock Agent_thread_lock ;;
               wait_initial_statedump handle) ;;
            ret (Some handle)
        end
    end.

Definition side_statedump_request_notification_unregister (handle : Z) : M unit :=
  fin <- gets finalized ;;
  if fin then ret tt
  else
    ini <- gets initialized ;;
    when (negb ini) side_init ;;
    h <- load_statedump_handle handle ;;
    when (is_agent_mode (sd_mode h)) (pthread_mutex_lock Agent_thread_lock) ;;
    pthread_mutex_lock Statedump_lock ;;
    unqueue_statedump_pending handle SIDE_KEY_MATCH_ALL ;;
    modify (λ s, set_side_statedump_list (node_remove handle (side_statedump_list s)) s) ;;
    join <- (if is_agent_mode (sd_mode h) then statedump_agent_thread_put else ret false) ;;
    pthread_mutex_unlock Statedump_lock ;;
    when join statedump_agent_thread_join ;;
    when (is_agent_mode (sd_mode h)) (pthread_mutex_unlock Agent_thread_lock) ;;
    side_rcu_wait_grace_period
    (* free(handle->name); free(handle) *).

(** Returns true if the handle has pending statedump requests. *)
Definition side_statedump_poll_pending_requests (handle : Z) : M bool :=
  h <- load_statedump_handle handle ;;
  if negb (is_polling_mode (sd_mode h)) then ret false
  else
    pthread_mutex_lock Statedump_lock ;;
    h' <- load_statedump_handle handle ;;
    let r := negb (bool_decide (notification_queue h' = [])) in
    pthread_mutex_unlock Statedump_lock ;;
    ret r.

Definition side_statedump_run_pending_requests (handle : Z) : M side_error :=
  h <- load_statedump_handle handle ;;
  if negb (is_polling_mode (sd_mode h)) then ret SIDE_ERROR_INVAL
  else
    _side_statedump_run_pending_requests handle ;;
    ret SIDE_ERROR_OK.

(** Request a state dump for tracer callbacks identified with "key". *)
Definition side_tracer_statedump_request (key : Z) : M side_error :=
  if bool_decide (key = SIDE_KEY_MATCH_ALL) then ret SIDE_ERROR_INVAL
  else
    pthread_mutex_lock Statedump_lock ;;
    handles <- gets side_statedump_list ;;
    for_each handles (λ handle, queue_statedump_pending handle.1 key) ;;
    pthread_mutex_lock Statedump_lock ;;
    ret SIDE_ERROR_OK.

(** Cancel a statedump request. *)
Definition side_tracer_statedump_request_cancel (key : Z) : M side_error :=
  if bool_decide (key = SIDE_KEY_MATCH_ALL) then ret SIDE_ERROR_INVAL
  else
    pthread_mutex_lock Statedump_lock ;;
    handles <- gets side_statedump_list ;;
    for_each handles (λ handle, unqueue_statedump_pending handle.1 key) ;;
    pthread_mutex_lock Statedump_lock ;;
    ret SIDE_ERROR_OK.

(** ** Key allocator *)

(** The second component is the value stored through [key], if any. *)
Definition side_tracer_request_key : M (side_error * option Z) :=
  pthread_mutex_lock Key_lock ;;
  next <- gets side_key_next ;;
  r <- (if bool_decide (next = 0) then ret (SIDE_ERROR_NOMEM, None)
        else
          modify (set_side_key_next (u64 (next + 1))) ;;
          ret (SIDE_ERROR_OK, Some next)) ;;
  pthread_mutex_unlock Key_lock ;;
  ret r.

(** ** side_exit *)

Definition side_exit : M unit :=
  fin <- gets finalized ;;
  if fin then ret tt
  else
    handles <- gets side_events_list ;;
    for_each handles (λ handle, side_events_unregister handle.1) ;;
    side_rcu_gp_exit set_event_rcu_gp ;;
    side_rcu_gp_exit set_statedump_rcu_gp ;;
    modify (set_finalized true).

(** ** Views of the state used by the statements *)

(** The callback vector an array holds: its entries before the first one
    with a NULL function pointer. *)
Fixpoint live_entries (entries : list side_callback) : list side_callback :=
  match entries with
  | [] => []
  | cb :: rest =>
      if bool_decide (cb_call cb = NULL) then [] else cb :: live_entries rest
  end.

(** Whether the array holds such a terminating entry at all. *)
Fixpoint terminated (entries : list side_callback) : bool :=
  match entries with
  | [] => false
  | cb :: rest => bool_decide (cb_call cb = NULL) || terminated rest
  end.

(** The bytes a callbacks pointer points at, if it is valid. *)
Definition block_of (s : lib) (p : callbacks_ptr) : option (list Z) :=
  match p with
  | side_empty_callback => Some side_empty_callback_bytes
  | heap_block a => heap s !! a
  end.

(** The callback vector of event [desc]: what a walk from [es0->callbacks]
    to the sentinel sees. *)
Definition callbacks_of (s : lib) (desc : Z) : option (list side_callback) :=
  e ← event_store s !! desc;
  vec ← block_of s (callbacks e);
  if terminated (block_entries vec) then Some (live_entries (block_entries vec)) else None.

(** The emit's key [key] selects the callback [cb]. *)
Definition key_matches (key : Z) (cb : side_callback) : Prop :=
  key = SIDE_KEY_MATCH_ALL ∨ cb_key cb = SIDE_KEY_MATCH_ALL ∨ cb_key cb = key.

#[global] Instance key_matches_dec key cb : Decision (key_matches key cb).
Proof. unfold key_matches. apply _. Defined.

(** The low bits of [enabled]: the private (in-process) tracer references. *)
Definition private_enabled (e : side_event) : Z :=
  Z.land (enabled e) SIDE_EVENT_ENABLED_PRIVATE_MASK.

(** Modelled from the spec: the static initialiser of an event state (macro
    side_static_event of side/instrumentation-c-api.h) is missing; an event
    starts with no callback, [callbacks] at "the shared empty sentinel ...
    used by every event whose callback set is empty", and no private tracer
    reference. *)
Definition initial_event (flags : Z) : side_event :=
  mk_side_event flags 0 0 0 side_empty_callback.

(** The static initial values of the globals of side.c, for a program whose
    events are [evs]. *)
Definition lib_initial (evs : gmap Z side_event) : lib :=
  mk_lib false false false false Unlocked Unlocked Unlocked Unlocked
    SIDE_KEY_RESERVED_RANGE_END (mk_agent 0 0 AGENT_THREAD_STATE_BLOCKED)
    [] [] [] evs ∅ 1 [] [].

(** The two static events of side.c, not variadic. *)
Definition static_events : gmap Z side_event :=
  <[side_statedump_begin := initial_event 0]>
    (<[side_statedump_end := initial_event 0]> ∅).

(** Successive calls of side_tracer_request_key. *)
Fixpoint request_keys (n : nat) : M (list (side_error * option Z)) :=
  match n with
  | O => ret []
  | S n' =>
      r <- side_tracer_request_key ;;
      rs <- request_keys n' ;;
      ret (r :: rs)
  end.

(** Operations on callbacks and on event batches, for sequences of them. *)
Inductive callback_op :=
| Op_register (desc call priv key : Z)
| Op_variadic_register (desc call priv key : Z)
| Op_unregister (desc call priv key : Z)
| Op_variadic_unregister (desc call priv key : Z)
| Op_events_register (events : list Z) (nr_events : Z)
| Op_events_unregister (events_handle : Z)
| Op_exit.

Definition run_op (o : callback_op) : M unit :=
  match o with
  | Op_register d c p k => side_tracer_callback_register d c p k ;; ret tt
  | Op_variadic_register d c p k => side_tracer_callback_variadic_register d c p k ;; ret tt
  | Op_unregister d c p k => side_tracer_callback_unregister d c p k ;; ret tt
  | Op_variadic_unregister d c p k => side_tracer_callback_variadic_unregister d c p k ;; ret tt
  | Op_events_register evs n => side_events_register evs n ;; ret tt
  | Op_events_unregister h => side_events_unregister h
  | Op_exit => side_exit
  end.

(** A sequence of operations, each run by the thread it is paired with. *)
Fixpoint run_ops (ops : list (thread * callback_op)) : M unit :=
  match ops with
  | [] => ret tt
  | (t, o) :: rest => as_thread t (run_op o) ;; run_ops rest
  end.

(** The state of an event between operations: the count is a [uint32_t], an
    event without callback points at the shared empty callback, and the
    private part of [enabled] tells whether there is a callback. *)
Definition event_consistent (e : side_event) : Prop :=
  0 ≤ nr_callbacks e ≤ UINT32_MAX
  ∧ (nr_callbacks e = 0 → callbacks e = side_empty_callback)
  ∧ private_enabled e = (if bool_decide (0 < nr_callbacks e) then 1 else 0).

Definition events_consistent (s : lib) : Prop :=
  ∀ desc e, event_store s !! desc = Some e → event_consistent e.

(** A mutex thread [t] can take without waiting. *)
Definition available (recursive : bool) (t : thread) (m : mutex) : Prop :=
  is_Some (acquire recursive t m).

(** What the specification asks of an operation once side_exit has run: in
    every finalized state it returns, and it either returns what tells the
    caller that the library is exiting or leaves the state as it was. *)
Definition inert_after_exit {A} (exiting : A → Prop) (m : M A) : Prop :=
  ∀ t s, finalized s = true → ∃ a s', m t s = Done a s' ∧ (exiting a ∨ s' = s).

(** The outcome [o], with [f] applied to the state it ends in. *)
Definition outcome_map {A} (f : lib → lib) (o : outcome A) : outcome A :=
  match o with
  | Done a s => Done a (f s)
  | Abort => Abort
  | Fault => Fault
  | Blocked s => Blocked (f s)
  end.

(** [m] neither reads nor writes the finalized flag: started with the flag
    at [b], it does what it does from the same state with the flag as it was,
    and the flag is still at [b] where it ends. *)
Definition ignores_finalized {A} (m : M A) : Prop :=
  ∀ b t s, m t (set_finalized b s) = outcome_map (set_finalized b) (m t s).

(** ** Example states *)

(** A state-dump handle of the application "app", at address 0x700. *)
Definition app_handle (mode : side_statedump_mode) (queue : list Z)
  : Z * side_statedump_request_handle :=
  (0x700, mk_statedump_handle queue 0xCB "app" mode).

(** An initialized library with one polling handle and nothing pending. *)
Definition polling_example : lib :=
  set_side_statedump_list [app_handle SIDE_STATEDUMP_MODE_POLLING []]
    (set_initialized true (lib_initial static_events)).

(** An initialized library with one agent-mode handle, its agent thread
    (thread 2) waiting, and [queue] pending on the handle. *)
Definition agent_example (queue : list Z) : lib :=
  set_side_statedump_list [app_handle SIDE_STATEDUMP_MODE_AGENT_THREAD queue]
    (set_statedump_agent_thread (mk_agent 1 2 AGENT_THREAD_STATE_BLOCKED)
       (set_initialized true (lib_initial static_events))).

(** The library after side_exit, when nothing was ever registered. *)
Definition exited_example : lib :=
  set_finalized true (lib_initial static_events).

(** The library after thread 1 registered a polling state-dump handle for
    "app" (it is at address 1, with the initial MATCH_ALL request queued) and
    side_exit has run: three allocations were made, and side_exit has undone
    the RCU domains that side_init had set up. *)
Definition exited_polling : lib :=
  set_finalized true
    (set_brk 4
       (set_side_statedump_list
          [(1, mk_statedump_handle [SIDE_KEY_MATCH_ALL] 0xCB "app"
                 SIDE_STATEDUMP_MODE_POLLING)]
          (set_initialized true (lib_initial static_events)))).

(** [exited_polling] after thread 1 called side_tracer_statedump_request(8):
    key 8 is queued behind the initial request, one more allocation was made,
    and thread 1 holds the statedump mutex at depth 2. *)
Definition exited_requested : lib :=
  set_side_statedump_lock (Locked 1 1)
    (set_brk 5
       (set_side_statedump_list
          [(1, mk_statedump_handle [SIDE_KEY_MATCH_ALL; 8] 0xCB "app"
                 SIDE_STATEDUMP_MODE_POLLING)]
          exited_polling)).

(** Three tracer callbacks. *)
Definition callback_A : side_callback := mk_side_callback 0x401136 0xA 9.
Definition callback_B : side_callback := mk_side_callback 0x401247 0xB 8.
Definition callback_C : side_callback := mk_side_callback 0x401358 0xC 0.

(** An initialized library whose program has one event besides the static
    ones, not variadic, at address 0x100, in its initial state. *)
Definition one_event : lib :=
  set_initialized true (lib_initial (<[0x100 := initial_event 0]> static_events)).

(** The same library once callbacks A and B are attached to the event, as the
    data model describes it: [nr_callbacks] is 2, the private part of
    [enabled] is 1, and [callbacks] points at the array {A, B, sentinel}. *)
Definition two_callbacks : lib :=
  set_event_store
    (<[0x100 := mk_side_event 0 0 2 1 (heap_block 1)]> static_events)
    (set_heap {[ 1 := encode_callback callback_A ++ encode_callback callback_B
                       ++ zeroed SIZEOF_SIDE_CALLBACK ]}
       (set_brk 2 (set_initialized true (lib_initial ∅)))).

(** Registration and unregistration of a callback given as a record. *)
Definition register_cb (desc : Z) (cb : side_callback) : M side_error :=
  side_tracer_callback_register desc (cb_call cb) (cb_priv cb) (cb_key cb).

Definition unregister_cb (desc : Z) (cb : side_callback) : M side_error :=
  side_tracer_callback_unregister desc (cb_call cb) (cb_priv cb) (cb_key cb).

(** [nr_callbacks] of event [desc]. *)
Definition nr_callbacks_of (s : lib) (desc : Z) : option Z :=
  nr_callbacks <$> event_store s !! desc.

(** The whole array [callbacks] of event [desc] points at, entry by entry. *)
Definition array_of (s : lib) (desc : Z) : option (list side_callback) :=
  e ← event_store s !! desc;
  block_entries <$> block_of s (callbacks e).

(** The state after the lazy initialization every entry point starts with:
    [if (!initialized) side_init()]. *)
Definition initialize (s : lib) : lib :=
  if initialized s then s
  else set_initialized true (set_statedump_rcu_gp true (set_event_rcu_gp true s)).

(** The call of side_ptrace_hook an emit makes, if any: the ptrace bit of the
    shared bits of [enabled] is set and the key is MATCH_ALL or PTRACE. *)
Definition ptrace_hook_calls (event_state : Z) (sav : side_arg_vec) (var_struct : Z)
    (enabled_word key : Z) : list call_event :=
  if bool_decide (Z.land enabled_word SIDE_EVENT_ENABLED_SHARED_MASK ≠ 0)
     && (bool_decide (Z.land enabled_word SIDE_EVENT_ENABLED_SHARED_PTRACE_MASK ≠ 0)
         && (bool_decide (key = SIDE_KEY_MATCH_ALL) || bool_decide (key = SIDE_KEY_PTRACE)))
  then [Call_ptrace_hook event_state sav var_struct]
  else [].

(** ** Statements about code that returns *)

(** Whenever [m] returns, [Q] relates the state it was called in, its result
    and the state it returns in. *)
Definition ensures {A} (m : M A) (Q : lib → A → lib → Prop) : Prop :=
  ∀ t s a s', m t s = Done a s' → Q s a s'.

(** [m] leaves the part [field] of the state as it found it. *)
Definition keeps {A B} (field : lib → B) (m : M A) : Prop :=
  ensures m (λ s _ s', field s' = field s).

(** [m], when it returns, has kept the events consistent. *)
Definition keeps_consistency {A} (m : M A) : Prop :=
  ensures m (λ s _ s', events_consistent s → events_consistent s').

(** The public registration and unregistration functions, by variant:
    [true] for side_tracer_callback_variadic_(un)register. *)
Definition register_variant (variadic : bool) : Z → Z → Z → Z → M side_error :=
  if variadic then side_tracer_callback_variadic_register
  else side_tracer_callback_register.

Definition unregister_variant (variadic : bool) : Z → Z → Z → Z → M side_error :=
  if variadic then side_tracer_callback_variadic_unregister
  else side_tracer_callback_unregister.

(** A sequence of operations on [one_event]: thread 1 registers the batch
    [{0x100}] (its handle is the first allocation, at address 1), threads 2
    and 3 attach and detach callbacks, thread 1 unregisters the batch, and
    after one more registration the library exits. *)
Definition example_ops : list (thread * callback_op) :=
  [(1, Op_events_register [0x100] 1);
   (2, Op_register 0x100 0x401136 0xA 9);
   (2, Op_register 0x100 0x401247 0xB 8);
   (3, Op_unregister 0x100 0x401247 0xB 8);
   (2, Op_register 0x100 0x401358 0xC 0);
   (1, Op_events_unregister 1);
   (2, Op_register 0x100 0x401136 0xA 9);
   (1, Op_exit)].

(** ** Well-formed callback arrays *)

(** [bytes] is an array of [nr + 1] entries whose last entry is zeroed. *)
Definition vector_block (nr : Z) (bytes : list Z) : Prop :=
  length bytes = ((Z.to_nat nr + 1) * SIZEOF_SIDE_CALLBACK)%nat
  ∧ drop (Z.to_nat nr * SIZEOF_SIDE_CALLBACK) bytes = zeroed SIZEOF_SIDE_CALLBACK.

(** Event [e] of state [s] has ABI version 0, is consistent, and points at
    the shared empty callback or at an allocated array of nr_callbacks + 1
    entries ending with a zeroed one. *)
Definition event_wf (s : lib) (e : side_event) : Prop :=
  version e = 0
  ∧ event_consistent e
  ∧ match callbacks e with
    | side_empty_callback => nr_callbacks e = 0
    | heap_block a => ∃ bytes, heap s !! a = Some bytes ∧ vector_block (nr_callbacks e) bytes
    end.

(** Every event is well formed, no two events share an array, and calloc has
    not yet handed out the addresses from [brk] on. *)
Definition lib_wf (s : lib) : Prop :=
  (∀ desc e, event_store s !! desc = Some e → event_wf s e)
  ∧ (∀ d1 d2 e1 e2 a,
       event_store s !! d1 = Some e1 → event_store s !! d2 = Some e2 →
       callbacks e1 = heap_block a → callbacks e2 = heap_block a → d1 = d2)
  ∧ (∀ a, is_Some (heap s !! a) → a < brk s).

(** The batch [h] has room for the events it announces, and each entry is
    NULL or the description of an event of [s]. *)
Definition events_handle_wf (s : lib) (h : side_events_register_handle) : Prop :=
  (Z.to_nat (eh_nr_events h) ≤ length (eh_events h))%nat
  ∧ Forall (λ event, event = NULL ∨ is_Some (event_store s !! event)) (eh_events h).

(** Every registered batch is well formed, at an address malloc has handed
    out. *)
Definition registry_wf (s : lib) : Prop :=
  Forall (λ node, NULL < node.1 < brk s ∧ events_handle_wf s node.2) (side_events_list s).

(** [m] hands out fresh addresses only: [brk] does not go down. *)
Definition brk_grows {A} (m : M A) : Prop :=
  ensures m (λ s _ s', brk s ≤ brk s').

(** A state between operations: well formed, with the event mutex free. *)
Definition ready (s : lib) : Prop :=
  lib_wf s ∧ registry_wf s ∧ side_event_lock s = Unlocked ∧ NULL < brk s.

(** The arguments of [o] are valid in [s]: a description is that of an event,
    a batch is well formed, a handle is NULL or that of a registered batch. *)
Definition op_valid (s : lib) (o : callback_op) : Prop :=
  match o with
  | Op_register d _ _ _
  | Op_variadic_register d _ _ _
  | Op_unregister d _ _ _
  | Op_variadic_unregister d _ _ _ => is_Some (event_store s !! d)
  | Op_events_register events nr_events =>
      events_handle_wf s (mk_events_handle events nr_events)
  | Op_events_unregister events_handle =>
      events_handle = NULL ∨ is_Some (node_find events_handle (side_events_list s))
  | Op_exit => True
  end.

(** Every operation of the sequence is given valid arguments when its turn
    comes. *)
Fixpoint ops_valid (ops : list (thread * callback_op)) (s : lib) : Prop :=
  match ops with
  | [] => True
  | (t, o) :: rest =>
      op_valid s o ∧ ∀ s', run_op o t s = Done tt s' → ops_valid rest s'
  end.

(** From [s] to [s'] the events are the same ones and no count has grown by
    more than [k]. *)
Definition counts_within (k : Z) (s s' : lib) : Prop :=
  ∀ d,
    match event_store s' !! d with
    | Some e' => ∃ e, event_store s !! d = Some e
                      ∧ nr_callbacks e' ≤ nr_callbacks e + k
    | None => event_store s !! d = None
    end.

(** ** What the registry operations leave behind *)

(** The event once side_event_remove_callbacks has run on it. *)
Definition drained_event (e : side_event) : side_event :=
  if bool_decide (nr_callbacks e = 0) then e
  else mk_side_event (desc_flags e) (version e) 0 (u64 (enabled e - 1)) side_empty_callback.

(** The events of a batch the loop of side_events_unregister drains: the
    first nr_events entries that are not NULL. *)
Definition batch_events (h : side_events_register_handle) : list Z :=
  filter (λ event, event ≠ NULL) (take (Z.to_nat (eh_nr_events h)) (eh_events h)).

(** The calls that tell every tracer of [tracers], in list order, of the
    batch [h]. *)
Definition notify_tracers (notif : side_tracer_notification)
    (tracers : list (Z * side_tracer_handle)) (h : side_events_register_handle)
  : list call_event :=
  map (λ tracer_handle : Z * side_tracer_handle,
         Call_notification (th_cb tracer_handle.2) notif (eh_events h) (eh_nr_events h)
           (th_priv tracer_handle.2)) tracers.

(** The calls that tell the tracer [th] of every batch of [handles], in list
    order. *)
Definition notify_batches (notif : side_tracer_notification) (th : side_tracer_handle)
    (handles : list (Z * side_events_register_handle)) : list call_event :=
  map (λ events_handle : Z * side_events_register_handle,
         Call_notification (th_cb th) notif (eh_events events_handle.2)
           (eh_nr_events events_handle.2) (th_priv th)) handles.

(** The event store once the events [drained] have been drained. *)
Definition drained_store (drained : list Z) (s s' : lib) : Prop :=
  ∀ d, event_store s' !! d
       = if bool_decide (d ∈ drained) then drained_event <$> event_store s !! d
         else event_store s !! d.

(** The events side_exit drains and the calls it makes to the tracers:
    those of every batch, in registry order. *)
Definition registry_events (handles : list (Z * side_events_register_handle)) : list Z :=
  concat (map (λ node : Z * side_events_register_handle, batch_events node.2) handles).

Definition exit_notifications (tracers : list (Z * side_tracer_handle))
    (handles : list (Z * side_events_register_handle)) : list call_event :=
  concat (map (λ node : Z * side_events_register_handle,
                 notify_tracers SIDE_TRACER_NOTIFICATION_REMOVE_EVENTS tracers node.2)
            handles).

(** The next allocation returns NULL. *)
Definition alloc_fails (s : lib) : bool :=
  match oom_script s with
  | true :: _ => true
  | _ => false
  end.

(** The library of [two_callbacks] once the program has registered the
    batch {event 0x100, NULL} (handle at address 2) and a tracer its
    notification callback (handle at address 3). *)
Definition registered_example : lib :=
  set_side_events_list [(2, mk_events_handle [0x100; NULL] 2)]
    (set_side_tracer_list [(3, mk_tracer_handle 0x402000 0xD)] (set_brk 4 two_callbacks)).

(** The three fields of [cb] are a pointer, a pointer and a [uint64_t]. *)
Definition callback_in_range (cb : side_callback) : Prop :=
  0 ≤ cb_call cb < 2 ^ 64 ∧ 0 ≤ cb_priv cb < 2 ^ 64 ∧ 0 ≤ cb_key cb < 2 ^ 64.

(** The library of [one_event] once callback A alone is attached to the
    event, with a calloc that will fail. *)
Definition one_callback : lib :=
  set_oom_script [true]
    (set_event_store
       (<[0x100 := mk_side_event 0 0 1 1 (heap_block 1)]> static_events)
       (set_heap {[ 1 := encode_callback callback_A ++ zeroed SIZEOF_SIDE_CALLBACK ]}
          (set_brk 2 (set_initialized true (lib_initial ∅))))).

(** ** Fork handlers *)

(** [statedump_agent_thread.ref] and [.state]. *)
Definition agent_thread_ref (s : lib) : Z := agent_ref (statedump_agent_thread s).
Definition agent_thread_state (s : lib) : Z := agent_state (statedump_agent_thread s).

(** The handler pthread_atfork runs before fork.  It returns with
    side_agent_thread_lock held.  The wait for the acknowledgement is a busy
    loop on the state: the agent thread makes one pass, and a state still
    without PAUSE_ACK after it is waited on forever. *)
Definition side_before_fork : M unit :=
  pthread_mutex_lock Agent_thread_lock ;;
  ref <- gets agent_thread_ref ;;
  if bool_decide (ref = 0) then ret tt
  else
    (* Pause agent thread. *)
    pthread_mutex_lock Statedump_lock ;;
    update_agent (λ a, set_agent_state
      (Z.lor (agent_state a) AGENT_THREAD_STATE_PAUSE) a) ;;
    (* pthread_cond_broadcast(&statedump_agent_thread.worker_cond) *)
    pthread_mutex_unlock Statedump_lock ;;
    (* Wait for agent thread acknowledge. *)
    state <- gets agent_thread_state ;;
    if bool_decide (Z.land state AGENT_THREAD_STATE_PAUSE_ACK ≠ 0) then ret tt
    else
      id <- gets (λ s, agent_id (statedump_agent_thread s)) ;;
      as_thread id statedump_agent_func ;;
      state' <- gets agent_thread_state ;;
      if bool_decide (Z.land state' AGENT_THREAD_STATE_PAUSE_ACK ≠ 0) then ret tt
      else λ _ s, Blocked s.

(** The state side_before_fork leaves when there is an agent thread: the
    agent thread has acknowledged the pause and thread [t] holds
    side_agent_thread_lock. *)
Definition paused (t : thread) (s : lib) : lib :=
  set_side_agent_thread_lock (Locked t 0)
    (set_statedump_agent_thread
       (set_agent_state
          (Z.lor (Z.lor (agent_thread_state s) AGENT_THREAD_STATE_PAUSE)
             AGENT_THREAD_STATE_PAUSE_ACK)
          (statedump_agent_thread s)) s).

(** The handler pthread_atfork runs in the parent after fork. *)
Definition side_after_fork_parent : M unit :=
  ref <- gets agent_thread_ref ;;
  when (bool_decide (ref ≠ 0))
    (update_agent (λ a, set_agent_state
       (Z.land (agent_state a)
          (Z.lnot (Z.lor AGENT_THREAD_STATE_PAUSE AGENT_THREAD_STATE_PAUSE_ACK))) a)) ;;
  pthread_mutex_unlock Agent_thread_lock.

(** The handler pthread_atfork runs in the child after fork, on the child's
    copy of the state.  The agent thread does not exist in the child: its
    data is re-initialized and a new thread is created; pthread_create is
    taken to succeed and the new thread is named by a fresh number, as in
    statedump_agent_thread_get. *)
Definition side_after_fork_child : M unit :=
  ref <- gets agent_thread_ref ;;
  when (bool_decide (ref ≠ 0))
    (statedump_agent_thread_fini ;;
     statedump_agent_thread_init ;;
     id <- gets brk ;;
     modify (set_brk (id + 1)) ;;
     update_agent (set_agent_id id)) ;;
  pthread_mutex_unlock Agent_thread_lock.

(** The state of the child once its handler has run, when the parent had an
    agent thread: a new agent thread, named by the fresh number, in state
    BLOCKED. *)
Definition forked_child (s : lib) : lib :=
  set_brk (brk s + 1)
    (set_statedump_agent_thread
       (mk_agent (agent_thread_ref s) (brk s) AGENT_THREAD_STATE_BLOCKED) s).

(** ** Constructor and destructor of an instrumented object (side/trace.h) *)

(** [int] arithmetic, as two's complement. *)
Definition s32 (x : Z) : Z := (x + 2 ^ 31) mod 2 ^ 32 - 2 ^ 31.

(** The two weak hidden symbols each shared object (or the main program) has
    one instance of. *)
Record instrumented_object := mk_object {
  side_event_description_ptr_registered : Z;   (* int *)
  side_events_handle : Z                       (* struct side_events_register_handle * *)
}.

(** [events] is the section from __start_side_event_description_ptr to
    __stop_side_event_description_ptr; the difference of the two pointers is
    its length, passed as a [uint32_t]. *)
Definition side_event_description_ptr_init (events : list Z) (o : instrumented_object)
  : M instrumented_object :=
  let registered := side_event_description_ptr_registered o in
  let o := mk_object (s32 (registered + 1)) (side_events_handle o) in
  if bool_decide (registered ≠ 0) then ret o
  else
    events_handle <- side_events_register events (u32 (Z.of_nat (length events))) ;;
    ret (mk_object (side_event_description_ptr_registered o) (default NULL events_handle)).

Definition side_event_description_ptr_exit (o : instrumented_object)
  : M instrumented_object :=
  let registered := s32 (side_event_description_ptr_registered o - 1) in
  let o := mk_object registered (side_events_handle o) in
  if bool_decide (registered ≠ 0) then ret o
  else
    side_events_unregister (side_events_handle o) ;;
    ret (mk_object (side_event_description_ptr_registered o) NULL).

(** [n] nested calls of the constructor, as when [n] compilation units of
    the object include side/trace.h, then of the destructor. *)
Fixpoint constructors (n : nat) (events : list Z) (o : instrumented_object)
  : M instrumented_object :=
  match n with
  | O => ret o
  | S n' => o' <- side_event_description_ptr_init events o ;; constructors n' events o'
  end.

Fixpoint destructors (n : nat) (o : instrumented_object) : M instrumented_object :=
  match n with
  | O => ret o
  | S n' => o' <- side_event_description_ptr_exit o ;; destructors n' o'
  end.

(** ** What the state-dump operations leave behind *)

(** The calls an emit with [key] makes on the non-variadic event
    [event_state] of state [s]: the ptrace hook, then the callbacks of the
    event whose key matches, in array order. *)
Definition emit_calls (s : lib) (event_state : Z) (sav : side_arg_vec) (key : Z)
  : list call_event :=
  match event_store s !! event_state with
  | Some e =>
      match block_of s (callbacks e) with
      | Some vec =>
          ptrace_hook_calls event_state sav NULL (enabled e) key
          ++ map (λ cb, Call_tracer (cb_call cb) event_state sav (cb_priv cb))
               (filter (key_matches key) (live_entries (block_entries vec)))
      | None => []
      end
  | None => []
  end.

(** The event can be emitted: it is of ABI version 0, not variadic, and its
    callback array ends with a sentinel. *)
Definition emit_ready (s : lib) (event_state : Z) : Prop :=
  ∃ e vec,
    event_store s !! event_state = Some e ∧ version e = 0 ∧ is_variadic e = false
    ∧ block_of s (callbacks e) = Some vec ∧ terminated (block_entries vec) = true.

(** The calls of side_statedump_run for one notification: the
    statedump_begin event, the application's callback, the statedump_end
    event, all with the key of the notification. *)
Definition statedump_calls (s : lib) (h : side_statedump_request_handle) (key : Z)
  : list call_event :=
  emit_calls s side_statedump_begin (Arg_strings [sd_name h]) key
  ++ [Call_statedump (sd_cb h) key]
  ++ emit_calls s side_statedump_end (Arg_strings [sd_name h]) key.

(** The calls made when the queue of [h] is run, in queue order. *)
Definition drain_calls (s : lib) (h : side_statedump_request_handle) : list call_event :=
  concat (map (statedump_calls s h) (notification_queue h)).

(** The library is initialized and not finalized, the statedump mutex is
    free and the two static events can be emitted. *)
Definition statedump_ready (s : lib) : Prop :=
  finalized s = false ∧ initialized s = true ∧ side_statedump_lock s = Unlocked
  ∧ emit_ready s side_statedump_begin ∧ emit_ready s side_statedump_end.

(** A node of the list of handles with [f] applied to its handle. *)
Definition on_handle (f : side_statedump_request_handle → side_statedump_request_handle)
    (node : Z * side_statedump_request_handle) : Z * side_statedump_request_handle :=
  (node.1, f node.2).

(** A node whose handle has nothing pending. *)
Definition emptied (node : Z * side_statedump_request_handle)
  : Z * side_statedump_request_handle :=
  (node.1, set_notification_queue [] node.2).

(** The next [n] allocations succeed. *)
Definition allocs_succeed (n : nat) (s : lib) : Prop :=
  Forall (λ failing, failing = false) (take n (oom_script s)).

(** A handle with one more notification queued. *)
Definition queued (key : Z) (h : side_statedump_request_handle)
  : side_statedump_request_handle :=
  set_notification_queue (notification_queue h ++ [key]) h.

(** The agent thread with HANDLE_REQUEST set if the handle is served by it. *)
Definition requested (h : side_statedump_request_handle) (a : statedump_agent_thread_t)
  : statedump_agent_thread_t :=
  if is_agent_mode (sd_mode h)
  then set_agent_state (Z.lor (agent_state a) AGENT_THREAD_STATE_HANDLE_REQUEST) a
  else a.

(** A handle without the notifications that unqueue_statedump_pending drops
    for [key]. *)
Definition cancelled (key : Z) (h : side_statedump_request_handle)
  : side_statedump_request_handle :=
  set_notification_queue
    (filter (λ notif_key, ¬ (key = SIDE_KEY_MATCH_ALL ∨ key = notif_key))
       (notification_queue h)) h.

(** The fields a loop over the state-dump handles does not touch. *)
Definition same_but_statedump (s s' : lib) : Prop :=
  trace s' = trace s ∧ event_store s' = event_store s ∧ heap s' = heap s
  ∧ finalized s' = finalized s ∧ initialized s' = initialized s
  ∧ side_statedump_lock s' = side_statedump_lock s
  ∧ side_agent_thread_lock s' = side_agent_thread_lock s
  ∧ side_events_list s' = side_events_list s
  ∧ side_tracer_list s' = side_tracer_list s.


(** The agent thread once a handle it serves is unregistered: the last
    reference stops and joins it. *)
Definition agent_put (a : statedump_agent_thread_t) : statedump_agent_thread_t :=
  if bool_decide (agent_ref a = 1)
  then mk_agent 0 (agent_id a) AGENT_THREAD_STATE_BLOCKED
  else mk_agent (agent_ref a - 1) (agent_id a) (agent_state a).

(** An initialized library with an agent-mode handle and a polling handle,
    one request pending on each, and the agent thread (thread 2) told that
    there are requests to handle. *)
Definition mixed_example : lib :=
  set_side_statedump_list
    [(0x700, mk_statedump_handle [8] 0xCB "app" SIDE_STATEDUMP_MODE_AGENT_THREAD);
     (0x701, mk_statedump_handle [9] 0xCC "lib" SIDE_STATEDUMP_MODE_POLLING)]
    (set_statedump_agent_thread (mk_agent 1 2 AGENT_THREAD_STATE_HANDLE_REQUEST)
       (set_initialized true (lib_initial static_events))).

(** An initialized library with one polling handle and two requests
    pending, the initial one and one for key 9. *)
Definition polling_pending : lib :=
  set_side_statedump_list [app_handle SIDE_STATEDUMP_MODE_POLLING [SIDE_KEY_MATCH_ALL; 9]]
    polling_example.

(** * Properties *)

(** ** Reasoning about code in the monad *)

Lemma bind_Done {A B} (m : M A) (f : A → M B) t s b s2 :
  bind m f t s = Done b s2 ↔ ∃ a s1, m t s = Done a s1 ∧ f a t s1 = Done b s2.
Proof.
  unfold bind. split.
  - destruct (m t s) as [a s1| | |s1] eqn:Hm; try discriminate. eauto.
  - intros (a & s1 & -> & Hf). exact Hf.
Qed.

Lemma bind_run {A B} (m : M A) (f : A → M B) t s a s1 :
  m t s = Done a s1 → bind m f t s = f a t s1.
Proof. unfold bind. intros ->. reflexivity. Qed.

Lemma bind_gets {A B} (f : lib → A) (k : A → M B) t s :
  bind (gets f) k t s = k (f s) t s.
Proof. reflexivity. Qed.

Lemma bind_ret {A B} (a : A) (k : A → M B) t s : bind (ret a) k t s = k a t s.
Proof. reflexivity. Qed.

Lemma bind_modify {B} (f : lib → lib) (m : M B) t s :
  (modify f ;; m) t s = m t (f s).
Proof. reflexivity. Qed.

Lemma bind_assoc {A B C} (m : M A) (f : A → M B) (g : B → M C) t s :
  bind (bind m f) g t s = bind m (λ a, bind (f a) g) t s.
Proof. unfold bind. destruct (m t s); reflexivity. Qed.

Lemma acquire_release recursive t m m' :
  acquire recursive t m = Some m' → release t m' = Some m.
Proof.
  destruct m as [|o n]; simpl.
  - intros [= <-]. simpl. rewrite bool_decide_eq_true_2; done.
  - destruct recursive; simpl; [|done].
    case_bool_decide; [|done]. subst o. intros [= <-]. simpl.
    rewrite bool_decide_eq_true_2; done.
Qed.

Lemma mutex_lock_available {B} m (k : M B) t s m' :
  acquire (is_recursive m) t (mutex_of m s) = Some m' →
  (pthread_mutex_lock m ;; k) t s = k t (set_mutex m m' s).
Proof. intros H. unfold bind, pthread_mutex_lock. by rewrite H. Qed.

Lemma mutex_unlock_held {B} m (k : M B) t s m' :
  release t (mutex_of m s) = Some m' →
  (pthread_mutex_unlock m ;; k) t s = k t (set_mutex m m' s).
Proof. intros H. unfold bind, pthread_mutex_unlock. by rewrite H. Qed.

Lemma set_trace_same s : set_trace (trace s) s = s.
Proof. destruct s; reflexivity. Qed.

Lemma set_trace_twice v w s : set_trace v (set_trace w s) = set_trace v s.
Proof. destruct s; reflexivity. Qed.

Lemma load_statedump_handle_run handle h t s :
  node_find handle (side_statedump_list s) = Some h →
  load_statedump_handle handle t s = Done h s.
Proof. intros H. unfold load_statedump_handle, bind, gets. by rewrite H. Qed.

Lemma node_find_update {A} p (f : A → A) l a :
  node_find p l = Some a → node_find p (node_update p f l) = Some (f a).
Proof.
  induction l as [|[q x] l IH]; simpl; [done|].
  case_bool_decide as Hq; simpl.
  - intros [= ->]. rewrite bool_decide_eq_true_2 by done. reflexivity.
  - intros Hf. rewrite bool_decide_eq_false_2 by done. by apply IH.
Qed.

(** ** Handles that are not in polling mode (C10) *)

(** C10.  For a state-dump handle whose mode is not Polling,
    side_statedump_poll_pending_requests returns false and
    side_statedump_run_pending_requests returns SIDE_ERROR_INVAL; both
    return in the very state they were called in, whatever the handle's queue
    holds: the queue is neither examined nor drained, the mutex is not taken
    and no callback is invoked. *)
Theorem agent_handle_not_polled t s handle h :
  node_find handle (side_statedump_list s) = Some h →
  sd_mode h ≠ SIDE_STATEDUMP_MODE_POLLING →
  side_statedump_poll_pending_requests handle t s = Done false s
  ∧ side_statedump_run_pending_requests handle t s = Done SIDE_ERROR_INVAL s.
Proof.
  intros Hfind Hmode.
  assert (Hload : load_statedump_handle handle t s = Done h s).
  { unfold load_statedump_handle, bind, gets. rewrite Hfind. reflexivity. }
  assert (Hpoll : is_polling_mode (sd_mode h) = false) by (destruct (sd_mode h); done).
  split.
  - unfold side_statedump_poll_pending_requests.
    rewrite (bind_run _ _ _ _ _ _ Hload), Hpoll. reflexivity.
  - unfold side_statedump_run_pending_requests.
    rewrite (bind_run _ _ _ _ _ _ Hload), Hpoll. reflexivity.
Qed.

Lemma agent_handle_not_polled_witness :
  node_find 0x700 (side_statedump_list (agent_example [0; 9]))
  = Some (app_handle SIDE_STATEDUMP_MODE_AGENT_THREAD [0; 9]).2
  ∧ side_statedump_poll_pending_requests 0x700 1 (agent_example [0; 9])
    = Done false (agent_example [0; 9])
  ∧ side_statedump_run_pending_requests 0x700 1 (agent_example [0; 9])
    = Done SIDE_ERROR_INVAL (agent_example [0; 9]).
Proof.
  split; [reflexivity|].
  apply (agent_handle_not_polled 1 (agent_example [0; 9]) 0x700
           (app_handle SIDE_STATEDUMP_MODE_AGENT_THREAD [0; 9]).2);
    [reflexivity | discriminate].
Defined.

(** ** The key allocator (C8) *)

Lemma request_key_step t s :
  side_key_lock s = Unlocked →
  side_key_next s ≠ 0 →
  side_tracer_request_key t s
  = Done (SIDE_ERROR_OK, Some (side_key_next s))
      (set_side_key_next (u64 (side_key_next s + 1)) s).
Proof.
  intros Hlock Hnext.
  unfold side_tracer_request_key, bind, pthread_mutex_lock, pthread_mutex_unlock,
    gets, modify, ret.
  simpl. rewrite Hlock. simpl.
  rewrite bool_decide_eq_false_2 by done. simpl.
  rewrite bool_decide_eq_true_2 by done.
  destruct s; simpl in *; subst; reflexivity.
Qed.

Lemma request_key_exhausted t s :
  side_key_lock s = Unlocked →
  side_key_next s = 0 →
  side_tracer_request_key t s = Done (SIDE_ERROR_NOMEM, None) s.
Proof.
  intros Hlock Hnext.
  unfold side_tracer_request_key, bind, pthread_mutex_lock, pthread_mutex_unlock,
    gets, modify, ret.
  simpl. rewrite Hlock. simpl.
  rewrite bool_decide_eq_true_2 by done. simpl.
  rewrite bool_decide_eq_true_2 by done.
  destruct s; simpl in *; subst; reflexivity.
Qed.

(** From a counter at [k], [n] calls hand out [k], [k + 1], ... as long as
    the counter does not pass [2^64]. *)
Lemma request_keys_from n : ∀ k t s,
  side_key_lock s = Unlocked →
  side_key_next s = k →
  0 < k < 2 ^ 64 →
  k + Z.of_nat n ≤ 2 ^ 64 →
  request_keys n t s
  = Done (map (λ i : nat, (SIDE_ERROR_OK, Some (k + Z.of_nat i))) (seq 0 n))
      (set_side_key_next (u64 (k + Z.of_nat n)) s).
Proof.
  induction n as [|n IH]; intros k t s Hlock Hk Hpos Hle.
  - simpl. unfold ret. f_equal.
    rewrite Z.add_0_r. unfold u64. rewrite Z.mod_small by lia.
    destruct s; simpl in *; subst; reflexivity.
  - cbn [request_keys].
    rewrite (bind_run _ _ _ _ _ _ (request_key_step t s Hlock ltac:(lia))).
    destruct n as [|n].
    + simpl. unfold bind, ret. rewrite Z.add_0_r, Hk. reflexivity.
    + assert (Hstep : side_key_next (set_side_key_next (u64 (side_key_next s + 1)) s)
                      = k + 1).
      { simpl. rewrite Hk. unfold u64. apply Z.mod_small. lia. }
      rewrite (bind_run _ _ _ _ _ _
                 (IH (k + 1) t (set_side_key_next (u64 (side_key_next s + 1)) s)
                    ltac:(done) Hstep ltac:(lia) ltac:(lia))).
      unfold ret. f_equal.
      * change (seq 0 (S (S n))) with (0%nat :: seq 1 (S n)).
        cbn [map]. rewrite Z.add_0_r, Hk. f_equal.
        rewrite <- seq_shift, map_map. apply map_ext. intros i. do 2 f_equal. lia.
      * replace (k + 1 + Z.of_nat (S n)) with (k + Z.of_nat (S (S n))) by lia.
        destruct s; reflexivity.
Qed.

(** C8.  With the counter at its initial value 8, [n] successive calls of
    side_tracer_request_key all return SIDE_ERROR_OK and store 8, 9, ...,
    8 + n - 1 in turn (each the previous key plus one, none below 8), as long
    as the counter has not wrapped; the counter is then at 8 + n modulo 2^64.
    Once the counter is 0, the call returns SIDE_ERROR_NOMEM, stores nothing
    and leaves the state as it was. *)
Theorem request_key_fresh_keys t s n :
  side_key_lock s = Unlocked →
  side_key_next s = SIDE_KEY_RESERVED_RANGE_END →
  8 + Z.of_nat n ≤ 2 ^ 64 →
  (∃ s',
     request_keys n t s
     = Done (map (λ i : nat, (SIDE_ERROR_OK, Some (8 + Z.of_nat i))) (seq 0 n)) s'
     ∧ side_key_next s' = u64 (8 + Z.of_nat n))
  ∧ (∀ s0, side_key_lock s0 = Unlocked → side_key_next s0 = 0 →
       side_tracer_request_key t s0 = Done (SIDE_ERROR_NOMEM, None) s0).
Proof.
  intros Hlock Hnext Hle. split.
  - eexists. split.
    + apply (request_keys_from n 8 t s Hlock Hnext); lia.
    + reflexivity.
  - intros s0. apply request_key_exhausted.
Qed.

Lemma request_key_fresh_keys_witness :
  request_keys 3 1 (lib_initial ∅)
  = Done [(SIDE_ERROR_OK, Some 8); (SIDE_ERROR_OK, Some 9); (SIDE_ERROR_OK, Some 10)]
      (set_side_key_next 11 (lib_initial ∅)).
Proof.
  destruct (request_key_fresh_keys 1 (lib_initial ∅) 3) as [(s' & Hrun & Hnext) _];
    [reflexivity | reflexivity | vm_compute; discriminate |].
  rewrite Hrun. f_equal.
  vm_compute in Hrun. injection Hrun as <-. reflexivity.
Defined.

(** ** The statedump mutex in request and cancel (C3) *)

(** C3.  Thread 1 registers a polling state-dump handle on a fresh library;
    the statedump mutex is free afterwards and the initial MATCH_ALL request
    is queued.  side_tracer_statedump_request(8), called by the tracer's
    thread 4, enqueues key 8 on the handle and returns SIDE_ERROR_OK, but it
    returns holding the statedump mutex at depth 2: both of its
    pthread_mutex_lock calls acquire, none releases.
    side_tracer_statedump_request_cancel(8), called next by the same thread,
    removes the key, returns SIDE_ERROR_OK and leaves the mutex at depth 4.
    With key SIDE_KEY_MATCH_ALL both return SIDE_ERROR_INVAL without touching
    the state. *)
Theorem statedump_request_keeps_mutex :
  ∃ s1 s2 s3,
    side_statedump_request_notification_register "app" 0xCB SIDE_STATEDUMP_MODE_POLLING
      1 (lib_initial static_events) = Done (Some 1) s1
    ∧ side_statedump_list s1
      = [(1, mk_statedump_handle [0] 0xCB "app" SIDE_STATEDUMP_MODE_POLLING)]
    ∧ side_statedump_lock s1 = Unlocked
    ∧ side_tracer_statedump_request 8 4 s1 = Done SIDE_ERROR_OK s2
    ∧ side_statedump_list s2
      = [(1, mk_statedump_handle [0; 8] 0xCB "app" SIDE_STATEDUMP_MODE_POLLING)]
    ∧ side_statedump_lock s2 = Locked 4 1
    ∧ lock_depth (side_statedump_lock s2) = 2%nat
    ∧ side_tracer_statedump_request_cancel 8 4 s2 = Done SIDE_ERROR_OK s3
    ∧ side_statedump_list s3
      = [(1, mk_statedump_handle [0] 0xCB "app" SIDE_STATEDUMP_MODE_POLLING)]
    ∧ lock_depth (side_statedump_lock s3) = 4%nat
    ∧ side_tracer_statedump_request SIDE_KEY_MATCH_ALL 4 s1 = Done SIDE_ERROR_INVAL s1
    ∧ side_tracer_statedump_request_cancel SIDE_KEY_MATCH_ALL 4 s1
      = Done SIDE_ERROR_INVAL s1.
Proof.
  do 3 eexists.
  split; [vm_compute; reflexivity|].
  split; [reflexivity|]. split; [reflexivity|].
  split; [vm_compute; reflexivity|].
  split; [reflexivity|]. split; [reflexivity|]. split; [reflexivity|].
  split; [vm_compute; reflexivity|].
  repeat split; reflexivity.
Qed.

(** ** Request, cancel and drain (C7) *)

(** C7.  Thread 1 registers an agent-mode handle on a fresh library: the
    agent thread (thread 3) is started, serves the initial MATCH_ALL request
    and waits.  The tracer's thread 4 obtains key 8 and calls
    side_tracer_statedump_request(8): the key is queued on the handle,
    HANDLE_REQUEST is flagged, SIDE_ERROR_OK is returned, and the statedump
    mutex stays held by thread 4.  The agent thread's next pass then blocks on
    that mutex in the state the request left: the handle's callback has been
    invoked for the initial request only, not for key 8, which stays queued.
    The same happens to a polling handle when the application's thread 1
    drains it with side_statedump_run_pending_requests after the request. *)
Theorem statedump_request_blocks_drain :
  (∃ s1 s2 s3,
     side_statedump_request_notification_register "app" 0xCB
       SIDE_STATEDUMP_MODE_AGENT_THREAD 1 (lib_initial static_events) = Done (Some 1) s1
     ∧ statedump_agent_thread s1 = mk_agent 1 3 AGENT_THREAD_STATE_BLOCKED
     ∧ trace s1 = [Call_statedump 0xCB SIDE_KEY_MATCH_ALL]
     ∧ side_tracer_request_key 4 s1 = Done (SIDE_ERROR_OK, Some 8) s2
     ∧ side_tracer_statedump_request 8 4 s2 = Done SIDE_ERROR_OK s3
     ∧ side_statedump_list s3
       = [(1, mk_statedump_handle [8] 0xCB "app" SIDE_STATEDUMP_MODE_AGENT_THREAD)]
     ∧ agent_state (statedump_agent_thread s3) = AGENT_THREAD_STATE_HANDLE_REQUEST
     ∧ side_statedump_lock s3 = Locked 4 1
     ∧ statedump_agent_func 3 s3 = Blocked s3
     ∧ trace s3 = [Call_statedump 0xCB SIDE_KEY_MATCH_ALL])
  ∧ (∃ s1 s2 s3,
       side_statedump_request_notification_register "app" 0xCB
         SIDE_STATEDUMP_MODE_POLLING 1 (lib_initial static_events) = Done (Some 1) s1
       ∧ side_statedump_run_pending_requests 1 1 s1 = Done SIDE_ERROR_OK s2
       ∧ trace s2 = [Call_statedump 0xCB SIDE_KEY_MATCH_ALL]
       ∧ side_tracer_statedump_request 8 4 s2 = Done SIDE_ERROR_OK s3
       ∧ side_statedump_list s3
         = [(1, mk_statedump_handle [8] 0xCB "app" SIDE_STATEDUMP_MODE_POLLING)]
       ∧ side_statedump_run_pending_requests 1 1 s3 = Blocked s3
       ∧ trace s3 = [Call_statedump 0xCB SIDE_KEY_MATCH_ALL]).
Proof.
  split.
  - do 3 eexists. split; [vm_compute; reflexivity|].
    split; [reflexivity|]. split; [reflexivity|].
    split; [vm_compute; reflexivity|]. split; [vm_compute; reflexivity|].
    repeat split; reflexivity.
  - do 3 eexists. split; [vm_compute; reflexivity|].
    split; [vm_compute; reflexivity|]. split; [reflexivity|].
    split; [vm_compute; reflexivity|]. repeat split; reflexivity.
Qed.

(** A statedump mutex held by another thread blocks both ways of draining. *)
Lemma held_mutex_blocks_drain t o n s :
  side_statedump_lock s = Locked o n →
  o ≠ t →
  statedump_agent_func t s = Blocked s
  ∧ ∀ handle h,
      node_find handle (side_statedump_list s) = Some h →
      sd_mode h = SIDE_STATEDUMP_MODE_POLLING →
      side_statedump_run_pending_requests handle t s = Blocked s.
Proof.
  intros Hlock Hne.
  assert (Hblocked : pthread_mutex_lock Statedump_lock t s = Blocked s).
  { unfold pthread_mutex_lock. simpl. rewrite Hlock. simpl.
    by rewrite bool_decide_eq_false_2. }
  split.
  - unfold statedump_agent_func, bind. by rewrite Hblocked.
  - intros handle h Hfind Hmode.
    unfold side_statedump_run_pending_requests, load_statedump_handle.
    rewrite bind_assoc, bind_gets, Hfind, bind_ret, Hmode. simpl.
    unfold _side_statedump_run_pending_requests, bind. by rewrite Hblocked.
Qed.

(** Where the mutex does not stand in the way, the code does what C7 says.
    Thread 1 alone, on the polling handle: a request followed by a cancel
    leaves nothing to drain and the callback is not invoked; a request
    followed by side_statedump_run_pending_requests invokes the callback
    once, with key 8.  And an agent thread that finds key 8 queued and the
    mutex free invokes the callback once, with key 8. *)
Lemma statedump_drain_without_contention :
  (∃ s1 s2 s3,
     side_tracer_statedump_request 8 1 polling_example = Done SIDE_ERROR_OK s1
     ∧ side_tracer_statedump_request_cancel 8 1 s1 = Done SIDE_ERROR_OK s2
     ∧ side_statedump_run_pending_requests 0x700 1 s2 = Done SIDE_ERROR_OK s3
     ∧ trace s3 = [])
  ∧ (∃ s1 s2,
       side_tracer_statedump_request 8 1 polling_example = Done SIDE_ERROR_OK s1
       ∧ side_statedump_run_pending_requests 0x700 1 s1 = Done SIDE_ERROR_OK s2
       ∧ trace s2 = [Call_statedump 0xCB 8]
       ∧ side_statedump_list s2 = [app_handle SIDE_STATEDUMP_MODE_POLLING []])
  ∧ (∃ s1,
       statedump_agent_func 2
         (set_statedump_agent_thread (mk_agent 1 2 AGENT_THREAD_STATE_HANDLE_REQUEST)
            (agent_example [8]))
       = Done Agent_served s1
       ∧ trace s1 = [Call_statedump 0xCB 8]
       ∧ side_statedump_list s1 = [app_handle SIDE_STATEDUMP_MODE_AGENT_THREAD []]
       ∧ agent_state (statedump_agent_thread s1) = AGENT_THREAD_STATE_BLOCKED).
Proof.
  split; [|split].
  - do 3 eexists. split; [vm_compute; reflexivity|].
    split; [vm_compute; reflexivity|]. split; [vm_compute; reflexivity|]. reflexivity.
  - do 2 eexists. split; [vm_compute; reflexivity|].
    split; [vm_compute; reflexivity|]. split; reflexivity.
  - eexists. split; [vm_compute; reflexivity|]. repeat split; reflexivity.
Qed.

(** ** Operations after side_exit (C4) *)

(** *** Code that never looks at the finalized flag *)

Lemma ignores_ret {A} (a : A) : ignores_finalized (ret a).
Proof. intros b t s. reflexivity. Qed.

Lemma ignores_bind {A B} (m : M A) (k : A → M B) :
  ignores_finalized m → (∀ a, ignores_finalized (k a)) → ignores_finalized (bind m k).
Proof.
  intros Hm Hk b t s. unfold bind. rewrite Hm.
  destruct (m t s) as [a s1| | |s1]; simpl; try reflexivity. apply Hk.
Qed.

Lemma ignores_gets {A} (f : lib → A) :
  (∀ b s, f (set_finalized b s) = f s) → ignores_finalized (gets f).
Proof. intros Hf b t s. unfold gets. rewrite Hf. reflexivity. Qed.

Lemma ignores_modify (f : lib → lib) :
  (∀ b s, f (set_finalized b s) = set_finalized b (f s)) → ignores_finalized (modify f).
Proof. intros Hf b t s. unfold modify. rewrite Hf. reflexivity. Qed.

Lemma ignores_abort {A} : ignores_finalized (@abort A).
Proof. intros b t s. reflexivity. Qed.

Lemma ignores_fault {A} : ignores_finalized (@fault A).
Proof. intros b t s. reflexivity. Qed.

Lemma ignores_when (c : bool) (m : M unit) :
  ignores_finalized m → ignores_finalized (when c m).
Proof. intros Hm. destruct c; [exact Hm | apply ignores_ret]. Qed.

Lemma ignores_for_each {A} (l : list A) (body : A → M unit) :
  (∀ a, ignores_finalized (body a)) → ignores_finalized (for_each l body).
Proof.
  intros Hbody. induction l as [|a l IH]; simpl.
  - apply ignores_ret.
  - apply ignores_bind; [apply Hbody | intros _; exact IH].
Qed.

Lemma ignores_lock m : ignores_finalized (pthread_mutex_lock m).
Proof.
  intros b t s. unfold pthread_mutex_lock.
  replace (mutex_of m (set_finalized b s)) with (mutex_of m s) by (by destruct m).
  destruct (acquire _ t (mutex_of m s)); simpl; [|reflexivity].
  by destruct m.
Qed.

Lemma ignores_unlock m : ignores_finalized (pthread_mutex_unlock m).
Proof.
  intros b t s. unfold pthread_mutex_unlock.
  replace (mutex_of m (set_finalized b s)) with (mutex_of m s) by (by destruct m).
  destruct (release t (mutex_of m s)); simpl; [|reflexivity].
  by destruct m.
Qed.

Lemma ignores_alloc_attempt : ignores_finalized alloc_attempt.
Proof.
  intros b t s. unfold alloc_attempt.
  change (oom_script (set_finalized b s)) with (oom_script s).
  destruct (oom_script s) as [|[] rest]; reflexivity.
Qed.

Lemma ignores_load_statedump_handle handle :
  ignores_finalized (load_statedump_handle handle).
Proof.
  apply ignores_bind; [apply ignores_gets; reflexivity|].
  intros l. destruct (node_find handle l); [apply ignores_ret | apply ignores_fault].
Qed.

Lemma ignores_update_statedump_handle handle f :
  ignores_finalized (update_statedump_handle handle f).
Proof.
  apply ignores_bind; [apply ignores_load_statedump_handle|].
  intros _. apply ignores_modify. reflexivity.
Qed.

Lemma ignores_queue_statedump_pending handle key :
  ignores_finalized (queue_statedump_pending handle key).
Proof.
  apply ignores_bind; [apply ignores_alloc_attempt|].
  intros [p|]; [|apply ignores_abort].
  apply ignores_bind; [apply ignores_update_statedump_handle|]. intros _.
  apply ignores_bind; [apply ignores_load_statedump_handle|]. intros h.
  apply ignores_when, ignores_modify. reflexivity.
Qed.

Lemma ignores_unqueue_statedump_pending handle key :
  ignores_finalized (unqueue_statedump_pending handle key).
Proof. apply ignores_update_statedump_handle. Qed.

Lemma request_key_ignores_finalized : ignores_finalized side_tracer_request_key.
Proof.
  apply ignores_bind; [apply ignores_lock|]. intros _.
  apply ignores_bind; [apply ignores_gets; reflexivity|]. intros next.
  apply ignores_bind.
  - case_bool_decide; [apply ignores_ret|].
    apply ignores_bind; [apply ignores_modify; reflexivity|]. intros _. apply ignores_ret.
  - intros r. apply ignores_bind; [apply ignores_unlock|]. intros _. apply ignores_ret.
Qed.

Lemma statedump_request_ignores_finalized key :
  ignores_finalized (side_tracer_statedump_request key).
Proof.
  unfold side_tracer_statedump_request. case_bool_decide; [apply ignores_ret|].
  apply ignores_bind; [apply ignores_lock|]. intros _.
  apply ignores_bind; [apply ignores_gets; reflexivity|]. intros handles.
  apply ignores_bind;
    [apply ignores_for_each; intros a; apply ignores_queue_statedump_pending|].
  intros _. apply ignores_bind; [apply ignores_lock|]. intros _. apply ignores_ret.
Qed.

Lemma statedump_cancel_ignores_finalized key :
  ignores_finalized (side_tracer_statedump_request_cancel key).
Proof.
  unfold side_tracer_statedump_request_cancel. case_bool_decide; [apply ignores_ret|].
  apply ignores_bind; [apply ignores_lock|]. intros _.
  apply ignores_bind; [apply ignores_gets; reflexivity|]. intros handles.
  apply ignores_bind;
    [apply ignores_for_each; intros a; apply ignores_unqueue_statedump_pending|].
  intros _. apply ignores_bind; [apply ignores_lock|]. intros _. apply ignores_ret.
Qed.

Lemma finalized_eta s : finalized s = true → s = set_finalized true (set_finalized false s).
Proof. intros H. destruct s; simpl in *; subst; reflexivity. Qed.

Lemma finalized_statedump_run handle h notif_key t s :
  finalized s = true →
  node_find handle (side_statedump_list s) = Some h →
  side_statedump_run handle notif_key t s
  = Done tt (set_trace (trace s ++ [Call_statedump (sd_cb h) notif_key]) s).
Proof.
  intros Hfin Hfind.
  unfold side_statedump_run, load_statedump_handle.
  rewrite bind_assoc, bind_gets, Hfind, bind_ret.
  unfold side_statedump_event_call, side_statedump_call, _side_call.
  rewrite bind_assoc, bind_gets, Hfin, bind_ret.
  unfold invoke. rewrite bind_modify, bind_gets.
  change (finalized (set_trace (trace s ++ [Call_statedump (sd_cb h) notif_key]) s))
    with (finalized s).
  rewrite Hfin. reflexivity.
Qed.

Lemma finalized_statedump_run_loop handle h t keys : ∀ s,
  finalized s = true →
  node_find handle (side_statedump_list s) = Some h →
  for_each keys (λ notif_key, side_statedump_run handle notif_key) t s
  = Done tt (set_trace (trace s ++ map (Call_statedump (sd_cb h)) keys) s).
Proof.
  induction keys as [|k keys IH]; intros s Hfin Hfind; simpl.
  - rewrite app_nil_r, set_trace_same. reflexivity.
  - rewrite (bind_run _ _ _ _ _ _ (finalized_statedump_run handle h k t s Hfin Hfind)).
    rewrite IH by assumption.
    rewrite set_trace_twice. cbn [trace set_trace]. rewrite <- app_assoc. reflexivity.
Qed.

Lemma finalized_run_pending handle h t s :
  finalized s = true →
  node_find handle (side_statedump_list s) = Some h →
  sd_mode h = SIDE_STATEDUMP_MODE_POLLING →
  available true t (side_statedump_lock s) →
  side_statedump_run_pending_requests handle t s
  = Done SIDE_ERROR_OK
      (set_trace (trace s ++ map (Call_statedump (sd_cb h)) (notification_queue h))
         (set_side_statedump_list
            (node_update handle (set_notification_queue []) (side_statedump_list s)) s)).
Proof.
  intros Hfin Hfind Hmode [m' Hacq].
  unfold side_statedump_run_pending_requests.
  rewrite (bind_run _ _ _ _ _ _ (load_statedump_handle_run _ _ t s Hfind)), Hmode.
  change (negb (is_polling_mode SIDE_STATEDUMP_MODE_POLLING)) with false. cbv iota.
  unfold _side_statedump_run_pending_requests.
  rewrite !bind_assoc.
  rewrite (mutex_lock_available Statedump_lock _ t s m') by exact Hacq.
  rewrite ?bind_assoc.
  rewrite (bind_run _ _ _ _ _ _
             (load_statedump_handle_run handle h t (set_mutex Statedump_lock m' s) Hfind)).
  unfold update_statedump_handle. rewrite !bind_assoc.
  rewrite (bind_run _ _ _ _ _ _
             (load_statedump_handle_run handle h t (set_mutex Statedump_lock m' s) Hfind)).
  rewrite bind_modify, ?bind_assoc.
  rewrite (mutex_unlock_held Statedump_lock _ t _ (side_statedump_lock s))
    by (exact (acquire_release _ _ _ _ Hacq)).
  rewrite Hmode. change (is_agent_mode SIDE_STATEDUMP_MODE_POLLING) with false.
  unfold when. rewrite ?bind_assoc.
  erewrite (bind_run (for_each _ _)); cycle 1.
  { apply (finalized_statedump_run_loop handle (set_notification_queue [] h)).
    - exact Hfin.
    - simpl. by apply node_find_update. }
  rewrite bind_ret. unfold ret. f_equal.
Qed.

(** C4, as stated, fails.  Thread 1 registers a polling state-dump handle
    and calls side_exit; the state reached is finalized and the handle is
    still registered.  There side_tracer_request_key returns SIDE_ERROR_OK
    with key 8 and advances the counter to 9;
    side_tracer_statedump_request(8) returns SIDE_ERROR_OK and queues key 8
    on the handle.  Called after that request,
    side_tracer_statedump_request_cancel(8) returns SIDE_ERROR_OK and takes
    key 8 out of the queue again, and side_statedump_run_pending_requests,
    called in its place, returns SIDE_ERROR_OK, empties the queue and invokes
    the application's callback for both queued keys.  None of the four
    returns SIDE_ERROR_EXITING, and each changes more of the state than the
    mutex.  side_exit on a library where nothing was registered ends in a
    finalized state as well. *)
Lemma unguarded_operations_after_exit :
  side_exit 1 (lib_initial static_events) = Done tt exited_example
  ∧ finalized exited_example = true
  ∧ ¬ inert_after_exit (λ r, r.1 = SIDE_ERROR_EXITING) side_tracer_request_key
  ∧ ¬ inert_after_exit (λ r, r = SIDE_ERROR_EXITING) (side_tracer_statedump_request 8)
  ∧ ¬ inert_after_exit (λ r, r = SIDE_ERROR_EXITING)
        (side_tracer_statedump_request_cancel 8)
  ∧ ¬ inert_after_exit (λ r, r = SIDE_ERROR_EXITING)
        (side_statedump_run_pending_requests 1)
  ∧ (∃ s0 s1 s2 s3,
       side_statedump_request_notification_register "app" 0xCB
         SIDE_STATEDUMP_MODE_POLLING 1 (lib_initial static_events) = Done (Some 1) s0
       ∧ side_exit 1 s0 = Done tt exited_polling
       ∧ finalized exited_polling = true
       ∧ side_statedump_list exited_polling
         = [(1, mk_statedump_handle [0] 0xCB "app" SIDE_STATEDUMP_MODE_POLLING)]
       ∧ side_tracer_request_key 1 exited_polling = Done (SIDE_ERROR_OK, Some 8) s1
       ∧ side_key_next exited_polling = 8
       ∧ side_key_next s1 = 9
       ∧ side_tracer_statedump_request 8 1 exited_polling
         = Done SIDE_ERROR_OK exited_requested
       ∧ finalized exited_requested = true
       ∧ side_statedump_list exited_requested
         = [(1, mk_statedump_handle [0; 8] 0xCB "app" SIDE_STATEDUMP_MODE_POLLING)]
       ∧ side_tracer_statedump_request_cancel 8 1 exited_requested
         = Done SIDE_ERROR_OK s2
       ∧ side_statedump_list s2
         = [(1, mk_statedump_handle [0] 0xCB "app" SIDE_STATEDUMP_MODE_POLLING)]
       ∧ side_statedump_run_pending_requests 1 1 exited_requested
         = Done SIDE_ERROR_OK s3
       ∧ side_statedump_list s3
         = [(1, mk_statedump_handle [] 0xCB "app" SIDE_STATEDUMP_MODE_POLLING)]
       ∧ trace exited_requested = []
       ∧ trace s3 = [Call_statedump 0xCB 0; Call_statedump 0xCB 8]).
Proof.
  split; [reflexivity|]. split; [reflexivity|].
  split; [|split; [|split; [|split]]].
  - intros H. destruct (H 1 exited_example eq_refl) as (a & s' & Hrun & Hor).
    vm_compute in Hrun. injection Hrun as <- <-.
    destruct Hor as [Hex|Hsame]; [discriminate Hex|].
    apply (f_equal side_key_next) in Hsame. discriminate Hsame.
  - intros H. destruct (H 1 exited_polling eq_refl) as (a & s' & Hrun & Hor).
    vm_compute in Hrun. injection Hrun as <- <-.
    destruct Hor as [Hex|Hsame]; [discriminate Hex|].
    apply (f_equal side_statedump_list) in Hsame. discriminate Hsame.
  - intros H. destruct (H 1 exited_requested eq_refl) as (a & s' & Hrun & Hor).
    vm_compute in Hrun. injection Hrun as <- <-.
    destruct Hor as [Hex|Hsame]; [discriminate Hex|].
    apply (f_equal side_statedump_list) in Hsame. discriminate Hsame.
  - intros H. destruct (H 1 exited_requested eq_refl) as (a & s' & Hrun & Hor).
    vm_compute in Hrun. injection Hrun as <- <-.
    destruct Hor as [Hex|Hsame]; [discriminate Hex|].
    apply (f_equal trace) in Hsame. discriminate Hsame.
  - do 4 eexists.
    split; [vm_compute; reflexivity|].
    split; [vm_compute; reflexivity|].
    split; [reflexivity|]. split; [reflexivity|].
    split; [vm_compute; reflexivity|].
    split; [reflexivity|]. split; [reflexivity|].
    split; [vm_compute; reflexivity|].
    split; [reflexivity|]. split; [reflexivity|].
    split; [vm_compute; reflexivity|].
    split; [reflexivity|].
    split; [vm_compute; reflexivity|].
    repeat split; reflexivity.
Qed.

(** C4, amended.  Once the finalized flag is set, every operation that tests
    it returns in the state it was called in: the emits return silently;
    callback registration and unregistration return SIDE_ERROR_EXITING when
    given a non-null function of the event's variant and SIDE_ERROR_INVAL
    otherwise; the operations returning a handle return NULL; the
    unregistrations of handles and side_exit return silently.
    side_statedump_poll_pending_requests does not test the flag: it changes
    no state either, and still reports whether requests are pending.
    side_tracer_request_key, side_tracer_statedump_request and
    side_tracer_statedump_request_cancel never look at the flag: each has the
    outcome it has in the same state with the flag clear, and leaves the
    flag set.  side_statedump_run_pending_requests does not test the flag
    either: on a handle that is not polling it returns SIDE_ERROR_INVAL in
    the state it was called in, and on a polling handle it returns
    SIDE_ERROR_OK, empties the queue of the handle and invokes the
    application's state-dump callback once for every queued key, in queue
    order; only the statedump_begin and statedump_end events around each
    invocation are silenced, by the test of the flag in the emit. *)
Theorem finalized_operations_inert t s desc e :
  finalized s = true →
  event_store s !! desc = Some e →
  (∀ sav key, _side_call desc sav key t s = Done tt s)
  ∧ (∀ sav var_struct key, _side_call_variadic desc sav var_struct key t s = Done tt s)
  ∧ (∀ call priv key,
       side_tracer_callback_register desc call priv key t s
       = Done (if is_variadic e || bool_decide (call = NULL)
               then SIDE_ERROR_INVAL else SIDE_ERROR_EXITING) s
       ∧ side_tracer_callback_variadic_register desc call priv key t s
         = Done (if negb (is_variadic e) || bool_decide (call = NULL)
                 then SIDE_ERROR_INVAL else SIDE_ERROR_EXITING) s
       ∧ side_tracer_callback_unregister desc call priv key t s
         = Done (if is_variadic e || bool_decide (call = NULL)
                 then SIDE_ERROR_INVAL else SIDE_ERROR_EXITING) s
       ∧ side_tracer_callback_variadic_unregister desc call priv key t s
         = Done (if negb (is_variadic e) || bool_decide (call = NULL)
                 then SIDE_ERROR_INVAL else SIDE_ERROR_EXITING) s)
  ∧ (∀ events nr_events, side_events_register events nr_events t s = Done None s)
  ∧ (∀ events_handle, side_events_unregister events_handle t s = Done tt s)
  ∧ (∀ cb priv, side_tracer_event_notification_register cb priv t s = Done None s)
  ∧ (∀ tracer_handle, side_tracer_event_notification_unregister tracer_handle t s = Done tt s)
  ∧ (∀ name cb mode,
       side_statedump_request_notification_register name cb mode t s = Done None s)
  ∧ (∀ handle, side_statedump_request_notification_unregister handle t s = Done tt s)
  ∧ side_exit t s = Done tt s
  ∧ (∀ handle h,
       node_find handle (side_statedump_list s) = Some h →
       available true t (side_statedump_lock s) →
       side_statedump_poll_pending_requests handle t s
       = Done (is_polling_mode (sd_mode h)
               && negb (bool_decide (notification_queue h = []))) s)
  ∧ side_tracer_request_key t s
    = outcome_map (set_finalized true) (side_tracer_request_key t (set_finalized false s))
  ∧ (∀ key,
       side_tracer_statedump_request key t s
       = outcome_map (set_finalized true)
           (side_tracer_statedump_request key t (set_finalized false s)))
  ∧ (∀ key,
       side_tracer_statedump_request_cancel key t s
       = outcome_map (set_finalized true)
           (side_tracer_statedump_request_cancel key t (set_finalized false s)))
  ∧ (∀ handle h,
       node_find handle (side_statedump_list s) = Some h →
       available true t (side_statedump_lock s) →
       side_statedump_run_pending_requests handle t s
       = if is_polling_mode (sd_mode h)
         then Done SIDE_ERROR_OK
                (set_trace
                   (trace s ++ map (Call_statedump (sd_cb h)) (notification_queue h))
                   (set_side_statedump_list
                      (node_update handle (set_notification_queue [])
                         (side_statedump_list s)) s))
         else Done SIDE_ERROR_INVAL s).
Proof.
  intros Hfin Hev.
  assert (Hload : load_event desc t s = Done e s).
  { unfold load_event, bind, gets. rewrite Hev. reflexivity. }
  repeat split; intros.
  - unfold _side_call, bind, gets. rewrite Hfin. reflexivity.
  - unfold _side_call_variadic, bind, gets. rewrite Hfin. reflexivity.
  - unfold side_tracer_callback_register. rewrite (bind_run _ _ _ _ _ _ Hload).
    destruct (is_variadic e); [reflexivity|].
    unfold _side_tracer_callback_register. simpl.
    case_bool_decide; [reflexivity|]. unfold bind, gets. rewrite Hfin. reflexivity.
  - unfold side_tracer_callback_variadic_register. rewrite (bind_run _ _ _ _ _ _ Hload).
    destruct (is_variadic e); [|reflexivity].
    unfold _side_tracer_callback_register. simpl.
    case_bool_decide; [reflexivity|]. unfold bind, gets. rewrite Hfin. reflexivity.
  - unfold side_tracer_callback_unregister. rewrite (bind_run _ _ _ _ _ _ Hload).
    destruct (is_variadic e); [reflexivity|].
    unfold _side_tracer_callback_unregister. simpl.
    case_bool_decide; [reflexivity|]. unfold bind, gets. rewrite Hfin. reflexivity.
  - unfold side_tracer_callback_variadic_unregister. rewrite (bind_run _ _ _ _ _ _ Hload).
    destruct (is_variadic e); [|reflexivity].
    unfold _side_tracer_callback_unregister. simpl.
    case_bool_decide; [reflexivity|]. unfold bind, gets. rewrite Hfin. reflexivity.
  - unfold side_events_register, bind, gets. rewrite Hfin. reflexivity.
  - unfold side_events_unregister. case_bool_decide; [reflexivity|].
    unfold bind, gets. rewrite Hfin. reflexivity.
  - unfold side_tracer_event_notification_register, bind, gets. rewrite Hfin. reflexivity.
  - unfold side_tracer_event_notification_unregister, bind, gets. rewrite Hfin. reflexivity.
  - unfold side_statedump_request_notification_register, bind, gets.
    rewrite Hfin. reflexivity.
  - unfold side_statedump_request_notification_unregister, bind, gets.
    rewrite Hfin. reflexivity.
  - unfold side_exit, bind, gets. rewrite Hfin. reflexivity.
  - assert (Hh : ∀ s1, side_statedump_list s1 = side_statedump_list s →
                   load_statedump_handle handle t s1 = Done h s1).
    { intros s1 Hs1. unfold load_statedump_handle, bind, gets. rewrite Hs1, H. reflexivity. }
    unfold side_statedump_poll_pending_requests.
    pose proof (Hh s eq_refl) as Hl. rewrite (bind_run _ _ _ _ _ _ Hl).
    destruct (is_polling_mode (sd_mode h)); [|reflexivity]. simpl.
    destruct H0 as [m' Hacq].
    unfold bind at 1. unfold pthread_mutex_lock. simpl. rewrite Hacq.
    erewrite (bind_run (load_statedump_handle handle))
      by (apply Hh; destruct s; reflexivity).
    unfold bind, pthread_mutex_unlock, ret. simpl.
    rewrite (acquire_release _ _ _ _ Hacq).
    destruct s; reflexivity.
  - rewrite (finalized_eta s Hfin) at 1. apply request_key_ignores_finalized.
  - rewrite (finalized_eta s Hfin) at 1. apply statedump_request_ignores_finalized.
  - rewrite (finalized_eta s Hfin) at 1. apply statedump_cancel_ignores_finalized.
  - destruct (sd_mode h) eqn:Hmode.
    + simpl. by apply finalized_run_pending.
    + simpl. unfold side_statedump_run_pending_requests.
      rewrite (bind_run _ _ _ _ _ _ (load_statedump_handle_run _ _ t s H)), Hmode.
      reflexivity.
Qed.

Lemma finalized_operations_inert_witness :
  finalized exited_requested = true
  ∧ event_store exited_requested !! side_statedump_begin = Some (initial_event 0)
  ∧ side_call side_statedump_begin (Arg_opaque 0) 1 exited_requested
    = Done tt exited_requested
  ∧ side_tracer_callback_register side_statedump_begin 0x401136 0xA 9 1 exited_requested
    = Done SIDE_ERROR_EXITING exited_requested
  ∧ side_tracer_callback_variadic_unregister side_statedump_begin 0x401136 0xA 9 1
      exited_requested
    = Done SIDE_ERROR_INVAL exited_requested
  ∧ side_events_register [side_statedump_begin] 1 1 exited_requested
    = Done None exited_requested
  ∧ side_statedump_poll_pending_requests 1 1 exited_requested
    = Done true exited_requested
  ∧ side_tracer_statedump_request_cancel 8 1 exited_requested
    = outcome_map (set_finalized true)
        (side_tracer_statedump_request_cancel 8 1 (set_finalized false exited_requested))
  ∧ side_statedump_run_pending_requests 1 1 exited_requested
    = Done SIDE_ERROR_OK
        (set_trace [Call_statedump 0xCB 0; Call_statedump 0xCB 8]
           (set_side_statedump_list
              [(1, mk_statedump_handle [] 0xCB "app" SIDE_STATEDUMP_MODE_POLLING)]
              exited_requested)).
Proof.
  destruct (finalized_operations_inert 1 exited_requested side_statedump_begin
              (initial_event 0) eq_refl eq_refl)
    as (Hcall & _ & Hcb & Hreg & _ & _ & _ & _ & _ & _ & Hpoll & _ & _ & Hcancel & Hrun).
  split; [reflexivity|]. split; [reflexivity|].
  split; [apply Hcall|].
  destruct (Hcb 0x401136 0xA 9) as (Hr & _ & _ & Hvu).
  split; [exact Hr|]. split; [exact Hvu|]. split; [apply Hreg|].
  split; [exact (Hpoll 1 _ eq_refl (ex_intro _ (Locked 1 2) eq_refl))|].
  split; [apply Hcancel|].
  exact (Hrun 1 _ eq_refl (ex_intro _ (Locked 1 2) eq_refl)).
Defined.

(** ** The arrays built by registration and unregistration (C1, C2) *)

(** C1.  On an initialized library, thread 1 attaches callbacks A, B and C to
    the event at 0x100; every call returns SIDE_ERROR_OK and raises
    nr_callbacks by one.  The first array is {A, sentinel}.  The second has
    three entries and ends with B and a zeroed sentinel, but its first entry
    is not A: [memcpy(new_cb, old_cb, old_nr_cb)] copied one byte, so only the
    low byte 0x36 of A's function pointer is left, with NULL [priv] and key 0.
    The third array has four entries: two bytes of the first entry, a zeroed
    second entry, C, and the sentinel; a walk from [callbacks] stops at the
    second entry, so one callback is reachable while nr_callbacks is 3. *)
Theorem register_copies_bytes_not_entries :
  ∃ s1 s2 s3,
    register_cb 0x100 callback_A 1 one_event = Done SIDE_ERROR_OK s1
    ∧ array_of s1 0x100 = Some [callback_A; mk_side_callback 0 0 0]
    ∧ nr_callbacks_of s1 0x100 = Some 1
    ∧ register_cb 0x100 callback_B 1 s1 = Done SIDE_ERROR_OK s2
    ∧ array_of s2 0x100
      = Some [mk_side_callback 0x36 0 0; callback_B; mk_side_callback 0 0 0]
    ∧ nr_callbacks_of s2 0x100 = Some 2
    ∧ register_cb 0x100 callback_C 1 s2 = Done SIDE_ERROR_OK s3
    ∧ array_of s3 0x100
      = Some [mk_side_callback 0x36 0 0; mk_side_callback 0 0 0; callback_C;
              mk_side_callback 0 0 0]
    ∧ callbacks_of s3 0x100 = Some [mk_side_callback 0x36 0 0]
    ∧ nr_callbacks_of s3 0x100 = Some 3.
Proof.
  do 3 eexists.
  split; [vm_compute; reflexivity|].
  split; [reflexivity|]. split; [reflexivity|].
  split; [vm_compute; reflexivity|].
  split; [reflexivity|]. split; [reflexivity|].
  split; [vm_compute; reflexivity|].
  repeat split; reflexivity.
Qed.

(** C2.  The event at 0x100 has callbacks A and B: nr_callbacks is 2 and
    [callbacks] points at {A, B, sentinel}.  Unregistering A returns
    SIDE_ERROR_OK, allocates an array of two entries and lowers nr_callbacks
    to 1, but the entry shifted down is not B: the second memcpy copied
    [old_nr_cb - pos_idx - 1] = 1 byte, the low byte 0x47 of B's function
    pointer.  Unregistering B instead leaves one byte of A in front of the
    sentinel: the first memcpy copied [pos_idx] = 1 byte.  The same happens
    on a state reached through registrations alone, with a first callback
    small enough to survive them.  Removing the last callback does end at the
    shared empty callback, with nothing allocated. *)
Theorem unregister_copies_bytes_not_entries :
  array_of two_callbacks 0x100 = Some [callback_A; callback_B; mk_side_callback 0 0 0]
  ∧ (∃ s1,
       unregister_cb 0x100 callback_A 1 two_callbacks = Done SIDE_ERROR_OK s1
       ∧ array_of s1 0x100 = Some [mk_side_callback 0x47 0 0; mk_side_callback 0 0 0]
       ∧ nr_callbacks_of s1 0x100 = Some 1)
  ∧ (∃ s1,
       unregister_cb 0x100 callback_B 1 two_callbacks = Done SIDE_ERROR_OK s1
       ∧ array_of s1 0x100 = Some [mk_side_callback 0x36 0 0; mk_side_callback 0 0 0]
       ∧ nr_callbacks_of s1 0x100 = Some 1)
  ∧ (∃ s1 s2 s3,
       register_cb 0x100 (mk_side_callback 0x36 0 0) 1 one_event = Done SIDE_ERROR_OK s1
       ∧ register_cb 0x100 callback_B 1 s1 = Done SIDE_ERROR_OK s2
       ∧ array_of s2 0x100
         = Some [mk_side_callback 0x36 0 0; callback_B; mk_side_callback 0 0 0]
       ∧ unregister_cb 0x100 (mk_side_callback 0x36 0 0) 1 s2 = Done SIDE_ERROR_OK s3
       ∧ array_of s3 0x100 = Some [mk_side_callback 0x47 0 0; mk_side_callback 0 0 0])
  ∧ (∃ s1 s2,
       register_cb 0x100 callback_A 1 one_event = Done SIDE_ERROR_OK s1
       ∧ unregister_cb 0x100 callback_A 1 s1 = Done SIDE_ERROR_OK s2
       ∧ (callbacks <$> event_store s2 !! 0x100) = Some side_empty_callback
       ∧ nr_callbacks_of s2 0x100 = Some 0
       ∧ heap s2 = ∅
       ∧ brk s2 = brk s1).
Proof.
  split; [reflexivity|]. split; [|split; [|split]].
  - eexists. split; [vm_compute; reflexivity|]. split; reflexivity.
  - eexists. split; [vm_compute; reflexivity|]. split; reflexivity.
  - do 3 eexists. split; [vm_compute; reflexivity|].
    split; [vm_compute; reflexivity|]. split; [reflexivity|].
    split; [vm_compute; reflexivity|]. reflexivity.
  - do 2 eexists. split; [vm_compute; reflexivity|].
    split; [vm_compute; reflexivity|]. repeat split; reflexivity.
Qed.

(** ** Dispatch and the key filter (C6) *)

(** Lazy initialization returns, in the state [initialize] describes. *)
Lemma lazy_init_run {B} (m : M B) t s :
  (ini <- gets initialized ;; when (negb ini) side_init ;; m) t s
  = m t (initialize s).
Proof.
  rewrite bind_gets. unfold initialize, side_init.
  destruct (initialized s) eqn:Hini; simpl.
  - reflexivity.
  - rewrite bind_assoc, bind_gets, Hini. reflexivity.
Qed.

Lemma initialize_event_store s : event_store (initialize s) = event_store s.
Proof. unfold initialize. destruct (initialized s); reflexivity. Qed.

Lemma initialize_heap s : heap (initialize s) = heap s.
Proof. unfold initialize. destruct (initialized s); reflexivity. Qed.

Lemma initialize_trace s : trace (initialize s) = trace s.
Proof. unfold initialize. destruct (initialized s); reflexivity. Qed.

Lemma initialize_mutex m s : mutex_of m (initialize s) = mutex_of m s.
Proof. unfold initialize. destruct (initialized s), m; reflexivity. Qed.

Lemma load_event_run desc e t s :
  event_store s !! desc = Some e → load_event desc t s = Done e s.
Proof. intros H. unfold load_event. rewrite bind_gets, H. reflexivity. Qed.

Lemma load_block_run p vec t s :
  block_of s p = Some vec → load_block p t s = Done vec s.
Proof.
  destruct p; simpl; intros H.
  - injection H as <-. reflexivity.
  - rewrite bind_gets, H. reflexivity.
Qed.

(** The source's test for skipping an entry is the negation of the filter as
    the specification words it. *)
Lemma key_skipped_spec key cb : key_skipped key cb = true ↔ ¬ key_matches key cb.
Proof.
  unfold key_skipped, key_matches.
  rewrite !andb_true_iff, !bool_decide_eq_true. tauto.
Qed.

(** The dispatch loop calls the selected callbacks of the vector, in order. *)
Lemma side_call_loop_trace mk_call key t entries : ∀ s,
  terminated entries = true →
  side_call_loop entries mk_call key t s
  = Done tt (set_trace (trace s ++ map mk_call (filter (key_matches key)
                                                   (live_entries entries))) s).
Proof.
  induction entries as [|cb rest IH]; intros s Hterm; [discriminate|].
  simpl in *. case_bool_decide as Hnull.
  - unfold ret. simpl. by rewrite app_nil_r, set_trace_same.
  - simpl in Hterm. destruct (key_skipped key cb) eqn:Hskip.
    + rewrite IH by done. apply key_skipped_spec in Hskip.
      by rewrite filter_cons_False.
    + assert (key_matches key cb) as Hm.
      { destruct (decide (key_matches key cb)) as [|Hn]; [done|].
        apply key_skipped_spec in Hn. congruence. }
      unfold invoke. rewrite bind_modify, IH by done. simpl.
      rewrite filter_cons_True by done. simpl.
      by rewrite set_trace_twice, <- app_assoc.
Qed.

Lemma shared_hooks_run {B} event_state sav var_struct word key (m : M B) t s :
  (shared_hooks event_state sav var_struct word key ;; m) t s
  = m t (set_trace (trace s ++ ptrace_hook_calls event_state sav var_struct word key) s).
Proof.
  unfold shared_hooks, ptrace_hook_calls, when, invoke.
  destruct (bool_decide (Z.land word SIDE_EVENT_ENABLED_SHARED_MASK ≠ 0));
    destruct (bool_decide (Z.land word SIDE_EVENT_ENABLED_SHARED_PTRACE_MASK ≠ 0));
    destruct (bool_decide (key = SIDE_KEY_MATCH_ALL) || bool_decide (key = SIDE_KEY_PTRACE));
    simpl; rewrite ?bind_ret, ?bind_modify, ?app_nil_r, ?set_trace_same; reflexivity.
Qed.

(** C6.  An emit with key [key] on a live library, on an event of ABI
    version 0 whose callback array is terminated, returns after calling the
    ptrace hook if the shared bits ask for it, and then exactly the callbacks
    of the vector whose key C satisfies key = 0, C = 0 or C = key, each once,
    in vector order, with the event's description, the payload and the
    entry's [priv]; this holds for _side_call on a non-variadic event and for
    _side_call_variadic on a variadic one.  Nothing else of the state changes
    but the lazy initialization. *)
Theorem emit_key_filter t s event_state e vec sav var_struct key :
  finalized s = false →
  event_store s !! event_state = Some e →
  version e = 0 →
  block_of s (callbacks e) = Some vec →
  terminated (block_entries vec) = true →
  let selected := filter (key_matches key) (live_entries (block_entries vec)) in
  (is_variadic e = false →
   _side_call event_state sav key t s
   = Done tt
       (set_trace
          (trace s ++ ptrace_hook_calls event_state sav NULL (enabled e) key
           ++ map (λ cb, Call_tracer (cb_call cb) event_state sav (cb_priv cb)) selected)
          (initialize s)))
  ∧ (is_variadic e = true →
     _side_call_variadic event_state sav var_struct key t s
     = Done tt
         (set_trace
            (trace s ++ ptrace_hook_calls event_state sav var_struct (enabled e) key
             ++ map (λ cb, Call_tracer_variadic (cb_call cb) event_state sav var_struct
                             (cb_priv cb)) selected)
            (initialize s))).
Proof.
  intros Hfin Hev Hver Hblock Hterm selected.
  assert (Hev' : event_store (initialize s) !! event_state = Some e)
    by (by rewrite initialize_event_store).
  split; intros Hvar.
  - unfold _side_call. rewrite bind_gets, Hfin, lazy_init_run.
    rewrite (bind_run _ _ _ _ _ _ (load_event_run _ _ t _ Hev')).
    rewrite bool_decide_eq_false_2 by (rewrite Hver; auto). rewrite Hvar.
    cbv beta iota. rewrite shared_hooks_run. unfold side_rcu_read_begin, side_rcu_read_end.
    rewrite bind_ret.
    erewrite (bind_run (load_block (callbacks e)))
      by (apply load_block_run; rewrite <- Hblock; destruct (callbacks e); simpl;
          [reflexivity | by rewrite initialize_heap]).
    unfold bind. rewrite side_call_loop_trace by done. unfold ret. simpl.
    rewrite set_trace_twice, initialize_trace, <- app_assoc. reflexivity.
  - unfold _side_call_variadic. rewrite bind_gets, Hfin, lazy_init_run.
    rewrite (bind_run _ _ _ _ _ _ (load_event_run _ _ t _ Hev')).
    rewrite bool_decide_eq_false_2 by (rewrite Hver; auto). rewrite Hvar.
    cbn [negb]. cbv beta iota. rewrite shared_hooks_run. unfold side_rcu_read_begin, side_rcu_read_end.
    rewrite bind_ret.
    erewrite (bind_run (load_block (callbacks e)))
      by (apply load_block_run; rewrite <- Hblock; destruct (callbacks e); simpl;
          [reflexivity | by rewrite initialize_heap]).
    unfold bind. rewrite side_call_loop_trace by done. unfold ret. simpl.
    rewrite set_trace_twice, initialize_trace, <- app_assoc. reflexivity.
Qed.

Lemma emit_key_filter_witness :
  _side_call 0x100 (Arg_opaque 0) 9 1 two_callbacks
  = Done tt (set_trace [Call_tracer 0x401136 0x100 (Arg_opaque 0) 0xA] two_callbacks)
  ∧ _side_call 0x100 (Arg_opaque 0) SIDE_KEY_MATCH_ALL 1 two_callbacks
    = Done tt (set_trace [Call_tracer 0x401136 0x100 (Arg_opaque 0) 0xA;
                          Call_tracer 0x401247 0x100 (Arg_opaque 0) 0xB] two_callbacks).
Proof.
  split.
  - destruct (emit_key_filter 1 two_callbacks 0x100 (mk_side_event 0 0 2 1 (heap_block 1))
                (encode_callback callback_A ++ encode_callback callback_B
                 ++ zeroed SIZEOF_SIDE_CALLBACK)
                (Arg_opaque 0) 0 9 eq_refl eq_refl eq_refl eq_refl eq_refl) as [H _].
    rewrite (H eq_refl). reflexivity.
  - destruct (emit_key_filter 1 two_callbacks 0x100 (mk_side_event 0 0 2 1 (heap_block 1))
                (encode_callback callback_A ++ encode_callback callback_B
                 ++ zeroed SIZEOF_SIDE_CALLBACK)
                (Arg_opaque 0) 0 SIDE_KEY_MATCH_ALL eq_refl eq_refl eq_refl eq_refl eq_refl)
      as [H _].
    rewrite (H eq_refl). reflexivity.
Defined.

(** ** What code leaves untouched *)

Lemma keeps_bind {A B C} (field : lib → C) (m : M A) (k : A → M B) :
  keeps field m → (∀ a, keeps field (k a)) → keeps field (bind m k).
Proof.
  intros Hm Hk t s b s2 H. apply bind_Done in H as (a & s1 & H1 & H2).
  apply Hm in H1. apply Hk in H2. simpl in *. congruence.
Qed.

Lemma keeps_ret {A C} (field : lib → C) (a : A) : keeps field (ret a).
Proof. intros t s b s' [= _ <-]. reflexivity. Qed.

Lemma keeps_gets {A C} (field : lib → C) (f : lib → A) : keeps field (gets f).
Proof. intros t s b s' [= _ <-]. reflexivity. Qed.

Lemma keeps_self {C} (field : lib → C) : keeps field pthread_self.
Proof. intros t s b s' [= _ <-]. reflexivity. Qed.

Lemma keeps_modify {C} (field : lib → C) (f : lib → lib) :
  (∀ s, field (f s) = field s) → keeps field (modify f).
Proof. intros Hf t s b s' [= _ <-]. apply Hf. Qed.

Lemma keeps_abort {A C} (field : lib → C) : keeps field (@abort A).
Proof. intros t s b s' [=]. Qed.

Lemma keeps_fault {A C} (field : lib → C) : keeps field (@fault A).
Proof. intros t s b s' [=]. Qed.

Lemma keeps_blocked {A C} (field : lib → C) : keeps field (λ _ s, @Blocked A s).
Proof. intros t s b s' [=]. Qed.

Lemma keeps_when {C} (field : lib → C) (b : bool) (m : M unit) :
  keeps field m → keeps field (when b m).
Proof. destruct b; [done|]. intros _. apply keeps_ret. Qed.

Lemma keeps_as_thread {A C} (field : lib → C) (t : thread) (m : M A) :
  keeps field m → keeps field (as_thread t m).
Proof. intros Hm t' s a s' H. exact (Hm t s a s' H). Qed.

Lemma keeps_for_each {A C} (field : lib → C) (l : list A) (body : A → M unit) :
  (∀ a, keeps field (body a)) → keeps field (for_each l body).
Proof.
  intros Hbody. induction l as [|a l IH]; simpl.
  - apply keeps_ret.
  - apply keeps_bind; [apply Hbody | intros _; exact IH].
Qed.

Lemma keeps_for_range {C} (field : lib → C) (n i : nat) (body : nat → M unit) :
  (∀ j, keeps field (body j)) → keeps field (for_range n i body).
Proof.
  intros Hbody. revert i. induction n as [|n IH]; intros i; simpl.
  - apply keeps_ret.
  - apply keeps_bind; [apply Hbody | intros _; apply IH].
Qed.

Lemma keeps_lock {C} (field : lib → C) (m : mutex_id) :
  (∀ v s, field (set_mutex m v s) = field s) → keeps field (pthread_mutex_lock m).
Proof.
  intros Hf t s b s'. unfold pthread_mutex_lock.
  destruct (acquire _ _ _); [|discriminate]. intros [= _ <-]. apply Hf.
Qed.

Lemma keeps_unlock {C} (field : lib → C) (m : mutex_id) :
  (∀ v s, field (set_mutex m v s) = field s) → keeps field (pthread_mutex_unlock m).
Proof.
  intros Hf t s b s'. unfold pthread_mutex_unlock.
  destruct (release _ _); [|discriminate]. intros [= _ <-]. apply Hf.
Qed.

Lemma keeps_alloc_attempt {C} (field : lib → C) :
  (∀ v s, field (set_oom_script v s) = field s) →
  (∀ v s, field (set_brk v s) = field s) →
  keeps field alloc_attempt.
Proof.
  intros H1 H2 t s b s'. unfold alloc_attempt.
  destruct (oom_script s) as [|[] rest]; intros [= _ <-]; by rewrite ?H2, ?H1.
Qed.

(** Decomposes a goal [keeps field m] along the structure of [m]. *)
Ltac keeps_step :=
  lazymatch goal with
  | |- keeps _ (bind _ _) => apply keeps_bind; [|intros ?]
  | |- keeps _ (ret _) => apply keeps_ret
  | |- keeps _ (gets _) => apply keeps_gets
  | |- keeps _ pthread_self => apply keeps_self
  | |- keeps _ (modify _) => apply keeps_modify; intros []; reflexivity
  | |- keeps _ abort => apply keeps_abort
  | |- keeps _ fault => apply keeps_fault
  | |- keeps _ (λ _ s, Blocked s) => apply keeps_blocked
  | |- keeps _ (when _ _) => apply keeps_when
  | |- keeps _ (as_thread _ _) => apply keeps_as_thread
  | |- keeps _ (for_each _ _) => apply keeps_for_each; intros ?
  | |- keeps _ (for_range _ _ _) => apply keeps_for_range; intros ?
  | |- keeps _ (pthread_mutex_lock ?m) =>
      apply keeps_lock; intros ? []; destruct m; reflexivity
  | |- keeps _ (pthread_mutex_unlock ?m) =>
      apply keeps_unlock; intros ? []; destruct m; reflexivity
  | |- keeps _ alloc_attempt => apply keeps_alloc_attempt; intros ? []; reflexivity
  | |- keeps _ (if ?b then _ else _) => destruct b
  | |- keeps _ (match ?x with _ => _ end) => destruct x
  | |- keeps _ (let _ := _ in _) => cbv zeta
  end.

Ltac keeps_tac := repeat keeps_step.

Lemma keeps_events_side_init : keeps event_store side_init.
Proof. unfold side_init, side_rcu_gp_init. keeps_tac. Qed.

Lemma keeps_events_calloc nmemb : keeps event_store (calloc_callbacks nmemb).
Proof. unfold calloc_callbacks. keeps_tac. Qed.

Lemma keeps_events_free p : keeps event_store (free_callbacks p).
Proof. unfold free_callbacks. keeps_tac. Qed.

Lemma keeps_events_memcpy dst didx src sidx n :
  keeps event_store (memcpy_callbacks dst didx src sidx n).
Proof. unfold memcpy_callbacks, load_block. keeps_tac. Qed.

Lemma keeps_events_write vec idx cb : keeps event_store (write_callback vec idx cb).
Proof. unfold write_callback, load_block. keeps_tac. Qed.

Lemma keeps_events_invoke c : keeps event_store (invoke c).
Proof. unfold invoke. keeps_tac. Qed.

(** ** The statedump mutex is never released by request and cancel *)

Lemma acquire_depth recursive t m m' :
  acquire recursive t m = Some m' → lock_depth m' = S (lock_depth m).
Proof.
  destruct m as [|o n]; simpl.
  - by intros [= <-].
  - destruct (recursive && bool_decide (o = t)); [|discriminate]. by intros [= <-].
Qed.

Lemma acquire_owner recursive t m m' :
  acquire recursive t m = Some m' → ∃ n, m' = Locked t n.
Proof.
  destruct m as [|o n]; simpl.
  - intros [= <-]. by eexists.
  - destruct (recursive && bool_decide (o = t)); [|discriminate].
    intros [= <-]. by eexists.
Qed.

Lemma keeps_statedump_lock_queue handle key :
  keeps side_statedump_lock (queue_statedump_pending handle key).
Proof.
  unfold queue_statedump_pending, update_statedump_handle, load_statedump_handle,
    update_agent.
  keeps_tac.
Qed.

Lemma keeps_statedump_lock_unqueue handle key :
  keeps side_statedump_lock (unqueue_statedump_pending handle key).
Proof.
  unfold unqueue_statedump_pending, update_statedump_handle, load_statedump_handle.
  keeps_tac.
Qed.

(** Whatever the state, a side_tracer_statedump_request or a
    side_tracer_statedump_request_cancel that returns for a key other than
    MATCH_ALL returns SIDE_ERROR_OK with the statedump mutex two levels deeper
    than it found it. *)
Lemma statedump_request_depth key t s r s' :
  key ≠ SIDE_KEY_MATCH_ALL →
  side_tracer_statedump_request key t s = Done r s'
  ∨ side_tracer_statedump_request_cancel key t s = Done r s' →
  r = SIDE_ERROR_OK
  ∧ lock_depth (side_statedump_lock s') = S (S (lock_depth (side_statedump_lock s)))
  ∧ ∃ n, side_statedump_lock s' = Locked t n.
Proof.
  intros Hkey H.
  assert (∀ body : Z * side_statedump_request_handle → M unit,
            (∀ h, keeps side_statedump_lock (body h)) →
            (pthread_mutex_lock Statedump_lock ;;
             handles <- gets side_statedump_list ;;
             for_each handles body ;;
             pthread_mutex_lock Statedump_lock ;;
             ret SIDE_ERROR_OK) t s = Done r s' →
            r = SIDE_ERROR_OK
            ∧ lock_depth (side_statedump_lock s')
              = S (S (lock_depth (side_statedump_lock s)))
            ∧ ∃ n, side_statedump_lock s' = Locked t n) as Hgen.
  { intros body Hbody Hrun.
    apply bind_Done in Hrun as (? & s1 & H1 & Hrun).
    unfold pthread_mutex_lock in H1. simpl in H1.
    destruct (acquire true t (side_statedump_lock s)) as [m1|] eqn:Hacq1; [|discriminate].
    injection H1 as _ <-. rewrite bind_gets in Hrun.
    apply bind_Done in Hrun as (? & s2 & H2 & Hrun).
    apply (keeps_for_each side_statedump_lock _ _ Hbody) in H2. simpl in H2.
    apply bind_Done in Hrun as (? & s3 & H3 & Hrun).
    unfold pthread_mutex_lock in H3. simpl in H3. rewrite H2 in H3.
    destruct (acquire true t m1) as [m2|] eqn:Hacq2; [|discriminate].
    injection H3 as _ <-. injection Hrun as <- <-. split; [done|]. simpl.
    split; [|by eapply acquire_owner].
    apply acquire_depth in Hacq1, Hacq2. congruence. }
  destruct H as [H|H].
  - unfold side_tracer_statedump_request in H.
    rewrite bool_decide_eq_false_2 in H by done.
    eapply Hgen; [|exact H]. intros h. apply keeps_statedump_lock_queue.
  - unfold side_tracer_statedump_request_cancel in H.
    rewrite bool_decide_eq_false_2 in H by done.
    eapply Hgen; [|exact H]. intros h. apply keeps_statedump_lock_unqueue.
Qed.

(** Once a request or a cancel has returned, the agent thread and any other
    thread that drains a polling handle block on the statedump mutex. *)
Lemma request_blocks_other_threads key t t' s r s' :
  key ≠ SIDE_KEY_MATCH_ALL →
  side_tracer_statedump_request key t s = Done r s'
  ∨ side_tracer_statedump_request_cancel key t s = Done r s' →
  t' ≠ t →
  statedump_agent_func t' s' = Blocked s'
  ∧ ∀ handle h,
      node_find handle (side_statedump_list s') = Some h →
      sd_mode h = SIDE_STATEDUMP_MODE_POLLING →
      side_statedump_run_pending_requests handle t' s' = Blocked s'.
Proof.
  intros Hkey H Hne.
  destruct (statedump_request_depth key t s r s' Hkey H) as (_ & _ & n & Hlock).
  by eapply held_mutex_blocks_drain.
Qed.

(** ** What returning code has done *)

Lemma load_event_Done desc t s e s' :
  load_event desc t s = Done e s' → s' = s ∧ event_store s !! desc = Some e.
Proof.
  unfold load_event. rewrite bind_gets.
  destruct (event_store s !! desc); [|discriminate]. intros [= <- <-]. done.
Qed.

Lemma load_block_Done p t s vec s' :
  load_block p t s = Done vec s' → s' = s ∧ block_of s p = Some vec.
Proof.
  destruct p; simpl.
  - intros [= <- <-]. done.
  - rewrite bind_gets. destruct (heap s !! addr); [|discriminate].
    intros [= <- <-]. done.
Qed.

Lemma update_event_Done desc f t s u s' :
  update_event desc f t s = Done u s' →
  ∃ e, event_store s !! desc = Some e
       ∧ event_store s' = <[desc := f e]> (event_store s).
Proof.
  unfold update_event. intros H. apply bind_Done in H as (e & s1 & H1 & H).
  apply load_event_Done in H1 as [-> He]. injection H as _ <-.
  exists e. split; [done|]. by destruct s.
Qed.

Lemma lookup_Done desc call priv key t s r s' :
  side_tracer_callback_lookup desc call priv key t s = Done r s' →
  s' = s
  ∧ ∃ e vec, event_store s !! desc = Some e
             ∧ version e = 0
             ∧ block_of s (callbacks e) = Some vec
             ∧ lookup_loop (block_entries vec) 0 call priv key = Some r.
Proof.
  unfold side_tracer_callback_lookup. intros H.
  apply bind_Done in H as (e & s1 & H1 & H). apply load_event_Done in H1 as [-> He].
  case_bool_decide as Hver; [discriminate|].
  apply bind_Done in H as (vec & s1 & H1 & H). apply load_block_Done in H1 as [-> Hvec].
  destruct (lookup_loop _ _ _ _ _) as [found|] eqn:Hl; [|discriminate].
  injection H as <- <-. split; [done|].
  exists e, vec. repeat split; done.
Qed.

(** The array of the shared empty callback holds no callback. *)
Lemma lookup_loop_empty call priv key :
  lookup_loop (block_entries side_empty_callback_bytes) 0 call priv key = Some None.
Proof. reflexivity. Qed.

(** What _side_tracer_callback_register has done to the events when it
    returns from its locked part. *)
Lemma register_locked_Done desc call priv key t s r s1 :
  register_locked desc call priv key t s = Done r s1 →
  ∃ e, event_store s !! desc = Some e ∧ version e = 0
    ∧ (nr_callbacks e = UINT32_MAX ∧ r = SIDE_ERROR_INVAL ∧ s1 = s
       ∨ nr_callbacks e ≠ UINT32_MAX
         ∧ ∃ vec found,
             block_of s (callbacks e) = Some vec
             ∧ lookup_loop (block_entries vec) 0 call priv key = Some found
             ∧ match found with
               | Some _ => r = SIDE_ERROR_EXIST ∧ s1 = s
               | None =>
                   r = SIDE_ERROR_NOMEM ∧ event_store s1 = event_store s
                   ∨ r = SIDE_ERROR_OK
                     ∧ ∃ a, event_store s1
                            = <[desc := mk_side_event (desc_flags e) (version e)
                                          (u32 (nr_callbacks e + 1))
                                          (if bool_decide (nr_callbacks e = 0)
                                           then u64 (enabled e + 1) else enabled e)
                                          (heap_block a)]> (event_store s)
               end).
Proof.
  unfold register_locked. intros H.
  apply bind_Done in H as (e & s0 & H0 & H). apply load_event_Done in H0 as [-> He].
  case_bool_decide as Hver; [discriminate|].
  assert (version e = 0) as Hv by (destruct (decide (version e = 0)); [done|by destruct Hver]).
  exists e. split; [done|]. split; [done|].
  case_bool_decide as Hmax.
  { injection H as <- <-. by left. }
  right. split; [done|].
  apply bind_Done in H as (found & s0 & H0 & H).
  apply lookup_Done in H0 as [-> (e' & vec & He' & _ & Hvec & Hl)].
  assert (e' = e) as -> by congruence.
  exists vec, found. split; [done|]. split; [done|].
  destruct found as [idx|].
  { injection H as <- <-. done. }
  apply bind_Done in H as (new_cb & s2 & H2 & H).
  apply keeps_events_calloc in H2. simpl in H2.
  destruct new_cb as [new_cb|].
  2: { injection H as <- <-. left. done. }
  right.
  apply bind_Done in H as (? & s3 & H3 & H). apply keeps_events_memcpy in H3. simpl in H3.
  apply bind_Done in H as (? & s4 & H4 & H). apply keeps_events_write in H4. simpl in H4.
  apply bind_Done in H as (? & s5 & H5 & H).
  apply update_event_Done in H5 as (e5 & He5 & Hs5).
  apply bind_Done in H as (? & s6 & H6 & H). injection H6 as _ <-.
  apply bind_Done in H as (? & s7 & H7 & H).
  assert (event_store s7 = event_store s5) as Hs7.
  { revert H7. apply (keeps_when event_store). apply keeps_events_free. }
  apply bind_Done in H as (? & s8 & H8 & H).
  apply update_event_Done in H8 as (e8 & He8 & Hs8).
  apply bind_Done in H as (? & s9 & H9 & H). injection H as <- <-.
  split; [done|]. exists new_cb.
  assert (e5 = e) as -> by congruence.
  rewrite Hs7, Hs5, lookup_insert_eq in He8. injection He8 as <-.
  rewrite Hs7, Hs5, insert_insert_eq, H4, H3, H2 in Hs8.
  case_bool_decide as Hzero; simpl in H9.
  - apply update_event_Done in H9 as (e9 & He9 & Hs9).
    rewrite Hs8, lookup_insert_eq in He9. injection He9 as <-.
    rewrite Hs9, Hs8, insert_insert_eq. reflexivity.
  - injection H9 as _ <-. rewrite Hs8. reflexivity.
Qed.

(** What _side_tracer_callback_unregister has done to the events when it
    returns from its locked part. *)
Lemma unregister_locked_Done desc call priv key t s r s1 :
  unregister_locked desc call priv key t s = Done r s1 →
  ∃ e vec found,
    event_store s !! desc = Some e ∧ version e = 0
    ∧ block_of s (callbacks e) = Some vec
    ∧ lookup_loop (block_entries vec) 0 call priv key = Some found
    ∧ match found with
      | None => r = SIDE_ERROR_NOENT ∧ s1 = s
      | Some _ =>
          r = SIDE_ERROR_NOMEM ∧ event_store s1 = event_store s
          ∨ r = SIDE_ERROR_OK
            ∧ ∃ p, event_store s1
                   = <[desc := mk_side_event (desc_flags e) (version e)
                                 (u32 (nr_callbacks e - 1))
                                 (if bool_decide (nr_callbacks e = 1)
                                  then u64 (enabled e - 1) else enabled e)
                                 p]> (event_store s)
                   ∧ (nr_callbacks e = 1 → p = side_empty_callback)
      end.
Proof.
  unfold unregister_locked. intros H.
  apply bind_Done in H as (e & s0 & H0 & H). apply load_event_Done in H0 as [-> He].
  case_bool_decide as Hver; [discriminate|].
  apply bind_Done in H as (found & s0 & H0 & H).
  apply lookup_Done in H0 as [-> (e' & vec & He' & Hv & Hvec & Hl)].
  assert (e' = e) as -> by congruence.
  exists e, vec, found. do 4 (split; [done|]).
  destruct found as [pos|].
  2: { injection H as <- <-. done. }
  apply bind_Done in H as (new_cb & s2 & H2 & H).
  assert (event_store s2 = event_store s
          ∧ (nr_callbacks e = 1 → new_cb = Some side_empty_callback)) as [Hs2 Hone].
  { case_bool_decide as Hnr.
    - injection H2 as <- <-. done.
    - split; [|done]. clear H.
      apply bind_Done in H2 as (a & s3 & H3 & H2).
      apply keeps_events_calloc in H3. simpl in H3.
      destruct a as [a|]; [|injection H2 as _ <-; done].
      apply bind_Done in H2 as (? & s4 & H4 & H2).
      apply keeps_events_memcpy in H4. simpl in H4.
      apply bind_Done in H2 as (? & s5 & H5 & H2).
      apply keeps_events_memcpy in H5. simpl in H5.
      injection H2 as _ <-. congruence. }
  destruct new_cb as [new_cb|].
  2: { injection H as <- <-. by left. }
  right.
  apply bind_Done in H as (? & s5 & H5 & H).
  apply update_event_Done in H5 as (e5 & He5 & Hs5).
  apply bind_Done in H as (? & s6 & H6 & H). injection H6 as _ <-.
  apply bind_Done in H as (? & s7 & H7 & H).
  apply keeps_events_free in H7. simpl in H7.
  apply bind_Done in H as (? & s8 & H8 & H).
  apply update_event_Done in H8 as (e8 & He8 & Hs8).
  apply bind_Done in H as (? & s9 & H9 & H). injection H as <- <-.
  split; [done|]. exists new_cb.
  rewrite Hs2 in He5. assert (e5 = e) as -> by congruence.
  rewrite H7, Hs5, lookup_insert_eq in He8. injection He8 as <-.
  rewrite H7, Hs5, insert_insert_eq, Hs2 in Hs8.
  split.
  - case_bool_decide as Hone'; simpl in H9.
    + apply update_event_Done in H9 as (e9 & He9 & Hs9).
      rewrite Hs8, lookup_insert_eq in He9. injection He9 as <-.
      rewrite Hs9, Hs8, insert_insert_eq. reflexivity.
    + injection H9 as _ <-. rewrite Hs8. reflexivity.
  - intros Hnr. specialize (Hone Hnr). congruence.
Qed.

(** What side_event_remove_callbacks has done when it returns. *)
Lemma remove_callbacks_Done desc t s u s1 :
  side_event_remove_callbacks desc t s = Done u s1 →
  ∃ e, event_store s !! desc = Some e ∧ version e = 0
    ∧ (nr_callbacks e = 0 ∧ s1 = s
       ∨ nr_callbacks e ≠ 0
         ∧ event_store s1
           = <[desc := mk_side_event (desc_flags e) (version e) 0 (u64 (enabled e - 1))
                         side_empty_callback]> (event_store s)).
Proof.
  unfold side_event_remove_callbacks. intros H.
  apply bind_Done in H as (e & s0 & H0 & H). apply load_event_Done in H0 as [-> He].
  case_bool_decide as Hver; [discriminate|].
  exists e. split; [done|]. split; [done|].
  case_bool_decide as Hnr.
  { injection H as _ <-. by left. }
  right. split; [done|].
  apply bind_Done in H as (? & s2 & H2 & H).
  apply update_event_Done in H2 as (e2 & He2 & Hs2).
  apply bind_Done in H as (? & s3 & H3 & H).
  apply update_event_Done in H3 as (e3 & He3 & Hs3).
  apply bind_Done in H as (? & s4 & H4 & H).
  apply update_event_Done in H4 as (e4 & He4 & Hs4).
  apply keeps_events_free in H. simpl in H.
  assert (e2 = e) as -> by congruence.
  rewrite Hs2, lookup_insert_eq in He3. injection He3 as <-.
  rewrite Hs3, lookup_insert_eq in He4. injection He4 as <-.
  rewrite H, Hs4, Hs3, Hs2, !insert_insert_eq. reflexivity.
Qed.

(** ** The private part of [enabled] (C5) *)

Lemma private_enabled_mod e : private_enabled e = enabled e mod 2 ^ 56.
Proof.
  unfold private_enabled.
  change SIDE_EVENT_ENABLED_PRIVATE_MASK with (Z.ones 56).
  apply Z.land_ones. lia.
Qed.

Lemma u64_mod_private x : u64 x mod 2 ^ 56 = x mod 2 ^ 56.
Proof.
  unfold u64. apply Z.mod_mod_divide. exists (2 ^ 8). reflexivity.
Qed.

Lemma private_after_increment x : x mod 2 ^ 56 = 0 → u64 (x + 1) mod 2 ^ 56 = 1.
Proof.
  intros H. rewrite u64_mod_private, Z.add_mod, H by lia. reflexivity.
Qed.

Lemma private_after_decrement x : x mod 2 ^ 56 = 1 → u64 (x - 1) mod 2 ^ 56 = 0.
Proof.
  intros H. rewrite u64_mod_private, Zminus_mod, H. reflexivity.
Qed.

Lemma register_consistent e a :
  event_consistent e →
  nr_callbacks e ≠ UINT32_MAX →
  event_consistent
    (mk_side_event (desc_flags e) (version e) (u32 (nr_callbacks e + 1))
       (if bool_decide (nr_callbacks e = 0) then u64 (enabled e + 1) else enabled e)
       (heap_block a)).
Proof.
  unfold event_consistent, UINT32_MAX. rewrite !private_enabled_mod.
  cbn [nr_callbacks enabled callbacks].
  intros (Hrange & Hempty & Hpar) Hmax.
  unfold u32. rewrite Z.mod_small by lia.
  split; [lia|]. split; [lia|].
  rewrite (bool_decide_eq_true_2 (0 < nr_callbacks e + 1)) by lia.
  destruct (decide (nr_callbacks e = 0)) as [Hz|Hz].
  - rewrite bool_decide_eq_true_2 by done.
    rewrite bool_decide_eq_false_2 in Hpar by lia.
    by apply private_after_increment.
  - rewrite bool_decide_eq_false_2 by done.
    rewrite bool_decide_eq_true_2 in Hpar by lia. done.
Qed.

Lemma unregister_consistent e p :
  event_consistent e →
  callbacks e ≠ side_empty_callback →
  (nr_callbacks e = 1 → p = side_empty_callback) →
  event_consistent
    (mk_side_event (desc_flags e) (version e) (u32 (nr_callbacks e - 1))
       (if bool_decide (nr_callbacks e = 1) then u64 (enabled e - 1) else enabled e) p).
Proof.
  unfold event_consistent, UINT32_MAX. rewrite !private_enabled_mod.
  cbn [nr_callbacks enabled callbacks].
  intros (Hrange & Hempty & Hpar) Hcb Hone.
  assert (nr_callbacks e ≠ 0) as Hnz by (intros Hz; by apply Hcb, Hempty).
  unfold u32. rewrite Z.mod_small by lia.
  rewrite bool_decide_eq_true_2 in Hpar by lia.
  split; [lia|]. split; [intros; apply Hone; lia|].
  destruct (decide (nr_callbacks e = 1)) as [H1|H1].
  - rewrite (bool_decide_eq_true_2 (nr_callbacks e = 1)) by done.
    rewrite bool_decide_eq_false_2 by lia. by apply private_after_decrement.
  - rewrite (bool_decide_eq_false_2 (nr_callbacks e = 1)) by done.
    rewrite bool_decide_eq_true_2 by lia. done.
Qed.

Lemma drain_consistent e :
  event_consistent e →
  nr_callbacks e ≠ 0 →
  event_consistent
    (mk_side_event (desc_flags e) (version e) 0 (u64 (enabled e - 1)) side_empty_callback).
Proof.
  unfold event_consistent, UINT32_MAX. rewrite !private_enabled_mod.
  cbn [nr_callbacks enabled callbacks].
  intros (Hrange & Hempty & Hpar) Hnz.
  rewrite bool_decide_eq_true_2 in Hpar by lia.
  split; [lia|]. split; [done|]. by apply private_after_decrement.
Qed.

Lemma events_consistent_insert s s' desc e e' :
  events_consistent s →
  event_store s !! desc = Some e →
  (event_consistent e → event_consistent e') →
  event_store s' = <[desc := e']> (event_store s) →
  events_consistent s'.
Proof.
  intros Hs He Hstep Hs' d x. rewrite Hs'.
  destruct (decide (d = desc)) as [->|Hne].
  - rewrite lookup_insert_eq. intros [= <-]. apply Hstep. by eapply Hs.
  - rewrite lookup_insert_ne by done. apply Hs.
Qed.

Lemma events_consistent_same s s' :
  event_store s' = event_store s → events_consistent s → events_consistent s'.
Proof. intros H Hs d x. rewrite H. apply Hs. Qed.

Lemma keeps_consistency_of_keeps {A} (m : M A) :
  keeps event_store m → keeps_consistency m.
Proof. intros Hm t s a s' H. apply events_consistent_same. exact (Hm t s a s' H). Qed.

Lemma keeps_consistency_bind {A B} (m : M A) (k : A → M B) :
  keeps_consistency m → (∀ a, keeps_consistency (k a)) → keeps_consistency (bind m k).
Proof.
  intros Hm Hk t s b s2 H Hs. apply bind_Done in H as (a & s1 & H1 & H2).
  eapply Hk; [exact H2|]. eapply Hm; [exact H1|exact Hs].
Qed.

Lemma keeps_consistency_for_each {A} (l : list A) (body : A → M unit) :
  (∀ a, keeps_consistency (body a)) → keeps_consistency (for_each l body).
Proof.
  intros Hbody. induction l as [|a l IH]; simpl.
  - apply keeps_consistency_of_keeps, keeps_ret.
  - apply keeps_consistency_bind; [apply Hbody | intros _; exact IH].
Qed.

Lemma keeps_consistency_for_range (n i : nat) (body : nat → M unit) :
  (∀ j, keeps_consistency (body j)) → keeps_consistency (for_range n i body).
Proof.
  intros Hbody. revert i. induction n as [|n IH]; intros i; simpl.
  - apply keeps_consistency_of_keeps, keeps_ret.
  - apply keeps_consistency_bind; [apply Hbody | intros _; apply IH].
Qed.

Lemma keeps_consistency_register_locked desc call priv key :
  keeps_consistency (register_locked desc call priv key).
Proof.
  intros t s r s1 H Hs.
  apply register_locked_Done in H
    as (e & He & _ & [(_ & _ & ->)|(Hmax & vec & found & _ & _ & Hcase)]); [done|].
  destruct found as [idx|].
  - by destruct Hcase as [_ ->].
  - destruct Hcase as [[_ Hsame]|[_ (a & Hins)]].
    + by eapply events_consistent_same.
    + eapply events_consistent_insert; [done..| |exact Hins].
      intros Hc. by apply register_consistent.
Qed.

Lemma keeps_consistency_unregister_locked desc call priv key :
  keeps_consistency (unregister_locked desc call priv key).
Proof.
  intros t s r s1 H Hs.
  apply unregister_locked_Done in H
    as (e & vec & found & He & _ & Hvec & Hl & Hcase).
  destruct found as [idx|].
  - destruct Hcase as [[_ Hsame]|[_ (p & Hins & Hone)]].
    + by eapply events_consistent_same.
    + eapply events_consistent_insert; [done..| |exact Hins].
      intros Hc. apply unregister_consistent; [done| |done].
      intros Hempty. rewrite Hempty in Hvec. injection Hvec as <-.
      rewrite lookup_loop_empty in Hl. discriminate.
  - by destruct Hcase as [_ ->].
Qed.

Lemma keeps_consistency_remove_callbacks desc :
  keeps_consistency (side_event_remove_callbacks desc).
Proof.
  intros t s u s1 H Hs.
  apply remove_callbacks_Done in H as (e & He & _ & [(_ & ->)|(Hnz & Hins)]); [done|].
  eapply events_consistent_insert; [done..| |exact Hins].
  intros Hc. by apply drain_consistent.
Qed.

Ltac keeps_events_tac :=
  repeat first
    [ apply keeps_events_side_init
    | apply keeps_events_invoke
    | apply keeps_events_free
    | keeps_step ].

(** Decomposes a goal [keeps_consistency m] along the structure of [m]. *)
Ltac consistency_step :=
  lazymatch goal with
  | |- keeps_consistency (bind _ _) => apply keeps_consistency_bind; [|intros ?]
  | |- keeps_consistency (register_locked _ _ _ _) =>
      apply keeps_consistency_register_locked
  | |- keeps_consistency (unregister_locked _ _ _ _) =>
      apply keeps_consistency_unregister_locked
  | |- keeps_consistency (side_event_remove_callbacks _) =>
      apply keeps_consistency_remove_callbacks
  | |- keeps_consistency (for_each _ _) => apply keeps_consistency_for_each; intros ?
  | |- keeps_consistency (for_range _ _ _) => apply keeps_consistency_for_range; intros ?
  | |- keeps_consistency (if ?b then _ else _) => destruct b
  | |- keeps_consistency (match ?x with _ => _ end) => destruct x
  | |- keeps_consistency _ => apply keeps_consistency_of_keeps; keeps_events_tac
  end.

Ltac consistency_tac := repeat consistency_step.

Lemma keeps_consistency_register desc call priv key :
  keeps_consistency (_side_tracer_callback_register desc call priv key).
Proof. unfold _side_tracer_callback_register. consistency_tac. Qed.

Lemma keeps_consistency_unregister desc call priv key :
  keeps_consistency (_side_tracer_callback_unregister desc call priv key).
Proof. unfold _side_tracer_callback_unregister. consistency_tac. Qed.

Lemma keeps_consistency_events_unregister events_handle :
  keeps_consistency (side_events_unregister events_handle).
Proof. unfold side_events_unregister. consistency_tac. Qed.

Lemma keeps_consistency_run_op o : keeps_consistency (run_op o).
Proof.
  destruct o; simpl;
    unfold side_tracer_callback_register, side_tracer_callback_variadic_register,
      side_tracer_callback_unregister, side_tracer_callback_variadic_unregister,
      side_events_register, side_exit, load_event, side_rcu_gp_exit.
  all: repeat first
         [ apply keeps_consistency_register
         | apply keeps_consistency_unregister
         | apply keeps_consistency_events_unregister
         | consistency_step ].
Qed.

Lemma keeps_consistency_run_ops ops : keeps_consistency (run_ops ops).
Proof.
  induction ops as [|[t o] ops IH]; simpl.
  - apply keeps_consistency_of_keeps, keeps_ret.
  - apply keeps_consistency_bind; [|intros _; exact IH].
    intros t' s a s' H. exact (keeps_consistency_run_op o t s a s' H).
Qed.

(** The steps of _side_tracer_callback_register around its locked part. *)
Lemma register_Done desc call priv key t s r s' :
  _side_tracer_callback_register desc call priv key t s = Done r s' →
  call = NULL ∧ r = SIDE_ERROR_INVAL ∧ s' = s
  ∨ call ≠ NULL ∧ finalized s = true ∧ r = SIDE_ERROR_EXITING ∧ s' = s
  ∨ call ≠ NULL ∧ finalized s = false
    ∧ ∃ m' s2 m2,
        acquire true t (side_event_lock s) = Some m'
        ∧ register_locked desc call priv key t (set_side_event_lock m' (initialize s))
          = Done r s2
        ∧ release t (side_event_lock s2) = Some m2
        ∧ s' = set_side_event_lock m2 s2.
Proof.
  unfold _side_tracer_callback_register. intros H.
  case_bool_decide as Hnull; [injection H as <- <-; by left|].
  rewrite bind_gets in H. destruct (finalized s) eqn:Hfin.
  { injection H as <- <-. right. by left. }
  right. right. split; [done|]. split; [done|].
  rewrite lazy_init_run in H.
  apply bind_Done in H as (? & s1 & H1 & H).
  unfold pthread_mutex_lock in H1. simpl in H1.
  change (side_event_lock (initialize s)) with (mutex_of Event_lock (initialize s)) in H1.
  rewrite initialize_mutex in H1. simpl in H1.
  destruct (acquire true t (side_event_lock s)) as [m'|] eqn:Hacq; [|discriminate].
  injection H1 as _ <-.
  apply bind_Done in H as (r' & s2 & H2 & H).
  apply bind_Done in H as (? & s3 & H3 & H). injection H as <- <-.
  unfold pthread_mutex_unlock in H3. simpl in H3.
  destruct (release t (side_event_lock s2)) as [m2|] eqn:Hrel; [|discriminate].
  injection H3 as _ <-.
  exists m', s2, m2. done.
Qed.

(** The steps of _side_tracer_callback_unregister around its locked part. *)
Lemma unregister_Done desc call priv key t s r s' :
  _side_tracer_callback_unregister desc call priv key t s = Done r s' →
  call = NULL ∧ r = SIDE_ERROR_INVAL ∧ s' = s
  ∨ call ≠ NULL ∧ finalized s = true ∧ r = SIDE_ERROR_EXITING ∧ s' = s
  ∨ call ≠ NULL ∧ finalized s = false
    ∧ ∃ m' s2 m2,
        acquire true t (side_event_lock s) = Some m'
        ∧ unregister_locked desc call priv key t (set_side_event_lock m' (initialize s))
          = Done r s2
        ∧ release t (side_event_lock s2) = Some m2
        ∧ s' = set_side_event_lock m2 s2.
Proof.
  unfold _side_tracer_callback_unregister. intros H.
  case_bool_decide as Hnull; [injection H as <- <-; by left|].
  rewrite bind_gets in H. destruct (finalized s) eqn:Hfin.
  { injection H as <- <-. right. by left. }
  right. right. split; [done|]. split; [done|].
  rewrite lazy_init_run in H.
  apply bind_Done in H as (? & s1 & H1 & H).
  unfold pthread_mutex_lock in H1. simpl in H1.
  change (side_event_lock (initialize s)) with (mutex_of Event_lock (initialize s)) in H1.
  rewrite initialize_mutex in H1. simpl in H1.
  destruct (acquire true t (side_event_lock s)) as [m'|] eqn:Hacq; [|discriminate].
  injection H1 as _ <-.
  apply bind_Done in H as (r' & s2 & H2 & H).
  apply bind_Done in H as (? & s3 & H3 & H). injection H as <- <-.
  unfold pthread_mutex_unlock in H3. simpl in H3.
  destruct (release t (side_event_lock s2)) as [m2|] eqn:Hrel; [|discriminate].
  injection H3 as _ <-.
  exists m', s2, m2. done.
Qed.

Lemma event_store_locked m s : event_store (set_side_event_lock m (initialize s)) = event_store s.
Proof. unfold initialize. destruct (initialized s); reflexivity. Qed.

Lemma heap_locked m s : heap (set_side_event_lock m (initialize s)) = heap s.
Proof. unfold initialize. destruct (initialized s); reflexivity. Qed.

Lemma block_of_locked m s p : block_of (set_side_event_lock m (initialize s)) p = block_of s p.
Proof. destruct p; simpl; [reflexivity|]. by rewrite initialize_heap. Qed.

(** A registration that returns SIDE_ERROR_OK has raised nr_callbacks by one
    and has added one to [enabled] exactly when there was no callback. *)
Lemma register_counts desc call priv key t s s' :
  _side_tracer_callback_register desc call priv key t s = Done SIDE_ERROR_OK s' →
  ∃ e e', event_store s !! desc = Some e ∧ event_store s' !! desc = Some e'
    ∧ nr_callbacks e' = u32 (nr_callbacks e + 1)
    ∧ enabled e' = (if bool_decide (nr_callbacks e = 0)
                    then u64 (enabled e + 1) else enabled e).
Proof.
  intros H. apply register_Done in H
    as [(_ & [=] & _)|[(_ & _ & [=] & _)|(_ & _ & m' & s2 & m2 & _ & H & _ & ->)]].
  apply register_locked_Done in H
    as (e & He & _ & [(_ & [=] & _)|(_ & vec & found & _ & _ & Hcase)]).
  rewrite event_store_locked in He.
  destruct found as [idx|]; [by destruct Hcase as [[=] _]|].
  destruct Hcase as [[[=] _]|[_ (a & Hins)]].
  exists e. eexists. split; [done|].
  split; [simpl; rewrite Hins; apply lookup_insert_eq|]. done.
Qed.

(** An unregistration that returns SIDE_ERROR_OK has lowered nr_callbacks by
    one and has subtracted one from [enabled] exactly when it removed the
    only callback. *)
Lemma unregister_counts desc call priv key t s s' :
  _side_tracer_callback_unregister desc call priv key t s = Done SIDE_ERROR_OK s' →
  ∃ e e', event_store s !! desc = Some e ∧ event_store s' !! desc = Some e'
    ∧ nr_callbacks e' = u32 (nr_callbacks e - 1)
    ∧ enabled e' = (if bool_decide (nr_callbacks e = 1)
                    then u64 (enabled e - 1) else enabled e).
Proof.
  intros H. apply unregister_Done in H
    as [(_ & [=] & _)|[(_ & _ & [=] & _)|(_ & _ & m' & s2 & m2 & _ & H & _ & ->)]].
  apply unregister_locked_Done in H as (e & vec & found & He & _ & _ & _ & Hcase).
  rewrite event_store_locked in He.
  destruct found as [idx|]; [|by destruct Hcase as [[=] _]].
  destruct Hcase as [[[=] _]|[_ (p & Hins & _)]].
  exists e. eexists. split; [done|].
  split; [simpl; rewrite Hins; apply lookup_insert_eq|]. done.
Qed.

(** The forced drain sets nr_callbacks to 0 and subtracts one from [enabled]
    exactly when there was a callback. *)
Lemma remove_callbacks_counts desc t s u s' :
  side_event_remove_callbacks desc t s = Done u s' →
  ∃ e e', event_store s !! desc = Some e ∧ event_store s' !! desc = Some e'
    ∧ nr_callbacks e' = 0
    ∧ enabled e' = (if bool_decide (nr_callbacks e = 0)
                    then enabled e else u64 (enabled e - 1)).
Proof.
  intros H. apply remove_callbacks_Done in H as (e & He & _ & [(Hz & ->)|(Hnz & Hins)]).
  - exists e, e. rewrite bool_decide_eq_true_2 by done. done.
  - exists e. eexists. split; [done|].
    split; [rewrite Hins; apply lookup_insert_eq|].
    rewrite bool_decide_eq_false_2 by done. done.
Qed.

(** C5.  From a state where every event is consistent (its count within
    [uint32_t], pointing at the shared empty callback when it has no callback,
    the private part of [enabled] being 1 with a callback and 0 without), any
    sequence of callback registrations and unregistrations, of both variants,
    of side_events_register, of side_events_unregister with its forced drain,
    and of side_exit, run by any threads, leaves every event consistent if it
    runs to its end: the private part of [enabled] is 1 if nr_callbacks > 0
    and 0 otherwise.  Along the way [enabled] is incremented exactly by the
    registrations that find nr_callbacks at 0 and decremented exactly by the
    unregistrations that find it at 1 and by the drains that find it not 0. *)
Theorem enabled_parity ops t s s' :
  events_consistent s →
  run_ops ops t s = Done tt s' →
  events_consistent s'
  ∧ (∀ desc e, event_store s' !! desc = Some e →
       private_enabled e = (if bool_decide (0 < nr_callbacks e) then 1 else 0))
  ∧ (∀ desc call priv key t0 s0 s1,
       _side_tracer_callback_register desc call priv key t0 s0 = Done SIDE_ERROR_OK s1 →
       ∃ e e', event_store s0 !! desc = Some e ∧ event_store s1 !! desc = Some e'
         ∧ nr_callbacks e' = u32 (nr_callbacks e + 1)
         ∧ enabled e' = (if bool_decide (nr_callbacks e = 0)
                         then u64 (enabled e + 1) else enabled e))
  ∧ (∀ desc call priv key t0 s0 s1,
       _side_tracer_callback_unregister desc call priv key t0 s0 = Done SIDE_ERROR_OK s1 →
       ∃ e e', event_store s0 !! desc = Some e ∧ event_store s1 !! desc = Some e'
         ∧ nr_callbacks e' = u32 (nr_callbacks e - 1)
         ∧ enabled e' = (if bool_decide (nr_callbacks e = 1)
                         then u64 (enabled e - 1) else enabled e))
  ∧ (∀ desc t0 s0 s1,
       side_event_remove_callbacks desc t0 s0 = Done tt s1 →
       ∃ e e', event_store s0 !! desc = Some e ∧ event_store s1 !! desc = Some e'
         ∧ nr_callbacks e' = 0
         ∧ enabled e' = (if bool_decide (nr_callbacks e = 0)
                         then enabled e else u64 (enabled e - 1))).
Proof.
  intros Hs Hrun.
  pose proof (keeps_consistency_run_ops ops t s tt s' Hrun Hs) as Hs'.
  split; [done|]. split; [|split; [|split]].
  - intros desc e He. by destruct (Hs' desc e He) as (_ & _ & Hpar).
  - intros. by eapply register_counts.
  - intros. by eapply unregister_counts.
  - intros. by eapply remove_callbacks_counts.
Qed.

Lemma initial_event_consistent flags : event_consistent (initial_event flags).
Proof. unfold event_consistent, UINT32_MAX. simpl. split; [lia|]. done. Qed.

Lemma one_event_consistent : events_consistent one_event.
Proof.
  intros desc e H. simpl in H. unfold static_events in H.
  rewrite !lookup_insert_Some, lookup_empty in H.
  destruct H as [[_ <-]|[_ [[_ <-]|[_ [[_ <-]|[_ [=]]]]]]];
    apply initial_event_consistent.
Qed.

Lemma enabled_parity_witness :
  ∃ s',
    run_ops example_ops 1 one_event = Done tt s'
    ∧ (nr_callbacks <$> event_store s' !! 0x100) = Some 1
    ∧ ∀ desc e, event_store s' !! desc = Some e →
        private_enabled e = (if bool_decide (0 < nr_callbacks e) then 1 else 0).
Proof.
  destruct (run_ops example_ops 1 one_event) as [[] s'| | |s'] eqn:Hrun;
    try (vm_compute in Hrun; discriminate Hrun).
  exists s'. split; [reflexivity|]. split.
  - vm_compute in Hrun. injection Hrun as <-. reflexivity.
  - by destruct (enabled_parity example_ops 1 one_event s' one_event_consistent Hrun)
      as (_ & Hpar & _).
Defined.

(** ** The error codes of registration and unregistration (C9) *)

Lemma side_callback_eta cb : mk_side_callback (cb_call cb) (cb_priv cb) (cb_key cb) = cb.
Proof. by destruct cb. Qed.

(** An entry the lookup finds is a callback of the vector. *)
Lemma lookup_loop_found entries call priv key : ∀ idx i,
  lookup_loop entries idx call priv key = Some (Some i) →
  mk_side_callback call priv key ∈ live_entries entries.
Proof.
  induction entries as [|cb rest IH]; intros idx i; simpl; [discriminate|].
  case_bool_decide as Hnull; [discriminate|].
  destruct (bool_decide (cb_call cb = call) && bool_decide (cb_priv cb = priv)
            && bool_decide (cb_key cb = key)) eqn:Hmatch.
  - intros _. apply andb_true_iff in Hmatch as [Hm Hk].
    apply andb_true_iff in Hm as [Hc Hp].
    apply bool_decide_eq_true in Hc, Hp, Hk. subst.
    rewrite side_callback_eta. apply list_elem_of_here.
  - intros H. apply list_elem_of_further. by eapply IH.
Qed.

(** A lookup that returns NULL has walked a terminated array that does not
    hold the callback. *)
Lemma lookup_loop_absent entries call priv key : ∀ idx,
  lookup_loop entries idx call priv key = Some None →
  terminated entries = true ∧ mk_side_callback call priv key ∉ live_entries entries.
Proof.
  induction entries as [|cb rest IH]; intros idx; simpl; [discriminate|].
  case_bool_decide as Hnull.
  - intros _. split; [done|]. apply not_elem_of_nil.
  - destruct (bool_decide (cb_call cb = call) && bool_decide (cb_priv cb = priv)
              && bool_decide (cb_key cb = key)) eqn:Hmatch; [discriminate|].
    intros H. apply IH in H as [Hterm Hnot]. split; [done|].
    intros Hin. apply elem_of_cons in Hin as [Heq|Hin]; [|done].
    subst cb. simpl in Hmatch.
    by rewrite !bool_decide_eq_true_2 in Hmatch.
Qed.

(** On a terminated array the lookup returns, and tells whether the vector
    holds the callback. *)
Lemma lookup_loop_decides entries call priv key idx :
  terminated entries = true →
  ∃ found,
    lookup_loop entries idx call priv key = Some found
    ∧ (is_Some found ↔ mk_side_callback call priv key ∈ live_entries entries).
Proof.
  revert idx. induction entries as [|cb rest IH]; intros idx Hterm; [discriminate|].
  simpl in *. case_bool_decide as Hnull.
  - exists None. split; [done|]. split; [by intros [? [=]]|].
    intros Hin. by apply not_elem_of_nil in Hin.
  - simpl in Hterm.
    destruct (bool_decide (cb_call cb = call) && bool_decide (cb_priv cb = priv)
              && bool_decide (cb_key cb = key)) eqn:Hmatch.
    + exists (Some idx). split; [done|]. split; [|by eexists].
      intros _. apply andb_true_iff in Hmatch as [Hm Hk].
      apply andb_true_iff in Hm as [Hc Hp].
      apply bool_decide_eq_true in Hc, Hp, Hk. subst.
      rewrite side_callback_eta. apply list_elem_of_here.
    + destruct (IH (S idx) Hterm) as (found & Hl & Hiff).
      exists found. split; [done|]. rewrite Hiff. split.
      * apply list_elem_of_further.
      * intros Hin. apply elem_of_cons in Hin as [Heq|Hin]; [|done].
        subst cb. simpl in Hmatch. by rewrite !bool_decide_eq_true_2 in Hmatch.
Qed.

(** What [callbacks_of] unfolds to. *)
Lemma callbacks_of_Some s desc e vecl :
  event_store s !! desc = Some e →
  callbacks_of s desc = Some vecl →
  ∃ vec, block_of s (callbacks e) = Some vec
         ∧ terminated (block_entries vec) = true
         ∧ vecl = live_entries (block_entries vec).
Proof.
  unfold callbacks_of. intros -> H. simpl in H.
  destruct (block_of s (callbacks e)) as [vec|]; [|discriminate]. simpl in H.
  destruct (terminated (block_entries vec)) eqn:Hterm; [|discriminate].
  injection H as <-. by exists vec.
Qed.

Lemma lookup_run desc e vec call priv key found t s :
  event_store s !! desc = Some e →
  version e = 0 →
  block_of s (callbacks e) = Some vec →
  lookup_loop (block_entries vec) 0 call priv key = Some found →
  side_tracer_callback_lookup desc call priv key t s = Done found s.
Proof.
  intros He Hver Hvec Hl. unfold side_tracer_callback_lookup.
  rewrite (bind_run _ _ _ _ _ _ (load_event_run _ _ t _ He)).
  rewrite bool_decide_eq_false_2 by (rewrite Hver; auto).
  rewrite (bind_run _ _ _ _ _ _ (load_block_run _ _ t _ Hvec)), Hl. reflexivity.
Qed.

(** Around code that returns in the state it started in, the lock and
    unlock of an available mutex leave the state as it was. *)
Lemma locked_neutral {A} (body : M A) (a : A) t s m' :
  acquire true t (side_event_lock s) = Some m' →
  body t (set_side_event_lock m' (initialize s))
  = Done a (set_side_event_lock m' (initialize s)) →
  (ini <- gets initialized ;; when (negb ini) side_init ;;
   pthread_mutex_lock Event_lock ;; r <- body ;;
   pthread_mutex_unlock Event_lock ;; ret r) t s
  = Done a (initialize s).
Proof.
  intros Hacq Hbody. rewrite lazy_init_run.
  unfold bind at 1. unfold pthread_mutex_lock. simpl.
  change (side_event_lock (initialize s)) with (mutex_of Event_lock (initialize s)).
  rewrite initialize_mutex. simpl. rewrite Hacq.
  unfold bind at 1. rewrite Hbody.
  unfold bind, pthread_mutex_unlock, ret. simpl.
  rewrite (acquire_release _ _ _ _ Hacq).
  change (side_event_lock s) with (mutex_of Event_lock s).
  rewrite <- (initialize_mutex Event_lock s). simpl.
  by destruct (initialize s).
Qed.

Lemma unlock_restores m' s :
  set_side_event_lock (side_event_lock s) (set_side_event_lock m' (initialize s))
  = initialize s.
Proof. unfold initialize. destruct (initialized s); by destruct s. Qed.

Lemma register_exists_run desc e vec idx call priv key t s :
  event_store s !! desc = Some e →
  version e = 0 →
  block_of s (callbacks e) = Some vec →
  lookup_loop (block_entries vec) 0 call priv key = Some (Some idx) →
  nr_callbacks e ≠ UINT32_MAX →
  call ≠ NULL →
  finalized s = false →
  available true t (side_event_lock s) →
  _side_tracer_callback_register desc call priv key t s
  = Done SIDE_ERROR_EXIST (initialize s).
Proof.
  intros He Hver Hvec Hl Hmax Hnull Hfin [m' Hacq].
  unfold _side_tracer_callback_register.
  rewrite bool_decide_eq_false_2 by done. rewrite bind_gets, Hfin.
  apply (locked_neutral _ _ _ _ m' Hacq).
  unfold register_locked.
  rewrite (bind_run _ _ _ _ _ _
             (load_event_run desc e t _ ltac:(by rewrite event_store_locked))).
  rewrite bool_decide_eq_false_2 by (rewrite Hver; auto).
  cbv zeta. rewrite bool_decide_eq_false_2 by done.
  erewrite (bind_run (side_tracer_callback_lookup desc call priv key)).
  2: { eapply lookup_run; [by rewrite event_store_locked|done| |exact Hl].
       by rewrite block_of_locked. }
  reflexivity.
Qed.

Lemma unregister_absent_run desc e vec call priv key t s :
  event_store s !! desc = Some e →
  version e = 0 →
  block_of s (callbacks e) = Some vec →
  lookup_loop (block_entries vec) 0 call priv key = Some None →
  call ≠ NULL →
  finalized s = false →
  available true t (side_event_lock s) →
  _side_tracer_callback_unregister desc call priv key t s
  = Done SIDE_ERROR_NOENT (initialize s).
Proof.
  intros He Hver Hvec Hl Hnull Hfin [m' Hacq].
  unfold _side_tracer_callback_unregister.
  rewrite bool_decide_eq_false_2 by done. rewrite bind_gets, Hfin.
  apply (locked_neutral _ _ _ _ m' Hacq).
  unfold unregister_locked.
  rewrite (bind_run _ _ _ _ _ _
             (load_event_run desc e t _ ltac:(by rewrite event_store_locked))).
  rewrite bool_decide_eq_false_2 by (rewrite Hver; auto).
  erewrite (bind_run (side_tracer_callback_lookup desc call priv key)).
  2: { eapply lookup_run; [by rewrite event_store_locked|done| |exact Hl].
       by rewrite block_of_locked. }
  reflexivity.
Qed.

Lemma register_exists_only_if desc e vecl call priv key t s s' :
  event_store s !! desc = Some e →
  callbacks_of s desc = Some vecl →
  _side_tracer_callback_register desc call priv key t s = Done SIDE_ERROR_EXIST s' →
  mk_side_callback call priv key ∈ vecl ∧ s' = initialize s.
Proof.
  intros He Hcbs H.
  apply callbacks_of_Some with (e := e) in Hcbs as (vec & Hvec & Hterm & ->); [|done].
  apply register_Done in H
    as [(_ & [=] & _)|[(_ & _ & [=] & _)|(_ & _ & m' & s2 & m2 & Hacq & H & Hrel & ->)]].
  apply register_locked_Done in H
    as (e' & He' & _ & [(_ & [=] & _)|(_ & vec' & found & Hvec' & Hl & Hcase)]).
  rewrite event_store_locked in He'. assert (e' = e) as -> by congruence.
  rewrite block_of_locked in Hvec'. assert (vec' = vec) as -> by congruence.
  destruct found as [idx|]; [|by destruct Hcase as [[[=] _]|[[=] _]]].
  destruct Hcase as [_ ->]. split; [by eapply lookup_loop_found|].
  simpl in Hrel. rewrite (acquire_release _ _ _ _ Hacq) in Hrel.
  injection Hrel as <-. apply unlock_restores.
Qed.

Lemma unregister_absent_only_if desc e vecl call priv key t s s' :
  event_store s !! desc = Some e →
  callbacks_of s desc = Some vecl →
  _side_tracer_callback_unregister desc call priv key t s = Done SIDE_ERROR_NOENT s' →
  (mk_side_callback call priv key ∉ vecl) ∧ s' = initialize s.
Proof.
  intros He Hcbs H.
  apply callbacks_of_Some with (e := e) in Hcbs as (vec & Hvec & Hterm & ->); [|done].
  apply unregister_Done in H
    as [(_ & [=] & _)|[(_ & _ & [=] & _)|(_ & _ & m' & s2 & m2 & Hacq & H & Hrel & ->)]].
  apply unregister_locked_Done in H
    as (e' & vec' & found & He' & _ & Hvec' & Hl & Hcase).
  rewrite event_store_locked in He'. assert (e' = e) as -> by congruence.
  rewrite block_of_locked in Hvec'. assert (vec' = vec) as -> by congruence.
  destruct found as [idx|]; [by destruct Hcase as [[[=] _]|[[=] _]]|].
  destruct Hcase as [_ ->]. split; [by eapply lookup_loop_absent|].
  simpl in Hrel. rewrite (acquire_release _ _ _ _ Hacq) in Hrel.
  injection Hrel as <-. apply unlock_restores.
Qed.

Lemma register_variant_right desc e call priv key t s :
  event_store s !! desc = Some e →
  register_variant (is_variadic e) desc call priv key t s
  = _side_tracer_callback_register desc call priv key t s.
Proof.
  intros He. unfold register_variant, side_tracer_callback_variadic_register,
    side_tracer_callback_register.
  destruct (is_variadic e) eqn:Hv;
    by rewrite (bind_run _ _ _ _ _ _ (load_event_run _ _ t _ He)), Hv.
Qed.

Lemma unregister_variant_right desc e call priv key t s :
  event_store s !! desc = Some e →
  unregister_variant (is_variadic e) desc call priv key t s
  = _side_tracer_callback_unregister desc call priv key t s.
Proof.
  intros He. unfold unregister_variant, side_tracer_callback_variadic_unregister,
    side_tracer_callback_unregister.
  destruct (is_variadic e) eqn:Hv;
    by rewrite (bind_run _ _ _ _ _ _ (load_event_run _ _ t _ He)), Hv.
Qed.

Lemma variant_wrong desc e call priv key t s :
  event_store s !! desc = Some e →
  register_variant (negb (is_variadic e)) desc call priv key t s
  = Done SIDE_ERROR_INVAL s
  ∧ unregister_variant (negb (is_variadic e)) desc call priv key t s
    = Done SIDE_ERROR_INVAL s.
Proof.
  intros He. unfold register_variant, unregister_variant,
    side_tracer_callback_variadic_register, side_tracer_callback_register,
    side_tracer_callback_variadic_unregister, side_tracer_callback_unregister.
  destruct (is_variadic e) eqn:Hv; simpl;
    by rewrite !(bind_run _ _ _ _ _ _ (load_event_run _ _ t _ He)), Hv.
Qed.

(** C9.  For an event of ABI version 0 whose callback array is terminated,
    with [vecl] the callbacks the array holds:
    - the function of the wrong variant returns SIDE_ERROR_INVAL, and so do
      register and unregister given a NULL function, in the unchanged state;
    - a registration that returns SIDE_ERROR_EXIST was given a triple the
      vector holds, and an unregistration that returns SIDE_ERROR_NOENT a
      triple it does not hold; both leave the state as it was, lazy
      initialization apart;
    - on a library that is not finalized, by a thread that can take the event
      mutex, with a non-null function: registering a triple the vector holds
      returns SIDE_ERROR_EXIST (nr_callbacks not being UINT32_MAX, which
      is rejected first), and unregistering a triple it does not hold returns
      SIDE_ERROR_NOENT. *)
Theorem callback_error_taxonomy t s desc e vecl call priv key :
  event_store s !! desc = Some e →
  version e = 0 →
  callbacks_of s desc = Some vecl →
  let cb := mk_side_callback call priv key in
  let register := register_variant (is_variadic e) desc call priv key in
  let unregister := unregister_variant (is_variadic e) desc call priv key in
  (register_variant (negb (is_variadic e)) desc call priv key t s
   = Done SIDE_ERROR_INVAL s
   ∧ unregister_variant (negb (is_variadic e)) desc call priv key t s
     = Done SIDE_ERROR_INVAL s)
  ∧ (call = NULL →
     register t s = Done SIDE_ERROR_INVAL s ∧ unregister t s = Done SIDE_ERROR_INVAL s)
  ∧ (∀ s', register t s = Done SIDE_ERROR_EXIST s' → cb ∈ vecl ∧ s' = initialize s)
  ∧ (∀ s', unregister t s = Done SIDE_ERROR_NOENT s' → (cb ∉ vecl) ∧ s' = initialize s)
  ∧ (call ≠ NULL → finalized s = false → available true t (side_event_lock s) →
     (nr_callbacks e ≠ UINT32_MAX → cb ∈ vecl →
      register t s = Done SIDE_ERROR_EXIST (initialize s))
     ∧ (cb ∉ vecl → unregister t s = Done SIDE_ERROR_NOENT (initialize s))).
Proof.
  intros He Hver Hcbs cb register unregister. subst register unregister.
  rewrite register_variant_right, unregister_variant_right by done.
  split; [by apply variant_wrong|].
  split.
  { intros ->. unfold _side_tracer_callback_register, _side_tracer_callback_unregister.
    by rewrite bool_decide_eq_true_2. }
  split; [intros s'; by apply register_exists_only_if with (e := e)|].
  split; [intros s'; by apply unregister_absent_only_if with (e := e)|].
  intros Hnull Hfin Hav.
  destruct (callbacks_of_Some _ _ _ _ He Hcbs) as (vec & Hvec & Hterm & ->).
  destruct (lookup_loop_decides _ call priv key 0%nat Hterm) as (found & Hl & Hiff).
  split.
  - intros Hmax Hin. apply Hiff in Hin as [idx ->].
    by eapply register_exists_run.
  - intros Hnot. destruct found as [idx|].
    + destruct Hnot. apply Hiff. by eexists.
    + by eapply unregister_absent_run.
Qed.

Lemma callback_error_taxonomy_witness :
  register_cb 0x100 callback_A 1 two_callbacks = Done SIDE_ERROR_EXIST two_callbacks
  ∧ unregister_cb 0x100 callback_C 1 two_callbacks = Done SIDE_ERROR_NOENT two_callbacks
  ∧ side_tracer_callback_variadic_register 0x100 0x401136 0xA 9 1 two_callbacks
    = Done SIDE_ERROR_INVAL two_callbacks
  ∧ side_tracer_callback_unregister 0x100 NULL 0xA 9 1 two_callbacks
    = Done SIDE_ERROR_INVAL two_callbacks.
Proof.
  assert (Hav : available true 1 (side_event_lock two_callbacks)) by (by eexists).
  split; [|split; [|split]].
  - destruct (callback_error_taxonomy 1 two_callbacks 0x100
                (mk_side_event 0 0 2 1 (heap_block 1)) [callback_A; callback_B]
                0x401136 0xA 9 eq_refl eq_refl eq_refl) as (_ & _ & _ & _ & H).
    destruct (H ltac:(discriminate) eq_refl Hav) as [Hex _].
    apply Hex; [discriminate | apply list_elem_of_here].
  - destruct (callback_error_taxonomy 1 two_callbacks 0x100
                (mk_side_event 0 0 2 1 (heap_block 1)) [callback_A; callback_B]
                0x401358 0xC 0 eq_refl eq_refl eq_refl) as (_ & _ & _ & _ & H).
    destruct (H ltac:(discriminate) eq_refl Hav) as [_ Hno].
    apply Hno. intros Hin.
    repeat (apply elem_of_cons in Hin as [Heq|Hin]; [discriminate Heq|]).
    by apply elem_of_nil in Hin.
  - destruct (callback_error_taxonomy 1 two_callbacks 0x100
                (mk_side_event 0 0 2 1 (heap_block 1)) [callback_A; callback_B]
                0x401136 0xA 9 eq_refl eq_refl eq_refl) as ([H _] & _).
    exact H.
  - destruct (callback_error_taxonomy 1 two_callbacks 0x100
                (mk_side_event 0 0 2 1 (heap_block 1)) [callback_A; callback_B]
                NULL 0xA 9 eq_refl eq_refl eq_refl) as (_ & H & _).
    destruct (H eq_refl) as [_ Hun]. exact Hun.
Defined.

(** ** Bytes of callback arrays *)

Lemma zeroed_length n : length (zeroed n) = n.
Proof. apply length_replicate. Qed.

Lemma zeroed_drop k n : drop k (zeroed n) = zeroed (n - k).
Proof. apply drop_replicate. Qed.

Lemma le_encode_length n v : length (le_encode n v) = n.
Proof. revert v. induction n as [|n IH]; intros v; simpl; [done|]. by rewrite IH. Qed.

Lemma encode_callback_length cb : length (encode_callback cb) = SIZEOF_SIDE_CALLBACK.
Proof. unfold encode_callback. rewrite !length_app, !le_encode_length. reflexivity. Qed.

Lemma memcpy_Some dst doff src soff n :
  (doff + n ≤ length dst)%nat →
  (soff + n ≤ length src)%nat →
  memcpy dst doff src soff n
  = Some (take doff dst ++ take n (drop soff src) ++ drop (doff + n) dst).
Proof. intros H1 H2. unfold memcpy. by rewrite decide_True. Qed.

Lemma memcpy_inv dst doff src soff n d' :
  memcpy dst doff src soff n = Some d' →
  (doff + n ≤ length dst)%nat ∧ (soff + n ≤ length src)%nat
  ∧ d' = take doff dst ++ take n (drop soff src) ++ drop (doff + n) dst.
Proof. unfold memcpy. case_decide as H; [|discriminate]. intros [= <-]. tauto. Qed.

Lemma memcpy_length dst doff src soff n d' :
  memcpy dst doff src soff n = Some d' → length d' = length dst.
Proof.
  intros H. apply memcpy_inv in H as (H1 & H2 & ->).
  rewrite !length_app, !length_take, !length_drop. lia.
Qed.

(** The bytes above the copied range are those of the destination. *)
Lemma memcpy_drop_above dst doff src soff n d' k :
  memcpy dst doff src soff n = Some d' →
  (doff + n ≤ k)%nat →
  drop k d' = drop k dst.
Proof.
  intros H Hk. apply memcpy_inv in H as (H1 & H2 & ->).
  rewrite drop_app_ge by (rewrite length_take; lia).
  rewrite drop_app_ge by (rewrite !length_take, length_drop; lia).
  rewrite !length_take, length_drop, drop_drop. f_equal. lia.
Qed.

Lemma block_chunks_length n bs : length (block_chunks n bs) = n.
Proof. revert bs. induction n as [|n IH]; intros bs; simpl; [done|]. by rewrite IH. Qed.

Lemma block_chunks_lookup n : ∀ bs i,
  (i < n)%nat →
  block_chunks n bs !! i
  = Some (decode_callback (take SIZEOF_SIDE_CALLBACK (drop (i * SIZEOF_SIDE_CALLBACK) bs))).
Proof.
  induction n as [|n IH]; intros bs i Hi; [lia|].
  destruct i as [|i]; simpl.
  - reflexivity.
  - rewrite IH by lia. rewrite drop_drop. reflexivity.
Qed.

Lemma terminated_lookup entries i cb :
  entries !! i = Some cb → cb_call cb = NULL → terminated entries = true.
Proof.
  revert i. induction entries as [|x rest IH]; intros i; [done|].
  destruct i as [|i]; simpl.
  - intros [= ->] Hz. by rewrite bool_decide_eq_true_2.
  - intros Hl Hz. rewrite (IH i Hl Hz). apply orb_true_r.
Qed.

(** The entries of a well-formed array: there are nr + 1 of them, the last
    one is the zeroed sentinel, so that a walk terminates. *)
Lemma vector_block_entries nr bytes :
  0 ≤ nr →
  vector_block nr bytes →
  length (block_entries bytes) = (Z.to_nat nr + 1)%nat
  ∧ block_entries bytes !! Z.to_nat nr = Some (mk_side_callback 0 0 0)
  ∧ terminated (block_entries bytes) = true.
Proof.
  intros Hnr [Hlen Hlast]. unfold block_entries. rewrite Hlen.
  rewrite Nat.div_mul by done.
  assert (Hentry : block_chunks (Z.to_nat nr + 1) bytes !! Z.to_nat nr
                   = Some (mk_side_callback 0 0 0)).
  { rewrite block_chunks_lookup by lia. rewrite Hlast. reflexivity. }
  split; [apply block_chunks_length|]. split; [done|].
  by eapply terminated_lookup.
Qed.

(** The index the lookup returns is that of an entry with a function. *)
Lemma lookup_loop_index entries call priv key : ∀ idx0 i,
  lookup_loop entries idx0 call priv key = Some (Some i) →
  (idx0 ≤ i)%nat
  ∧ ∃ cb, entries !! (i - idx0)%nat = Some cb ∧ cb_call cb ≠ NULL.
Proof.
  induction entries as [|cb rest IH]; intros idx0 i; simpl; [discriminate|].
  case_bool_decide as Hnull; [discriminate|].
  destruct (bool_decide (cb_call cb = call) && bool_decide (cb_priv cb = priv)
            && bool_decide (cb_key cb = key)).
  - intros [= <-]. split; [done|]. exists cb. by rewrite Nat.sub_diag.
  - intros H. apply IH in H as (Hle & cb' & Hl & Hnz). split; [lia|].
    exists cb'. split; [|done].
    replace (i - idx0)%nat with (S (i - S idx0)) by lia. done.
Qed.

(** On a well-formed array the lookup returns, and the index of an entry it
    finds is below nr_callbacks. *)
Lemma vector_block_lookup nr bytes call priv key :
  0 ≤ nr →
  vector_block nr bytes →
  ∃ found,
    lookup_loop (block_entries bytes) 0 call priv key = Some found
    ∧ ∀ i, found = Some i → (i < Z.to_nat nr)%nat.
Proof.
  intros Hnr Hvb.
  destruct (vector_block_entries nr bytes Hnr Hvb) as (Hlen & Hlast & Hterm).
  destruct (lookup_loop_decides _ call priv key 0%nat Hterm) as (found & Hl & _).
  exists found. split; [done|]. intros i ->.
  apply lookup_loop_index in Hl as (_ & cb & Hcb & Hnz).
  rewrite Nat.sub_0_r in Hcb.
  assert (i < length (block_entries bytes))%nat as Hlt by (by eapply lookup_lt_Some).
  destruct (decide (i = Z.to_nat nr)) as [->|Hne]; [|lia].
  rewrite Hlast in Hcb. injection Hcb as <-. by destruct Hnz.
Qed.

(** ** Well-formed libraries *)

Lemma lib_wf_same s s' :
  event_store s' = event_store s → heap s' = heap s → brk s' = brk s →
  lib_wf s → lib_wf s'.
Proof.
  intros He Hh Hb (Hev & Hshare & Hfresh). unfold lib_wf, event_wf.
  rewrite He, Hh, Hb. done.
Qed.

(** The array an event points at is allocated, hence below [brk]. *)
Lemma lib_wf_block s desc e a :
  lib_wf s → event_store s !! desc = Some e → callbacks e = heap_block a →
  ∃ bytes, heap s !! a = Some bytes ∧ vector_block (nr_callbacks e) bytes ∧ a < brk s.
Proof.
  intros (Hev & _ & Hfresh) He Hcb.
  destruct (Hev desc e He) as (_ & _ & Hblock). rewrite Hcb in Hblock.
  destruct Hblock as (bytes & Hb & Hvb). exists bytes. split; [done|]. split; [done|].
  apply Hfresh. by eexists.
Qed.

Lemma lib_wf_fresh s : lib_wf s → heap s !! brk s = None.
Proof.
  intros (_ & _ & Hfresh). destruct (heap s !! brk s) eqn:H; [|done].
  assert (brk s < brk s) by (apply Hfresh; by eexists). lia.
Qed.

(** Event [desc] gets a newly allocated array, and its old one, if any, is
    freed. *)
Lemma lib_wf_replace s s' desc e e' bytes' :
  lib_wf s →
  event_store s !! desc = Some e →
  event_store s' = <[desc := e']> (event_store s) →
  heap s' = match callbacks e with
            | heap_block a => delete a (<[brk s := bytes']> (heap s))
            | side_empty_callback => <[brk s := bytes']> (heap s)
            end →
  brk s' = brk s + 1 →
  version e' = 0 →
  event_consistent e' →
  callbacks e' = heap_block (brk s) →
  vector_block (nr_callbacks e') bytes' →
  lib_wf s'.
Proof.
  intros Hwf He Hes Hheap Hbrk Hver Hcons Hcb Hvb.
  pose proof (lib_wf_fresh s Hwf) as Hnew.
  destruct Hwf as (Hev & Hshare & Hfresh).
  assert (Hother : ∀ b, b ≠ brk s →
            (∀ a, callbacks e = heap_block a → b ≠ a) →
            heap s' !! b = heap s !! b).
  { intros b Hb Ha. rewrite Hheap. destruct (callbacks e) as [|a].
    - by rewrite lookup_insert_ne.
    - rewrite lookup_delete_ne by (intros ->; by eapply Ha).
      by rewrite lookup_insert_ne. }
  assert (Hmine : heap s' !! brk s = Some bytes').
  { rewrite Hheap. destruct (callbacks e) as [|a] eqn:Hold.
    - apply lookup_insert_eq.
    - destruct (lib_wf_block s desc e a) as (? & Ha & _ & Hlt); [done..|].
      rewrite lookup_delete_ne by lia. apply lookup_insert_eq. }
  split; [|split].
  - intros d x. rewrite Hes. destruct (decide (d = desc)) as [->|Hne].
    + rewrite lookup_insert_eq. intros [= <-]. split; [done|]. split; [done|].
      rewrite Hcb. by exists bytes'.
    + rewrite lookup_insert_ne by done. intros Hx.
      destruct (Hev d x Hx) as (Hv & Hc & Hblock). split; [done|]. split; [done|].
      destruct (callbacks x) as [|b] eqn:Hb; [done|].
      destruct Hblock as (bytes & Hbytes & Hvbx). exists bytes. split; [|done].
      rewrite Hother; [done| |].
      * intros ->. congruence.
      * intros a Ha ->. apply Hne. by eapply Hshare.
  - intros d1 d2 e1 e2 a. rewrite Hes.
    destruct (decide (d1 = desc)) as [->|Hne1], (decide (d2 = desc)) as [->|Hne2];
      rewrite ?lookup_insert_eq, ?lookup_insert_ne by done; try done.
    + intros [= <-] H2 Ha1 Ha2. rewrite Hcb in Ha1. injection Ha1 as <-.
      destruct (Hev d2 e2 H2) as (_ & _ & Hblock). rewrite Ha2 in Hblock.
      destruct Hblock as (? & Hb & _). congruence.
    + intros H1 [= <-] Ha1 Ha2. rewrite Hcb in Ha2. injection Ha2 as <-.
      destruct (Hev d1 e1 H1) as (_ & _ & Hblock). rewrite Ha1 in Hblock.
      destruct Hblock as (? & Hb & _). congruence.
    + apply Hshare.
  - intros b [x Hx]. rewrite Hbrk. destruct (decide (b = brk s)) as [->|Hb]; [lia|].
    assert (is_Some (heap s !! b)) as Hsome.
    { rewrite Hheap in Hx. destruct (callbacks e) as [|a].
      - rewrite lookup_insert_ne in Hx by done. by eexists.
      - apply lookup_delete_Some in Hx as [_ Hx].
        rewrite lookup_insert_ne in Hx by done. by eexists. }
    apply Hfresh in Hsome. lia.
Qed.

(** Event [desc] goes back to the shared empty callback and its array is
    freed. *)
Lemma lib_wf_release s s' desc e e' a :
  lib_wf s →
  event_store s !! desc = Some e →
  callbacks e = heap_block a →
  event_store s' = <[desc := e']> (event_store s) →
  heap s' = delete a (heap s) →
  brk s' = brk s →
  version e' = 0 →
  event_consistent e' →
  callbacks e' = side_empty_callback →
  nr_callbacks e' = 0 →
  lib_wf s'.
Proof.
  intros (Hev & Hshare & Hfresh) He Hold Hes Hheap Hbrk Hver Hcons Hcb Hnr.
  split; [|split].
  - intros d x. rewrite Hes. destruct (decide (d = desc)) as [->|Hne].
    + rewrite lookup_insert_eq. intros [= <-]. split; [done|]. split; [done|].
      by rewrite Hcb.
    + rewrite lookup_insert_ne by done. intros Hx.
      destruct (Hev d x Hx) as (Hv & Hc & Hblock). split; [done|]. split; [done|].
      destruct (callbacks x) as [|b] eqn:Hb; [done|].
      destruct Hblock as (bytes & Hbytes & Hvbx). exists bytes. split; [|done].
      rewrite Hheap, lookup_delete_ne; [done|].
      intros ->. apply Hne. by eapply Hshare.
  - intros d1 d2 e1 e2 b. rewrite Hes.
    destruct (decide (d1 = desc)) as [->|Hne1], (decide (d2 = desc)) as [->|Hne2];
      rewrite ?lookup_insert_eq, ?lookup_insert_ne by done; try done.
    + intros [= <-] _ Ha1. congruence.
    + intros _ [= <-] _ Ha2. congruence.
    + apply Hshare.
  - intros b [x Hx]. rewrite Hbrk. apply Hfresh.
    rewrite Hheap in Hx. apply lookup_delete_Some in Hx as [_ Hx]. by eexists.
Qed.

(** ** Code that returns *)

Lemma calloc_callbacks_returns nmemb t s :
  ∃ r s',
    calloc_callbacks nmemb t s = Done r s'
    ∧ event_store s' = event_store s
    ∧ (r = None ∧ heap s' = heap s ∧ brk s' = brk s
       ∨ r = Some (brk s)
         ∧ heap s' = <[brk s := zeroed (Z.to_nat nmemb * SIZEOF_SIDE_CALLBACK)]> (heap s)
         ∧ brk s' = brk s + 1).
Proof.
  unfold calloc_callbacks, bind, alloc_attempt.
  destruct (oom_script s) as [|[] rest]; simpl; do 2 eexists;
    (split; [reflexivity|]); (split; [by destruct s|]).
  - right. by destruct s.
  - left. by destruct s.
  - right. by destruct s.
Qed.

Lemma memcpy_callbacks_run dst didx src sidx n d b d' t s :
  heap s !! dst = Some d →
  block_of s src = Some b →
  memcpy d (didx * SIZEOF_SIDE_CALLBACK) b (sidx * SIZEOF_SIDE_CALLBACK) n = Some d' →
  memcpy_callbacks dst didx src sidx n t s
  = Done tt (set_heap (<[dst := d']> (heap s)) s).
Proof.
  intros Hd Hb Hcpy. unfold memcpy_callbacks.
  rewrite (bind_run _ _ _ _ _ _ (load_block_run (heap_block dst) d t s Hd)).
  rewrite (bind_run _ _ _ _ _ _ (load_block_run src b t s Hb)).
  rewrite Hcpy. reflexivity.
Qed.

Lemma write_callback_run vec idx cb d d' t s :
  heap s !! vec = Some d →
  store_callback d idx cb = Some d' →
  write_callback vec idx cb t s = Done tt (set_heap (<[vec := d']> (heap s)) s).
Proof.
  intros Hd Hst. unfold write_callback.
  rewrite (bind_run _ _ _ _ _ _ (load_block_run (heap_block vec) d t s Hd)).
  rewrite Hst. reflexivity.
Qed.

Lemma update_event_run desc f e t s :
  event_store s !! desc = Some e →
  update_event desc f t s = Done tt (set_event_store (<[desc := f e]> (event_store s)) s).
Proof.
  intros He. unfold update_event.
  rewrite (bind_run _ _ _ _ _ _ (load_event_run desc e t s He)). reflexivity.
Qed.

Lemma free_callbacks_run a b t s :
  heap s !! a = Some b →
  free_callbacks (heap_block a) t s = Done tt (set_heap (delete a (heap s)) s).
Proof. intros Ha. unfold free_callbacks. rewrite bind_gets, Ha. reflexivity. Qed.

(** The array a registration builds is well formed: the bytes copied from
    the old array and the new entry lie below the last entry. *)
Lemma register_array nr old cb :
  0 ≤ nr →
  (Z.to_nat nr ≤ length old)%nat →
  ∃ d1 d2,
    memcpy (zeroed (Z.to_nat (nr + 2) * SIZEOF_SIDE_CALLBACK)) (0 * SIZEOF_SIDE_CALLBACK)
      old (0 * SIZEOF_SIDE_CALLBACK) (Z.to_nat nr) = Some d1
    ∧ store_callback d1 (Z.to_nat nr) cb = Some d2
    ∧ vector_block (nr + 1) d2.
Proof.
  intros Hnr Hold.
  assert (Hsz : Z.to_nat (nr + 2) = (Z.to_nat nr + 2)%nat) by lia.
  assert (Hsz1 : Z.to_nat (nr + 1) = (Z.to_nat nr + 1)%nat) by lia.
  set (n := Z.to_nat nr) in *.
  destruct (memcpy (zeroed (Z.to_nat (nr + 2) * SIZEOF_SIDE_CALLBACK))
              (0 * SIZEOF_SIDE_CALLBACK) old (0 * SIZEOF_SIDE_CALLBACK) n)
    as [d1|] eqn:H1.
  2: { rewrite memcpy_Some in H1; [discriminate| |].
       - rewrite zeroed_length, Hsz. unfold SIZEOF_SIDE_CALLBACK. lia.
       - simpl. lia. }
  assert (Hlen1 : length d1 = ((n + 2) * SIZEOF_SIDE_CALLBACK)%nat).
  { rewrite (memcpy_length _ _ _ _ _ _ H1), zeroed_length, Hsz. done. }
  destruct (store_callback d1 n cb) as [d2|] eqn:H2.
  2: { unfold store_callback in H2. rewrite memcpy_Some in H2; [discriminate| |].
       - rewrite Hlen1. unfold SIZEOF_SIDE_CALLBACK. lia.
       - rewrite encode_callback_length. lia. }
  exists d1, d2. split; [done|]. split; [done|]. unfold store_callback in H2.
  split.
  - rewrite (memcpy_length _ _ _ _ _ _ H2), Hlen1, Hsz1.
    unfold SIZEOF_SIDE_CALLBACK. lia.
  - rewrite Hsz1.
    rewrite (memcpy_drop_above _ _ _ _ _ _ _ H2) by (unfold SIZEOF_SIDE_CALLBACK; lia).
    rewrite (memcpy_drop_above _ _ _ _ _ _ _ H1) by (unfold SIZEOF_SIDE_CALLBACK; lia).
    rewrite zeroed_drop, Hsz. f_equal. unfold SIZEOF_SIDE_CALLBACK. lia.
Qed.

(** Projections of the states the steps below go through. *)
Ltac lib_fields :=
  cbn [event_store heap brk set_heap set_event_store set_brk set_oom_script] in *.

(** What the old array of a well-formed event offers to a registration or
    an unregistration: it is there, long enough, and the lookup returns, with
    an index below nr_callbacks when it finds the triple. *)
Lemma lib_wf_old_array s desc e call priv key :
  lib_wf s →
  event_store s !! desc = Some e →
  ∃ old found,
    block_of s (callbacks e) = Some old
    ∧ (Z.to_nat (nr_callbacks e) ≤ length old)%nat
    ∧ lookup_loop (block_entries old) 0 call priv key = Some found
    ∧ ∀ i, found = Some i →
        (i < Z.to_nat (nr_callbacks e))%nat
        ∧ ∃ a, callbacks e = heap_block a ∧ vector_block (nr_callbacks e) old.
Proof.
  intros Hwf He. pose proof Hwf as (Hev & _).
  destruct (Hev desc e He) as (Hver & (Hrange & Hempty & Hpar) & Hblock).
  destruct (callbacks e) as [|a] eqn:Hcb.
  - exists side_empty_callback_bytes, None. rewrite Hblock.
    repeat split; try done. simpl. lia.
  - destruct Hblock as (bytes & Hbytes & Hvb).
    destruct (vector_block_lookup _ _ call priv key (proj1 Hrange) Hvb)
      as (found & Hl & Hidx).
    exists bytes, found. split; [done|]. split.
    { destruct Hvb as [Hlen _]. rewrite Hlen. unfold SIZEOF_SIDE_CALLBACK. lia. }
    split; [done|]. intros i Hi. split; [by apply Hidx|]. by exists a.
Qed.

(** On a well-formed library a registration on an event with fewer than
    UINT32_MAX - 1 callbacks returns, with SIDE_ERROR_OK, SIDE_ERROR_EXIST or
    SIDE_ERROR_NOMEM, and leaves the library well formed. *)
Lemma register_locked_returns desc call priv key t s e :
  lib_wf s →
  event_store s !! desc = Some e →
  nr_callbacks e < UINT32_MAX - 1 →
  ∃ r s',
    register_locked desc call priv key t s = Done r s'
    ∧ lib_wf s'
    ∧ (r = SIDE_ERROR_OK ∨ r = SIDE_ERROR_EXIST ∨ r = SIDE_ERROR_NOMEM).
Proof.
  intros Hwf He Hmax. pose proof Hwf as (Hev & _).
  destruct (Hev desc e He) as (Hver & Hcons & Hblock).
  pose proof Hcons as (Hrange & Hempty & Hpar).
  destruct (lib_wf_old_array s desc e call priv key Hwf He)
    as (old & found & Hold & Hlen & Hl & Hfound).
  unfold register_locked.
  rewrite (bind_run _ _ _ _ _ _ (load_event_run desc e t s He)).
  rewrite bool_decide_eq_false_2 by (rewrite Hver; auto). cbv zeta.
  rewrite bool_decide_eq_false_2 by (unfold UINT32_MAX in *; lia).
  rewrite (bind_run _ _ _ _ _ _ (lookup_run desc e old call priv key found t s
                                   He Hver Hold Hl)).
  destruct found as [idx|].
  { exists SIDE_ERROR_EXIST, s. split; [done|]. split; [done|]. tauto. }
  replace (u32 (nr_callbacks e + 2)) with (nr_callbacks e + 2)
    by (unfold u32, UINT32_MAX in *; rewrite Z.mod_small; lia).
  destruct (calloc_callbacks_returns (nr_callbacks e + 2) t s)
    as (r1 & s1 & Hcalloc & Hes1 & [(-> & Hh1 & Hb1)|(-> & Hh1 & Hb1)]);
    rewrite (bind_run _ _ _ _ _ _ Hcalloc).
  { exists SIDE_ERROR_NOMEM, s1. split; [done|].
    split; [by eapply lib_wf_same|]. tauto. }
  destruct (register_array (nr_callbacks e) old (mk_side_callback call priv key)
              (proj1 Hrange) Hlen) as (d1 & d2 & Hd1 & Hd2 & Hvb).
  assert (Hold1 : block_of s1 (callbacks e) = Some old).
  { destruct (callbacks e) as [|a] eqn:Hcb; [done|]. simpl in *.
    destruct (lib_wf_block s desc e a Hwf He Hcb) as (? & _ & _ & Hlt).
    rewrite Hh1, lookup_insert_ne by lia. done. }
  erewrite (bind_run (memcpy_callbacks _ _ _ _ _));
    [|eapply memcpy_callbacks_run;
      [rewrite Hh1; apply lookup_insert_eq | exact Hold1 | exact Hd1]].
  erewrite (bind_run (write_callback _ _ _));
    [|eapply write_callback_run; [apply lookup_insert_eq | exact Hd2]].
  erewrite (bind_run (update_event _ _));
    [|eapply update_event_run; lib_fields; rewrite Hes1; exact He].
  unfold side_rcu_wait_grace_period. rewrite bind_ret.
  destruct (decide (nr_callbacks e = 0)) as [Hz|Hnz].
  - rewrite (bool_decide_eq_false_2 (nr_callbacks e ≠ 0)) by tauto.
    rewrite (bool_decide_eq_true_2 (nr_callbacks e = 0)) by done.
    unfold when. rewrite bind_ret.
    erewrite (bind_run (update_event _ _));
      [|eapply update_event_run; lib_fields; apply lookup_insert_eq].
    erewrite (bind_run (update_event _ _));
      [|eapply update_event_run; lib_fields; apply lookup_insert_eq].
    eexists _, _. split; [reflexivity|]. split; [|tauto].
    eapply (lib_wf_replace s _ desc e _ d2 Hwf He).
    + lib_fields. rewrite !insert_insert_eq, Hes1. reflexivity.
    + lib_fields. rewrite (Hempty Hz), !insert_insert_eq, Hh1, insert_insert_eq.
      reflexivity.
    + lib_fields. exact Hb1.
    + exact Hver.
    + cbn [set_nr_callbacks set_callbacks set_enabled nr_callbacks desc_flags version
             enabled callbacks].
      pose proof (register_consistent e (brk s) Hcons) as Hreg.
      rewrite (bool_decide_eq_true_2 (nr_callbacks e = 0)) in Hreg by done.
      apply Hreg. unfold UINT32_MAX in *. lia.
    + reflexivity.
    + cbn [nr_callbacks set_nr_callbacks set_enabled set_callbacks].
      replace (u32 (nr_callbacks e + 1)) with (nr_callbacks e + 1)
        by (unfold u32, UINT32_MAX in *; rewrite Z.mod_small; lia).
      exact Hvb.
  - rewrite (bool_decide_eq_true_2 (nr_callbacks e ≠ 0)) by done.
    rewrite (bool_decide_eq_false_2 (nr_callbacks e = 0)) by done.
    unfold when.
    destruct (callbacks e) as [|a] eqn:Hcb; [by destruct Hnz|].
    destruct (lib_wf_block s desc e a Hwf He Hcb) as (bytes & Hbytes & _ & Hlt).
    erewrite (bind_run (free_callbacks _));
      [|eapply free_callbacks_run; lib_fields;
        rewrite !lookup_insert_ne, Hh1, lookup_insert_ne by lia; exact Hbytes].
    erewrite (bind_run (update_event _ _));
      [|eapply update_event_run; lib_fields; apply lookup_insert_eq].
    rewrite bind_ret.
    eexists _, _. split; [reflexivity|]. split; [|tauto].
    eapply (lib_wf_replace s _ desc e _ d2 Hwf He).
    + lib_fields. rewrite !insert_insert_eq, Hes1. reflexivity.
    + lib_fields. rewrite Hcb, !insert_insert_eq, Hh1, insert_insert_eq.
      reflexivity.
    + lib_fields. exact Hb1.
    + exact Hver.
    + cbn [set_nr_callbacks set_callbacks nr_callbacks desc_flags version enabled callbacks].
      pose proof (register_consistent e (brk s) Hcons) as Hreg.
      rewrite (bool_decide_eq_false_2 (nr_callbacks e = 0)) in Hreg by done.
      apply Hreg. unfold UINT32_MAX in *. lia.
    + reflexivity.
    + cbn [nr_callbacks set_nr_callbacks set_enabled set_callbacks].
      replace (u32 (nr_callbacks e + 1)) with (nr_callbacks e + 1)
        by (unfold u32, UINT32_MAX in *; rewrite Z.mod_small; lia).
      exact Hvb.
Qed.

(** The array an unregistration builds is well formed: the bytes the two
    copies write lie below the last entry. *)
Lemma unregister_array (n pos : nat) old :
  (2 ≤ n)%nat →
  (pos < n)%nat →
  length old = ((n + 1) * SIZEOF_SIDE_CALLBACK)%nat →
  ∃ d1 d2,
    memcpy (zeroed (n * SIZEOF_SIDE_CALLBACK)) (0 * SIZEOF_SIDE_CALLBACK)
      old (0 * SIZEOF_SIDE_CALLBACK) pos = Some d1
    ∧ memcpy d1 (pos * SIZEOF_SIDE_CALLBACK) old (S pos * SIZEOF_SIDE_CALLBACK)
        (n - pos - 1) = Some d2
    ∧ length d2 = (n * SIZEOF_SIDE_CALLBACK)%nat
    ∧ drop ((n - 1) * SIZEOF_SIDE_CALLBACK) d2 = zeroed SIZEOF_SIDE_CALLBACK.
Proof.
  intros Hn Hpos Hold.
  destruct (memcpy (zeroed (n * SIZEOF_SIDE_CALLBACK)) (0 * SIZEOF_SIDE_CALLBACK)
              old (0 * SIZEOF_SIDE_CALLBACK) pos) as [d1|] eqn:H1.
  2: { rewrite memcpy_Some in H1; [discriminate| |].
       - rewrite zeroed_length. unfold SIZEOF_SIDE_CALLBACK. lia.
       - rewrite Hold. unfold SIZEOF_SIDE_CALLBACK. lia. }
  assert (Hlen1 : length d1 = (n * SIZEOF_SIDE_CALLBACK)%nat).
  { by rewrite (memcpy_length _ _ _ _ _ _ H1), zeroed_length. }
  destruct (memcpy d1 (pos * SIZEOF_SIDE_CALLBACK) old (S pos * SIZEOF_SIDE_CALLBACK)
              (n - pos - 1)) as [d2|] eqn:H2.
  2: { rewrite memcpy_Some in H2; [discriminate| |].
       - rewrite Hlen1. unfold SIZEOF_SIDE_CALLBACK. lia.
       - rewrite Hold. unfold SIZEOF_SIDE_CALLBACK. lia. }
  exists d1, d2. split; [done|]. split; [done|]. split.
  - by rewrite (memcpy_length _ _ _ _ _ _ H2).
  - rewrite (memcpy_drop_above _ _ _ _ _ _ _ H2) by (unfold SIZEOF_SIDE_CALLBACK; lia).
    rewrite (memcpy_drop_above _ _ _ _ _ _ _ H1) by (unfold SIZEOF_SIDE_CALLBACK; lia).
    rewrite zeroed_drop. f_equal. unfold SIZEOF_SIDE_CALLBACK. lia.
Qed.

(** On a well-formed library an unregistration returns, with SIDE_ERROR_OK,
    SIDE_ERROR_NOENT or SIDE_ERROR_NOMEM, and leaves the library well
    formed. *)
Lemma unregister_locked_returns desc call priv key t s e :
  lib_wf s →
  event_store s !! desc = Some e →
  ∃ r s',
    unregister_locked desc call priv key t s = Done r s'
    ∧ lib_wf s'
    ∧ (r = SIDE_ERROR_OK ∨ r = SIDE_ERROR_NOENT ∨ r = SIDE_ERROR_NOMEM).
Proof.
  intros Hwf He. pose proof Hwf as (Hev & _).
  destruct (Hev desc e He) as (Hver & Hcons & Hblock).
  pose proof Hcons as (Hrange & Hempty & Hpar).
  destruct (lib_wf_old_array s desc e call priv key Hwf He)
    as (old & found & Hold & Hlen & Hl & Hfound).
  unfold unregister_locked.
  rewrite (bind_run _ _ _ _ _ _ (load_event_run desc e t s He)).
  rewrite bool_decide_eq_false_2 by (rewrite Hver; auto).
  rewrite (bind_run _ _ _ _ _ _ (lookup_run desc e old call priv key found t s
                                   He Hver Hold Hl)).
  destruct found as [pos|].
  2: { exists SIDE_ERROR_NOENT, s. split; [done|]. split; [done|]. tauto. }
  destruct (Hfound pos eq_refl) as (Hpos & a & Hcb & Hvb).
  destruct (lib_wf_block s desc e a Hwf He Hcb) as (bytes & Hbytes & _ & Hlt).
  assert (bytes = old) as -> by (rewrite Hcb in Hold; simpl in Hold; congruence).
  cbv zeta. rewrite Hcb.
  assert (Hcons' : ∀ p, (nr_callbacks e = 1 → p = side_empty_callback) →
            event_consistent
              (mk_side_event (desc_flags e) (version e) (u32 (nr_callbacks e - 1))
                 (if bool_decide (nr_callbacks e = 1) then u64 (enabled e - 1)
                  else enabled e) p)).
  { intros p Hp. apply unregister_consistent; [done| |done]. by rewrite Hcb. }
  destruct (decide (nr_callbacks e = 1)) as [Hone|Hone].
  - rewrite !(bool_decide_eq_true_2 (nr_callbacks e = 1)) by done.
    rewrite bind_ret.
    erewrite (bind_run (update_event _ _)); [|eapply update_event_run; exact He].
    unfold side_rcu_wait_grace_period. rewrite bind_ret.
    erewrite (bind_run (free_callbacks _));
      [|eapply free_callbacks_run; lib_fields; exact Hbytes].
    erewrite (bind_run (update_event _ _));
      [|eapply update_event_run; lib_fields; apply lookup_insert_eq].
    unfold when.
    erewrite (bind_run (update_event _ _));
      [|eapply update_event_run; lib_fields; apply lookup_insert_eq].
    eexists _, _. split; [reflexivity|]. split; [|tauto].
    eapply (lib_wf_release s _ desc e _ a Hwf He Hcb).
    + lib_fields. rewrite !insert_insert_eq. reflexivity.
    + lib_fields. reflexivity.
    + lib_fields. reflexivity.
    + exact Hver.
    + cbn [set_nr_callbacks set_callbacks set_enabled nr_callbacks desc_flags version
             enabled callbacks].
      specialize (Hcons' side_empty_callback (λ _, eq_refl)).
      rewrite (bool_decide_eq_true_2 (nr_callbacks e = 1)) in Hcons' by done.
      exact Hcons'.
    + reflexivity.
    + cbn [set_nr_callbacks set_callbacks set_enabled nr_callbacks]. by rewrite Hone.
  - rewrite !(bool_decide_eq_false_2 (nr_callbacks e = 1)) by done.
    assert (Hn : (2 ≤ Z.to_nat (nr_callbacks e))%nat) by lia.
    rewrite bind_assoc.
    destruct (calloc_callbacks_returns (nr_callbacks e) t s)
      as (r1 & s1 & Hcalloc & Hes1 & [(-> & Hh1 & Hb1)|(-> & Hh1 & Hb1)]);
      rewrite (bind_run _ _ _ _ _ _ Hcalloc).
    { rewrite bind_ret. exists SIDE_ERROR_NOMEM, s1. split; [done|].
      split; [by eapply lib_wf_same|]. tauto. }
    destruct (unregister_array (Z.to_nat (nr_callbacks e)) pos old Hn Hpos
                (proj1 Hvb)) as (d1 & d2 & Hd1 & Hd2 & Hlen2 & Hlast2).
    assert (Hu : u32 (Z.of_nat pos) = Z.of_nat pos)
      by (unfold u32, UINT32_MAX in *; rewrite Z.mod_small; lia).
    rewrite Hu, Nat2Z.id.
    replace (Z.to_nat (u32 (Z.of_nat pos + 1))) with (S pos)
      by (unfold u32, UINT32_MAX in *; rewrite Z.mod_small; lia).
    replace (Z.to_nat (u32 (nr_callbacks e - Z.of_nat pos - 1)))
      with (Z.to_nat (nr_callbacks e) - pos - 1)%nat
      by (unfold u32, UINT32_MAX in *; rewrite Z.mod_small; lia).
    assert (Hold1 : block_of s1 (heap_block a) = Some old).
    { simpl. rewrite Hh1, lookup_insert_ne by lia. done. }
    rewrite !bind_assoc.
    erewrite (bind_run (memcpy_callbacks _ _ _ _ _));
      [|eapply memcpy_callbacks_run;
        [rewrite Hh1; apply lookup_insert_eq | exact Hold1 | exact Hd1]].
    rewrite bind_assoc.
    erewrite (bind_run (memcpy_callbacks _ _ _ _ _));
      [|eapply memcpy_callbacks_run;
        [lib_fields; apply lookup_insert_eq
        |simpl; lib_fields; rewrite lookup_insert_ne, Hh1, lookup_insert_ne by lia;
         exact Hbytes
        |exact Hd2]].
    rewrite bind_ret.
    erewrite (bind_run (update_event _ _));
      [|eapply update_event_run; lib_fields; rewrite Hes1; exact He].
    unfold side_rcu_wait_grace_period. rewrite bind_ret.
    erewrite (bind_run (free_callbacks _));
      [|eapply free_callbacks_run; lib_fields;
        rewrite !lookup_insert_ne, Hh1, lookup_insert_ne by lia; exact Hbytes].
    erewrite (bind_run (update_event _ _));
      [|eapply update_event_run; lib_fields; apply lookup_insert_eq].
    unfold when. rewrite bind_ret.
    eexists _, _. split; [reflexivity|]. split; [|tauto].
    eapply (lib_wf_replace s _ desc e _ d2 Hwf He).
    + lib_fields. rewrite !insert_insert_eq, Hes1. reflexivity.
    + lib_fields. rewrite Hcb, !insert_insert_eq, Hh1, insert_insert_eq.
      reflexivity.
    + lib_fields. exact Hb1.
    + exact Hver.
    + cbn [set_nr_callbacks set_callbacks set_enabled nr_callbacks desc_flags version
             enabled callbacks].
      specialize (Hcons' (heap_block (brk s)) ltac:(done)).
      rewrite (bool_decide_eq_false_2 (nr_callbacks e = 1)) in Hcons' by done.
      exact Hcons'.
    + reflexivity.
    + cbn [nr_callbacks set_nr_callbacks set_enabled set_callbacks].
      replace (u32 (nr_callbacks e - 1)) with (nr_callbacks e - 1)
        by (unfold u32, UINT32_MAX in *; rewrite Z.mod_small; lia).
      split.
      * rewrite Hlen2. unfold SIZEOF_SIDE_CALLBACK. lia.
      * replace (Z.to_nat (nr_callbacks e - 1)) with (Z.to_nat (nr_callbacks e) - 1)%nat
          by lia.
        exact Hlast2.
Qed.

Lemma keeps_event_lock_register_locked desc call priv key :
  keeps side_event_lock (register_locked desc call priv key).
Proof.
  unfold register_locked, side_tracer_callback_lookup, calloc_callbacks,
    memcpy_callbacks, write_callback, update_event, load_event, load_block,
    free_callbacks, side_rcu_wait_grace_period.
  keeps_tac.
Qed.

Lemma keeps_event_lock_unregister_locked desc call priv key :
  keeps side_event_lock (unregister_locked desc call priv key).
Proof.
  unfold unregister_locked, side_tracer_callback_lookup, calloc_callbacks,
    memcpy_callbacks, update_event, load_event, load_block,
    free_callbacks, side_rcu_wait_grace_period.
  keeps_tac.
Qed.

(** Lazy initialization, the event mutex taken, [body], the mutex released. *)
Lemma with_event_lock_run {A} (body : M A) t s m' r s1 :
  acquire true t (side_event_lock s) = Some m' →
  keeps side_event_lock body →
  body t (set_side_event_lock m' (initialize s)) = Done r s1 →
  (ini <- gets initialized ;; when (negb ini) side_init ;;
   pthread_mutex_lock Event_lock ;; r <- body ;;
   pthread_mutex_unlock Event_lock ;; ret r) t s
  = Done r (set_side_event_lock (side_event_lock s) s1).
Proof.
  intros Hacq Hkeeps Hbody. rewrite lazy_init_run.
  unfold bind at 1. unfold pthread_mutex_lock. simpl.
  change (side_event_lock (initialize s)) with (mutex_of Event_lock (initialize s)).
  rewrite initialize_mutex. simpl. rewrite Hacq.
  unfold bind at 1. rewrite Hbody.
  apply Hkeeps in Hbody. simpl in Hbody.
  unfold bind, pthread_mutex_unlock, ret. simpl.
  rewrite Hbody, (acquire_release _ _ _ _ Hacq). reflexivity.
Qed.

Lemma lib_wf_locked m' s : lib_wf s → lib_wf (set_side_event_lock m' (initialize s)).
Proof.
  apply lib_wf_same.
  - apply event_store_locked.
  - apply heap_locked.
  - unfold initialize. by destruct (initialized s).
Qed.

(** On a well-formed library that is not finalized, a thread that can take
    the event mutex gets an answer from a registration on an event with fewer
    than UINT32_MAX - 1 callbacks and from an unregistration, and the library
    stays well formed. *)
Lemma register_returns t s desc e call priv key :
  lib_wf s →
  event_store s !! desc = Some e →
  nr_callbacks e < UINT32_MAX - 1 →
  available true t (side_event_lock s) →
  ∃ r s',
    register_variant (is_variadic e) desc call priv key t s = Done r s'
    ∧ lib_wf s'
    ∧ side_event_lock s' = side_event_lock s.
Proof.
  intros Hwf He Hmax [m' Hacq]. rewrite register_variant_right by done.
  unfold _side_tracer_callback_register.
  case_bool_decide; [by exists SIDE_ERROR_INVAL, s|].
  rewrite bind_gets. destruct (finalized s); [by exists SIDE_ERROR_EXITING, s|].
  destruct (register_locked_returns desc call priv key t
              (set_side_event_lock m' (initialize s)) e)
    as (r & s1 & Hrun & Hwf1 & _);
    [by apply lib_wf_locked | by rewrite event_store_locked | done |].
  rewrite (with_event_lock_run _ t s m' r s1 Hacq
             (keeps_event_lock_register_locked _ _ _ _) Hrun).
  exists r. eexists. split; [reflexivity|]. split; [|by destruct s1].
  revert Hwf1. apply lib_wf_same; by destruct s1.
Qed.

Lemma unregister_returns t s desc e call priv key :
  lib_wf s →
  event_store s !! desc = Some e →
  available true t (side_event_lock s) →
  ∃ r s',
    unregister_variant (is_variadic e) desc call priv key t s = Done r s'
    ∧ lib_wf s'
    ∧ side_event_lock s' = side_event_lock s.
Proof.
  intros Hwf He [m' Hacq]. rewrite unregister_variant_right by done.
  unfold _side_tracer_callback_unregister.
  case_bool_decide; [by exists SIDE_ERROR_INVAL, s|].
  rewrite bind_gets. destruct (finalized s); [by exists SIDE_ERROR_EXITING, s|].
  destruct (unregister_locked_returns desc call priv key t
              (set_side_event_lock m' (initialize s)) e)
    as (r & s1 & Hrun & Hwf1 & _);
    [by apply lib_wf_locked | by rewrite event_store_locked |].
  rewrite (with_event_lock_run _ t s m' r s1 Hacq
             (keeps_event_lock_unregister_locked _ _ _ _) Hrun).
  exists r. eexists. split; [reflexivity|]. split; [|by destruct s1].
  revert Hwf1. apply lib_wf_same; by destruct s1.
Qed.

(** The static initial state of a program whose events are in their initial
    state is well formed. *)
Lemma lib_initial_wf evs :
  (∀ d e, evs !! d = Some e → ∃ flags, e = initial_event flags) →
  lib_wf (lib_initial evs).
Proof.
  intros Hevs. split; [|split].
  - intros d e He. destruct (Hevs d e He) as [flags ->].
    split; [done|]. split; [apply initial_event_consistent|done].
  - intros d1 d2 e1 e2 a H1 _ Ha. destruct (Hevs d1 e1 H1) as [flags ->]. discriminate.
  - intros a [x Hx]. simpl in Hx. by rewrite lookup_empty in Hx.
Qed.

(** ** Sequences of operations return *)

Lemma counts_within_refl k s s' :
  0 ≤ k → event_store s' = event_store s → counts_within k s s'.
Proof.
  intros Hk H d. rewrite H. destruct (event_store s !! d) as [e|]; [|done].
  exists e. split; [done|]. lia.
Qed.

Lemma counts_within_insert k s s' desc e e' :
  0 ≤ k →
  event_store s !! desc = Some e →
  event_store s' = <[desc := e']> (event_store s) →
  nr_callbacks e' ≤ nr_callbacks e + k →
  counts_within k s s'.
Proof.
  intros Hk He Hs' Hnr d. rewrite Hs'. destruct (decide (d = desc)) as [->|Hne].
  - rewrite lookup_insert_eq. by exists e.
  - rewrite lookup_insert_ne by done. destruct (event_store s !! d) as [x|]; [|done].
    exists x. split; [done|]. lia.
Qed.

Lemma counts_within_trans k1 k2 s s1 s2 :
  counts_within k1 s s1 → counts_within k2 s1 s2 → counts_within (k1 + k2) s s2.
Proof.
  intros H1 H2 d. specialize (H1 d). specialize (H2 d).
  destruct (event_store s2 !! d) as [e2|].
  - destruct H2 as (e1 & He1 & Hle2). rewrite He1 in H1.
    destruct H1 as (e & He & Hle1). exists e. split; [done|]. lia.
  - by rewrite H2 in H1.
Qed.

Lemma counts_within_valid k s s' d :
  counts_within k s s' → is_Some (event_store s !! d) → is_Some (event_store s' !! d).
Proof.
  intros H [e He]. specialize (H d). destruct (event_store s' !! d); [by eexists|].
  congruence.
Qed.

Lemma u32_le x : 0 ≤ x → u32 x ≤ x.
Proof. intros H. unfold u32. apply Z.mod_le; lia. Qed.

Lemma lib_wf_consistent s : lib_wf s → events_consistent s.
Proof. intros (Hev & _) d e He. by destruct (Hev d e He) as (_ & Hc & _). Qed.

Lemma register_counts_within desc call priv key t s r s' :
  events_consistent s →
  _side_tracer_callback_register desc call priv key t s = Done r s' →
  counts_within 1 s s'.
Proof.
  intros Hcons H. apply register_Done in H
    as [(_ & _ & ->)|[(_ & _ & _ & ->)|(_ & _ & m' & s2 & m2 & _ & H & _ & ->)]];
    [by apply counts_within_refl..|].
  apply register_locked_Done in H
    as (e & He & _ & [(_ & _ & ->)|(_ & vec & found & _ & _ & Hcase)]).
  { apply counts_within_refl; [done|]. simpl. apply initialize_event_store. }
  rewrite event_store_locked in He.
  destruct found as [idx|].
  { destruct Hcase as [_ ->]. apply counts_within_refl; [done|]. simpl.
    apply initialize_event_store. }
  destruct Hcase as [[_ Hsame]|[_ (a & Hins)]].
  - apply counts_within_refl; [done|]. simpl. by rewrite Hsame, event_store_locked.
  - rewrite event_store_locked in Hins.
    eapply counts_within_insert; [done|exact He|exact Hins|]. simpl.
    destruct (Hcons desc e He) as (Hrange & _). apply u32_le. lia.
Qed.

Lemma unregister_counts_within desc call priv key t s r s' :
  events_consistent s →
  _side_tracer_callback_unregister desc call priv key t s = Done r s' →
  counts_within 1 s s'.
Proof.
  intros Hcons H. apply unregister_Done in H
    as [(_ & _ & ->)|[(_ & _ & _ & ->)|(_ & _ & m' & s2 & m2 & _ & H & _ & ->)]];
    [by apply counts_within_refl..|].
  apply unregister_locked_Done in H as (e & vec & found & He & _ & Hvec & Hl & Hcase).
  rewrite event_store_locked in He. rewrite block_of_locked in Hvec.
  destruct found as [idx|].
  2: { destruct Hcase as [_ ->]. apply counts_within_refl; [done|]. simpl.
       apply initialize_event_store. }
  destruct Hcase as [[_ Hsame]|[_ (p & Hins & _)]].
  - apply counts_within_refl; [done|]. simpl. by rewrite Hsame, event_store_locked.
  - rewrite event_store_locked in Hins.
    eapply counts_within_insert; [done|exact He|exact Hins|]. simpl.
    destruct (Hcons desc e He) as (Hrange & Hempty & _).
    assert (nr_callbacks e ≠ 0) as Hnz.
    { intros Hz. rewrite (Hempty Hz) in Hvec. injection Hvec as <-.
      rewrite lookup_loop_empty in Hl. discriminate. }
    pose proof (u32_le (nr_callbacks e - 1)). lia.
Qed.

(** The forced drain of an event of a well-formed library returns and
    leaves the library well formed. *)
Lemma remove_callbacks_returns desc e t s :
  lib_wf s →
  event_store s !! desc = Some e →
  ∃ s', side_event_remove_callbacks desc t s = Done tt s'
        ∧ lib_wf s' ∧ counts_within 0 s s'
        ∧ event_store s' = <[desc := drained_event e]> (event_store s)
        ∧ trace s' = trace s.
Proof.
  intros Hwf He. pose proof Hwf as (Hev & _).
  destruct (Hev desc e He) as (Hver & Hcons & Hblock).
  pose proof Hcons as (Hrange & Hempty & Hpar).
  cbv beta iota in Hblock.
  unfold side_event_remove_callbacks.
  rewrite (bind_run _ _ _ _ _ _ (load_event_run desc e t s He)).
  rewrite bool_decide_eq_false_2 by (rewrite Hver; auto). cbv zeta.
  destruct (decide (nr_callbacks e = 0)) as [Hnr|Hnr].
  { rewrite bool_decide_eq_true_2 by done.
    exists s. split; [reflexivity|]. split; [done|].
    split; [by apply counts_within_refl|]. split; [|done].
    unfold drained_event. rewrite bool_decide_eq_true_2 by done.
    by rewrite insert_id. }
  rewrite bool_decide_eq_false_2 by done.
  destruct (callbacks e) as [|a] eqn:Hcb; [done|].
  destruct Hblock as (bytes & Hbytes & _).
  erewrite (bind_run (update_event _ _)); [|eapply update_event_run; exact He].
  erewrite (bind_run (update_event _ _));
    [|eapply update_event_run; lib_fields; apply lookup_insert_eq].
  erewrite (bind_run (update_event _ _));
    [|eapply update_event_run; lib_fields; apply lookup_insert_eq].
  erewrite free_callbacks_run by (lib_fields; exact Hbytes).
  eexists. split; [reflexivity|]. split.
  - eapply (lib_wf_release s _ desc e _ a Hwf He Hcb).
    + lib_fields. rewrite !insert_insert_eq. reflexivity.
    + reflexivity.
    + reflexivity.
    + exact Hver.
    + cbn [set_nr_callbacks set_callbacks set_enabled nr_callbacks desc_flags version
             enabled callbacks].
      by apply drain_consistent.
    + reflexivity.
    + reflexivity.
  - split; [|split].
    + eapply counts_within_insert; [done|exact He| |].
      * lib_fields. rewrite !insert_insert_eq. reflexivity.
      * simpl. lia.
    + lib_fields. rewrite !insert_insert_eq. unfold drained_event.
      rewrite bool_decide_eq_false_2 by done. reflexivity.
    + reflexivity.
Qed.

Lemma lib_wf_grow s s' :
  event_store s' = event_store s → heap s' = heap s → brk s ≤ brk s' →
  lib_wf s → lib_wf s'.
Proof.
  intros He Hh Hb (Hev & Hshare & Hfresh). unfold lib_wf, event_wf.
  rewrite He, Hh. split; [done|]. split; [done|].
  intros a Ha. specialize (Hfresh a Ha). lia.
Qed.

Lemma events_handle_wf_within k s s' h :
  counts_within k s s' → events_handle_wf s h → events_handle_wf s' h.
Proof.
  intros Hstep [Hlen Hall]. split; [done|].
  eapply Forall_impl; [exact Hall|]. intros event [->|Hev]; [by left|right].
  by eapply counts_within_valid.
Qed.

Lemma registry_wf_within k s s' :
  counts_within k s s' →
  side_events_list s' = side_events_list s →
  brk s ≤ brk s' →
  registry_wf s → registry_wf s'.
Proof.
  intros Hstep Hlist Hbrk Hreg. unfold registry_wf. rewrite Hlist.
  eapply Forall_impl; [exact Hreg|]. intros [p h] (Hp & Hh).
  split; [simpl in *; lia|]. by eapply events_handle_wf_within.
Qed.

Lemma node_find_Forall {A} (P : Z * A → Prop) p l a :
  Forall P l → node_find p l = Some a → P (p, a).
Proof.
  induction l as [|[q b] l IH]; [done|]. intros Hall. apply Forall_cons in Hall as [Hq Hall].
  simpl. case_bool_decide as Hqp; [|by apply IH]. intros [= <-]. by subst q.
Qed.

Lemma node_remove_Forall {A} (P : Z * A → Prop) p l :
  Forall P l → Forall P (node_remove p l).
Proof.
  induction l as [|[q b] l IH]; [done|]. intros Hall. apply Forall_cons in Hall as [Hq Hall].
  simpl. case_bool_decide; [done|]. apply Forall_cons. split; [done|by apply IH].
Qed.

(** The notifications sent to the tracers return. *)
Lemma for_each_invoke_run {A} (f : A → call_event) t : ∀ l s,
  for_each l (λ a, invoke (f a)) t s = Done tt (set_trace (trace s ++ map f l) s).
Proof.
  induction l as [|a l IH]; intros s; simpl.
  - rewrite app_nil_r. by destruct s.
  - unfold bind at 1. unfold invoke at 1, modify. rewrite IH.
    destruct s; simpl. by rewrite <- app_assoc.
Qed.

(** The loop of the forced drain over a well-formed batch returns. *)
Lemma drain_loop_returns events t : ∀ n i s,
  lib_wf s →
  (i + n ≤ length events)%nat →
  Forall (λ event, event = NULL ∨ is_Some (event_store s !! event)) events →
  ∃ s',
    for_range n i (λ i,
      match events !! i with
      | None => fault
      | Some event =>
          if bool_decide (event = NULL) then ret tt
          else side_event_remove_callbacks event
      end) t s = Done tt s'
    ∧ lib_wf s' ∧ counts_within 0 s s'
    ∧ drained_store (filter (λ event, event ≠ NULL) (take n (drop i events))) s s'
    ∧ trace s' = trace s.
Proof.
  induction n as [|n IH]; intros i s Hwf Hlen Hall.
  - exists s. split; [done|]. split; [done|]. split; [by apply counts_within_refl|].
    split; [|done]. intros d. rewrite take_0, filter_nil.
    by rewrite bool_decide_eq_false_2 by apply not_elem_of_nil.
  - cbn [for_range]. destruct (lookup_lt_is_Some_2 events i) as [event Hi]; [lia|].
    rewrite Hi. pose proof (proj1 (Forall_lookup _ _) Hall i event Hi) as Hev.
    rewrite (drop_S _ _ _ Hi). cbn [take].
    destruct (decide (event = NULL)) as [Hnull|Hnull].
    + rewrite bool_decide_eq_true_2 by done. unfold bind at 1, ret at 1.
      rewrite filter_cons_False by (intros H; by apply H).
      apply IH; [done|lia|done].
    + rewrite bool_decide_eq_false_2 by done. rewrite filter_cons_True by done.
      destruct Hev as [?|[e He]]; [done|].
      destruct (remove_callbacks_returns event e t s Hwf He)
        as (s1 & Hrun & Hwf1 & Hstep1 & Hstore1 & Htrace1).
      unfold bind at 1. rewrite Hrun.
      destruct (IH (S i) s1 Hwf1) as (s2 & Hrun2 & Hwf2 & Hstep2 & Hstore2 & Htrace2);
        [lia| |].
      { eapply Forall_impl; [exact Hall|]. intros x [->|Hx]; [by left|right].
        by eapply counts_within_valid. }
      exists s2. split; [done|]. split; [done|].
      split; [exact (counts_within_trans 0 0 s s1 s2 Hstep1 Hstep2)|].
      split; [|congruence].
      intros d. rewrite (Hstore2 d), Hstore1.
      destruct (decide (d = event)) as [->|Hne].
      * rewrite lookup_insert_eq, He.
        rewrite (bool_decide_eq_true_2 (event ∈ event :: _)) by apply list_elem_of_here.
        simpl. case_bool_decide; [|done]. simpl. f_equal.
        unfold drained_event. destruct (bool_decide (nr_callbacks e = 0)) eqn:Hz; [by rewrite Hz|].
        reflexivity.
      * rewrite lookup_insert_ne by done.
        destruct (decide (d ∈ filter (λ event0, event0 ≠ NULL) (take n (drop (S i) events))))
          as [Hin|Hnin].
        -- rewrite !bool_decide_eq_true_2; [done| |done]. by apply list_elem_of_further.
        -- rewrite !bool_decide_eq_false_2; [done| |done].
           intros [?|?]%elem_of_cons; done.
Qed.

Lemma event_lock_run {B} (m : M B) t s :
  side_event_lock s = Unlocked →
  (pthread_mutex_lock Event_lock ;; m) t s = m t (set_side_event_lock (Locked t 0) s).
Proof. intros H. unfold bind, pthread_mutex_lock. simpl. by rewrite H. Qed.

Lemma event_unlock_run t s :
  side_event_lock s = Locked t 0 →
  pthread_mutex_unlock Event_lock t s = Done tt (set_side_event_lock Unlocked s).
Proof.
  intros H. unfold pthread_mutex_unlock. simpl. rewrite H. simpl.
  by rewrite bool_decide_eq_true_2.
Qed.

(** malloc of a handle, after lazy initialization: NULL, or the next fresh
    address. *)
Lemma alloc_handle_run t s :
  ∃ r s1,
    alloc_attempt t (initialize s) = Done r s1
    ∧ event_store s1 = event_store s ∧ heap s1 = heap s
    ∧ side_events_list s1 = side_events_list s
    ∧ side_event_lock s1 = side_event_lock s
    ∧ finalized s1 = finalized s
    ∧ (r = None ∧ brk s1 = brk s ∨ r = Some (brk s) ∧ brk s1 = brk s + 1).
Proof.
  unfold alloc_attempt, initialize.
  destruct s; simpl. destruct initialized0; simpl;
    destruct oom_script0 as [|[] rest]; eexists _, _; (split; [reflexivity|]); simpl;
    repeat (split; [reflexivity|]); auto.
Qed.

(** side_events_register returns, from a state between operations. *)
Lemma events_register_returns t s events nr_events :
  ready s →
  events_handle_wf s (mk_events_handle events nr_events) →
  ∃ r s', side_events_register events nr_events t s = Done r s'
          ∧ ready s' ∧ counts_within 0 s s'.
Proof.
  intros (Hwf & Hreg & Hlock & Hbrk) Hh. unfold side_events_register.
  rewrite bind_gets. destruct (finalized s).
  { exists None, s. split; [done|]. split; [done|]. by apply counts_within_refl. }
  rewrite lazy_init_run.
  destruct (alloc_handle_run t s) as (r & s1 & Hrun & Hev & Hheap & Hlist & Hl & _ & Hr).
  unfold bind at 1. rewrite Hrun.
  destruct Hr as [[-> Hb]|[-> Hb]].
  { exists None, s1. split; [done|].
    assert (counts_within 0 s s1) as Hstep by by apply counts_within_refl.
    split; [|done]. split; [|split; [|split]].
    - eapply lib_wf_grow; [done|done| |done]. lia.
    - eapply registry_wf_within; [done|done| |done]. lia.
    - congruence.
    - lia. }
  rewrite event_lock_run by congruence.
  rewrite bind_modify, bind_gets. unfold bind at 1. rewrite for_each_invoke_run.
  unfold bind at 1. rewrite event_unlock_run by (by destruct s1).
  eexists _, _. split; [reflexivity|].
  match goal with |- ready ?x ∧ _ => set (s2 := x) end.
  assert (event_store s2 = event_store s) as Hev2 by (by destruct s1).
  assert (heap s2 = heap s) as Hheap2 by (by destruct s1).
  assert (brk s2 = brk s + 1) as Hbrk2 by (by destruct s1).
  assert (side_events_list s2
          = side_events_list s ++ [(brk s, mk_events_handle events nr_events)]) as Hlist2.
  { rewrite <- Hlist. by destruct s1. }
  assert (counts_within 0 s s2) as Hstep by by apply counts_within_refl.
  split; [|done]. split; [|split; [|split]].
  - eapply lib_wf_grow; [done|done| |done]. lia.
  - unfold registry_wf. rewrite Hlist2. apply Forall_app. split.
    + eapply Forall_impl; [exact Hreg|]. intros [p h] (Hp & Hwfh).
      split; [simpl in *; lia|]. by eapply events_handle_wf_within.
    + apply Forall_singleton. split; [simpl; lia|]. by eapply events_handle_wf_within.
  - by destruct s1.
  - lia.
Qed.

(** The forced drain touches the events and the heap only. *)
Lemma drain_loop_frame (events : list Z) n i t s s' :
  for_range n i (λ i,
    match events !! i with
    | None => fault
    | Some event =>
        if bool_decide (event = NULL) then ret tt
        else side_event_remove_callbacks event
    end) t s = Done tt s' →
  side_event_lock s' = side_event_lock s
  ∧ side_events_list s' = side_events_list s
  ∧ finalized s' = finalized s
  ∧ brk s' = brk s
  ∧ side_tracer_list s' = side_tracer_list s.
Proof.
  intros H. repeat split.
  all: match type of H with ?m _ _ = _ =>
         match goal with |- ?f _ = _ =>
           cut (keeps f m); [intros K; exact (K t s tt s' H)|] end end;
    unfold side_event_remove_callbacks, update_event, load_event, free_callbacks;
    keeps_tac.
Qed.

(** side_events_unregister returns, from a state between operations, on NULL
    and on the handle of a registered batch; unless the library is finalized
    the batch has left the registry. *)
Lemma events_unregister_returns t s events_handle :
  ready s →
  events_handle = NULL ∨ is_Some (node_find events_handle (side_events_list s)) →
  ∃ s', side_events_unregister events_handle t s = Done tt s'
        ∧ ready s' ∧ counts_within 0 s s'
        ∧ finalized s' = finalized s
        ∧ side_tracer_list s' = side_tracer_list s
        ∧ (events_handle ≠ NULL → finalized s = false →
           side_events_list s' = node_remove events_handle (side_events_list s)
           ∧ ∀ h, node_find events_handle (side_events_list s) = Some h →
               drained_store (batch_events h) s s'
               ∧ trace s' = trace s
                            ++ notify_tracers SIDE_TRACER_NOTIFICATION_REMOVE_EVENTS
                                 (side_tracer_list s) h).
Proof.
  intros (Hwf & Hreg & Hlock & Hbrk) Hh. unfold side_events_unregister.
  assert (counts_within 0 s s) as Hrefl by by apply counts_within_refl.
  destruct (decide (events_handle = NULL)) as [Hnull|Hnull].
  { rewrite bool_decide_eq_true_2 by done. by exists s. }
  rewrite bool_decide_eq_false_2 by done. destruct Hh as [?|[h Hfind]]; [done|].
  rewrite bind_gets. destruct (finalized s) eqn:Hfin.
  { by exists s. }
  assert (side_tracer_list (set_side_events_list (node_remove events_handle (side_events_list s))
            (set_side_event_lock (Locked t 0) (initialize s))) = side_tracer_list s) as Htl0
    by (unfold initialize; by destruct s, initialized0).
  rewrite lazy_init_run.
  rewrite event_lock_run by (unfold initialize; by destruct (initialized s)).
  rewrite bind_gets.
  assert (side_events_list (set_side_event_lock (Locked t 0) (initialize s))
          = side_events_list s) as -> by (unfold initialize; by destruct (initialized s)).
  rewrite Hfind. rewrite bind_modify, bind_gets, Htl0.
  unfold bind at 1.
  rewrite (for_each_invoke_run (λ tracer_handle : Z * side_tracer_handle,
             Call_notification (th_cb tracer_handle.2) SIDE_TRACER_NOTIFICATION_REMOVE_EVENTS
               (eh_events h) (eh_nr_events h) (th_priv tracer_handle.2))).
  match goal with |- ∃ s', (_ ;; _) t ?x = _ ∧ _ => set (s1 := x) end.
  assert (event_store s1 = event_store s) as Hev1
    by (unfold s1, initialize; by destruct s, initialized0).
  assert (heap s1 = heap s) as Hheap1
    by (unfold s1, initialize; by destruct s, initialized0).
  assert (brk s1 = brk s) as Hbrk1
    by (unfold s1, initialize; by destruct s, initialized0).
  assert (finalized s1 = finalized s) as Hfin1
    by (unfold s1, initialize; by destruct s, initialized0).
  assert (side_event_lock s1 = Locked t 0) as Hlock1
    by (unfold s1, initialize; by destruct s, initialized0).
  assert (side_events_list s1 = node_remove events_handle (side_events_list s)) as Hlist1
    by (unfold s1, initialize; by destruct s, initialized0).
  assert (side_tracer_list s1 = side_tracer_list s) as Htl1
    by (unfold s1, initialize; by destruct s, initialized0).
  assert (trace s1 = trace s ++ notify_tracers SIDE_TRACER_NOTIFICATION_REMOVE_EVENTS
                                  (side_tracer_list s) h) as Htrace1
    by (unfold s1, initialize; by destruct s, initialized0).
  pose proof (node_find_Forall _ _ _ _ Hreg Hfind) as (_ & Hlen & Hall).
  cbn [snd] in Hlen, Hall.
  destruct (drain_loop_returns (eh_events h) t (Z.to_nat (eh_nr_events h)) 0%nat s1)
    as (s2 & Hrun & Hwf2 & Hstep2 & Hstore2 & Htrace2).
  { eapply lib_wf_grow; [done|done| |done]. lia. }
  { lia. }
  { eapply Forall_impl; [exact Hall|]. intros x. by rewrite Hev1. }
  pose proof (drain_loop_frame _ _ _ _ _ _ Hrun)
    as (Hlock2 & Hlist2 & Hfin2 & Hbrk2 & Htl2).
  unfold bind at 1. rewrite Hrun.
  rewrite event_unlock_run by congruence.
  eexists. split; [reflexivity|].
  match goal with |- ready ?x ∧ _ => set (s3 := x) end.
  assert (event_store s3 = event_store s2) as Hev3 by (by destruct s2).
  assert (heap s3 = heap s2) as Hheap3 by (by destruct s2).
  assert (brk s3 = brk s2) as Hbrk3 by (by destruct s2).
  assert (finalized s3 = finalized s2) as Hfin3 by (by destruct s2).
  assert (side_events_list s3 = side_events_list s2) as Hlist3 by (by destruct s2).
  assert (side_tracer_list s3 = side_tracer_list s2) as Htl3 by (by destruct s2).
  assert (trace s3 = trace s2) as Htrace3 by (by destruct s2).
  assert (counts_within 0 s s3) as Hstep.
  { apply (counts_within_trans 0 0 s s1 s3); [by apply counts_within_refl|].
    apply (counts_within_trans 0 0 s1 s2 s3); [done|by apply counts_within_refl]. }
  split; [|split; [done|split; [congruence|split; [congruence|]]]].
  2: { intros _ _. split; [congruence|]. intros h' Hh'.
       assert (h' = h) as -> by congruence. split; [|congruence].
       intros d. rewrite Hev3, (Hstore2 d), Hev1. by rewrite drop_0. }
  split; [|split; [|split]].
  - eapply lib_wf_grow; [exact Hev3|exact Hheap3| |done]. lia.
  - unfold registry_wf. rewrite Hlist3, Hlist2, Hlist1.
    apply node_remove_Forall.
    eapply Forall_impl; [exact Hreg|]. intros [p x] (Hp & Hwfx).
    split; [simpl in *; lia|]. by eapply events_handle_wf_within.
  - by destruct s2.
  - lia.
Qed.

Lemma brk_grows_bind {A B} (m : M A) (k : A → M B) :
  brk_grows m → (∀ a, brk_grows (k a)) → brk_grows (bind m k).
Proof.
  intros Hm Hk t s b s2 H. apply bind_Done in H as (a & s1 & H1 & H2).
  apply Hm in H1. apply Hk in H2. simpl in *. lia.
Qed.

Lemma brk_grows_of_keeps {A} (m : M A) : keeps brk m → brk_grows m.
Proof. intros Hm t s a s' H. apply Hm in H. simpl in *. lia. Qed.

Lemma brk_grows_alloc : brk_grows alloc_attempt.
Proof.
  intros t s a s'. unfold alloc_attempt.
  destruct (oom_script s) as [|[] rest]; intros [= _ <-]; destruct s; simpl; lia.
Qed.

(** Decomposes a goal [brk_grows m] along the structure of [m]. *)
Ltac brk_grows_step :=
  lazymatch goal with
  | |- brk_grows (bind _ _) => apply brk_grows_bind; [|intros ?]
  | |- brk_grows alloc_attempt => apply brk_grows_alloc
  | |- brk_grows (if ?b then _ else _) => destruct b
  | |- brk_grows (match ?x with _ => _ end) => destruct x
  | |- brk_grows (let _ := _ in _) => cbv zeta
  | |- brk_grows _ => apply brk_grows_of_keeps; keeps_tac
  end.

Ltac unfold_callback_ops :=
  unfold _side_tracer_callback_register, _side_tracer_callback_unregister,
    register_locked, unregister_locked, side_tracer_callback_lookup, calloc_callbacks,
    memcpy_callbacks, write_callback, update_event, load_event, load_block,
    free_callbacks, side_rcu_wait_grace_period, side_init, side_rcu_gp_init.

Lemma brk_grows_register desc call priv key :
  brk_grows (_side_tracer_callback_register desc call priv key).
Proof. unfold_callback_ops. repeat brk_grows_step. Qed.

Lemma brk_grows_unregister desc call priv key :
  brk_grows (_side_tracer_callback_unregister desc call priv key).
Proof. unfold_callback_ops. repeat brk_grows_step. Qed.

Lemma keeps_registry_register desc call priv key :
  keeps side_events_list (_side_tracer_callback_register desc call priv key).
Proof. unfold_callback_ops. keeps_tac. Qed.

Lemma keeps_registry_unregister desc call priv key :
  keeps side_events_list (_side_tracer_callback_unregister desc call priv key).
Proof. unfold_callback_ops. keeps_tac. Qed.

Lemma ready_within k s s' :
  lib_wf s' →
  counts_within k s s' →
  side_events_list s' = side_events_list s →
  side_event_lock s' = side_event_lock s →
  brk s ≤ brk s' →
  ready s → ready s'.
Proof.
  intros Hwf' Hstep Hlist Hlock Hbrk (Hwf & Hreg & Hl & Hb).
  split; [done|]. split; [by eapply registry_wf_within|]. split; [congruence|lia].
Qed.

(** A registration of either variant returns, on an event of a state between
    operations whose count is below UINT32_MAX - 1. *)
Lemma register_op_returns variadic t s desc e call priv key :
  ready s →
  event_store s !! desc = Some e →
  nr_callbacks e < UINT32_MAX - 1 →
  ∃ r s', register_variant variadic desc call priv key t s = Done r s'
          ∧ ready s' ∧ counts_within 1 s s'.
Proof.
  intros Hready He Hmax. pose proof Hready as (Hwf & _ & Hlock & _).
  destruct (decide (variadic = is_variadic e)) as [->|Hne].
  - assert (Hav : available true t (side_event_lock s)) by (rewrite Hlock; by eexists).
    destruct (register_returns t s desc e call priv key Hwf He Hmax Hav)
      as (r & s' & Hrun & Hwf' & Hl').
    exists r, s'. split; [done|]. rewrite register_variant_right in Hrun by done.
    assert (counts_within 1 s s') as Hstep
      by (eapply register_counts_within; [by apply lib_wf_consistent|done]).
    split; [|done]. eapply ready_within; [done|done| |done| |done].
    + exact (keeps_registry_register _ _ _ _ _ _ _ _ Hrun).
    + exact (brk_grows_register _ _ _ _ _ _ _ _ Hrun).
  - destruct (variant_wrong desc e call priv key t s He) as [Hw _].
    replace (negb (is_variadic e)) with variadic in Hw
      by (destruct variadic, (is_variadic e); done).
    exists SIDE_ERROR_INVAL, s. split; [done|]. split; [done|].
    by apply counts_within_refl.
Qed.

(** An unregistration of either variant returns, on an event of a state
    between operations. *)
Lemma unregister_op_returns variadic t s desc e call priv key :
  ready s →
  event_store s !! desc = Some e →
  ∃ r s', unregister_variant variadic desc call priv key t s = Done r s'
          ∧ ready s' ∧ counts_within 1 s s'.
Proof.
  intros Hready He. pose proof Hready as (Hwf & _ & Hlock & _).
  destruct (decide (variadic = is_variadic e)) as [->|Hne].
  - assert (Hav : available true t (side_event_lock s)) by (rewrite Hlock; by eexists).
    destruct (unregister_returns t s desc e call priv key Hwf He Hav)
      as (r & s' & Hrun & Hwf' & Hl').
    exists r, s'. split; [done|]. rewrite unregister_variant_right in Hrun by done.
    assert (counts_within 1 s s') as Hstep
      by (eapply unregister_counts_within; [by apply lib_wf_consistent|done]).
    split; [|done]. eapply ready_within; [done|done| |done| |done].
    + exact (keeps_registry_unregister _ _ _ _ _ _ _ _ Hrun).
    + exact (brk_grows_unregister _ _ _ _ _ _ _ _ Hrun).
  - destruct (variant_wrong desc e call priv key t s He) as [_ Hw].
    replace (negb (is_variadic e)) with variadic in Hw
      by (destruct variadic, (is_variadic e); done).
    exists SIDE_ERROR_INVAL, s. split; [done|]. split; [done|].
    by apply counts_within_refl.
Qed.

(** The loop of side_exit over the registry unregisters every batch. *)
Lemma exit_loop_returns t : ∀ l s,
  ready s → finalized s = false → side_events_list s = l →
  ∃ s', for_each l (λ handle, side_events_unregister handle.1) t s = Done tt s'
        ∧ ready s' ∧ finalized s' = false ∧ counts_within 0 s s'.
Proof.
  induction l as [|[p h] l IH]; intros s Hready Hfin Hlist.
  - exists s. split; [done|]. split; [done|]. split; [done|]. by apply counts_within_refl.
  - cbn [for_each fst].
    pose proof Hready as (_ & Hreg & _). unfold registry_wf in Hreg.
    rewrite Hlist in Hreg. apply Forall_cons in Hreg as [[Hp _] _]. cbn [fst] in Hp.
    destruct (events_unregister_returns t s p Hready)
      as (s1 & Hrun & Hready1 & Hstep1 & Hfin1 & Hlist1).
    { right. rewrite Hlist. simpl. rewrite bool_decide_eq_true_2 by done. by eexists. }
    rewrite Hlist in Hlist1. simpl in Hlist1. rewrite bool_decide_eq_true_2 in Hlist1 by done.
    unfold bind at 1. rewrite Hrun.
    destruct (IH s1 Hready1) as (s2 & Hrun2 & Hready2 & Hfin2 & Hstep2).
    { congruence. }
    { apply Hlist1; [unfold NULL in *; lia|done]. }
    exists s2. split; [done|]. split; [done|]. split; [done|].
    exact (counts_within_trans 0 0 s s1 s2 Hstep1 Hstep2).
Qed.

(** side_exit returns, from a state between operations. *)
Lemma exit_returns t s :
  ready s →
  ∃ s', side_exit t s = Done tt s' ∧ ready s' ∧ counts_within 0 s s'.
Proof.
  intros Hready. unfold side_exit. rewrite bind_gets.
  destruct (finalized s) eqn:Hfin.
  { exists s. split; [done|]. split; [done|]. by apply counts_within_refl. }
  rewrite bind_gets.
  destruct (exit_loop_returns t (side_events_list s) s Hready Hfin eq_refl)
    as (s1 & Hrun & Hready1 & _ & Hstep1).
  unfold bind at 1. rewrite Hrun.
  unfold side_rcu_gp_exit. rewrite !bind_modify. unfold modify.
  eexists. split; [reflexivity|].
  match goal with |- ready ?x ∧ _ => set (s2 := x) end.
  assert (counts_within 0 s1 s2) as Hstep2
    by (apply counts_within_refl; [done|by destruct s1]).
  split; [|exact (counts_within_trans 0 0 s s1 s2 Hstep1 Hstep2)].
  eapply ready_within; [|exact Hstep2| | | |exact Hready1]; try by destruct s1.
  eapply lib_wf_same; [| | |apply Hready1]; by destruct s1.
Qed.

(** Every operation returns, from a state between operations where its
    arguments are valid and no count is as high as UINT32_MAX - 1. *)
Lemma callback_op_returns t o s :
  ready s →
  op_valid s o →
  (∀ d e, event_store s !! d = Some e → nr_callbacks e < UINT32_MAX - 1) →
  ∃ s', run_op o t s = Done tt s' ∧ ready s' ∧ counts_within 1 s s'.
Proof.
  intros Hready Hvalid Hmax.
  destruct o as [d c p k|d c p k|d c p k|d c p k|events nr_events|events_handle|];
    cbn [op_valid run_op] in *.
  - destruct Hvalid as [e He].
    destruct (register_op_returns false t s d e c p k Hready He (Hmax d e He))
      as (r & s' & Hrun & H). cbn [register_variant] in Hrun.
    exists s'. split; [|done]. unfold bind. by rewrite Hrun.
  - destruct Hvalid as [e He].
    destruct (register_op_returns true t s d e c p k Hready He (Hmax d e He))
      as (r & s' & Hrun & H). cbn [register_variant] in Hrun.
    exists s'. split; [|done]. unfold bind. by rewrite Hrun.
  - destruct Hvalid as [e He].
    destruct (unregister_op_returns false t s d e c p k Hready He)
      as (r & s' & Hrun & H). cbn [unregister_variant] in Hrun.
    exists s'. split; [|done]. unfold bind. by rewrite Hrun.
  - destruct Hvalid as [e He].
    destruct (unregister_op_returns true t s d e c p k Hready He)
      as (r & s' & Hrun & H). cbn [unregister_variant] in Hrun.
    exists s'. split; [|done]. unfold bind. by rewrite Hrun.
  - destruct (events_register_returns t s events nr_events Hready Hvalid)
      as (r & s' & Hrun & Hready' & Hstep).
    exists s'. split; [unfold bind; by rewrite Hrun|]. split; [done|].
    exact (counts_within_trans 0 1 s s' s' Hstep (counts_within_refl 1 s' s' ltac:(lia) eq_refl)).
  - destruct (events_unregister_returns t s events_handle Hready Hvalid)
      as (s' & Hrun & Hready' & Hstep & _).
    exists s'. split; [done|]. split; [done|].
    exact (counts_within_trans 0 1 s s' s' Hstep (counts_within_refl 1 s' s' ltac:(lia) eq_refl)).
  - destruct (exit_returns t s Hready) as (s' & Hrun & Hready' & Hstep).
    exists s'. split; [done|]. split; [done|].
    exact (counts_within_trans 0 1 s s' s' Hstep (counts_within_refl 1 s' s' ltac:(lia) eq_refl)).
Qed.

(** A sequence of registrations and unregistrations of callbacks and of
    batches and of calls of side_exit, by any threads, each given valid
    arguments, runs to its end from a state between operations as long as no
    count can reach UINT32_MAX - 1, and leaves the library well formed. *)
Lemma callback_ops_return ops : ∀ t s,
  ready s →
  ops_valid ops s →
  (∀ d e, event_store s !! d = Some e →
     nr_callbacks e + Z.of_nat (length ops) ≤ UINT32_MAX - 1) →
  ∃ s', run_ops ops t s = Done tt s' ∧ ready s' ∧ events_consistent s'.
Proof.
  induction ops as [|[t0 o] ops IH]; intros t s Hready Hvalid Hmax.
  - exists s. split; [done|]. split; [done|]. apply lib_wf_consistent, Hready.
  - destruct Hvalid as [Ho Hrest]. cbn [run_ops].
    destruct (callback_op_returns t0 o s Hready Ho) as (s1 & Hrun & Hready1 & Hstep).
    { intros d e He. specialize (Hmax d e He). simpl in Hmax. lia. }
    unfold bind at 1. unfold as_thread. rewrite Hrun.
    apply IH; [done|by apply Hrest|].
    intros d e' He'. specialize (Hstep d). rewrite He' in Hstep.
    destruct Hstep as (e & He & Hle). specialize (Hmax d e He). simpl in Hmax. lia.
Qed.

(** The initial state of a program is a state between operations. *)
Lemma lib_initial_ready evs :
  (∀ d e, evs !! d = Some e → ∃ flags, e = initial_event flags) →
  ready (lib_initial evs).
Proof.
  intros Hevs. split; [by apply lib_initial_wf|]. split; [apply Forall_nil_2|].
  split; [reflexivity|]. unfold NULL. simpl. lia.
Qed.

(** ** Fork handlers *)

Lemma mutex_lock_run {B} m (k : M B) t s :
  mutex_of m s = Unlocked →
  (pthread_mutex_lock m ;; k) t s = k t (set_mutex m (Locked t 0) s).
Proof. intros H. unfold bind, pthread_mutex_lock. by rewrite H. Qed.

Lemma mutex_unlock_run {B} m (k : M B) t s :
  mutex_of m s = Locked t 0 →
  (pthread_mutex_unlock m ;; k) t s = k t (set_mutex m Unlocked s).
Proof.
  intros H. unfold bind, pthread_mutex_unlock. rewrite H. simpl.
  by rewrite bool_decide_eq_true_2.
Qed.

Lemma mutex_unlock_last m t s :
  mutex_of m s = Locked t 0 →
  pthread_mutex_unlock m t s = Done tt (set_mutex m Unlocked s).
Proof.
  intros H. unfold pthread_mutex_unlock. rewrite H. simpl.
  by rewrite bool_decide_eq_true_2.
Qed.

(** X1.  Without an agent thread (the reference count is 0) and with
    side_agent_thread_lock free, side_before_fork only takes that mutex and
    returns holding it, and either handler run after the fork,
    side_after_fork_parent in the parent and side_after_fork_child in the
    child, only releases it: the state is as it was before the fork. *)
Theorem fork_without_agent_thread t s :
  agent_thread_ref s = 0 →
  side_agent_thread_lock s = Unlocked →
  side_before_fork t s = Done tt (set_side_agent_thread_lock (Locked t 0) s)
  ∧ (side_before_fork ;; side_after_fork_parent) t s = Done tt s
  ∧ (side_before_fork ;; side_after_fork_child) t s = Done tt s.
Proof.
  intros Href Hlock.
  assert (side_before_fork t s = Done tt (set_side_agent_thread_lock (Locked t 0) s)) as Hb.
  { unfold side_before_fork. rewrite mutex_lock_run by done.
    rewrite bind_gets. replace (agent_thread_ref _) with 0 by (by destruct s).
    reflexivity. }
  split; [done|]. split.
  - unfold bind at 1. rewrite Hb. unfold side_after_fork_parent.
    rewrite bind_gets. replace (agent_thread_ref _) with 0 by (by destruct s).
    simpl. rewrite bind_ret, mutex_unlock_last by (by destruct s).
    destruct s; simpl in *; by subst.
  - unfold bind at 1. rewrite Hb. unfold side_after_fork_child.
    rewrite bind_gets. replace (agent_thread_ref _) with 0 by (by destruct s).
    simpl. rewrite bind_ret, mutex_unlock_last by (by destruct s).
    destruct s; simpl in *; by subst.
Qed.

Lemma fork_without_agent_thread_witness :
  (side_before_fork ;; side_after_fork_parent) 1 polling_example = Done tt polling_example
  ∧ (side_before_fork ;; side_after_fork_child) 1 polling_example = Done tt polling_example.
Proof.
  destruct (fork_without_agent_thread 1 polling_example eq_refl eq_refl) as (_ & Hp & Hc).
  split; [exact Hp|exact Hc].
Defined.

(** The first steps of side_before_fork when there is an agent thread. *)
Lemma before_fork_run t s :
  agent_thread_ref s ≠ 0 →
  side_agent_thread_lock s = Unlocked →
  side_statedump_lock s = Unlocked →
  agent_thread_state s = AGENT_THREAD_STATE_BLOCKED
  ∨ agent_thread_state s = AGENT_THREAD_STATE_HANDLE_REQUEST →
  side_before_fork t s = Done tt (paused t s).
Proof.
  intros Href Hlock Hsd Hstate. unfold paused.
  destruct s as [ini fin g1 g2 l1 l2 l3 l4 kn [ref id st] el tl sl es hp bk oom tr].
  unfold agent_thread_ref, agent_thread_state in *. simpl in *. subst l2 l4.
  unfold side_before_fork. rewrite mutex_lock_run by done.
  rewrite bind_gets. unfold agent_thread_ref. simpl.
  rewrite bool_decide_eq_false_2 by done.
  rewrite mutex_lock_run by done. unfold update_agent. rewrite bind_modify.
  rewrite mutex_unlock_run by done. rewrite bind_gets.
  unfold agent_thread_state. simpl.
  destruct Hstate as [-> | ->]; simpl;
    rewrite bind_gets; simpl; unfold bind at 1; unfold as_thread, statedump_agent_func;
    rewrite mutex_lock_run by done; rewrite bind_gets; simpl;
    rewrite mutex_unlock_run by done; reflexivity.
Qed.



(** X3.  In the child of a process that had an agent thread,
    side_after_fork_child resets the agent thread's state to BLOCKED and
    creates a new thread, keeping the reference count; everything else is as
    in the parent before the fork.  A HANDLE_REQUEST that was pending at the
    fork is dropped while the requests stay queued on their handles: the
    first pass of the child's agent thread goes back to waiting without
    serving them. *)
Theorem fork_child_restarts_agent_thread t s :
  agent_thread_ref s ≠ 0 →
  side_agent_thread_lock s = Unlocked →
  side_statedump_lock s = Unlocked →
  agent_thread_state s = AGENT_THREAD_STATE_BLOCKED
  ∨ agent_thread_state s = AGENT_THREAD_STATE_HANDLE_REQUEST →
  (side_before_fork ;; side_after_fork_child) t s = Done tt (forked_child s)
  ∧ statedump_agent_func (brk s) (forked_child s) = Done Agent_waiting (forked_child s)
  ∧ side_statedump_list (forked_child s) = side_statedump_list s.
Proof.
  intros Href Hlock Hsd Hstate.
  unfold bind at 1. rewrite before_fork_run by done. unfold paused, forked_child.
  destruct s as [ini fin g1 g2 l1 l2 l3 l4 kn [ref id st] el tl sl es hp bk oom tr].
  unfold agent_thread_ref, agent_thread_state in *. simpl in *. subst l2 l4.
  split; [|split; [|reflexivity]].
  - unfold side_after_fork_child. rewrite bind_gets. unfold agent_thread_ref. simpl.
    rewrite bool_decide_eq_true_2 by done. simpl.
    unfold statedump_agent_thread_fini, statedump_agent_thread_init, update_agent,
      bind, modify, gets, pthread_mutex_unlock. simpl.
    rewrite bool_decide_eq_true_2 by done. reflexivity.
  - unfold statedump_agent_func.
    rewrite mutex_lock_run by done. rewrite bind_gets. simpl.
    rewrite mutex_unlock_run by done. reflexivity.
Qed.

Lemma fork_child_restarts_agent_thread_witness :
  (side_before_fork ;; side_after_fork_child) 1
    (set_statedump_agent_thread (mk_agent 1 2 AGENT_THREAD_STATE_HANDLE_REQUEST)
       (agent_example [8]))
  = Done tt (set_brk 2 (set_statedump_agent_thread (mk_agent 1 1 AGENT_THREAD_STATE_BLOCKED)
                          (agent_example [8])))
  ∧ statedump_agent_func 1
      (set_brk 2 (set_statedump_agent_thread (mk_agent 1 1 AGENT_THREAD_STATE_BLOCKED)
                    (agent_example [8])))
    = Done Agent_waiting
        (set_brk 2 (set_statedump_agent_thread (mk_agent 1 1 AGENT_THREAD_STATE_BLOCKED)
                      (agent_example [8]))).
Proof.
  destruct (fork_child_restarts_agent_thread 1
              (set_statedump_agent_thread (mk_agent 1 2 AGENT_THREAD_STATE_HANDLE_REQUEST)
                 (agent_example [8])))
    as (Hrun & Hpass & _); try reflexivity.
  - discriminate.
  - by right.
  - split; [exact Hrun|exact Hpass].
Defined.

(** ** The registry of batches and of tracers *)

Lemma alloc_attempt_run t s :
  alloc_attempt t s
  = Done (if alloc_fails s then None else Some (brk s))
      (set_brk (if alloc_fails s then brk s else brk s + 1)
         (set_oom_script (tail (oom_script s)) s)).
Proof.
  unfold alloc_attempt, alloc_fails. destruct s; simpl.
  by destruct oom_script0 as [|[] rest].
Qed.

Lemma alloc_fails_initialize s : alloc_fails (initialize s) = alloc_fails s.
Proof. unfold alloc_fails, initialize. by destruct s, initialized0. Qed.

Lemma events_register_run t s events nr_events :
  finalized s = false →
  side_event_lock s = Unlocked →
  ∃ s',
    side_events_register events nr_events t s
    = Done (if alloc_fails s then None else Some (brk s)) s'
    ∧ side_events_list s'
      = (if alloc_fails s then side_events_list s
         else side_events_list s ++ [(brk s, mk_events_handle events nr_events)])
    ∧ trace s'
      = (if alloc_fails s then trace s
         else trace s ++ notify_tracers SIDE_TRACER_NOTIFICATION_INSERT_EVENTS
                           (side_tracer_list s) (mk_events_handle events nr_events))
    ∧ side_tracer_list s' = side_tracer_list s
    ∧ event_store s' = event_store s
    ∧ heap s' = heap s
    ∧ side_event_lock s' = Unlocked
    ∧ finalized s' = false.
Proof.
  intros Hfin Hlock. unfold side_events_register.
  rewrite bind_gets, Hfin, lazy_init_run.
  unfold bind at 1. rewrite alloc_attempt_run, alloc_fails_initialize.
  destruct (alloc_fails s).
  { eexists. split; [reflexivity|].
    unfold initialize. destruct s, initialized0; simpl in *; by subst. }
  rewrite event_lock_run by (unfold initialize; by destruct s, initialized0).
  rewrite bind_modify, bind_gets. unfold bind at 1.
  rewrite (for_each_invoke_run (λ tracer_handle : Z * side_tracer_handle,
             Call_notification (th_cb tracer_handle.2) SIDE_TRACER_NOTIFICATION_INSERT_EVENTS
               events nr_events (th_priv tracer_handle.2))).
  unfold bind at 1. rewrite event_unlock_run by (unfold initialize; by destruct s, initialized0).
  eexists. split; [unfold initialize; by destruct s, initialized0|].
  unfold initialize. destruct s, initialized0; simpl in *; by subst.
Qed.

(** X4.  On a library that is not finalized, with the event mutex free:
    when calloc fails, side_events_register returns NULL and neither the
    registry, the events nor the calls made so far change; otherwise it
    returns a fresh handle, appends the batch at the tail of the registry
    without looking at its content, and tells every registered tracer once,
    in their registration order, with INSERT_EVENTS, the array and the count
    it was given.  The events themselves are left as they were. *)
Theorem events_register_notifies t s events nr_events :
  finalized s = false →
  side_event_lock s = Unlocked →
  ∃ s',
    side_events_register events nr_events t s
    = Done (if alloc_fails s then None else Some (brk s)) s'
    ∧ side_events_list s'
      = (if alloc_fails s then side_events_list s
         else side_events_list s ++ [(brk s, mk_events_handle events nr_events)])
    ∧ trace s'
      = (if alloc_fails s then trace s
         else trace s ++ notify_tracers SIDE_TRACER_NOTIFICATION_INSERT_EVENTS
                           (side_tracer_list s) (mk_events_handle events nr_events))
    ∧ side_tracer_list s' = side_tracer_list s
    ∧ event_store s' = event_store s
    ∧ heap s' = heap s
    ∧ side_event_lock s' = Unlocked
    ∧ finalized s' = false.
Proof. apply events_register_run. Qed.

Lemma events_register_notifies_witness :
  ∃ s',
    side_events_register [0x100] 1 1
      (set_side_tracer_list [(0x800, mk_tracer_handle 0x402000 0xD)] one_event)
    = Done (Some 1) s'
    ∧ side_events_list s' = [(1, mk_events_handle [0x100] 1)]
    ∧ trace s' = [Call_notification 0x402000 SIDE_TRACER_NOTIFICATION_INSERT_EVENTS
                    [0x100] 1 0xD].
Proof.
  destruct (events_register_notifies 1
              (set_side_tracer_list [(0x800, mk_tracer_handle 0x402000 0xD)] one_event)
              [0x100] 1 eq_refl eq_refl) as (s' & Hrun & Hlist & Htrace & _).
  exists s'. split; [exact Hrun|]. split; [exact Hlist|exact Htrace].
Defined.

Lemma two_callbacks_wf : lib_wf two_callbacks.
Proof.
  eapply (lib_wf_replace one_event two_callbacks 0x100 (initial_event 0)
            (mk_side_event 0 0 2 1 (heap_block 1))
            (encode_callback callback_A ++ encode_callback callback_B
             ++ zeroed SIZEOF_SIDE_CALLBACK)).
  - apply lib_wf_same with (s := lib_initial (<[0x100 := initial_event 0]> static_events));
      [reflexivity..|].
    apply lib_initial_wf. intros d e. unfold static_events.
    rewrite !lookup_insert_Some, lookup_empty. intros [[_ <-]|[_ [[_ <-]|[_ [[_ <-]|[_ ?]]]]]];
      [by exists 0..|done].
  - reflexivity.
  - simpl. by rewrite insert_insert_eq.
  - reflexivity.
  - reflexivity.
  - reflexivity.
  - split; [by vm_compute|]. split; [done|]. reflexivity.
  - reflexivity.
  - split; reflexivity.
Qed.

Lemma registered_example_ready : ready registered_example.
Proof.
  split; [|split; [|split]].
  - eapply lib_wf_grow; [| | |exact two_callbacks_wf]; [reflexivity|reflexivity|].
    simpl. lia.
  - apply Forall_singleton. split; [unfold NULL; simpl; lia|]. split; [simpl; lia|].
    apply Forall_cons. split; [right; by eexists|]. apply Forall_singleton. by left.
  - reflexivity.
  - unfold NULL. simpl. lia.
Qed.

(** X5.  On a well-formed library that is not finalized, with the event
    mutex free, side_events_unregister of a registered batch returns, takes
    the batch out of the registry, tells every tracer once, in registration
    order, with REMOVE_EVENTS, and drains the events of the batch: each of
    its first nr_events entries that is not NULL ends with no callback,
    pointing at the shared empty callback, the private part of [enabled] at
    0; an event that had callbacks lost one reference of [enabled], and the
    events outside the batch are as they were. *)
Theorem events_unregister_drains t s events_handle h :
  ready s →
  finalized s = false →
  node_find events_handle (side_events_list s) = Some h →
  ∃ s',
    side_events_unregister events_handle t s = Done tt s'
    ∧ side_events_list s' = node_remove events_handle (side_events_list s)
    ∧ trace s' = trace s ++ notify_tracers SIDE_TRACER_NOTIFICATION_REMOVE_EVENTS
                              (side_tracer_list s) h
    ∧ drained_store (batch_events h) s s'
    ∧ (∀ d e', d ∈ batch_events h → event_store s' !! d = Some e' →
         nr_callbacks e' = 0 ∧ callbacks e' = side_empty_callback ∧ private_enabled e' = 0)
    ∧ ready s'.
Proof.
  intros Hready Hfin Hfind.
  pose proof Hready as (_ & Hreg & _).
  pose proof (node_find_Forall _ _ _ _ Hreg Hfind) as ([Hnull _] & _). cbn [fst] in Hnull.
  destruct (events_unregister_returns t s events_handle Hready)
    as (s' & Hrun & Hready' & _ & _ & _ & Hrest); [right; by eexists|].
  destruct Hrest as [Hlist Hh]; [unfold NULL in *; lia|done|].
  destruct (Hh h Hfind) as [Hstore Htrace].
  exists s'. split; [done|]. split; [done|]. split; [done|]. split; [done|].
  split; [|done].
  intros d e' Hin He'.
  assert (nr_callbacks e' = 0) as Hnr.
  { rewrite (Hstore d), bool_decide_eq_true_2 in He' by done.
    destruct (event_store s !! d) as [e|]; [|done]. injection He' as <-.
    unfold drained_event. by case_bool_decide. }
  destruct Hready' as (Hwf' & _).
  destruct (lib_wf_consistent s' Hwf' d e' He') as (_ & Hempty & Hpar).
  split; [done|]. split; [by apply Hempty|].
  rewrite Hpar. by rewrite bool_decide_eq_false_2 by lia.
Qed.

Lemma events_unregister_drains_witness :
  ∃ s',
    side_events_unregister 2 1 registered_example = Done tt s'
    ∧ side_events_list s' = []
    ∧ trace s' = [Call_notification 0x402000 SIDE_TRACER_NOTIFICATION_REMOVE_EVENTS
                    [0x100; NULL] 2 0xD]
    ∧ event_store s' !! 0x100 = Some (mk_side_event 0 0 0 0 side_empty_callback).
Proof.
  destruct (events_unregister_drains 1 registered_example 2
              (mk_events_handle [0x100; NULL] 2) registered_example_ready eq_refl eq_refl)
    as (s' & Hrun & Hlist & Htrace & Hstore & _).
  exists s'. split; [exact Hrun|]. split; [exact Hlist|]. split; [exact Htrace|].
  rewrite (Hstore 0x100). reflexivity.
Defined.

Lemma drained_event_twice e : drained_event (drained_event e) = drained_event e.
Proof.
  unfold drained_event. destruct (bool_decide (nr_callbacks e = 0)) eqn:Hz.
  - by rewrite Hz.
  - reflexivity.
Qed.

Lemma drained_store_app l1 l2 s s1 s2 :
  drained_store l1 s s1 → drained_store l2 s1 s2 → drained_store (l1 ++ l2) s s2.
Proof.
  intros H1 H2 d. rewrite (H2 d), (H1 d).
  destruct (decide (d ∈ l1)) as [Hin1|Hin1], (decide (d ∈ l2)) as [Hin2|Hin2].
  - rewrite !bool_decide_eq_true_2; [|apply elem_of_app; by left|done..].
    destruct (event_store s !! d); [|done]. simpl. by rewrite drained_event_twice.
  - rewrite (bool_decide_eq_false_2 (d ∈ l2)) by done.
    by rewrite !bool_decide_eq_true_2; [|apply elem_of_app; by left|done].
  - rewrite (bool_decide_eq_false_2 (d ∈ l1)) by done.
    by rewrite !bool_decide_eq_true_2; [|apply elem_of_app; by right|done].
  - rewrite !bool_decide_eq_false_2; [done| |done..].
    intros [?|?]%elem_of_app; done.
Qed.

Lemma drained_store_nil s s' : event_store s' = event_store s → drained_store [] s s'.
Proof.
  intros H d. rewrite H. by rewrite bool_decide_eq_false_2 by apply not_elem_of_nil.
Qed.

Ltac unfold_events_unregister :=
  unfold side_events_unregister, side_init, side_rcu_gp_init, invoke,
    side_event_remove_callbacks, update_event, load_event, free_callbacks.

Lemma keeps_statedump_list_events_unregister events_handle :
  keeps side_statedump_list (side_events_unregister events_handle).
Proof. unfold_events_unregister. keeps_tac. Qed.

Lemma keeps_agent_thread_events_unregister events_handle :
  keeps statedump_agent_thread (side_events_unregister events_handle).
Proof. unfold_events_unregister. keeps_tac. Qed.

(** The loop of side_exit unregisters the batches in registry order. *)
Lemma exit_loop_drains t : ∀ l s,
  ready s → finalized s = false → side_events_list s = l →
  ∃ s', for_each l (λ handle, side_events_unregister handle.1) t s = Done tt s'
        ∧ ready s' ∧ finalized s' = false
        ∧ side_events_list s' = []
        ∧ side_tracer_list s' = side_tracer_list s
        ∧ trace s' = trace s ++ exit_notifications (side_tracer_list s) l
        ∧ drained_store (registry_events l) s s'.
Proof.
  induction l as [|[p h] l IH]; intros s Hready Hfin Hlist.
  - exists s. split; [done|]. split; [done|]. split; [done|]. split; [done|].
    split; [done|]. split; [by rewrite app_nil_r|]. by apply drained_store_nil.
  - cbn [for_each fst].
    pose proof Hready as (_ & Hreg & _). unfold registry_wf in Hreg.
    rewrite Hlist in Hreg. apply Forall_cons in Hreg as [[Hp _] _]. cbn [fst] in Hp.
    assert (node_find p (side_events_list s) = Some h) as Hfind.
    { rewrite Hlist. simpl. by rewrite bool_decide_eq_true_2. }
    destruct (events_unregister_returns t s p Hready)
      as (s1 & Hrun & Hready1 & _ & Hfin1 & Htl1 & Hrest); [right; by eexists|].
    destruct Hrest as [Hlist1 Hh]; [unfold NULL in *; lia|done|].
    destruct (Hh h Hfind) as [Hstore1 Htrace1].
    rewrite Hlist in Hlist1. simpl in Hlist1. rewrite bool_decide_eq_true_2 in Hlist1 by done.
    unfold bind at 1. rewrite Hrun.
    destruct (IH s1 Hready1) as (s2 & Hrun2 & Hready2 & Hfin2 & Hlist2 & Htl2 & Htrace2 & Hstore2);
      [congruence|done|].
    exists s2. split; [done|]. split; [done|]. split; [done|]. split; [done|].
    split; [congruence|]. split.
    + rewrite Htrace2, Htrace1, Htl1. unfold exit_notifications. simpl.
      by rewrite <- app_assoc.
    + unfold registry_events. simpl. by eapply drained_store_app.
Qed.

(** X6.  On a well-formed library that is not finalized, with the event
    mutex free, side_exit returns with the finalized flag set and both RCU
    domains released, after unregistering every batch in registry order: the
    registry is empty, every tracer was told of the removal of every batch,
    and every event of a batch is drained.  The tracer handles, the
    state-dump handles and the agent thread are left as they are. *)
Theorem exit_unregisters_every_batch t s :
  ready s →
  finalized s = false →
  ∃ s',
    side_exit t s = Done tt s'
    ∧ finalized s' = true
    ∧ event_rcu_gp s' = false ∧ statedump_rcu_gp s' = false
    ∧ side_events_list s' = []
    ∧ trace s' = trace s ++ exit_notifications (side_tracer_list s) (side_events_list s)
    ∧ drained_store (registry_events (side_events_list s)) s s'
    ∧ side_tracer_list s' = side_tracer_list s
    ∧ side_statedump_list s' = side_statedump_list s
    ∧ statedump_agent_thread s' = statedump_agent_thread s.
Proof.
  intros Hready Hfin. unfold side_exit. rewrite bind_gets, Hfin, bind_gets.
  destruct (exit_loop_drains t (side_events_list s) s Hready Hfin eq_refl)
    as (s1 & Hrun & _ & _ & Hlist1 & Htl1 & Htrace1 & Hstore1).
  pose proof (keeps_for_each side_statedump_list _ _
                (λ a, keeps_statedump_list_events_unregister a.1) _ _ _ _ Hrun) as Hsd.
  pose proof (keeps_for_each statedump_agent_thread _ _
                (λ a, keeps_agent_thread_events_unregister a.1) _ _ _ _ Hrun) as Hag.
  simpl in Hsd, Hag.
  unfold bind at 1. rewrite Hrun.
  unfold side_rcu_gp_exit. rewrite !bind_modify. unfold modify.
  eexists. split; [reflexivity|].
  split; [by destruct s1|]. split; [by destruct s1|]. split; [by destruct s1|].
  split; [by destruct s1|]. split; [by destruct s1|].
  split; [intros d; rewrite <- (Hstore1 d); by destruct s1|].
  split; [by destruct s1|]. split; by destruct s1.
Qed.

Lemma exit_unregisters_every_batch_witness :
  ∃ s',
    side_exit 1 registered_example = Done tt s'
    ∧ finalized s' = true
    ∧ side_events_list s' = []
    ∧ trace s' = [Call_notification 0x402000 SIDE_TRACER_NOTIFICATION_REMOVE_EVENTS
                    [0x100; NULL] 2 0xD]
    ∧ event_store s' !! 0x100 = Some (mk_side_event 0 0 0 0 side_empty_callback)
    ∧ side_tracer_list s' = [(3, mk_tracer_handle 0x402000 0xD)].
Proof.
  destruct (exit_unregisters_every_batch 1 registered_example registered_example_ready
              eq_refl)
    as (s' & Hrun & Hfin & _ & _ & Hlist & Htrace & Hstore & Htl & _).
  exists s'. split; [exact Hrun|]. split; [exact Hfin|]. split; [exact Hlist|].
  split; [exact Htrace|]. split; [|exact Htl].
  rewrite (Hstore 0x100). reflexivity.
Defined.

(** X7.  On a library that is not finalized, with the event mutex free:
    when calloc fails, side_tracer_event_notification_register returns NULL
    and makes no call; otherwise it returns a fresh handle, appends the
    tracer at the tail of the tracer list, and replays the registry to it:
    its callback is called once for every batch already registered, in
    registry order, with INSERT_EVENTS and the tracer's [priv]. *)
Theorem tracer_registration_replays t s cb priv :
  finalized s = false →
  side_event_lock s = Unlocked →
  ∃ s',
    side_tracer_event_notification_register cb priv t s
    = Done (if alloc_fails s then None else Some (brk s)) s'
    ∧ side_tracer_list s'
      = (if alloc_fails s then side_tracer_list s
         else side_tracer_list s ++ [(brk s, mk_tracer_handle cb priv)])
    ∧ trace s'
      = (if alloc_fails s then trace s
         else trace s ++ notify_batches SIDE_TRACER_NOTIFICATION_INSERT_EVENTS
                           (mk_tracer_handle cb priv) (side_events_list s))
    ∧ side_events_list s' = side_events_list s
    ∧ event_store s' = event_store s
    ∧ side_event_lock s' = Unlocked.
Proof.
  intros Hfin Hlock. unfold side_tracer_event_notification_register.
  rewrite bind_gets, Hfin, lazy_init_run.
  unfold bind at 1. rewrite alloc_attempt_run, alloc_fails_initialize.
  destruct (alloc_fails s).
  { eexists. split; [reflexivity|].
    unfold initialize. destruct s, initialized0; simpl in *; by subst. }
  rewrite event_lock_run by (unfold initialize; by destruct s, initialized0).
  rewrite bind_modify, bind_gets. unfold bind at 1.
  rewrite (for_each_invoke_run (λ events_handle : Z * side_events_register_handle,
             Call_notification cb SIDE_TRACER_NOTIFICATION_INSERT_EVENTS
               (eh_events events_handle.2) (eh_nr_events events_handle.2) priv)).
  unfold bind at 1. rewrite event_unlock_run by (unfold initialize; by destruct s, initialized0).
  eexists. split; [unfold initialize; by destruct s, initialized0|].
  unfold initialize. destruct s, initialized0; simpl in *; by subst.
Qed.

Lemma tracer_registration_replays_witness :
  ∃ s',
    side_tracer_event_notification_register 0x403000 0xE 1 registered_example
    = Done (Some 4) s'
    ∧ side_tracer_list s'
      = [(3, mk_tracer_handle 0x402000 0xD); (4, mk_tracer_handle 0x403000 0xE)]
    ∧ trace s' = [Call_notification 0x403000 SIDE_TRACER_NOTIFICATION_INSERT_EVENTS
                    [0x100; NULL] 2 0xE].
Proof.
  destruct (tracer_registration_replays 1 registered_example 0x403000 0xE eq_refl eq_refl)
    as (s' & Hrun & Hlist & Htrace & _).
  exists s'. split; [exact Hrun|]. split; [exact Hlist|exact Htrace].
Defined.

Lemma tracer_unregister_run t s tracer_handle th :
  finalized s = false →
  side_event_lock s = Unlocked →
  node_find tracer_handle (side_tracer_list s) = Some th →
  ∃ s',
    side_tracer_event_notification_unregister tracer_handle t s = Done tt s'
    ∧ side_tracer_list s' = node_remove tracer_handle (side_tracer_list s)
    ∧ trace s' = trace s ++ notify_batches SIDE_TRACER_NOTIFICATION_REMOVE_EVENTS th
                              (side_events_list s)
    ∧ side_events_list s' = side_events_list s
    ∧ event_store s' = event_store s
    ∧ heap s' = heap s
    ∧ side_event_lock s' = Unlocked.
Proof.
  intros Hfin Hlock Hfind. unfold side_tracer_event_notification_unregister.
  rewrite bind_gets, Hfin, lazy_init_run.
  rewrite event_lock_run by (unfold initialize; by destruct s, initialized0).
  rewrite bind_gets.
  assert (side_tracer_list (set_side_event_lock (Locked t 0) (initialize s))
          = side_tracer_list s) as -> by (unfold initialize; by destruct s, initialized0).
  rewrite Hfind, bind_gets. unfold bind at 1.
  rewrite (for_each_invoke_run (λ events_handle : Z * side_events_register_handle,
             Call_notification (th_cb th) SIDE_TRACER_NOTIFICATION_REMOVE_EVENTS
               (eh_events events_handle.2) (eh_nr_events events_handle.2) (th_priv th))).
  rewrite bind_modify.
  rewrite event_unlock_run by (unfold initialize; by destruct s, initialized0).
  eexists. split; [reflexivity|].
  unfold initialize. destruct s, initialized0; simpl in *; by subst.
Qed.

Lemma node_remove_fresh {A} p (a : A) l :
  Forall (λ node, node.1 ≠ p) l → node_remove p (l ++ [(p, a)]) = l.
Proof.
  induction l as [|[q b] l IH]; intros Hall; simpl.
  - by rewrite bool_decide_eq_true_2.
  - apply Forall_cons in Hall as [Hq Hall]. simpl in Hq.
    rewrite bool_decide_eq_false_2 by done. by rewrite IH.
Qed.

Lemma node_find_fresh {A} p (a : A) l :
  Forall (λ node, node.1 ≠ p) l → node_find p (l ++ [(p, a)]) = Some a.
Proof.
  induction l as [|[q b] l IH]; intros Hall; simpl.
  - by rewrite bool_decide_eq_true_2.
  - apply Forall_cons in Hall as [Hq Hall]. simpl in Hq.
    rewrite bool_decide_eq_false_2 by done. by rewrite IH.
Qed.

(** X8.  side_tracer_event_notification_unregister of a registered tracer
    calls its callback once for every batch of the registry, in registry
    order, with REMOVE_EVENTS, and then takes the tracer out of the list;
    the registry and the events are untouched.  A tracer that registers and
    unregisters with no batch registered or unregistered in between (the
    address calloc returns not being that of another tracer) is told of the
    removal of exactly the batches whose insertion it was told of, and the
    tracer list is as before. *)
Theorem tracer_unregistration_mirrors t s cb priv :
  finalized s = false →
  side_event_lock s = Unlocked →
  alloc_fails s = false →
  Forall (λ node, node.1 ≠ brk s) (side_tracer_list s) →
  (∀ tracer_handle th,
     node_find tracer_handle (side_tracer_list s) = Some th →
     ∃ s',
       side_tracer_event_notification_unregister tracer_handle t s = Done tt s'
       ∧ side_tracer_list s' = node_remove tracer_handle (side_tracer_list s)
       ∧ trace s' = trace s ++ notify_batches SIDE_TRACER_NOTIFICATION_REMOVE_EVENTS th
                                 (side_events_list s)
       ∧ side_events_list s' = side_events_list s
       ∧ event_store s' = event_store s)
  ∧ ∃ s1 s2,
      side_tracer_event_notification_register cb priv t s = Done (Some (brk s)) s1
      ∧ side_tracer_event_notification_unregister (brk s) t s1 = Done tt s2
      ∧ side_tracer_list s2 = side_tracer_list s
      ∧ side_events_list s2 = side_events_list s
      ∧ trace s2
        = trace s
          ++ notify_batches SIDE_TRACER_NOTIFICATION_INSERT_EVENTS
               (mk_tracer_handle cb priv) (side_events_list s)
          ++ notify_batches SIDE_TRACER_NOTIFICATION_REMOVE_EVENTS
               (mk_tracer_handle cb priv) (side_events_list s).
Proof.
  intros Hfin Hlock Halloc Hfresh. split.
  - intros tracer_handle th Hfind.
    destruct (tracer_unregister_run t s tracer_handle th Hfin Hlock Hfind)
      as (s' & Hrun & Htl & Htrace & Hel & Hes & _).
    by exists s'.
  - unfold side_tracer_event_notification_register.
    rewrite bind_gets, Hfin, lazy_init_run.
    unfold bind at 1. rewrite alloc_attempt_run, alloc_fails_initialize, Halloc.
    rewrite event_lock_run by (unfold initialize; by destruct s, initialized0).
    rewrite bind_modify, bind_gets. unfold bind at 1.
    rewrite (for_each_invoke_run (λ events_handle : Z * side_events_register_handle,
               Call_notification cb SIDE_TRACER_NOTIFICATION_INSERT_EVENTS
                 (eh_events events_handle.2) (eh_nr_events events_handle.2) priv)).
    unfold bind at 1.
    rewrite event_unlock_run by (unfold initialize; by destruct s, initialized0).
    eexists. match goal with |- ∃ s2, ret _ _ ?x = _ ∧ _ => set (s1 := x) end.
    assert (brk (initialize s) = brk s) as Hbrk
      by (unfold initialize; by destruct s, initialized0).
    assert (side_tracer_list s1 = side_tracer_list s ++ [(brk s, mk_tracer_handle cb priv)])
      as Htl1 by (unfold s1, initialize; by destruct s, initialized0).
    assert (side_events_list s1 = side_events_list s) as Hel1
      by (unfold s1, initialize; by destruct s, initialized0).
    assert (trace s1 = trace s ++ notify_batches SIDE_TRACER_NOTIFICATION_INSERT_EVENTS
                                   (mk_tracer_handle cb priv) (side_events_list s)) as Htr1
      by (unfold s1, initialize; by destruct s, initialized0).
    destruct (tracer_unregister_run t s1 (brk s) (mk_tracer_handle cb priv))
      as (s2 & Hrun2 & Htl2 & Htrace2 & Hel2 & _).
    { unfold s1, initialize. by destruct s, initialized0. }
    { unfold s1, initialize. by destruct s, initialized0. }
    { rewrite Htl1. by apply node_find_fresh. }
    exists s2. split; [unfold ret; by rewrite Hbrk|]. split; [done|].
    split; [rewrite Htl2, Htl1; by apply node_remove_fresh|].
    split; [congruence|].
    by rewrite Htrace2, Htr1, Hel1, <- app_assoc.
Qed.

Lemma tracer_unregistration_mirrors_witness :
  ∃ s1 s2,
    side_tracer_event_notification_register 0x403000 0xE 1 registered_example
    = Done (Some 4) s1
    ∧ side_tracer_event_notification_unregister 4 1 s1 = Done tt s2
    ∧ side_tracer_list s2 = [(3, mk_tracer_handle 0x402000 0xD)]
    ∧ trace s2
      = [Call_notification 0x403000 SIDE_TRACER_NOTIFICATION_INSERT_EVENTS [0x100; NULL] 2 0xE;
         Call_notification 0x403000 SIDE_TRACER_NOTIFICATION_REMOVE_EVENTS [0x100; NULL] 2 0xE].
Proof.
  destruct (tracer_unregistration_mirrors 1 registered_example 0x403000 0xE
              eq_refl eq_refl eq_refl)
    as (_ & s1 & s2 & Hrun1 & Hrun2 & Htl & _ & Htrace).
  { apply Forall_singleton. simpl. lia. }
  exists s1, s2. split; [exact Hrun1|]. split; [exact Hrun2|].
  split; [exact Htl|exact Htrace].
Defined.

(** ** Constructor and destructor of an instrumented object *)

Lemma s32_small x : - 2 ^ 31 ≤ x < 2 ^ 31 → s32 x = x.
Proof. intros H. unfold s32. rewrite Z.mod_small by lia. lia. Qed.

(** A constructor that finds the object registered only counts. *)
Lemma nested_constructors events t s handle : ∀ (n : nat) c,
  0 < c → c + Z.of_nat n < 2 ^ 31 →
  constructors n events (mk_object c handle) t s
  = Done (mk_object (c + Z.of_nat n) handle) s.
Proof.
  induction n as [|n IH]; intros c Hc Hmax; cbn [constructors].
  - unfold ret. by rewrite Z.add_0_r.
  - unfold side_event_description_ptr_init.
    cbn [side_event_description_ptr_registered side_events_handle].
    rewrite bool_decide_eq_true_2 by lia. rewrite bind_ret.
    rewrite s32_small by lia. rewrite IH by lia. do 2 f_equal. lia.
Qed.

(** A destructor that is not the last one only counts. *)
Lemma nested_destructors t s handle : ∀ (n : nat) c,
  0 < c → c + Z.of_nat n < 2 ^ 31 →
  destructors n (mk_object (c + Z.of_nat n) handle) t s
  = Done (mk_object c handle) s.
Proof.
  induction n as [|n IH]; intros c Hc Hmax; cbn [destructors].
  - unfold ret. by rewrite Z.add_0_r.
  - unfold side_event_description_ptr_exit.
    cbn [side_event_description_ptr_registered side_events_handle].
    rewrite s32_small by lia.
    rewrite bool_decide_eq_true_2 by lia. rewrite bind_ret.
    replace (c + Z.of_nat (S n) - 1) with (c + Z.of_nat n) by lia.
    apply IH; lia.
Qed.

Lemma bind_ext {A B} (m : M A) (f g : A → M B) t s :
  (∀ a s1, f a t s1 = g a t s1) → bind m f t s = bind m g t s.
Proof. intros H. unfold bind. destruct (m t s); [apply H|done..]. Qed.

Lemma destructors_app t (a b : nat) : ∀ o s,
  destructors (a + b) o t s = (o' <- destructors a o ;; destructors b o') t s.
Proof.
  induction a as [|a IH]; intros o s; cbn [destructors Nat.add].
  - by rewrite bind_ret.
  - rewrite bind_assoc. apply bind_ext. intros o' s1. apply IH.
Qed.

(** X9.  An object whose constructor side_event_description_ptr_init runs
    [n] times (0 < n < 2^31) and whose destructor
    side_event_description_ptr_exit then runs [n] times registers its events
    once, with the first constructor, and unregisters them once, with the
    last destructor: the tracers are told once of the insertion and once of
    the removal, the object's counter and handle end at 0 and NULL, and the
    registry is as it was. *)
Theorem constructors_register_once t s events (n : nat) :
  ready s →
  finalized s = false →
  alloc_fails s = false →
  Forall (λ event, event = NULL ∨ is_Some (event_store s !! event)) events →
  (0 < n)%nat → Z.of_nat n < 2 ^ 31 →
  let h := mk_events_handle events (u32 (Z.of_nat (length events))) in
  ∃ s1 s2,
    constructors n events (mk_object 0 NULL) t s = Done (mk_object (Z.of_nat n) (brk s)) s1
    ∧ side_events_list s1 = side_events_list s ++ [(brk s, h)]
    ∧ trace s1 = trace s ++ notify_tracers SIDE_TRACER_NOTIFICATION_INSERT_EVENTS
                              (side_tracer_list s) h
    ∧ destructors n (mk_object (Z.of_nat n) (brk s)) t s1 = Done (mk_object 0 NULL) s2
    ∧ side_events_list s2 = side_events_list s
    ∧ trace s2 = trace s1 ++ notify_tracers SIDE_TRACER_NOTIFICATION_REMOVE_EVENTS
                               (side_tracer_list s) h.
Proof.
  intros Hready Hfin Halloc Hall Hn Hmax h.
  pose proof Hready as (_ & Hreg & Hlock & _).
  assert (events_handle_wf s h) as Hh.
  { split; [|done]. subst h. cbn [eh_nr_events eh_events].
    pose proof (u32_le (Z.of_nat (length events))). lia. }
  destruct (events_register_returns t s events (u32 (Z.of_nat (length events))) Hready Hh)
    as (r & s1 & Hrun1 & Hready1 & _).
  destruct (events_register_run t s events (u32 (Z.of_nat (length events))) Hfin Hlock)
    as (s1' & Hrun1' & Hlist1 & Htrace1 & Htl1 & _ & _ & _ & Hfin1).
  rewrite Hrun1' in Hrun1. injection Hrun1 as <- <-. rewrite Halloc in *.
  assert (Forall (λ node : Z * side_events_register_handle, node.1 ≠ brk s)
            (side_events_list s)) as Hfresh.
  { eapply Forall_impl; [exact Hreg|]. intros [p x] [Hp _]. simpl in *. lia. }
  destruct (events_unregister_returns t s1' (brk s) Hready1)
    as (s2 & Hrun2 & _ & _ & Hfin2 & _ & Hrest).
  { right. rewrite Hlist1. rewrite node_find_fresh by done. by eexists. }
  destruct Hrest as [Hlist2 Hh2].
  { destruct Hready as (_ & _ & _ & Hbrk). unfold NULL in *. lia. }
  { done. }
  destruct (Hh2 h) as [_ Htrace2].
  { rewrite Hlist1. by apply node_find_fresh. }
  exists s1', s2.
  destruct n as [|m]; [lia|].
  split.
  { cbn [constructors]. unfold side_event_description_ptr_init.
    cbn [side_event_description_ptr_registered side_events_handle].
    rewrite bool_decide_eq_false_2 by (intros H; by apply H).
    rewrite bind_assoc. unfold bind at 1. rewrite Hrun1'. rewrite bind_ret.
    cbn [default side_event_description_ptr_registered].
    rewrite s32_small by lia. change (0 + 1) with 1. change (id (brk s)) with (brk s).
    rewrite (nested_constructors events t s1' (brk s) m 1) by lia.
    do 2 f_equal. lia. }
  split; [done|]. split; [done|]. split.
  { replace (S m) with (m + 1)%nat by lia. rewrite destructors_app.
    unfold bind at 1.
    replace (Z.of_nat (m + 1)) with (1 + Z.of_nat m) by lia.
    rewrite (nested_destructors t s1' (brk s) m 1) by lia.
    cbn [destructors]. unfold side_event_description_ptr_exit.
    cbn [side_event_description_ptr_registered side_events_handle].
    rewrite s32_small by lia. rewrite bool_decide_eq_false_2 by (intros H; by apply H).
    rewrite bind_assoc. unfold bind at 1. rewrite Hrun2. reflexivity. }
  split.
  { rewrite Hlist2, Hlist1. by apply node_remove_fresh. }
  by rewrite Htrace2, Htl1.
Qed.

Lemma constructors_register_once_witness :
  ∃ s1 s2,
    constructors 3 [0x100] (mk_object 0 NULL) 1 registered_example = Done (mk_object 3 4) s1
    ∧ destructors 3 (mk_object 3 4) 1 s1 = Done (mk_object 0 NULL) s2
    ∧ side_events_list s2 = [(2, mk_events_handle [0x100; NULL] 2)]
    ∧ trace s2
      = [Call_notification 0x402000 SIDE_TRACER_NOTIFICATION_INSERT_EVENTS [0x100] 1 0xD;
         Call_notification 0x402000 SIDE_TRACER_NOTIFICATION_REMOVE_EVENTS [0x100] 1 0xD].
Proof.
  destruct (constructors_register_once 1 registered_example [0x100] 3
              registered_example_ready eq_refl eq_refl)
    as (s1 & s2 & Hc & _ & Htrace1 & Hd & Hlist & Htrace2); [| lia | lia |].
  { apply Forall_singleton. right. by eexists. }
  exists s1, s2. split; [exact Hc|]. split; [exact Hd|]. split; [exact Hlist|].
  rewrite Htrace2, Htrace1. reflexivity.
Defined.

(** ** The first and the last callback of an event *)

Lemma le_decode_encode n : ∀ v,
  0 ≤ v < 256 ^ Z.of_nat n → le_decode (le_encode n v) = v.
Proof.
  induction n as [|n IH]; intros v Hv; simpl.
  - simpl in Hv. lia.
  - rewrite IH.
    + pose proof (Z.div_mod v 256). lia.
    + rewrite Nat2Z.inj_succ, Z.pow_succ_r in Hv by lia.
      split; [apply Z.div_pos; lia|]. apply Z.div_lt_upper_bound; lia.
Qed.

Lemma decode_encode_callback cb :
  callback_in_range cb → decode_callback (encode_callback cb) = cb.
Proof.
  intros (Hc & Hp & Hk). destruct cb as [c p k]. simpl in *.
  unfold decode_callback, encode_callback. cbn [cb_call cb_priv cb_key].
  rewrite take_app_length' by (by rewrite le_encode_length).
  rewrite drop_app_length' by (by rewrite le_encode_length).
  rewrite take_app_length' by (by rewrite le_encode_length).
  replace 16%nat with (8 + 8)%nat by done. rewrite <- drop_drop.
  rewrite drop_app_length' by (by rewrite le_encode_length).
  rewrite drop_app_length' by (by rewrite le_encode_length).
  rewrite take_ge by (rewrite le_encode_length; lia).
  by rewrite !le_decode_encode.
Qed.

Lemma calloc_callbacks_run nmemb t s :
  alloc_fails s = false →
  calloc_callbacks nmemb t s
  = Done (Some (brk s))
      (set_heap (<[brk s := zeroed (Z.to_nat nmemb * SIZEOF_SIDE_CALLBACK)]> (heap s))
         (set_brk (brk s + 1) (set_oom_script (tail (oom_script s)) s))).
Proof.
  intros H. unfold calloc_callbacks. unfold bind at 1. rewrite alloc_attempt_run, H.
  rewrite bind_modify. unfold ret. by destruct s.
Qed.

Lemma first_register_locked desc e call priv key t s :
  event_store s !! desc = Some e →
  version e = 0 →
  nr_callbacks e = 0 →
  callbacks e = side_empty_callback →
  alloc_fails s = false →
  ∃ s1,
    register_locked desc call priv key t s = Done SIDE_ERROR_OK s1
    ∧ event_store s1
      = <[desc := mk_side_event (desc_flags e) 0 1 (u64 (enabled e + 1))
                    (heap_block (brk s))]> (event_store s)
    ∧ heap s1 = <[brk s := encode_callback (mk_side_callback call priv key)
                           ++ zeroed SIZEOF_SIDE_CALLBACK]> (heap s)
    ∧ brk s1 = brk s + 1
    ∧ oom_script s1 = tail (oom_script s).
Proof.
  intros He Hver Hnr Hcb Halloc. unfold register_locked.
  rewrite (bind_run _ _ _ _ _ _ (load_event_run desc e t s He)).
  rewrite bool_decide_eq_false_2 by (rewrite Hver; auto). cbv zeta.
  rewrite Hnr, Hcb. rewrite bool_decide_eq_false_2 by done.
  erewrite (bind_run (side_tracer_callback_lookup desc call priv key)).
  2: { eapply lookup_run; [exact He|done|by rewrite Hcb|reflexivity]. }
  unfold bind at 1. rewrite calloc_callbacks_run by done.
  replace (zeroed (Z.to_nat (u32 (0 + 2)) * SIZEOF_SIDE_CALLBACK))
    with (zeroed 48) by (by vm_compute).
  erewrite (bind_run (memcpy_callbacks _ _ _ _ _)).
  2: { eapply (memcpy_callbacks_run _ _ _ _ _ (zeroed 48) side_empty_callback_bytes
                 (zeroed 48));
         [lib_fields; apply lookup_insert_eq|reflexivity|reflexivity]. }
  erewrite (bind_run (write_callback _ _ _)).
  2: { eapply (write_callback_run _ _ _ (zeroed 48)
                 (encode_callback (mk_side_callback call priv key)
                  ++ zeroed SIZEOF_SIDE_CALLBACK));
         [lib_fields; apply lookup_insert_eq|].
       unfold store_callback. rewrite memcpy_Some.
       - change (0 * SIZEOF_SIDE_CALLBACK)%nat with 0%nat.
         rewrite take_0, drop_0, take_ge by (rewrite encode_callback_length; done).
         reflexivity.
       - rewrite zeroed_length. unfold SIZEOF_SIDE_CALLBACK. lia.
       - rewrite encode_callback_length. unfold SIZEOF_SIDE_CALLBACK. lia. }
  erewrite (bind_run (update_event _ _));
    [|eapply update_event_run; lib_fields; exact He].
  unfold side_rcu_wait_grace_period. rewrite bind_ret.
  simpl when. rewrite bind_ret.
  erewrite (bind_run (update_event _ _));
    [|eapply update_event_run; lib_fields; apply lookup_insert_eq].
  erewrite (bind_run (update_event _ _));
    [|eapply update_event_run; lib_fields; apply lookup_insert_eq].
  eexists. split; [reflexivity|]. lib_fields.
  split; [|split; [|split]].
  - rewrite !insert_insert_eq. f_equal. destruct e; simpl in *. by subst.
  - by rewrite !insert_insert_eq.
  - by destruct s.
  - by destruct s.
Qed.

Ltac locked_keeps :=
  unfold register_locked, unregister_locked, side_tracer_callback_lookup, calloc_callbacks,
    memcpy_callbacks, write_callback, update_event, load_event, load_block,
    free_callbacks, side_rcu_wait_grace_period;
  keeps_tac.

Lemma alloc_fails_locked m s :
  alloc_fails (set_side_event_lock m (initialize s)) = alloc_fails s.
Proof. unfold alloc_fails, initialize. destruct (initialized s); by destruct s. Qed.

(** What is left of the locked state once the mutex is released. *)
Lemma unlocked_fields s s1 :
  let s' := set_side_event_lock (side_event_lock s) s1 in
  event_store s' = event_store s1 ∧ heap s' = heap s1 ∧ brk s' = brk s1
  ∧ oom_script s' = oom_script s1 ∧ trace s' = trace s1
  ∧ finalized s' = finalized s1 ∧ initialized s' = initialized s1
  ∧ side_event_lock s' = side_event_lock s.
Proof. by destruct s1. Qed.

Lemma locked_fields m s :
  let s0 := set_side_event_lock m (initialize s) in
  event_store s0 = event_store s ∧ heap s0 = heap s ∧ brk s0 = brk s
  ∧ oom_script s0 = oom_script s ∧ trace s0 = trace s
  ∧ finalized s0 = finalized s ∧ initialized s0 = true.
Proof. unfold initialize. destruct (initialized s) eqn:Hi; by destruct s. Qed.

(** The locked parts of registration and unregistration touch the events,
    the heap and the allocator only. *)
Lemma register_locked_frame desc call priv key t s r s1 :
  register_locked desc call priv key t s = Done r s1 →
  trace s1 = trace s ∧ finalized s1 = finalized s ∧ initialized s1 = initialized s.
Proof.
  intros H. repeat split.
  all: match goal with |- ?f _ = _ =>
         cut (keeps f (register_locked desc call priv key));
         [intros K; exact (K t s r s1 H)|locked_keeps] end.
Qed.

Lemma unregister_locked_frame desc call priv key t s r s1 :
  unregister_locked desc call priv key t s = Done r s1 →
  trace s1 = trace s ∧ finalized s1 = finalized s ∧ initialized s1 = initialized s.
Proof.
  intros H. repeat split.
  all: match goal with |- ?f _ = _ =>
         cut (keeps f (unregister_locked desc call priv key));
         [intros K; exact (K t s r s1 H)|locked_keeps] end.
Qed.

Lemma first_register_run desc e call priv key t s :
  finalized s = false →
  available true t (side_event_lock s) →
  alloc_fails s = false →
  event_store s !! desc = Some e →
  version e = 0 →
  nr_callbacks e = 0 →
  callbacks e = side_empty_callback →
  call ≠ NULL →
  ∃ s',
    _side_tracer_callback_register desc call priv key t s = Done SIDE_ERROR_OK s'
    ∧ event_store s'
      = <[desc := mk_side_event (desc_flags e) 0 1 (u64 (enabled e + 1))
                    (heap_block (brk s))]> (event_store s)
    ∧ heap s' = <[brk s := encode_callback (mk_side_callback call priv key)
                           ++ zeroed SIZEOF_SIDE_CALLBACK]> (heap s)
    ∧ brk s' = brk s + 1
    ∧ oom_script s' = tail (oom_script s)
    ∧ trace s' = trace s
    ∧ finalized s' = false
    ∧ initialized s' = true
    ∧ side_event_lock s' = side_event_lock s.
Proof.
  intros Hfin [m' Hacq] Halloc He Hver Hnr Hcb Hnull.
  unfold _side_tracer_callback_register.
  rewrite bool_decide_eq_false_2 by done. rewrite bind_gets, Hfin.
  pose proof (locked_fields m' s) as (Hes0 & Hh0 & Hb0 & Ho0 & Ht0 & Hf0 & Hi0).
  destruct (first_register_locked desc e call priv key t
              (set_side_event_lock m' (initialize s)))
    as (s1 & Hrun & Hes1 & Hh1 & Hb1 & Ho1); [by rewrite Hes0|done..| |].
  { by rewrite alloc_fails_locked. }
  rewrite (with_event_lock_run _ t s m' _ s1 Hacq
             (keeps_event_lock_register_locked desc call priv key) Hrun).
  pose proof (register_locked_frame _ _ _ _ _ _ _ _ Hrun) as (Ht1 & Hf1 & Hi1).
  pose proof (unlocked_fields s s1) as (Hes2 & Hh2 & Hb2 & Ho2 & Ht2 & Hf2 & Hi2 & Hl2).
  eexists. split; [reflexivity|].
  rewrite Hes2, Hh2, Hb2, Ho2, Ht2, Hf2, Hi2, Hl2.
  rewrite Hes1, Hh1, Hb1, Ho1, Ht1, Hf1, Hi1, Hes0, Hh0, Hb0, Ho0, Ht0, Hf0, Hi0.
  done.
Qed.

Lemma last_unregister_locked desc e a bytes idx call priv key t s :
  event_store s !! desc = Some e →
  version e = 0 →
  nr_callbacks e = 1 →
  callbacks e = heap_block a →
  heap s !! a = Some bytes →
  lookup_loop (block_entries bytes) 0 call priv key = Some (Some idx) →
  ∃ s1,
    unregister_locked desc call priv key t s = Done SIDE_ERROR_OK s1
    ∧ event_store s1
      = <[desc := mk_side_event (desc_flags e) 0 0 (u64 (enabled e - 1))
                    side_empty_callback]> (event_store s)
    ∧ heap s1 = delete a (heap s)
    ∧ brk s1 = brk s
    ∧ oom_script s1 = oom_script s.
Proof.
  intros He Hver Hnr Hcb Hbytes Hl. unfold unregister_locked.
  rewrite (bind_run _ _ _ _ _ _ (load_event_run desc e t s He)).
  rewrite bool_decide_eq_false_2 by (rewrite Hver; auto).
  erewrite (bind_run (side_tracer_callback_lookup desc call priv key)).
  2: { eapply lookup_run; [exact He|done| |exact Hl]. by rewrite Hcb. }
  cbv zeta. rewrite Hnr, Hcb. rewrite bool_decide_eq_true_2 by done.
  rewrite bind_ret.
  erewrite (bind_run (update_event _ _)); [|eapply update_event_run; exact He].
  unfold side_rcu_wait_grace_period. rewrite bind_ret.
  erewrite (bind_run (free_callbacks _));
    [|eapply free_callbacks_run; lib_fields; exact Hbytes].
  erewrite (bind_run (update_event _ _));
    [|eapply update_event_run; lib_fields; apply lookup_insert_eq].
  simpl when.
  erewrite (bind_run (update_event _ _));
    [|eapply update_event_run; lib_fields; apply lookup_insert_eq].
  eexists. split; [reflexivity|]. lib_fields.
  split; [|split; [|split]].
  - rewrite !insert_insert_eq. f_equal. destruct e; simpl in *. by subst.
  - reflexivity.
  - by destruct s.
  - by destruct s.
Qed.

Lemma last_unregister_run desc e a bytes idx call priv key t s :
  finalized s = false →
  available true t (side_event_lock s) →
  event_store s !! desc = Some e →
  version e = 0 →
  nr_callbacks e = 1 →
  callbacks e = heap_block a →
  heap s !! a = Some bytes →
  lookup_loop (block_entries bytes) 0 call priv key = Some (Some idx) →
  call ≠ NULL →
  ∃ s',
    _side_tracer_callback_unregister desc call priv key t s = Done SIDE_ERROR_OK s'
    ∧ event_store s'
      = <[desc := mk_side_event (desc_flags e) 0 0 (u64 (enabled e - 1))
                    side_empty_callback]> (event_store s)
    ∧ heap s' = delete a (heap s)
    ∧ brk s' = brk s
    ∧ oom_script s' = oom_script s
    ∧ trace s' = trace s
    ∧ finalized s' = false
    ∧ initialized s' = true
    ∧ side_event_lock s' = side_event_lock s.
Proof.
  intros Hfin [m' Hacq] He Hver Hnr Hcb Hbytes Hl Hnull.
  unfold _side_tracer_callback_unregister.
  rewrite bool_decide_eq_false_2 by done. rewrite bind_gets, Hfin.
  pose proof (locked_fields m' s) as (Hes0 & Hh0 & Hb0 & Ho0 & Ht0 & Hf0 & Hi0).
  destruct (last_unregister_locked desc e a bytes idx call priv key t
              (set_side_event_lock m' (initialize s)))
    as (s1 & Hrun & Hes1 & Hh1 & Hb1 & Ho1); [by rewrite Hes0|done..| |done|].
  { by rewrite Hh0. }
  rewrite (with_event_lock_run _ t s m' _ s1 Hacq
             (keeps_event_lock_unregister_locked desc call priv key) Hrun).
  pose proof (unregister_locked_frame _ _ _ _ _ _ _ _ Hrun) as (Ht1 & Hf1 & Hi1).
  pose proof (unlocked_fields s s1) as (Hes2 & Hh2 & Hb2 & Ho2 & Ht2 & Hf2 & Hi2 & Hl2).
  eexists. split; [reflexivity|].
  rewrite Hes2, Hh2, Hb2, Ho2, Ht2, Hf2, Hi2, Hl2.
  rewrite Hes1, Hh1, Hb1, Ho1, Ht1, Hf1, Hi1, Hes0, Hh0, Hb0, Ho0, Ht0, Hf0, Hi0.
  done.
Qed.

(** The array the first registration builds holds the callback alone. *)
Lemma single_entry_array cb :
  callback_in_range cb →
  cb_call cb ≠ NULL →
  let bytes := encode_callback cb ++ zeroed SIZEOF_SIDE_CALLBACK in
  block_entries bytes = [cb; mk_side_callback 0 0 0]
  ∧ terminated (block_entries bytes) = true
  ∧ live_entries (block_entries bytes) = [cb]
  ∧ lookup_loop (block_entries bytes) 0 (cb_call cb) (cb_priv cb) (cb_key cb)
    = Some (Some 0%nat).
Proof.
  intros Hrange Hnull bytes.
  assert (block_entries bytes = [cb; mk_side_callback 0 0 0]) as ->.
  { unfold block_entries, bytes. rewrite length_app, encode_callback_length, zeroed_length.
    change ((SIZEOF_SIDE_CALLBACK + SIZEOF_SIDE_CALLBACK) `div` SIZEOF_SIDE_CALLBACK)%nat
      with 2%nat.
    cbn [block_chunks].
    rewrite take_app_length' by (by rewrite encode_callback_length).
    rewrite drop_app_length' by (by rewrite encode_callback_length).
    rewrite decode_encode_callback by done. reflexivity. }
  split; [done|]. simpl.
  rewrite !(bool_decide_eq_false_2 (cb_call cb = NULL)) by done.
  rewrite !bool_decide_eq_true_2 by done. done.
Qed.

(** An emit on a live library, on an event of ABI version 0 whose array is
    terminated. *)
Lemma side_call_run t s event_state e vec sav key :
  finalized s = false →
  event_store s !! event_state = Some e →
  version e = 0 →
  block_of s (callbacks e) = Some vec →
  terminated (block_entries vec) = true →
  is_variadic e = false →
  _side_call event_state sav key t s
  = Done tt
      (set_trace
         (trace s ++ ptrace_hook_calls event_state sav NULL (enabled e) key
          ++ map (λ cb, Call_tracer (cb_call cb) event_state sav (cb_priv cb))
               (filter (key_matches key) (live_entries (block_entries vec))))
         (initialize s)).
Proof.
  intros Hfin Hev Hver Hblock Hterm Hvar.
  assert (Hev' : event_store (initialize s) !! event_state = Some e)
    by (by rewrite initialize_event_store).
  unfold _side_call. rewrite bind_gets, Hfin, lazy_init_run.
  rewrite (bind_run _ _ _ _ _ _ (load_event_run _ _ t _ Hev')).
  rewrite bool_decide_eq_false_2 by (rewrite Hver; auto). rewrite Hvar.
  cbv beta iota. rewrite shared_hooks_run. unfold side_rcu_read_begin, side_rcu_read_end.
  rewrite bind_ret.
  erewrite (bind_run (load_block (callbacks e)))
    by (apply load_block_run; rewrite <- Hblock; destruct (callbacks e); simpl;
        [reflexivity | by rewrite initialize_heap]).
  unfold bind. rewrite side_call_loop_trace by done. unfold ret. simpl.
  rewrite set_trace_twice, initialize_trace, <- app_assoc. reflexivity.
Qed.

Lemma side_call_variadic_run t s event_state e vec sav var_struct key :
  finalized s = false →
  event_store s !! event_state = Some e →
  version e = 0 →
  block_of s (callbacks e) = Some vec →
  terminated (block_entries vec) = true →
  is_variadic e = true →
  _side_call_variadic event_state sav var_struct key t s
  = Done tt
      (set_trace
         (trace s ++ ptrace_hook_calls event_state sav var_struct (enabled e) key
          ++ map (λ cb, Call_tracer_variadic (cb_call cb) event_state sav var_struct
                          (cb_priv cb))
               (filter (key_matches key) (live_entries (block_entries vec))))
         (initialize s)).
Proof.
  intros Hfin Hev Hver Hblock Hterm Hvar.
  assert (Hev' : event_store (initialize s) !! event_state = Some e)
    by (by rewrite initialize_event_store).
  unfold _side_call_variadic. rewrite bind_gets, Hfin, lazy_init_run.
  rewrite (bind_run _ _ _ _ _ _ (load_event_run _ _ t _ Hev')).
  rewrite bool_decide_eq_false_2 by (rewrite Hver; auto). rewrite Hvar.
  cbn [negb]. cbv beta iota. rewrite shared_hooks_run.
  unfold side_rcu_read_begin, side_rcu_read_end.
  rewrite bind_ret.
  erewrite (bind_run (load_block (callbacks e)))
    by (apply load_block_run; rewrite <- Hblock; destruct (callbacks e); simpl;
        [reflexivity | by rewrite initialize_heap]).
  unfold bind. rewrite side_call_loop_trace by done. unfold ret. simpl.
  rewrite set_trace_twice, initialize_trace, <- app_assoc. reflexivity.
Qed.

Lemma initialize_initialized s : initialized s = true → initialize s = s.
Proof. intros H. unfold initialize. by rewrite H. Qed.

(** X10.  The first registration on an event: on a library that is not
    finalized, by a thread that can take the event mutex, with a calloc that
    succeeds, registering a non-null callback on an event of ABI version 0
    that has no callback returns SIDE_ERROR_OK; the event then has one
    callback, its array holds that callback alone before the sentinel, and
    the private part of [enabled] was incremented.  An emit on the event
    then calls the callback once, with the event, the payload and [priv],
    exactly when the emit's key is 0, the callback's key is 0 or the two
    keys are equal; this holds for both variants. *)
Theorem first_registration_is_dispatched t s desc e call priv key :
  finalized s = false →
  available true t (side_event_lock s) →
  alloc_fails s = false →
  event_store s !! desc = Some e →
  version e = 0 →
  nr_callbacks e = 0 →
  callbacks e = side_empty_callback →
  call ≠ NULL →
  callback_in_range (mk_side_callback call priv key) →
  ∃ s',
    register_variant (is_variadic e) desc call priv key t s = Done SIDE_ERROR_OK s'
    ∧ event_store s' !! desc
      = Some (mk_side_event (desc_flags e) 0 1 (u64 (enabled e + 1)) (heap_block (brk s)))
    ∧ callbacks_of s' desc = Some [mk_side_callback call priv key]
    ∧ ∀ t' sav var_struct k,
        let hit (c : call_event) :=
          if bool_decide (key_matches k (mk_side_callback call priv key)) then [c] else [] in
        (is_variadic e = false →
         _side_call desc sav k t' s'
         = Done tt
             (set_trace
                (trace s' ++ ptrace_hook_calls desc sav NULL (u64 (enabled e + 1)) k
                 ++ hit (Call_tracer call desc sav priv)) s'))
        ∧ (is_variadic e = true →
           _side_call_variadic desc sav var_struct k t' s'
           = Done tt
               (set_trace
                  (trace s' ++ ptrace_hook_calls desc sav var_struct (u64 (enabled e + 1)) k
                   ++ hit (Call_tracer_variadic call desc sav var_struct priv)) s')).
Proof.
  intros Hfin Hav Halloc He Hver Hnr Hcb Hnull Hrange.
  destruct (first_register_run desc e call priv key t s Hfin Hav Halloc He Hver Hnr Hcb Hnull)
    as (s' & Hrun & Hes & Hheap & _ & _ & _ & Hfin' & Hini' & _).
  destruct (single_entry_array (mk_side_callback call priv key) Hrange Hnull)
    as (Hentries & Hterm & Hlive & _).
  set (e' := mk_side_event (desc_flags e) 0 1 (u64 (enabled e + 1)) (heap_block (brk s))).
  assert (event_store s' !! desc = Some e') as He' by (rewrite Hes; apply lookup_insert_eq).
  assert (block_of s' (callbacks e')
          = Some (encode_callback (mk_side_callback call priv key)
                  ++ zeroed SIZEOF_SIDE_CALLBACK)) as Hblock.
  { simpl. rewrite Hheap. apply lookup_insert_eq. }
  exists s'. split; [by rewrite register_variant_right|]. split; [done|]. split.
  { unfold callbacks_of. rewrite He'. cbn [mbind option_bind]. rewrite Hblock.
    cbn [mbind option_bind]. by rewrite Hterm, Hlive. }
  intros t' sav var_struct k hit. split; intros Hvar.
  - rewrite (side_call_run t' s' desc e' _ sav k Hfin' He' eq_refl Hblock Hterm Hvar).
    rewrite Hlive, (initialize_initialized s' Hini'). do 3 f_equal.
    rewrite filter_cons, filter_nil. subst hit. simpl.
    destruct (decide (key_matches k (mk_side_callback call priv key))).
    + by rewrite bool_decide_eq_true_2.
    + by rewrite bool_decide_eq_false_2.
  - rewrite (side_call_variadic_run t' s' desc e' _ sav var_struct k Hfin' He' eq_refl
               Hblock Hterm Hvar).
    rewrite Hlive, (initialize_initialized s' Hini'). do 3 f_equal.
    rewrite filter_cons, filter_nil. subst hit. simpl.
    destruct (decide (key_matches k (mk_side_callback call priv key))).
    + by rewrite bool_decide_eq_true_2.
    + by rewrite bool_decide_eq_false_2.
Qed.

Lemma u64_round_trip x : 0 ≤ x < 2 ^ 64 → u64 (u64 (x + 1) - 1) = x.
Proof.
  intros H. unfold u64. destruct (decide (x = 2 ^ 64 - 1)) as [->|Hne].
  - reflexivity.
  - rewrite (Z.mod_small (x + 1)) by lia. rewrite Z.mod_small by lia. lia.
Qed.

(** X11.  Registering a callback on an event that has none and then
    unregistering the same (call, priv, key) returns SIDE_ERROR_OK twice and
    restores the event (count 0, [enabled] as before, the shared empty
    callback) and the heap: the array is freed and nothing is leaked.  No
    tracer callback is called on the way. *)
Theorem registration_round_trip t s desc e call priv key :
  finalized s = false →
  available true t (side_event_lock s) →
  alloc_fails s = false →
  heap s !! brk s = None →
  event_store s !! desc = Some e →
  version e = 0 →
  nr_callbacks e = 0 →
  callbacks e = side_empty_callback →
  0 ≤ enabled e < 2 ^ 64 →
  call ≠ NULL →
  callback_in_range (mk_side_callback call priv key) →
  ∃ s1 s2,
    register_variant (is_variadic e) desc call priv key t s = Done SIDE_ERROR_OK s1
    ∧ unregister_variant (is_variadic e) desc call priv key t s1 = Done SIDE_ERROR_OK s2
    ∧ event_store s2 = event_store s
    ∧ heap s2 = heap s
    ∧ side_event_lock s2 = side_event_lock s
    ∧ trace s2 = trace s.
Proof.
  intros Hfin Hav Halloc Hfresh He Hver Hnr Hcb Hen Hnull Hrange.
  destruct (first_register_run desc e call priv key t s Hfin Hav Halloc He Hver Hnr Hcb Hnull)
    as (s1 & Hrun1 & Hes1 & Hheap1 & _ & _ & Htrace1 & Hfin1 & _ & Hlock1).
  destruct (single_entry_array (mk_side_callback call priv key) Hrange Hnull)
    as (_ & _ & _ & Hl).
  set (e1 := mk_side_event (desc_flags e) 0 1 (u64 (enabled e + 1)) (heap_block (brk s))).
  assert (event_store s1 !! desc = Some e1) as He1 by (rewrite Hes1; apply lookup_insert_eq).
  destruct (last_unregister_run desc e1 (brk s)
              (encode_callback (mk_side_callback call priv key) ++ zeroed SIZEOF_SIDE_CALLBACK)
              0%nat call priv key t s1 Hfin1)
    as (s2 & Hrun2 & Hes2 & Hheap2 & _ & _ & Htrace2 & _ & _ & Hlock2);
    [by rewrite Hlock1|done|done|done|done| |exact Hl|done|].
  { rewrite Hheap1. apply lookup_insert_eq. }
  exists s1, s2. split; [by rewrite register_variant_right|].
  split.
  { replace (is_variadic e) with (is_variadic e1) by done.
    by rewrite (unregister_variant_right desc e1). }
  split; [|split; [|split; congruence]].
  - rewrite Hes2, Hes1, insert_insert_eq. cbn [enabled desc_flags e1].
    rewrite u64_round_trip by done. apply insert_id. rewrite He. f_equal.
    destruct e; simpl in *. by subst.
  - rewrite Hheap2, Hheap1. by apply delete_insert_id.
Qed.

(** X12.  Unregistering the only callback of an event (nr_callbacks is 1
    and the vector holds the triple) does not call calloc: it returns
    SIDE_ERROR_OK whatever the allocator would answer, points the event at
    the shared empty callback with count 0, and decrements [enabled]. *)
Theorem last_unregistration_needs_no_memory t s desc e vecl call priv key :
  finalized s = false →
  available true t (side_event_lock s) →
  event_store s !! desc = Some e →
  version e = 0 →
  nr_callbacks e = 1 →
  callbacks_of s desc = Some vecl →
  mk_side_callback call priv key ∈ vecl →
  call ≠ NULL →
  ∃ s',
    unregister_variant (is_variadic e) desc call priv key t s = Done SIDE_ERROR_OK s'
    ∧ event_store s' !! desc
      = Some (mk_side_event (desc_flags e) 0 0 (u64 (enabled e - 1)) side_empty_callback)
    ∧ callbacks_of s' desc = Some []
    ∧ oom_script s' = oom_script s
    ∧ brk s' = brk s.
Proof.
  intros Hfin Hav He Hver Hnr Hcbs Hin Hnull.
  destruct (callbacks_of_Some _ _ _ _ He Hcbs) as (vec & Hvec & Hterm & ->).
  destruct (lookup_loop_decides _ call priv key 0%nat Hterm) as (found & Hl & Hiff).
  apply Hiff in Hin as [idx ->].
  destruct (callbacks e) as [|a] eqn:Hcb.
  { simpl in Hvec. injection Hvec as <-. discriminate Hl. }
  simpl in Hvec.
  destruct (last_unregister_run desc e a vec idx call priv key t s Hfin Hav He Hver Hnr Hcb
              Hvec Hl Hnull)
    as (s' & Hrun & Hes & _ & Hbrk & Hoom & _).
  exists s'. split; [by rewrite unregister_variant_right|].
  assert (event_store s' !! desc
          = Some (mk_side_event (desc_flags e) 0 0 (u64 (enabled e - 1)) side_empty_callback))
    as He' by (rewrite Hes; apply lookup_insert_eq).
  split; [done|]. split; [|done].
  unfold callbacks_of. rewrite He'. reflexivity.
Qed.

Lemma calloc_callbacks_fails nmemb t s :
  alloc_fails s = true →
  calloc_callbacks nmemb t s = Done None (set_oom_script (tail (oom_script s)) s).
Proof.
  intros H. unfold calloc_callbacks. unfold bind at 1. rewrite alloc_attempt_run, H.
  unfold ret. by destruct s.
Qed.

Lemma out_of_memory_unlocked m' s :
  set_side_event_lock (side_event_lock s)
    (set_oom_script (tail (oom_script (set_side_event_lock m' (initialize s))))
       (set_side_event_lock m' (initialize s)))
  = set_oom_script (tail (oom_script s)) (initialize s).
Proof. unfold initialize. destruct (initialized s); by destruct s. Qed.

(** X13.  The limits of registration, on a library that is not finalized,
    for an event of ABI version 0 with a terminated array and a non-null
    function of the event's variant: with nr_callbacks at UINT32_MAX
    registration returns SIDE_ERROR_INVAL before looking the triple up; when
    calloc fails, registering a triple the vector does not hold and
    unregistering one it holds, unless it is the only callback, return
    SIDE_ERROR_NOMEM.  In all three cases the events, the heap and the mutex
    are as before. *)
Theorem registration_resource_limits t s desc e vecl call priv key :
  finalized s = false →
  available true t (side_event_lock s) →
  event_store s !! desc = Some e →
  version e = 0 →
  callbacks_of s desc = Some vecl →
  call ≠ NULL →
  let cb := mk_side_callback call priv key in
  let out_of_memory := set_oom_script (tail (oom_script s)) (initialize s) in
  (nr_callbacks e = UINT32_MAX →
   register_variant (is_variadic e) desc call priv key t s
   = Done SIDE_ERROR_INVAL (initialize s))
  ∧ (alloc_fails s = true → nr_callbacks e ≠ UINT32_MAX → cb ∉ vecl →
     register_variant (is_variadic e) desc call priv key t s
     = Done SIDE_ERROR_NOMEM out_of_memory)
  ∧ (alloc_fails s = true → nr_callbacks e ≠ 1 → cb ∈ vecl →
     unregister_variant (is_variadic e) desc call priv key t s
     = Done SIDE_ERROR_NOMEM out_of_memory).
Proof.
  intros Hfin [m' Hacq] He Hver Hcbs Hnull cb out_of_memory.
  destruct (callbacks_of_Some _ _ _ _ He Hcbs) as (vec & Hvec & Hterm & ->).
  destruct (lookup_loop_decides _ call priv key 0%nat Hterm) as (found & Hl & Hiff).
  pose proof (locked_fields m' s) as (Hes0 & Hh0 & Hb0 & Ho0 & Ht0 & Hf0 & Hi0).
  rewrite register_variant_right, unregister_variant_right by done.
  unfold _side_tracer_callback_register, _side_tracer_callback_unregister.
  rewrite !bool_decide_eq_false_2 by done. rewrite !bind_gets, Hfin.
  split; [|split].
  - intros Hmax. apply (locked_neutral _ _ _ _ m' Hacq). unfold register_locked.
    rewrite (bind_run _ _ _ _ _ _
               (load_event_run desc e t _ ltac:(by rewrite event_store_locked))).
    rewrite bool_decide_eq_false_2 by (rewrite Hver; auto).
    cbv zeta. by rewrite bool_decide_eq_true_2.
  - intros Halloc Hmax Hnot.
    destruct found as [idx|]; [destruct Hnot; apply Hiff; by eexists|].
    erewrite (with_event_lock_run _ t s m' _ _ Hacq
                (keeps_event_lock_register_locked desc call priv key)).
    + by rewrite out_of_memory_unlocked.
    + unfold register_locked.
      rewrite (bind_run _ _ _ _ _ _
                 (load_event_run desc e t _ ltac:(by rewrite event_store_locked))).
      rewrite bool_decide_eq_false_2 by (rewrite Hver; auto).
      cbv zeta. rewrite bool_decide_eq_false_2 by done.
      erewrite (bind_run (side_tracer_callback_lookup desc call priv key)).
      2: { eapply lookup_run; [by rewrite event_store_locked|done| |exact Hl].
           by rewrite block_of_locked. }
      unfold bind at 1. rewrite calloc_callbacks_fails by (by rewrite alloc_fails_locked).
      reflexivity.
  - intros Halloc Hone Hin. apply Hiff in Hin as [idx ->].
    erewrite (with_event_lock_run _ t s m' _ _ Hacq
                (keeps_event_lock_unregister_locked desc call priv key)).
    + by rewrite out_of_memory_unlocked.
    + unfold unregister_locked.
      rewrite (bind_run _ _ _ _ _ _
                 (load_event_run desc e t _ ltac:(by rewrite event_store_locked))).
      rewrite bool_decide_eq_false_2 by (rewrite Hver; auto).
      erewrite (bind_run (side_tracer_callback_lookup desc call priv key)).
      2: { eapply lookup_run; [by rewrite event_store_locked|done| |exact Hl].
           by rewrite block_of_locked. }
      cbv zeta. rewrite bool_decide_eq_false_2 by done.
      rewrite bind_assoc. unfold bind at 1.
      rewrite calloc_callbacks_fails by (by rewrite alloc_fails_locked).
      reflexivity.
Qed.

Lemma first_registration_is_dispatched_witness :
  ∃ s',
    register_cb 0x100 callback_A 1 one_event = Done SIDE_ERROR_OK s'
    ∧ callbacks_of s' 0x100 = Some [callback_A]
    ∧ _side_call 0x100 (Arg_opaque 0) 9 2 s'
      = Done tt (set_trace [Call_tracer 0x401136 0x100 (Arg_opaque 0) 0xA] s')
    ∧ _side_call 0x100 (Arg_opaque 0) 8 2 s' = Done tt (set_trace [] s').
Proof.
  destruct (first_registration_is_dispatched 1 one_event 0x100 (initial_event 0)
              0x401136 0xA 9)
    as (s' & Hrun & _ & Hcbs & Hemit); try reflexivity.
  - by eexists.
  - discriminate.
  - unfold callback_in_range. simpl. lia.
  - exists s'. split; [exact Hrun|]. split; [exact Hcbs|].
    assert (trace s' = []) as Htrace.
    { revert Hrun. apply (keeps_bind trace); [unfold load_event; keeps_tac|].
      intros e. destruct (is_variadic e); [keeps_tac|].
      unfold _side_tracer_callback_register, side_init, side_rcu_gp_init. keeps_tac.
      locked_keeps. }
    split.
    + destruct (Hemit 2 (Arg_opaque 0) 0 9) as [H _]. rewrite (H eq_refl), Htrace.
      reflexivity.
    + destruct (Hemit 2 (Arg_opaque 0) 0 8) as [H _]. rewrite (H eq_refl), Htrace.
      reflexivity.
Defined.

Lemma registration_round_trip_witness :
  ∃ s1 s2,
    register_cb 0x100 callback_A 1 one_event = Done SIDE_ERROR_OK s1
    ∧ unregister_cb 0x100 callback_A 1 s1 = Done SIDE_ERROR_OK s2
    ∧ event_store s2 = event_store one_event
    ∧ heap s2 = heap one_event.
Proof.
  destruct (registration_round_trip 1 one_event 0x100 (initial_event 0) 0x401136 0xA 9)
    as (s1 & s2 & Hrun1 & Hrun2 & Hes & Hheap & _); try reflexivity.
  - by eexists.
  - simpl. lia.
  - discriminate.
  - unfold callback_in_range. simpl. lia.
  - exists s1, s2. split; [exact Hrun1|]. split; [exact Hrun2|]. split; [exact Hes|exact Hheap].
Defined.

Lemma last_unregistration_needs_no_memory_witness :
  alloc_fails one_callback = true
  ∧ ∃ s',
      unregister_cb 0x100 callback_A 1 one_callback = Done SIDE_ERROR_OK s'
      ∧ event_store s' !! 0x100 = Some (mk_side_event 0 0 0 0 side_empty_callback)
      ∧ callbacks_of s' 0x100 = Some [].
Proof.
  split; [reflexivity|].
  destruct (last_unregistration_needs_no_memory 1 one_callback 0x100
              (mk_side_event 0 0 1 1 (heap_block 1)) [callback_A] 0x401136 0xA 9)
    as (s' & Hrun & He & Hcbs & _); try reflexivity.
  - by eexists.
  - apply list_elem_of_here.
  - discriminate.
  - exists s'. split; [exact Hrun|]. split; [exact He|exact Hcbs].
Defined.

Lemma registration_resource_limits_witness :
  register_cb 0x100 callback_C 1 (set_oom_script [true] two_callbacks)
  = Done SIDE_ERROR_NOMEM two_callbacks
  ∧ unregister_cb 0x100 callback_A 1 (set_oom_script [true] two_callbacks)
    = Done SIDE_ERROR_NOMEM two_callbacks.
Proof.
  destruct (registration_resource_limits 1 (set_oom_script [true] two_callbacks) 0x100
              (mk_side_event 0 0 2 1 (heap_block 1)) [callback_A; callback_B])
    with (call := 0x401358) (priv := 0xC) (key := 0) as (_ & Hreg & _);
    try reflexivity; [by eexists|discriminate|].
  destruct (registration_resource_limits 1 (set_oom_script [true] two_callbacks) 0x100
              (mk_side_event 0 0 2 1 (heap_block 1)) [callback_A; callback_B])
    with (call := 0x401136) (priv := 0xA) (key := 9) as (_ & _ & Hunreg);
    try reflexivity; [by eexists|discriminate|].
  split.
  - apply Hreg; [reflexivity|discriminate|].
    intros H. apply elem_of_cons in H as [H|H]; [discriminate H|].
    apply elem_of_cons in H as [H|H]; [discriminate H|]. by apply not_elem_of_nil in H.
  - apply Hunreg; [reflexivity|discriminate|]. apply list_elem_of_here.
Defined.

(** ** The state-dump operations *)

Lemma emit_run t s event_state sav key :
  finalized s = false →
  initialized s = true →
  emit_ready s event_state →
  _side_call event_state sav key t s
  = Done tt (set_trace (trace s ++ emit_calls s event_state sav key) s).
Proof.
  intros Hfin Hini (e & vec & He & Hver & Hvar & Hvec & Hterm).
  rewrite (side_call_run t s event_state e vec sav key Hfin He Hver Hvec Hterm Hvar).
  rewrite (initialize_initialized s Hini). unfold emit_calls. by rewrite He, Hvec.
Qed.

(** Both depend on the events and on the heap only. *)
Lemma emit_calls_same s s' event_state sav key :
  event_store s' = event_store s → heap s' = heap s →
  emit_calls s' event_state sav key = emit_calls s event_state sav key.
Proof.
  intros Hes Hh. unfold emit_calls. rewrite Hes.
  destruct (event_store s !! event_state) as [e|]; [|done].
  destruct (callbacks e); simpl; [done|]. by rewrite Hh.
Qed.

Lemma emit_ready_same s s' event_state :
  event_store s' = event_store s → heap s' = heap s →
  emit_ready s event_state → emit_ready s' event_state.
Proof.
  intros Hes Hh (e & vec & He & Hver & Hvar & Hvec & Hterm).
  exists e, vec. rewrite Hes. split; [done|]. split; [done|]. split; [done|].
  split; [|done]. destruct (callbacks e); simpl in *; [done|]. by rewrite Hh.
Qed.

(** One notification of a handle's queue: the begin event, the callback,
    the end event. *)
Lemma statedump_run_run handle h key t s :
  finalized s = false →
  initialized s = true →
  emit_ready s side_statedump_begin →
  emit_ready s side_statedump_end →
  node_find handle (side_statedump_list s) = Some h →
  side_statedump_run handle key t s
  = Done tt (set_trace (trace s ++ statedump_calls s h key) s).
Proof.
  intros Hfin Hini Hb He Hfind. unfold side_statedump_run.
  rewrite (bind_run _ _ _ _ _ _ (load_statedump_handle_run handle h t s Hfind)).
  unfold side_statedump_event_call, side_statedump_call.
  unfold bind at 1. rewrite emit_run by done.
  unfold invoke. rewrite bind_modify.
  rewrite emit_run.
  - unfold statedump_calls, emit_calls. destruct s; simpl. by rewrite <- !app_assoc.
  - by destruct s.
  - by destruct s.
  - eapply emit_ready_same; [| |exact He]; by destruct s.
Qed.

Lemma statedump_calls_same s s' h key :
  event_store s' = event_store s → heap s' = heap s →
  statedump_calls s' h key = statedump_calls s h key.
Proof. intros Hes Hh. unfold statedump_calls. by rewrite !(emit_calls_same s s'). Qed.

(** The notifications of a queue, in order. *)
Lemma statedump_run_loop handle h t : ∀ queue s,
  finalized s = false →
  initialized s = true →
  emit_ready s side_statedump_begin →
  emit_ready s side_statedump_end →
  node_find handle (side_statedump_list s) = Some h →
  for_each queue (λ notif_key, side_statedump_run handle notif_key) t s
  = Done tt (set_trace (trace s ++ concat (map (statedump_calls s h) queue)) s).
Proof.
  induction queue as [|key queue IH]; intros s Hfin Hini Hb He Hfind; simpl.
  - rewrite app_nil_r. by destruct s.
  - unfold bind at 1. rewrite (statedump_run_run handle h) by done.
    rewrite IH.
    + erewrite (map_ext (statedump_calls (set_trace _ s) h) (statedump_calls s h))
        by (intros k; apply statedump_calls_same; by destruct s).
      destruct s; simpl. by rewrite <- !app_assoc.
    + by destruct s.
    + by destruct s.
    + eapply emit_ready_same; [| |exact Hb]; by destruct s.
    + eapply emit_ready_same; [| |exact He]; by destruct s.
    + by destruct s.
Qed.

Lemma node_find_update_ne {A} p q (f : A → A) l :
  p ≠ q → node_find p (node_update q f l) = node_find p l.
Proof.
  intros Hne. induction l as [|[r b] l IH]; [done|]. simpl.
  destruct (decide (r = q)) as [->|Hr].
  - rewrite bool_decide_eq_true_2 by done. simpl.
    by rewrite !(bool_decide_eq_false_2 (q = p)) by done.
  - rewrite (bool_decide_eq_false_2 (r = q)) by done. simpl.
    case_bool_decide; [done|]. apply IH.
Qed.

(** The pending requests of one handle: its queue is taken and emptied
    under the mutex, then every notification is run, oldest first. *)
Lemma run_pending_run handle h t s :
  statedump_ready s →
  node_find handle (side_statedump_list s) = Some h →
  _side_statedump_run_pending_requests handle t s
  = Done tt
      (set_trace (trace s ++ drain_calls s h)
         (set_side_statedump_list
            (node_update handle (set_notification_queue []) (side_statedump_list s)) s)).
Proof.
  intros (Hfin & Hini & Hlock & Hb & He) Hfind.
  unfold _side_statedump_run_pending_requests.
  rewrite mutex_lock_run by done.
  erewrite (bind_run (load_statedump_handle handle))
    by (apply load_statedump_handle_run; destruct s; exact Hfind).
  cbv zeta. unfold update_statedump_handle.
  rewrite bind_assoc.
  erewrite (bind_run (load_statedump_handle handle))
    by (apply load_statedump_handle_run; destruct s; exact Hfind).
  rewrite bind_modify.
  rewrite mutex_unlock_run by (by destruct s).
  unfold bind at 1.
  erewrite (statedump_run_loop handle (set_notification_queue [] h)).
  - assert (∀ x, (when (is_agent_mode (sd_mode h))
                    (pthread_mutex_lock Statedump_lock ;; pthread_mutex_unlock Statedump_lock))
                   t (set_side_statedump_lock Unlocked x)
                 = Done tt (set_side_statedump_lock Unlocked x)) as Hwhen.
    { intros x. destruct (is_agent_mode (sd_mode h)); [|done]. simpl.
      rewrite mutex_lock_run by (by destruct x).
      rewrite mutex_unlock_last by (by destruct x). by destruct x. }
    destruct s; simpl in *. subst.
    match goal with |- when _ _ _ ?x = _ =>
      change x with (set_side_statedump_lock Unlocked x) end.
    rewrite Hwhen. reflexivity.
  - by destruct s.
  - by destruct s.
  - eapply emit_ready_same; [| |exact Hb]; by destruct s.
  - eapply emit_ready_same; [| |exact He]; by destruct s.
  - destruct s; simpl in *. by apply node_find_update.
Qed.

Lemma node_find_app_fresh {A} p (a : A) l1 l2 :
  p ∉ map fst l1 → node_find p (l1 ++ (p, a) :: l2) = Some a.
Proof.
  induction l1 as [|[q b] l1 IH]; intros Hnot; simpl.
  - by rewrite bool_decide_eq_true_2.
  - apply not_elem_of_cons in Hnot as [Hq Hnot]. simpl in Hq.
    rewrite bool_decide_eq_false_2 by done. by apply IH.
Qed.

Lemma node_update_app_fresh {A} p (f : A → A) (a : A) l1 l2 :
  p ∉ map fst l1 → node_update p f (l1 ++ (p, a) :: l2) = l1 ++ (p, f a) :: l2.
Proof.
  induction l1 as [|[q b] l1 IH]; intros Hnot; simpl.
  - by rewrite bool_decide_eq_true_2.
  - apply not_elem_of_cons in Hnot as [Hq Hnot]. simpl in Hq.
    rewrite bool_decide_eq_false_2 by done. by rewrite IH.
Qed.

Lemma statedump_ready_same s s' :
  finalized s' = finalized s → initialized s' = initialized s →
  side_statedump_lock s' = side_statedump_lock s →
  event_store s' = event_store s → heap s' = heap s →
  statedump_ready s → statedump_ready s'.
Proof.
  intros Hf Hi Hl Hes Hh (Hfin & Hini & Hlock & Hb & He).
  split; [congruence|]. split; [congruence|]. split; [congruence|].
  split; by eapply emit_ready_same.
Qed.

Lemma drain_calls_same s s' h :
  event_store s' = event_store s → heap s' = heap s →
  drain_calls s' h = drain_calls s h.
Proof.
  intros Hes Hh. unfold drain_calls. f_equal. apply map_ext. intros k.
  by apply statedump_calls_same.
Qed.

(** The loop of the agent thread over the handles: every handle is served,
    in list order. *)
Lemma run_all_pending t : ∀ todo served s,
  side_statedump_list s = served ++ todo →
  NoDup (map fst (served ++ todo)) →
  statedump_ready s →
  for_each todo (λ handle, _side_statedump_run_pending_requests handle.1) t s
  = Done tt
      (set_trace (trace s ++ concat (map (λ node, drain_calls s node.2) todo))
         (set_side_statedump_list (served ++ map emptied todo) s)).
Proof.
  induction todo as [|[p h] todo IH]; intros served s Hlist Hnodup Hready; simpl.
  - rewrite !app_nil_r. rewrite app_nil_r in Hlist. rewrite <- Hlist. by destruct s.
  - assert (p ∉ map fst served) as Hfresh.
    { rewrite map_app in Hnodup. apply NoDup_app in Hnodup as (_ & Hdis & _).
      intros Hin. apply (Hdis p Hin). simpl. apply list_elem_of_here. }
    unfold bind at 1.
    rewrite (run_pending_run p h); [|done|by rewrite Hlist, node_find_app_fresh].
    rewrite Hlist, node_update_app_fresh by done.
    match goal with |- for_each _ _ _ ?x = _ => set (s1 := x) end.
    assert (event_store s1 = event_store s) as Hes1 by (by destruct s).
    assert (heap s1 = heap s) as Hh1 by (by destruct s).
    rewrite (IH (served ++ [(p, set_notification_queue [] h)])).
    + rewrite (map_ext (λ node, drain_calls s1 node.2) (λ node, drain_calls s node.2))
        by (intros node; by apply drain_calls_same).
      unfold s1. destruct s; simpl. rewrite <- !app_assoc. reflexivity.
    + unfold s1. destruct s; simpl. by rewrite <- app_assoc.
    + rewrite <- app_assoc. simpl. by rewrite !map_app in *.
    + eapply statedump_ready_same; [..|exact Hready]; by destruct s.
Qed.

(** A pass of the agent thread that finds HANDLE_REQUEST alone. *)
Lemma agent_pass_run t s :
  statedump_ready s →
  NoDup (map fst (side_statedump_list s)) →
  agent_thread_state s = AGENT_THREAD_STATE_HANDLE_REQUEST →
  statedump_agent_func t s
  = Done Agent_served
      (set_trace
         (trace s ++ concat (map (λ node, drain_calls s node.2) (side_statedump_list s)))
         (set_side_statedump_list (map emptied (side_statedump_list s))
            (set_statedump_agent_thread
               (set_agent_state AGENT_THREAD_STATE_BLOCKED (statedump_agent_thread s)) s))).
Proof.
  intros Hready Hnodup Hstate. pose proof Hready as (Hfin & Hini & Hlock & Hb & He).
  unfold statedump_agent_func.
  rewrite mutex_lock_run by done. rewrite bind_gets.
  rewrite mutex_unlock_run by (by destruct s).
  replace (agent_state (statedump_agent_thread (set_mutex Statedump_lock (Locked t 0) s)))
    with AGENT_THREAD_STATE_HANDLE_REQUEST by (rewrite <- Hstate; by destruct s).
  rewrite bool_decide_eq_false_2 by discriminate.
  rewrite bool_decide_eq_false_2 by (intros H; apply H; reflexivity).
  rewrite bool_decide_eq_false_2 by (intros H; apply H; reflexivity).
  unfold update_agent. rewrite bind_modify. unfold side_rcu_read_begin, side_rcu_read_end.
  rewrite bind_ret, bind_gets.
  match goal with |- (_ ;; _) t ?x = _ => set (s1 := x) end.
  assert (statedump_ready s1) as Hready1.
  { eapply statedump_ready_same; [..|exact Hready]; by destruct s. }
  unfold bind at 1.
  rewrite (run_all_pending t (side_statedump_list s1) [] s1 eq_refl) by done.
  rewrite bind_ret. unfold ret. f_equal. unfold s1.
  unfold agent_thread_state in Hstate.
  destruct s as [? ? ? ? ? ? ? ? ? [ref id st] ? ? ? ? ? ? ? ?]. simpl in *. by subst.
Qed.

(** X14.  A pass of the agent thread that finds HANDLE_REQUEST set, on an
    initialized library with the statedump mutex free, clears the request
    and runs the pending requests of every registered handle, in list
    order, whatever the mode of the handle: the queues of polling handles
    are run and emptied too.  For each queued key the statedump_begin event,
    the application's callback and the statedump_end event are emitted with
    that key; the pass ends with the agent thread BLOCKED. *)
Theorem agent_thread_serves_every_handle t s :
  statedump_ready s →
  NoDup (map fst (side_statedump_list s)) →
  agent_thread_state s = AGENT_THREAD_STATE_HANDLE_REQUEST →
  ∃ s',
    statedump_agent_func t s = Done Agent_served s'
    ∧ side_statedump_list s' = map emptied (side_statedump_list s)
    ∧ trace s' = trace s ++ concat (map (λ node, drain_calls s node.2) (side_statedump_list s))
    ∧ agent_thread_state s' = AGENT_THREAD_STATE_BLOCKED
    ∧ (∀ handle h key,
         (handle, h) ∈ side_statedump_list s → key ∈ notification_queue h →
         Call_statedump (sd_cb h) key ∈ trace s').
Proof.
  intros Hready Hnodup Hstate.
  eexists. split; [by apply agent_pass_run|].
  split; [done|]. split; [done|]. split; [done|].
  intros handle h key Hin Hkey. cbn [trace set_trace]. apply elem_of_app. right.
  apply list_elem_of_In, in_concat. exists (drain_calls s h). split.
  - apply in_map_iff. exists (handle, h). split; [done|]. by apply list_elem_of_In.
  - apply in_concat. exists (statedump_calls s h key). split.
    + apply in_map_iff. exists key. split; [done|]. by apply list_elem_of_In.
    + unfold statedump_calls. apply in_or_app. right. by left.
Qed.

Lemma agent_thread_serves_every_handle_witness :
  ∃ s',
    statedump_agent_func 2 mixed_example = Done Agent_served s'
    ∧ side_statedump_list s'
      = [(0x700, mk_statedump_handle [] 0xCB "app" SIDE_STATEDUMP_MODE_AGENT_THREAD);
         (0x701, mk_statedump_handle [] 0xCC "lib" SIDE_STATEDUMP_MODE_POLLING)]
    ∧ trace s' = [Call_statedump 0xCB 8; Call_statedump 0xCC 9]
    ∧ agent_thread_state s' = AGENT_THREAD_STATE_BLOCKED.
Proof.
  destruct (agent_thread_serves_every_handle 2 mixed_example)
    as (s' & Hrun & Hlist & Htrace & Hstate & _).
  - split; [reflexivity|]. split; [reflexivity|]. split; [reflexivity|].
    split; exists (initial_event 0), side_empty_callback_bytes; repeat split; reflexivity.
  - apply NoDup_cons. split; [|apply NoDup_singleton].
    simpl. rewrite list_elem_of_singleton. discriminate.
  - reflexivity.
  - exists s'. split; [exact Hrun|]. split; [exact Hlist|]. split; [|exact Hstate].
    rewrite Htrace. vm_compute. reflexivity.
Defined.

Lemma poll_run handle h t s :
  side_statedump_lock s = Unlocked →
  node_find handle (side_statedump_list s) = Some h →
  side_statedump_poll_pending_requests handle t s
  = Done (is_polling_mode (sd_mode h) && negb (bool_decide (notification_queue h = []))) s.
Proof.
  intros Hlock Hfind. unfold side_statedump_poll_pending_requests.
  rewrite (bind_run _ _ _ _ _ _ (load_statedump_handle_run handle h t s Hfind)).
  destruct (is_polling_mode (sd_mode h)); [|done]. simpl.
  rewrite mutex_lock_run by done.
  erewrite (bind_run (load_statedump_handle handle))
    by (by apply load_statedump_handle_run).
  cbv zeta. rewrite mutex_unlock_run by done. unfold ret.
  destruct s; simpl in *. by subst.
Qed.

(** X15.  On a polling handle, side_statedump_poll_pending_requests tells
    whether the queue is not empty and changes no state;
    side_statedump_run_pending_requests returns SIDE_ERROR_OK, runs the
    queued requests in queue order (begin event, application callback, end
    event, each with the key of the request) and leaves the queue empty, so
    that a poll right after it returns false. *)
Theorem polling_drain_runs_queue t s handle h :
  statedump_ready s →
  node_find handle (side_statedump_list s) = Some h →
  sd_mode h = SIDE_STATEDUMP_MODE_POLLING →
  let s' := set_trace (trace s ++ drain_calls s h)
              (set_side_statedump_list
                 (node_update handle (set_notification_queue []) (side_statedump_list s)) s) in
  side_statedump_poll_pending_requests handle t s
  = Done (negb (bool_decide (notification_queue h = []))) s
  ∧ side_statedump_run_pending_requests handle t s = Done SIDE_ERROR_OK s'
  ∧ side_statedump_poll_pending_requests handle t s' = Done false s'.
Proof.
  intros Hready Hfind Hmode s'. pose proof Hready as (_ & _ & Hlock & _).
  split; [|split].
  - rewrite (poll_run handle h) by done. by rewrite Hmode.
  - unfold side_statedump_run_pending_requests.
    rewrite (bind_run _ _ _ _ _ _ (load_statedump_handle_run handle h t s Hfind)).
    rewrite Hmode. simpl. unfold bind. by rewrite (run_pending_run handle h).
  - rewrite (poll_run handle (set_notification_queue [] h)); [|done|].
    + simpl. by rewrite andb_false_r.
    + unfold s'. simpl. by apply node_find_update.
Qed.

Lemma polling_drain_runs_queue_witness :
  side_statedump_poll_pending_requests 0x700 1 polling_pending = Done true polling_pending
  ∧ side_statedump_run_pending_requests 0x700 1 polling_pending
    = Done SIDE_ERROR_OK
        (set_trace [Call_statedump 0xCB 0; Call_statedump 0xCB 9] polling_example)
  ∧ side_statedump_poll_pending_requests 0x700 1
      (set_trace [Call_statedump 0xCB 0; Call_statedump 0xCB 9] polling_example)
    = Done false (set_trace [Call_statedump 0xCB 0; Call_statedump 0xCB 9] polling_example).
Proof.
  apply (polling_drain_runs_queue 1 polling_pending 0x700
           (app_handle SIDE_STATEDUMP_MODE_POLLING [SIDE_KEY_MATCH_ALL; 9]).2).
  - split; [reflexivity|]. split; [reflexivity|]. split; [reflexivity|].
    split; exists (initial_event 0), side_empty_callback_bytes; repeat split; reflexivity.
  - reflexivity.
  - reflexivity.
Defined.

Lemma allocs_succeed_head n s : allocs_succeed (S n) s → alloc_fails s = false.
Proof.
  unfold allocs_succeed, alloc_fails. destruct (oom_script s) as [|b rest]; [done|].
  simpl. intros H. apply Forall_cons in H as [-> _]. done.
Qed.

Lemma allocs_succeed_tail n s s' :
  oom_script s' = tail (oom_script s) → allocs_succeed (S n) s → allocs_succeed n s'.
Proof.
  unfold allocs_succeed. intros ->. destruct (oom_script s) as [|b rest]; simpl.
  - intros _. rewrite take_nil. apply Forall_nil_2.
  - intros H. by apply Forall_cons in H as [_ H].
Qed.

Lemma queue_pending_run handle h key t s :
  alloc_fails s = false →
  node_find handle (side_statedump_list s) = Some h →
  queue_statedump_pending handle key t s
  = Done tt
      (set_statedump_agent_thread (requested h (statedump_agent_thread s))
         (set_side_statedump_list (node_update handle (queued key) (side_statedump_list s))
            (set_brk (brk s + 1) (set_oom_script (tail (oom_script s)) s)))).
Proof.
  intros Halloc Hfind. unfold queue_statedump_pending.
  unfold bind at 1. rewrite alloc_attempt_run, Halloc.
  unfold update_statedump_handle. rewrite bind_assoc.
  erewrite (bind_run (load_statedump_handle handle))
    by (by apply load_statedump_handle_run).
  rewrite bind_modify.
  erewrite (bind_run (load_statedump_handle handle))
    by (apply load_statedump_handle_run; simpl; by apply node_find_update).
  unfold requested, queued. simpl.
  destruct (is_agent_mode (sd_mode h)); simpl.
  - unfold update_agent, modify. reflexivity.
  - unfold ret. by destruct s.
Qed.

Lemma queue_pending_aborts handle key t s :
  alloc_fails s = true → queue_statedump_pending handle key t s = Abort.
Proof.
  intros Halloc. unfold queue_statedump_pending.
  unfold bind at 1. by rewrite alloc_attempt_run, Halloc.
Qed.

Lemma same_but_statedump_refl s : same_but_statedump s s.
Proof. by repeat split. Qed.

Lemma same_but_statedump_trans s s1 s2 :
  same_but_statedump s s1 → same_but_statedump s1 s2 → same_but_statedump s s2.
Proof.
  intros (? & ? & ? & ? & ? & ? & ? & ? & ?) (? & ? & ? & ? & ? & ? & ? & ? & ?).
  repeat split; congruence.
Qed.

Lemma queue_all_run key t : ∀ todo served s,
  side_statedump_list s = served ++ todo →
  NoDup (map fst (served ++ todo)) →
  allocs_succeed (length todo) s →
  ∃ s',
    for_each todo (λ handle, queue_statedump_pending handle.1 key) t s = Done tt s'
    ∧ side_statedump_list s' = served ++ map (on_handle (queued key)) todo
    ∧ statedump_agent_thread s'
      = foldl (λ a node, requested node.2 a) (statedump_agent_thread s) todo
    ∧ brk s' = brk s + Z.of_nat (length todo)
    ∧ oom_script s' = drop (length todo) (oom_script s)
    ∧ same_but_statedump s s'.
Proof.
  induction todo as [|[p h] todo IH]; intros served s Hlist Hnodup Halloc.
  - exists s. simpl. rewrite Z.add_0_r. repeat split; done.
  - assert (p ∉ map fst served) as Hfresh.
    { rewrite map_app in Hnodup. apply NoDup_app in Hnodup as (_ & Hdis & _).
      intros Hin. apply (Hdis p Hin). simpl. apply list_elem_of_here. }
    cbn [for_each fst length]. unfold bind at 1.
    rewrite (queue_pending_run p h);
      [|by eapply allocs_succeed_head|by rewrite Hlist, node_find_app_fresh].
    rewrite Hlist, node_update_app_fresh by done.
    match goal with |- ∃ s', for_each _ _ _ ?x = _ ∧ _ => set (s1 := x) end.
    destruct (IH (served ++ [(p, queued key h)]) s1)
      as (s2 & Hrun & Hl2 & Hag2 & Hbrk2 & Hoom2 & Hsame2).
    { unfold s1. simpl. by rewrite <- app_assoc. }
    { rewrite <- app_assoc. simpl. by rewrite !map_app in *. }
    { by eapply allocs_succeed_tail. }
    exists s2. split; [done|]. split; [by rewrite Hl2, <- app_assoc|].
    split; [done|]. split; [rewrite Hbrk2; unfold s1; simpl; lia|].
    split.
    { rewrite Hoom2. unfold s1. simpl. destruct (oom_script s); simpl; [|done].
      by rewrite drop_nil. }
    eapply same_but_statedump_trans; [|exact Hsame2]. by repeat split.
Qed.

Lemma requested_fold : ∀ (l : list (Z * side_statedump_request_handle)) a,
  foldl (λ a node, requested node.2 a) a l
  = if existsb (λ node : Z * side_statedump_request_handle, is_agent_mode (sd_mode node.2)) l
    then set_agent_state (Z.lor (agent_state a) AGENT_THREAD_STATE_HANDLE_REQUEST) a
    else a.
Proof.
  induction l as [|[p h] l IH]; intros a; simpl; [done|].
  rewrite IH. unfold requested. simpl.
  destruct (is_agent_mode (sd_mode h)); simpl; [|done].
  destruct (existsb _ l); [|done].
  unfold set_agent_state. simpl. by rewrite <- Z.lor_assoc, Z.lor_diag.
Qed.

Lemma acquire_again t m m' :
  acquire true t m = Some m' → ∃ m'', acquire true t m' = Some m''.
Proof.
  destruct m as [|o n]; simpl.
  - intros [= <-]. simpl. rewrite bool_decide_eq_true_2 by done. by eexists.
  - case_bool_decide; [|done]. intros [= <-]. simpl.
    rewrite bool_decide_eq_true_2 by done. by eexists.
Qed.

Lemma unqueue_run handle h key t s :
  node_find handle (side_statedump_list s) = Some h →
  unqueue_statedump_pending handle key t s
  = Done tt (set_side_statedump_list
               (node_update handle (cancelled key) (side_statedump_list s)) s).
Proof.
  intros Hfind. unfold unqueue_statedump_pending, update_statedump_handle.
  erewrite (bind_run (load_statedump_handle handle))
    by (by apply load_statedump_handle_run).
  reflexivity.
Qed.

Lemma unqueue_all_run key t : ∀ todo served s,
  side_statedump_list s = served ++ todo →
  NoDup (map fst (served ++ todo)) →
  for_each todo (λ handle, unqueue_statedump_pending handle.1 key) t s
  = Done tt (set_side_statedump_list (served ++ map (on_handle (cancelled key)) todo) s).
Proof.
  induction todo as [|[p h] todo IH]; intros served s Hlist Hnodup.
  - simpl. rewrite app_nil_r. rewrite app_nil_r in Hlist. rewrite <- Hlist. by destruct s.
  - assert (p ∉ map fst served) as Hfresh.
    { rewrite map_app in Hnodup. apply NoDup_app in Hnodup as (_ & Hdis & _).
      intros Hin. apply (Hdis p Hin). simpl. apply list_elem_of_here. }
    cbn [for_each fst]. unfold bind at 1.
    rewrite (unqueue_run p h) by (by rewrite Hlist, node_find_app_fresh).
    rewrite Hlist, node_update_app_fresh by done.
    rewrite (IH (served ++ [(p, cancelled key h)])).
    + simpl. rewrite <- app_assoc. by destruct s.
    + simpl. by rewrite <- app_assoc.
    + rewrite <- app_assoc. simpl. by rewrite !map_app in *.
Qed.

(** X16.  side_tracer_statedump_request with a key other than MATCH_ALL,
    by a thread that can take the statedump mutex and with one successful
    allocation per handle, returns SIDE_ERROR_OK after appending the key at
    the tail of the queue of every registered handle.  HANDLE_REQUEST is set
    on the agent thread exactly when some handle is in agent-thread mode.
    No callback is called: the dump is left to the agent thread or to the
    polling application.  The calling thread can take the mutex again
    afterwards. *)
Theorem statedump_request_queues key t s :
  key ≠ SIDE_KEY_MATCH_ALL →
  available true t (side_statedump_lock s) →
  NoDup (map fst (side_statedump_list s)) →
  allocs_succeed (length (side_statedump_list s)) s →
  ∃ s',
    side_tracer_statedump_request key t s = Done SIDE_ERROR_OK s'
    ∧ side_statedump_list s' = map (on_handle (queued key)) (side_statedump_list s)
    ∧ agent_thread_state s'
      = (if existsb (λ node : Z * side_statedump_request_handle,
                       is_agent_mode (sd_mode node.2)) (side_statedump_list s)
         then Z.lor (agent_thread_state s) AGENT_THREAD_STATE_HANDLE_REQUEST
         else agent_thread_state s)
    ∧ trace s' = trace s
    ∧ available true t (side_statedump_lock s').
Proof.
  intros Hkey [m1 Hacq1] Hnodup Halloc.
  destruct (acquire_again t _ _ Hacq1) as [m2 Hacq2].
  unfold side_tracer_statedump_request. rewrite bool_decide_eq_false_2 by done.
  rewrite (mutex_lock_available Statedump_lock _ t s m1) by done.
  rewrite bind_gets. cbn [set_mutex side_statedump_list set_side_statedump_lock].
  destruct (queue_all_run key t (side_statedump_list s) []
              (set_side_statedump_lock m1 s))
    as (s1 & Hrun & Hl1 & Hag1 & _ & _ & Hsame); [done..|].
  destruct Hsame as (Htr & _ & _ & _ & _ & Hlock & _).
  unfold bind at 1. rewrite Hrun.
  rewrite (mutex_lock_available Statedump_lock _ t s1 m2)
    by (simpl; rewrite Hlock; exact Hacq2).
  eexists. split; [reflexivity|]. simpl.
  split; [done|]. split.
  - unfold agent_thread_state. simpl. rewrite Hag1, requested_fold. simpl.
    by destruct (existsb _ _).
  - split; [done|]. by apply acquire_again in Hacq2.
Qed.

Lemma statedump_request_queues_witness :
  ∃ s',
    side_tracer_statedump_request 9 1 (agent_example [8]) = Done SIDE_ERROR_OK s'
    ∧ side_statedump_list s' = [app_handle SIDE_STATEDUMP_MODE_AGENT_THREAD [8; 9]]
    ∧ agent_thread_state s' = AGENT_THREAD_STATE_HANDLE_REQUEST
    ∧ trace s' = [].
Proof.
  destruct (statedump_request_queues 9 1 (agent_example [8]))
    as (s' & Hrun & Hlist & Hstate & Htrace & _).
  - discriminate.
  - eexists. reflexivity.
  - apply NoDup_singleton.
  - apply Forall_nil_2.
  - exists s'. split; [exact Hrun|]. split; [exact Hlist|]. split; [exact Hstate|exact Htrace].
Defined.

Lemma statedump_handle_eta h :
  set_notification_queue (notification_queue h) h = h.
Proof. by destruct h. Qed.

Lemma cancelled_queued key h :
  key ≠ SIDE_KEY_MATCH_ALL → key ∉ notification_queue h → cancelled key (queued key h) = h.
Proof.
  intros Hkey Hnot. unfold cancelled, queued. destruct h as [q cb name mode].
  unfold set_notification_queue. simpl in *. f_equal.
  rewrite filter_app, filter_cons_False, filter_nil, app_nil_r by (intros H; apply H; by right).
  induction q as [|k q IH]; [done|].
  apply not_elem_of_cons in Hnot as [Hk Hnot].
  rewrite filter_cons_True by (intros [?|?]; done). by rewrite IH.
Qed.

Lemma cancel_run key t s :
  key ≠ SIDE_KEY_MATCH_ALL →
  available true t (side_statedump_lock s) →
  NoDup (map fst (side_statedump_list s)) →
  ∃ s',
    side_tracer_statedump_request_cancel key t s = Done SIDE_ERROR_OK s'
    ∧ side_statedump_list s' = map (on_handle (cancelled key)) (side_statedump_list s)
    ∧ statedump_agent_thread s' = statedump_agent_thread s
    ∧ trace s' = trace s
    ∧ brk s' = brk s ∧ oom_script s' = oom_script s.
Proof.
  intros Hkey [m1 Hacq1] Hnodup.
  destruct (acquire_again t _ _ Hacq1) as [m2 Hacq2].
  unfold side_tracer_statedump_request_cancel. rewrite bool_decide_eq_false_2 by done.
  rewrite (mutex_lock_available Statedump_lock _ t s m1) by done.
  rewrite bind_gets. cbn [set_mutex side_statedump_list set_side_statedump_lock].
  unfold bind at 1.
  rewrite (unqueue_all_run key t (side_statedump_list s) [] (set_side_statedump_lock m1 s))
    by done.
  rewrite (mutex_lock_available Statedump_lock _ t _ m2) by exact Hacq2.
  eexists. split; [reflexivity|]. by simpl.
Qed.

(** X17.  side_tracer_statedump_request_cancel with a key other than
    MATCH_ALL returns SIDE_ERROR_OK after removing every notification with
    that key from every handle; the notifications of other keys, the
    initial MATCH_ALL one included, stay queued in their order, the agent
    thread is not touched and no callback is called.  A request followed by
    its cancellation, for a key that was not pending, restores the queues. *)
Theorem statedump_cancel_unqueues key t s :
  key ≠ SIDE_KEY_MATCH_ALL →
  available true t (side_statedump_lock s) →
  NoDup (map fst (side_statedump_list s)) →
  (∃ s',
     side_tracer_statedump_request_cancel key t s = Done SIDE_ERROR_OK s'
     ∧ side_statedump_list s' = map (on_handle (cancelled key)) (side_statedump_list s)
     ∧ statedump_agent_thread s' = statedump_agent_thread s
     ∧ trace s' = trace s)
  ∧ (allocs_succeed (length (side_statedump_list s)) s →
     Forall (λ node, key ∉ notification_queue node.2) (side_statedump_list s) →
     ∃ s1 s2,
       side_tracer_statedump_request key t s = Done SIDE_ERROR_OK s1
       ∧ side_tracer_statedump_request_cancel key t s1 = Done SIDE_ERROR_OK s2
       ∧ side_statedump_list s2 = side_statedump_list s
       ∧ trace s2 = trace s).
Proof.
  intros Hkey Hav Hnodup. split.
  - destruct (cancel_run key t s Hkey Hav Hnodup) as (s' & Hrun & Hl & Hag & Htr & _).
    by exists s'.
  - intros Halloc Hfresh.
    (* the request *)
    destruct Hav as [m1 Hacq1].
    destruct (acquire_again t _ _ Hacq1) as [m2 Hacq2].
    unfold side_tracer_statedump_request. rewrite bool_decide_eq_false_2 by done.
    rewrite (mutex_lock_available Statedump_lock _ t s m1) by done.
    rewrite bind_gets. cbn [set_mutex side_statedump_list set_side_statedump_lock].
    destruct (queue_all_run key t (side_statedump_list s) []
                (set_side_statedump_lock m1 s))
      as (s1 & Hrun & Hl1 & _ & _ & _ & Hsame); [done..|].
    destruct Hsame as (Htr & _ & _ & _ & _ & Hlock & _).
    unfold bind at 1. rewrite Hrun.
    rewrite (mutex_lock_available Statedump_lock _ t s1 m2)
      by (simpl; rewrite Hlock; exact Hacq2).
    eexists.
    destruct (cancel_run key t (set_mutex Statedump_lock m2 s1) Hkey)
      as (s2 & Hrun2 & Hl2 & _ & Htr2 & _).
    { by apply acquire_again in Hacq2. }
    { simpl. rewrite Hl1. simpl. rewrite <- list_fmap_compose.
      erewrite list_fmap_ext; [exact Hnodup|]. by intros ? []. }
    exists s2. split; [reflexivity|]. split; [exact Hrun2|]. split; [|by rewrite Htr2].
    rewrite Hl2. simpl. rewrite Hl1. simpl. rewrite <- list_fmap_compose.
    rewrite <- (list_fmap_id (side_statedump_list s)) at 2.
    apply Forall_fmap_ext_1. eapply Forall_impl; [exact Hfresh|].
    intros [p h] Hnot. unfold on_handle. simpl in *. by rewrite cancelled_queued.
Qed.

Lemma statedump_cancel_unqueues_witness :
  (∃ s',
     side_tracer_statedump_request_cancel 9 1 polling_pending = Done SIDE_ERROR_OK s'
     ∧ side_statedump_list s' = [app_handle SIDE_STATEDUMP_MODE_POLLING [SIDE_KEY_MATCH_ALL]]
     ∧ trace s' = [])
  ∧ (∃ s1 s2,
       side_tracer_statedump_request 8 1 polling_pending = Done SIDE_ERROR_OK s1
       ∧ side_tracer_statedump_request_cancel 8 1 s1 = Done SIDE_ERROR_OK s2
       ∧ side_statedump_list s2 = side_statedump_list polling_pending).
Proof.
  split.
  - destruct (statedump_cancel_unqueues 9 1 polling_pending)
      as [(s' & Hrun & Hlist & _ & Htrace) _].
    + discriminate.
    + eexists. reflexivity.
    + apply NoDup_singleton.
    + exists s'. split; [exact Hrun|]. split; [exact Hlist|exact Htrace].
  - destruct (statedump_cancel_unqueues 8 1 polling_pending) as [_ Hround].
    + discriminate.
    + eexists. reflexivity.
    + apply NoDup_singleton.
    + destruct Hround as (s1 & s2 & Hreq & Hcancel & Hlist & _).
      * apply Forall_nil_2.
      * apply Forall_singleton. simpl. rewrite !not_elem_of_cons.
        split; [discriminate|]. split; [discriminate|]. apply not_elem_of_nil.
      * exists s1, s2. split; [exact Hreq|]. split; [exact Hcancel|exact Hlist].
Defined.

Lemma node_find_snoc {A} p (a : A) l :
  p ∉ map fst l → node_find p (l ++ [(p, a)]) = Some a.
Proof. intros H. by apply node_find_app_fresh. Qed.

Lemma node_update_snoc {A} p (f : A → A) (a : A) l :
  p ∉ map fst l → node_update p f (l ++ [(p, a)]) = l ++ [(p, f a)].
Proof. intros H. by apply node_update_app_fresh. Qed.

(** X18.  Registering a polling state-dump handle, when the three
    allocations succeed, returns a fresh handle, appended at the tail of the
    list with one MATCH_ALL request already queued: no callback has run yet,
    the agent thread is untouched, and the first
    side_statedump_poll_pending_requests on the handle returns true. *)
Theorem polling_registration_requests_first_dump t s state_name statedump_cb :
  finalized s = false →
  side_statedump_lock s = Unlocked →
  allocs_succeed 3 s →
  brk s ∉ map fst (side_statedump_list s) →
  ∃ s',
    side_statedump_request_notification_register state_name statedump_cb
      SIDE_STATEDUMP_MODE_POLLING t s
    = Done (Some (brk s)) s'
    ∧ side_statedump_list s'
      = side_statedump_list s
        ++ [(brk s, mk_statedump_handle [SIDE_KEY_MATCH_ALL] statedump_cb state_name
                      SIDE_STATEDUMP_MODE_POLLING)]
    ∧ trace s' = trace s
    ∧ statedump_agent_thread s' = statedump_agent_thread s
    ∧ side_statedump_lock s' = Unlocked
    ∧ side_statedump_poll_pending_requests (brk s) t s' = Done true s'.
Proof.
  intros Hfin Hlock Halloc Hfresh.
  unfold side_statedump_request_notification_register.
  rewrite bind_gets, Hfin, lazy_init_run.
  assert (oom_script (initialize s) = oom_script s) as Hoom0
    by (unfold initialize; destruct (initialized s); by destruct s).
  assert (brk (initialize s) = brk s) as Hbrk0
    by (unfold initialize; destruct (initialized s); by destruct s).
  assert (side_statedump_list (initialize s) = side_statedump_list s) as Hsl0
    by (unfold initialize; destruct (initialized s); by destruct s).
  assert (side_statedump_lock (initialize s) = Unlocked) as Hlock0
    by (rewrite <- Hlock; unfold initialize; destruct (initialized s); by destruct s).
  assert (trace (initialize s) = trace s) as Htr0
    by (unfold initialize; destruct (initialized s); by destruct s).
  assert (statedump_agent_thread (initialize s) = statedump_agent_thread s) as Hag0
    by (unfold initialize; destruct (initialized s); by destruct s).
  assert (allocs_succeed 3 (initialize s)) as Halloc0
    by (unfold allocs_succeed; by rewrite Hoom0).
  remember (initialize s) as s0 eqn:Hs0. clear Hs0.
  unfold bind at 1. rewrite alloc_attempt_run, (allocs_succeed_head _ _ Halloc0).
  match goal with |- ∃ s', bind _ _ _ ?x = _ ∧ _ => set (s1 := x) end.
  assert (allocs_succeed 2 s1) as Halloc1 by (by eapply allocs_succeed_tail).
  unfold bind at 1. rewrite alloc_attempt_run, (allocs_succeed_head _ _ Halloc1).
  match goal with |- ∃ s', bind _ _ _ ?x = _ ∧ _ => set (s2 := x) end.
  assert (allocs_succeed 1 s2) as Halloc2 by (by eapply allocs_succeed_tail).
  simpl when. rewrite bind_ret.
  rewrite mutex_lock_run by exact Hlock0.
  rewrite bind_ret, bind_modify.
  unfold bind at 1. erewrite queue_pending_run.
  2: { by apply (allocs_succeed_head 0). }
  2: { simpl. rewrite Hsl0, Hbrk0. by apply node_find_snoc. }
  rewrite mutex_unlock_run by done. rewrite bind_ret.
  eexists. split; [unfold ret; by rewrite Hbrk0|].
  simpl. rewrite Hsl0, Hbrk0, node_update_snoc by done.
  split; [done|]. split; [done|]. split; [done|]. split; [done|].
  match goal with |- _ _ _ ?x = _ => set (s' := x) end.
  rewrite (poll_run (brk s) (mk_statedump_handle [SIDE_KEY_MATCH_ALL] statedump_cb state_name
                               SIDE_STATEDUMP_MODE_POLLING)); [done|done|].
  unfold s'. simpl. by apply node_find_snoc.
Qed.

Lemma polling_registration_requests_first_dump_witness :
  ∃ s',
    side_statedump_request_notification_register "app" 0xCB SIDE_STATEDUMP_MODE_POLLING
      1 (lib_initial static_events)
    = Done (Some 1) s'
    ∧ side_statedump_list s'
      = [(1, mk_statedump_handle [SIDE_KEY_MATCH_ALL] 0xCB "app" SIDE_STATEDUMP_MODE_POLLING)]
    ∧ trace s' = []
    ∧ side_statedump_poll_pending_requests 1 1 s' = Done true s'.
Proof.
  destruct (polling_registration_requests_first_dump 1 (lib_initial static_events)
              "app" 0xCB)
    as (s' & Hrun & Hlist & Htrace & _ & _ & Hpoll).
  - reflexivity.
  - reflexivity.
  - apply Forall_nil_2.
  - apply not_elem_of_nil.
  - exists s'. split; [exact Hrun|]. split; [exact Hlist|]. split; [exact Htrace|exact Hpoll].
Defined.

Lemma initialize_fields s :
  oom_script (initialize s) = oom_script s ∧ brk (initialize s) = brk s
  ∧ side_statedump_list (initialize s) = side_statedump_list s
  ∧ side_statedump_lock (initialize s) = side_statedump_lock s
  ∧ side_agent_thread_lock (initialize s) = side_agent_thread_lock s
  ∧ trace (initialize s) = trace s
  ∧ statedump_agent_thread (initialize s) = statedump_agent_thread s
  ∧ event_store (initialize s) = event_store s ∧ heap (initialize s) = heap s
  ∧ finalized (initialize s) = finalized s
  ∧ initialized (initialize s) = true.
Proof. unfold initialize. destruct (initialized s) eqn:Hi; by destruct s. Qed.

(** X19.  Allocation failures of the state-dump operations.  When the
    allocation of the handle fails, registration returns NULL having only
    initialized the library; when the copy of the name fails it returns NULL
    and leaves the list of handles and the agent thread as they were.  When
    the allocation of the initial notification fails, queue_statedump_pending
    calls abort(): registration does not return.  Likewise
    side_tracer_statedump_request aborts when the allocation of the first
    notification fails while a handle is registered. *)
Theorem statedump_out_of_memory t s state_name statedump_cb mode key :
  finalized s = false →
  side_statedump_lock s = Unlocked →
  side_agent_thread_lock s = Unlocked →
  (alloc_fails s = true →
   side_statedump_request_notification_register state_name statedump_cb mode t s
   = Done None (set_oom_script (tail (oom_script s)) (initialize s)))
  ∧ (take 2 (oom_script s) = [false; true] →
     ∃ s', side_statedump_request_notification_register state_name statedump_cb mode t s
           = Done None s'
           ∧ side_statedump_list s' = side_statedump_list s
           ∧ statedump_agent_thread s' = statedump_agent_thread s)
  ∧ (take 3 (oom_script s) = [false; false; true] →
     side_statedump_request_notification_register state_name statedump_cb mode t s = Abort)
  ∧ (alloc_fails s = true → key ≠ SIDE_KEY_MATCH_ALL → side_statedump_list s ≠ [] →
     side_tracer_statedump_request key t s = Abort).
Proof.
  intros Hfin Hlock Haglock.
  pose proof (initialize_fields s)
    as (Hoom0 & Hbrk0 & Hsl0 & Hlock0 & Hagl0 & Htr0 & Hag0 & _).
  split; [|split; [|split]].
  - intros Halloc. unfold side_statedump_request_notification_register.
    rewrite bind_gets, Hfin, lazy_init_run.
    unfold bind at 1. rewrite alloc_attempt_run, alloc_fails_initialize, Halloc.
    unfold ret. rewrite Hoom0. by destruct (initialize s).
  - intros Hoom. unfold side_statedump_request_notification_register.
    rewrite bind_gets, Hfin, lazy_init_run.
    unfold bind at 1. rewrite alloc_attempt_run.
    replace (alloc_fails (initialize s)) with false
      by (unfold alloc_fails; rewrite Hoom0; by destruct (oom_script s) as [|[] ?]).
    unfold bind at 1. rewrite alloc_attempt_run.
    match goal with |- context [alloc_fails ?x] =>
      replace (alloc_fails x) with true
        by (unfold alloc_fails; simpl; rewrite Hoom0;
            by destruct (oom_script s) as [|? [|[] ?]]) end.
    eexists. split; [reflexivity|]. simpl. by rewrite Hsl0, Hag0.
  - intros Hoom. unfold side_statedump_request_notification_register.
    rewrite bind_gets, Hfin, lazy_init_run.
    unfold bind at 1. rewrite alloc_attempt_run.
    replace (alloc_fails (initialize s)) with false
      by (unfold alloc_fails; rewrite Hoom0; by destruct (oom_script s) as [|[] ?]).
    unfold bind at 1. rewrite alloc_attempt_run.
    match goal with |- context [alloc_fails ?x] =>
      replace (alloc_fails x) with false
        by (unfold alloc_fails; simpl; rewrite Hoom0;
            by destruct (oom_script s) as [|? [|[] ?]]) end.
    destruct mode; simpl when.
    + rewrite bind_ret. rewrite mutex_lock_run by (simpl; by rewrite Hlock0).
      rewrite bind_ret, bind_modify.
      unfold bind at 1. rewrite queue_pending_aborts; [done|].
      unfold alloc_fails. simpl. rewrite Hoom0.
      by destruct (oom_script s) as [|? [|? [|[] ?]]].
    + rewrite mutex_lock_run by (simpl; by rewrite Hagl0).
      rewrite mutex_lock_run by (simpl; by rewrite Hlock0).
      unfold bind at 1.
      assert (∀ x, ∃ x', statedump_agent_thread_get t x = Done tt x'
                         ∧ oom_script x' = oom_script x) as Hget.
      { intros x. unfold statedump_agent_thread_get, statedump_agent_thread_init,
          update_agent. rewrite bind_gets, bind_modify.
        case_bool_decide; [by eexists|].
        rewrite bind_modify, bind_gets, bind_modify. by eexists. }
      match goal with |- context [statedump_agent_thread_get t ?x] =>
        destruct (Hget x) as (x' & -> & Hoom') end.
      rewrite bind_modify. unfold bind at 1. rewrite queue_pending_aborts; [done|].
      unfold alloc_fails. simpl. rewrite Hoom'. simpl. rewrite Hoom0.
      by destruct (oom_script s) as [|? [|? [|[] ?]]].
  - intros Halloc Hkey Hne. unfold side_tracer_statedump_request.
    rewrite bool_decide_eq_false_2 by done.
    rewrite mutex_lock_run by done. rewrite bind_gets. simpl.
    destruct (side_statedump_list s) as [|[p h] l] eqn:Hl; [done|].
    cbn [for_each fst]. unfold bind at 1 2. by rewrite queue_pending_aborts.
Qed.

Lemma statedump_out_of_memory_witness :
  side_statedump_request_notification_register "app" 0xCB SIDE_STATEDUMP_MODE_AGENT_THREAD
    1 (set_oom_script [false; false; true] (lib_initial static_events))
  = Abort
  ∧ side_tracer_statedump_request 8 1 (set_oom_script [true] polling_example) = Abort.
Proof.
  split.
  - destruct (statedump_out_of_memory 1
                (set_oom_script [false; false; true] (lib_initial static_events))
                "app" 0xCB SIDE_STATEDUMP_MODE_AGENT_THREAD 8 eq_refl eq_refl eq_refl)
      as (_ & _ & Habort & _).
    apply Habort. reflexivity.
  - destruct (statedump_out_of_memory 1 (set_oom_script [true] polling_example)
                "app" 0xCB SIDE_STATEDUMP_MODE_POLLING 8 eq_refl eq_refl eq_refl)
      as (_ & _ & _ & Habort).
    apply Habort; [reflexivity|discriminate|discriminate].
Defined.



Lemma set_mutex_restore m v w s :
  mutex_of m s = v → set_mutex m v (set_mutex m w s) = s.
Proof. intros <-. by destruct s, m. Qed.



Lemma node_remove_update {A} p (f : A → A) l :
  node_remove p (node_update p f l) = node_remove p l.
Proof.
  induction l as [|[q b] l IH]; [done|]. simpl. case_bool_decide as Hq; simpl.
  - by rewrite bool_decide_eq_true_2.
  - rewrite bool_decide_eq_false_2 by done. by rewrite IH.
Qed.

Lemma agent_put_run t s :
  statedump_agent_thread_put t s
  = Done (bool_decide (agent_thread_ref s = 1))
      (set_statedump_agent_thread
         (if bool_decide (agent_thread_ref s = 1)
          then mk_agent 0 (agent_id (statedump_agent_thread s))
                 (Z.lor (agent_thread_state s) AGENT_THREAD_STATE_EXIT)
          else set_agent_ref (agent_thread_ref s - 1) (statedump_agent_thread s)) s).
Proof.
  unfold statedump_agent_thread_put, update_agent, agent_thread_ref, agent_thread_state.
  rewrite bind_gets, bind_modify.
  destruct (decide (agent_ref (statedump_agent_thread s) = 1)) as [Hone|Hmany].
  - rewrite (bool_decide_eq_false_2 (_ - 1 ≠ 0)) by lia.
    rewrite bool_decide_eq_true_2 by done.
    rewrite bind_modify. unfold ret. f_equal. rewrite Hone. by destruct s.
  - rewrite (bool_decide_eq_true_2 (_ - 1 ≠ 0)) by lia.
    rewrite bool_decide_eq_false_2 by done. reflexivity.
Qed.

Lemma exit_bit_set state :
  Z.lor state AGENT_THREAD_STATE_EXIT ≠ AGENT_THREAD_STATE_BLOCKED
  ∧ Z.land (Z.lor state AGENT_THREAD_STATE_EXIT) AGENT_THREAD_STATE_EXIT ≠ 0.
Proof.
  split.
  - intros H. apply Z.lor_eq_0_iff in H as [_ H]. discriminate H.
  - rewrite Z.land_lor_distr_l. intros H. apply Z.lor_eq_0_iff in H as [_ H].
    discriminate H.
Qed.

Lemma agent_join_run t s :
  side_statedump_lock s = Unlocked →
  agent_thread_state s ≠ AGENT_THREAD_STATE_BLOCKED →
  Z.land (agent_thread_state s) AGENT_THREAD_STATE_EXIT ≠ 0 →
  statedump_agent_thread_join t s
  = Done tt (set_statedump_agent_thread
               (set_agent_state AGENT_THREAD_STATE_BLOCKED (statedump_agent_thread s)) s).
Proof.
  unfold agent_thread_state. intros Hlock Hnb Hexit.
  unfold statedump_agent_thread_join. rewrite bind_gets.
  unfold bind at 1. unfold as_thread at 1. unfold statedump_agent_func.
  rewrite mutex_lock_run by exact Hlock. rewrite bind_gets.
  rewrite mutex_unlock_run by (by destruct s).
  rewrite (set_mutex_restore Statedump_lock Unlocked) by exact Hlock.
  replace (agent_state (statedump_agent_thread (set_mutex Statedump_lock _ s)))
    with (agent_state (statedump_agent_thread s)) by (by destruct s).
  rewrite bool_decide_eq_false_2 by done. rewrite bool_decide_eq_true_2 by done.
  reflexivity.
Qed.

(** X21.  Unregistering a state-dump handle takes it out of the list
    together with its pending requests, without calling the application's
    callback for them; the other handles are untouched.  For a handle in
    agent-thread mode one reference on the agent thread is dropped, and
    dropping the last one stops and joins the thread, whose state is reset
    to BLOCKED.  Both mutexes are free on return. *)
Theorem statedump_unregistration_drops_pending t s handle h :
  finalized s = false →
  side_statedump_lock s = Unlocked →
  side_agent_thread_lock s = Unlocked →
  node_find handle (side_statedump_list s) = Some h →
  ∃ s',
    side_statedump_request_notification_unregister handle t s = Done tt s'
    ∧ side_statedump_list s' = node_remove handle (side_statedump_list s)
    ∧ trace s' = trace s
    ∧ statedump_agent_thread s'
      = (if is_agent_mode (sd_mode h) then agent_put (statedump_agent_thread s)
         else statedump_agent_thread s)
    ∧ side_statedump_lock s' = Unlocked
    ∧ side_agent_thread_lock s' = Unlocked.
Proof.
  intros Hfin Hlock Haglock Hfind.
  unfold side_statedump_request_notification_unregister.
  rewrite bind_gets, Hfin, lazy_init_run.
  pose proof (initialize_fields s)
    as (Hoom0 & Hbrk0 & Hsl0 & Hlock0 & Hagl0 & Htr0 & Hag0 & Hes0 & Hh0 & Hfin0 & Hini0).
  remember (initialize s) as s0 eqn:Hs0. clear Hs0.
  rewrite Hlock in Hlock0. rewrite Haglock in Hagl0.
  rewrite (bind_run _ _ _ _ _ _ (load_statedump_handle_run handle h t s0
                                  ltac:(by rewrite Hsl0))).
  destruct (is_agent_mode (sd_mode h)) eqn:Hmode; simpl when.
  - rewrite mutex_lock_run by done.
    rewrite mutex_lock_run by done.
    unfold bind at 1. rewrite (unqueue_run handle h) by (simpl; by rewrite Hsl0).
    rewrite bind_modify.
    unfold bind at 1. rewrite agent_put_run.
    match goal with |- context [bool_decide (agent_thread_ref ?x = 1)] =>
      replace (agent_thread_ref x) with (agent_ref (statedump_agent_thread s))
        by (unfold agent_thread_ref; simpl; by rewrite Hag0) end.
    rewrite mutex_unlock_run by reflexivity.
    destruct (decide (agent_ref (statedump_agent_thread s) = 1)) as [Hone|Hmany].
    + rewrite !bool_decide_eq_true_2 by done. simpl when.
      unfold bind at 1. rewrite agent_join_run.
      2: reflexivity.
      2, 3: unfold agent_thread_state; simpl; apply exit_bit_set.
      rewrite mutex_unlock_run by reflexivity.
      unfold side_rcu_wait_grace_period.
      eexists. split; [reflexivity|]. simpl. rewrite Hsl0, node_remove_update, Hag0.
      split; [done|]. split; [done|]. split; [|done].
      unfold agent_put. by rewrite bool_decide_eq_true_2 by done.
    + rewrite !bool_decide_eq_false_2 by done. simpl when. rewrite bind_ret.
      rewrite mutex_unlock_run by reflexivity.
      unfold side_rcu_wait_grace_period.
      eexists. split; [reflexivity|]. simpl. rewrite Hsl0, node_remove_update, Hag0.
      split; [done|]. split; [done|]. split; [|done].
      unfold agent_put. rewrite bool_decide_eq_false_2 by done.
      by destruct (statedump_agent_thread s).
  - rewrite bind_ret. rewrite mutex_lock_run by done.
    unfold bind at 1. rewrite (unqueue_run handle h) by (simpl; by rewrite Hsl0).
    rewrite bind_modify, bind_ret.
    rewrite mutex_unlock_run by reflexivity.
    simpl when. rewrite !bind_ret. unfold side_rcu_wait_grace_period.
    eexists. split; [reflexivity|]. simpl. rewrite Hsl0, node_remove_update.
    done.
Qed.

Lemma statedump_unregistration_drops_pending_witness :
  ∃ s',
    side_statedump_request_notification_unregister 0x700 1 (agent_example [8]) = Done tt s'
    ∧ side_statedump_list s' = []
    ∧ trace s' = []
    ∧ statedump_agent_thread s' = mk_agent 0 2 AGENT_THREAD_STATE_BLOCKED.
Proof.
  destruct (statedump_unregistration_drops_pending 1 (agent_example [8]) 0x700
              (app_handle SIDE_STATEDUMP_MODE_AGENT_THREAD [8]).2
              eq_refl eq_refl eq_refl eq_refl)
    as (s' & Hrun & Hlist & Htrace & Hagent & _).
  exists s'. split; [exact Hrun|]. split; [exact Hlist|]. split; [exact Htrace|exact Hagent].
Defined.
